(** * movejson: a shallow embedding of the rule engine and its path language

    The development follows the Python sources file by file:

    - [exceptions.py]  : the exception classes, as the constructors of [exn];
    - [ruleengine.py]  : the type tables, the registry ([BusinessRuleEngine])
                         and the path language ([DotNotation]);
    - [parsers.py]     : the ten parsers behind [TYPE_PARSERS];
    - [types.py]       : value sources, containers, expressions, the runner
                         and the tagged serialization.

    Python values are the constructors of [pyval].  A Python [str] is a Rocq
    [string]; code points above 255 are outside the model.  A raised
    exception is the [Raise] branch of [result]. *)

From Stdlib Require Import List String Ascii ZArith Lia Bool Arith DecimalString Permutation.
Import ListNotations.
Open Scope string_scope.
Open Scope list_scope.
Open Scope Z_scope.

Set Implicit Arguments.
Set Warnings "-register-all".

(* ===================================================================== *)
(** * exceptions.py *)
(* ===================================================================== *)

(** The classes of [exceptions.py], followed by the builtin exceptions that
    the modelled code can raise on its own ([assert], [x.get] on a value
    that is no dict, an index out of range, a missing key, [json.dumps] of a
    [datetime], a slice assignment of the wrong size, [float] of an integer
    too large, a recursion deeper than the interpreter allows). *)
Inductive exn : Type :=
| DotNotationError
| SubscriptionError
| BusinessRuleEngineApiError
| RuleCreationError
| RunnerError
| ParseError
| ValidationError
| AssertionError
| AttributeError
| IndexError
| KeyError
| TypeError
| ValueError
| OverflowError
| RecursionError.

Inductive result (A : Type) : Type :=
| Ok (a : A)
| Raise (e : exn).

Arguments Ok {A} a.
Arguments Raise {A} e.

Definition bind {A B : Type} (r : result A) (k : A -> result B) : result B :=
  match r with
  | Ok a => k a
  | Raise e => Raise e
  end.

Declare Scope result_scope.
Delimit Scope result_scope with result.
Notation "x <- r ;; k" := (bind r (fun x => k))
  (at level 61, r at next level, right associativity) : result_scope.
Notation "' p <- r ;; k" := (bind r (fun p => k))
  (at level 61, p pattern, r at next level, right associativity) : result_scope.
Open Scope result_scope.

(** [list(map(f, xs))] for an [f] that may raise: the first exception, in
    list order, is the one that propagates. *)
Fixpoint map_result {A B : Type} (f : A -> result B) (xs : list A) : result (list B) :=
  match xs with
  | [] => Ok []
  | x :: t => y <- f x ;; ys <- map_result f t ;; Ok (y :: ys)
  end.

Definition exn_eqb (a b : exn) : bool :=
  match a, b with
  | DotNotationError, DotNotationError
  | SubscriptionError, SubscriptionError
  | BusinessRuleEngineApiError, BusinessRuleEngineApiError
  | RuleCreationError, RuleCreationError
  | RunnerError, RunnerError
  | ParseError, ParseError
  | ValidationError, ValidationError
  | AssertionError, AssertionError
  | AttributeError, AttributeError
  | IndexError, IndexError
  | KeyError, KeyError
  | TypeError, TypeError
  | ValueError, ValueError
  | OverflowError, OverflowError
  | RecursionError, RecursionError => true
  | _, _ => false
  end.

(* ===================================================================== *)
(** * Python values *)
(* ===================================================================== *)

(** A Python [float] is an IEEE-754 binary64, kept as its 64-bit pattern;
    nothing in the modelled code computes on floats except through the
    builtins collected in [PyRuntime] below. *)
Record pyfloat : Type := { float_bits : Z }.

(** A naive [datetime.datetime]. *)
Record datetime : Type := {
  dt_year : Z; dt_month : Z; dt_day : Z;
  dt_hour : Z; dt_minute : Z; dt_second : Z; dt_microsecond : Z
}.

(** The runtime values the engine handles.  A [dict] keeps its keys in
    insertion order, as Python's does; keys are strings, as in every dict
    that [json.loads] returns. *)
Inductive pyval : Type :=
| PNone
| PBool (b : bool)
| PInt (n : Z)
| PFloat (f : pyfloat)
| PStr (s : string)
| PDateTime (d : datetime)
| PList (l : list pyval)
| PDict (d : list (string * pyval)).

(** [d.get(k, None)] *)
Fixpoint dict_lookup {V : Type} (k : string) (d : list (string * V)) : option V :=
  match d with
  | [] => None
  | (k', v) :: t => if String.eqb k k' then Some v else dict_lookup k t
  end.

Definition dict_get (k : string) (d : list (string * pyval)) : pyval :=
  match dict_lookup k d with
  | Some v => v
  | None => PNone
  end.

(** [d[k] = v]: an existing key keeps its place, a new key goes last. *)
Fixpoint dict_set {V : Type} (k : string) (v : V) (d : list (string * V)) : list (string * V) :=
  match d with
  | [] => [(k, v)]
  | (k', v') :: t => if String.eqb k k' then (k', v) :: t else (k', v') :: dict_set k v t
  end.

Definition dict_mem {V : Type} (k : string) (d : list (string * V)) : bool :=
  match dict_lookup k d with Some _ => true | None => false end.

(** [d[k]], raising [KeyError] *)
Definition dict_item {V : Type} (k : string) (d : list (string * V)) : result V :=
  match dict_lookup k d with
  | Some v => Ok v
  | None => Raise KeyError
  end.

(** [x in xs] for strings *)
Definition str_in (x : string) (xs : list string) : bool :=
  existsb (String.eqb x) xs.

(* ===================================================================== *)
(** * Strings: the pieces of [str] and [re] the path language uses *)
(* ===================================================================== *)

Definition ascii_eqb (a b : ascii) : bool := Ascii.eqb a b.

(** [str.isspace] and the regular expression class [\s], on code points
    below 256. *)
Definition is_space (c : ascii) : bool :=
  let n := nat_of_ascii c in
  (((9 <=? n) && (n <=? 13)) || ((28 <=? n) && (n <=? 32))
   || (n =? 133) || (n =? 160))%nat.

(** The class [\d] on code points below 256. *)
Definition is_digit (c : ascii) : bool :=
  let n := nat_of_ascii c in ((48 <=? n) && (n <=? 57))%nat.

Fixpoint all_space (s : string) : bool :=
  match s with
  | EmptyString => true
  | String c r => is_space c && all_space r
  end.

Fixpoint lstrip (s : string) : string :=
  match s with
  | EmptyString => EmptyString
  | String c r => if is_space c then lstrip r else s
  end.

Fixpoint rstrip (s : string) : string :=
  match s with
  | EmptyString => EmptyString
  | String c r => if all_space s then EmptyString else String c (rstrip r)
  end.

(** [s.strip()] *)
Definition strip (s : string) : string := rstrip (lstrip s).

(** [s[1:-1]] *)
Fixpoint drop_last (s : string) : string :=
  match s with
  | EmptyString => EmptyString
  | String c EmptyString => EmptyString
  | String c r => String c (drop_last r)
  end.

Definition slice_1_m1 (s : string) : string :=
  match s with
  | EmptyString => EmptyString
  | String _ r => drop_last r
  end.

(** [s.split(sep)] for a one-character separator *)
Fixpoint split_char_aux (sep : ascii) (cur : string) (s : string) : list string :=
  match s with
  | EmptyString => [cur]
  | String c r =>
      if ascii_eqb c sep then cur :: split_char_aux sep EmptyString r
      else split_char_aux sep (cur ++ String c EmptyString) r
  end.

Definition split_char (sep : ascii) (s : string) : list string :=
  split_char_aux sep EmptyString s.

Definition backslash : ascii := "\"%char.

Definition is_backslash (p : option ascii) : bool :=
  match p with
  | Some c => ascii_eqb c backslash
  | None => false
  end.

(** [re.compile(r"(?<!\\)\.").split(s)]: a cut at every dot that does not
    follow a backslash; [prev] is the character before the one looked at. *)
Fixpoint re_split_dot_aux (prev : option ascii) (cur : string) (s : string) : list string :=
  match s with
  | EmptyString => [cur]
  | String c r =>
      if ascii_eqb c "."%char && negb (is_backslash prev)
      then cur :: re_split_dot_aux (Some c) EmptyString r
      else re_split_dot_aux (Some c) (cur ++ String c EmptyString) r
  end.

Definition re_split_dot (s : string) : list string :=
  re_split_dot_aux None EmptyString s.

(** [x.replace("\\.", ".")] *)
Fixpoint unescape_dot (s : string) : string :=
  match s with
  | EmptyString => EmptyString
  | String c r =>
      match r with
      | String d r' =>
          if ascii_eqb c backslash && ascii_eqb d "."%char
          then String "."%char (unescape_dot r')
          else String c (unescape_dot r)
      | EmptyString => String c EmptyString
      end
  end.

(** The keys of a specifier:
    [list(map(lambda x: x.replace("\\.", "."), regex_dot.split(spec)))] *)
Definition split_keys (dot_specifier : string) : list string :=
  map unescape_dot (re_split_dot dot_specifier).

(** The tail of [__dot_notation_regex_index_specifier__] after its opening
    bracket: characters of the class ([-], [:], digits, white space, and the
    comma when reading), the closing bracket, white space up to the end.
    The closing bracket is not in the class, so the match is forced. *)
Definition in_index_class (comma : bool) (c : ascii) : bool :=
  ascii_eqb c "-"%char || ascii_eqb c ":"%char || is_digit c || is_space c
  || (comma && ascii_eqb c ","%char).

Fixpoint index_tail (comma : bool) (s : string) : bool :=
  match s with
  | EmptyString => false
  | String c r =>
      if ascii_eqb c "]"%char then all_space r
      else in_index_class comma c && index_tail comma r
  end.

(** [finditer] keeps the last match; a match runs to the end of the string,
    so the first one found from the left is the only one.  The result is
    [(m.span()[0], m.group(0))]. *)
Fixpoint find_index_specifier_aux (comma : bool) (prev : option ascii) (pos : nat)
    (s : string) : option (nat * string) :=
  match s with
  | EmptyString => None
  | String c r =>
      if ascii_eqb c "["%char && negb (is_backslash prev) && index_tail comma r
      then Some (pos, s)
      else find_index_specifier_aux comma (Some c) (S pos) r
  end.

Definition find_index_specifier (comma : bool) (s : string) : option (nat * string) :=
  find_index_specifier_aux comma None 0%nat s.

(** [int(s)] on a string of the form [-?\d+] *)
Definition digit_value (c : ascii) : Z := Z.of_nat (nat_of_ascii c) - 48.

Fixpoint int_of_digits (acc : Z) (s : string) : Z :=
  match s with
  | EmptyString => acc
  | String c r => int_of_digits (10 * acc + digit_value c) r
  end.

Definition py_int (s : string) : Z :=
  match s with
  | String c r => if ascii_eqb c "-"%char then - int_of_digits 0 r else int_of_digits 0 s
  | EmptyString => 0
  end.

(** The longest prefix of digits, and what follows it. *)
Fixpoint span_digits (s : string) : string * string :=
  match s with
  | EmptyString => (EmptyString, EmptyString)
  | String c r =>
      if is_digit c then let (d, rest) := span_digits r in (String c d, rest)
      else (EmptyString, s)
  end.

Definition is_empty (s : string) : bool :=
  match s with EmptyString => true | _ => false end.

(** The optional group [(-{0,1}\d+)?] at the head of [s]: the text of the
    group when it takes part in the match, and the rest of the string. *)
Definition take_int (s : string) : option string * string :=
  match s with
  | String c r =>
      if ascii_eqb c "-"%char then
        let (d, rest) := span_digits r in
        if is_empty d then (None, s) else (Some (String c d), rest)
      else
        let (d, rest) := span_digits s in
        if is_empty d then (None, s) else (Some d, rest)
  | EmptyString => (None, EmptyString)
  end.

(** [\s*:\s*] *)
Definition take_colon (s : string) : option string :=
  match lstrip s with
  | String c r => if ascii_eqb c ":"%char then Some (lstrip r) else None
  | EmptyString => None
  end.

(** [(int(g) if g else None)] *)
Definition int_or_none (g : option string) : option Z :=
  match g with
  | Some s => if is_empty s then None else Some (py_int s)
  | None => None
  end.

(** One subscription, after the three regular expressions
    [__dot_notation_regex_index_1__], [_2__] and [_3__], tried in this
    order on a stripped string. *)
Inductive subscript : Type :=
| SubIndex (i : Z)
| SubSlice (a b : option Z)
| SubStride (a b c : option Z).

Definition match_index_1 (s : string) : option subscript :=
  match take_int s with
  | (Some g, EmptyString) => Some (SubIndex (py_int g))
  | _ => None
  end.

Definition match_index_2 (s : string) : option subscript :=
  let (g1, s1) := take_int s in
  match take_colon s1 with
  | Some s2 =>
      match take_int s2 with
      | (g2, EmptyString) => Some (SubSlice (int_or_none g1) (int_or_none g2))
      | _ => None
      end
  | None => None
  end.

Definition match_index_3 (s : string) : option subscript :=
  let (g1, s1) := take_int s in
  match take_colon s1 with
  | Some s2 =>
      let (g2, s3) := take_int s2 in
      match take_colon s3 with
      | Some s4 =>
          match take_int s4 with
          | (g3, EmptyString) =>
              Some (SubStride (int_or_none g1) (int_or_none g2) (int_or_none g3))
          | _ => None
          end
      | None => None
      end
  | None => None
  end.

Definition parse_subscript (cur_subs : string) : result subscript :=
  match match_index_1 cur_subs with
  | Some s => Ok s
  | None =>
      match match_index_2 cur_subs with
      | Some s => Ok s
      | None =>
          match match_index_3 cur_subs with
          | Some s => Ok s
          | None => Raise SubscriptionError
          end
      end
  end.

(* ===================================================================== *)
(** * Lists: indexing and slicing as the interpreter does them *)
(* ===================================================================== *)

Definition py_len {A : Type} (l : list A) : Z := Z.of_nat (List.length l).

(** The position an index denotes: a negative index counts from the end;
    out of range raises [IndexError]. *)
Definition norm_index (len i : Z) : result nat :=
  let j := if i <? 0 then i + len else i in
  if (j <? 0) || (len <=? j) then Raise IndexError else Ok (Z.to_nat j).

(** [l[i]] *)
Definition list_item {A : Type} (l : list A) (i : Z) : result A :=
  j <- norm_index (py_len l) i ;;
  match nth_error l j with
  | Some x => Ok x
  | None => Raise IndexError
  end.

Fixpoint replace_nth {A : Type} (n : nat) (x : A) (l : list A) : list A :=
  match l, n with
  | [], _ => []
  | _ :: t, O => x :: t
  | y :: t, S n' => y :: replace_nth n' x t
  end.

(** [l[i] = x] *)
Definition list_set_item {A : Type} (l : list A) (i : Z) (x : A) : result (list A) :=
  j <- norm_index (py_len l) i ;;
  Ok (replace_nth j x l).

(** A bound of a slice, adjusted to a list of length [len]
    ([PySlice_AdjustIndices]). *)
Definition adjust_bound (len step v : Z) : Z :=
  if v <? 0 then
    let v' := v + len in
    if v' <? 0 then (if step <? 0 then -1 else 0) else v'
  else if len <=? v then (if step <? 0 then len - 1 else len)
  else v.

Definition slice_step (c : option Z) : Z :=
  match c with Some s => s | None => 1 end.

Definition slice_start (len step : Z) (a : option Z) : Z :=
  match a with
  | Some v => adjust_bound len step v
  | None => if step <? 0 then len - 1 else 0
  end.

Definition slice_stop (len step : Z) (b : option Z) : Z :=
  match b with
  | Some v => adjust_bound len step v
  | None => if step <? 0 then -1 else len
  end.

Definition slice_length (start stop step : Z) : Z :=
  if step <? 0 then
    (if stop <? start then (start - stop - 1) / (- step) + 1 else 0)
  else
    (if start <? stop then (stop - start - 1) / step + 1 else 0).

(** The positions [range(start, stop, step)] a slice covers, in order. *)
Definition slice_positions (len : Z) (a b c : option Z) : list nat :=
  let step := slice_step c in
  let start := slice_start len step a in
  let stop := slice_stop len step b in
  map (fun k => Z.to_nat (start + Z.of_nat k * step))
      (seq 0 (Z.to_nat (slice_length start stop step))).

Definition nth_list {A : Type} (l : list A) (j : nat) : list A :=
  match nth_error l j with
  | Some x => [x]
  | None => []
  end.

(** [l[a:b:c]]; a zero step raises [ValueError]. *)
Definition py_getslice {A : Type} (l : list A) (a b c : option Z) : result (list A) :=
  if slice_step c =? 0 then Raise ValueError
  else Ok (flat_map (nth_list l) (slice_positions (py_len l) a b c)).

(** [l[a:b:c] = v].  With step 1 the slice is replaced by the elements of
    [v] whatever their number ([list_ass_slice]); with any other step the
    sizes must agree and the covered positions are assigned one by one. *)
Definition py_setslice {A : Type} (l : list A) (a b c : option Z) (v : list A)
  : result (list A) :=
  let len := py_len l in
  let step := slice_step c in
  if step =? 0 then Raise ValueError
  else
    let start := slice_start len step a in
    let stop := slice_stop len step b in
    if step =? 1 then
      Ok (firstn (Z.to_nat start) l ++ v ++ skipn (Z.to_nat (Z.max start stop)) l)
    else
      let ps := slice_positions len a b c in
      if (List.length v =? List.length ps)%nat
      then Ok (fold_left (fun acc px => replace_nth (fst px) (snd px) acc) (combine ps v) l)
      else Raise ValueError.

(** [for x in l[a:b:c]: f(x)], where [f] updates [x] in place: the elements
    at the covered positions are updated in the order of the slice. *)
Fixpoint update_positions {A : Type} (f : A -> result A) (ps : list nat) (l : list A)
  : result (list A) :=
  match ps with
  | [] => Ok l
  | p :: t =>
      match nth_error l p with
      | Some x => x' <- f x ;; update_positions f t (replace_nth p x' l)
      | None => Raise IndexError
      end
  end.

(* ===================================================================== *)
(** * ruleengine.py: class DotNotation *)
(* ===================================================================== *)

(** [json.loads(json.dumps(obj))]: a fresh, equal copy of a value made of
    [None], booleans, numbers, strings, lists and dicts; [json.dumps] raises
    [TypeError] on a [datetime]. *)
Fixpoint json_roundtrip (obj : pyval) : result pyval :=
  match obj with
  | PDateTime _ => Raise TypeError
  | PList l =>
      l' <- (fix each (xs : list pyval) : result (list pyval) :=
               match xs with
               | [] => Ok []
               | x :: t => x' <- json_roundtrip x ;; t' <- each t ;; Ok (x' :: t')
               end) l ;;
      Ok (PList l')
  | PDict d =>
      d' <- (fix each (xs : list (string * pyval)) : result (list (string * pyval)) :=
               match xs with
               | [] => Ok []
               | (k, x) :: t => x' <- json_roundtrip x ;; t' <- each t ;; Ok ((k, x') :: t')
               end) d ;;
      Ok (PDict d')
  | _ => Ok obj
  end.

(** [__flatten]: the leaves of a nest of lists, left to right. *)
Fixpoint flatten (obj : pyval) : list pyval :=
  match obj with
  | PList l =>
      (fix each (xs : list pyval) : list pyval :=
         match xs with
         | [] => []
         | o :: t => flatten o ++ each t
         end) l
  | _ => [obj]
  end.

(** [x.get(key, None)] on an arbitrary value: only a dict has [get]. *)
Definition py_get (x : pyval) (key : string) : result pyval :=
  match x with
  | PDict d => Ok (dict_get key d)
  | _ => Raise AttributeError
  end.

(** [__get_subscription_notation_recursive] *)
Fixpoint get_subscription_notation_recursive (attribute : pyval) (subscription : list string)
  : result pyval :=
  match subscription with
  | [] => Ok attribute
  | cur_subs :: rest =>
      match attribute with
      | PList l =>
          sub <- parse_subscript cur_subs ;;
          match sub with
          | SubIndex i =>
              x <- list_item l i ;;
              r <- get_subscription_notation_recursive x rest ;;
              Ok (PList [r])
          | SubSlice a b =>
              s <- py_getslice l a b None ;;
              r <- get_subscription_notation_recursive (PList s) rest ;;
              Ok (PList [r])
          | SubStride a b c =>
              s <- py_getslice l a b c ;;
              r <- get_subscription_notation_recursive (PList s) rest ;;
              Ok (PList [r])
          end
      | _ => Raise SubscriptionError
      end
  end.

(** [list(map(lambda x: x.strip(), match_str.split(",")))] with
    [match_str = last_match.group(0).strip()[1:-1]] *)
Definition match_str (group0 : string) : string := slice_1_m1 (strip group0).

Definition subscription_of (group0 : string) : list string :=
  map strip (split_char ","%char (match_str group0)).

(** [__get_dot_notation_recursive] *)
Fixpoint get_dot_notation_recursive (specifier : list string) (attribute : pyval)
  : result pyval :=
  match specifier with
  | [] => Ok attribute
  | key :: rest =>
      match find_index_specifier true key with
      | Some (start, group0) =>
          let sub_key := substring 0 start key in
          let subscription := subscription_of group0 in
          if (0 <? String.length (strip sub_key))%nat then
            match attribute with
            | PDict d =>
                r <- get_subscription_notation_recursive (dict_get sub_key d) subscription ;;
                get_dot_notation_recursive rest (PList (flatten r))
            | PList l =>
                all_attributes <-
                  map_result (fun attr =>
                                a <- py_get attr sub_key ;;
                                r <- get_subscription_notation_recursive a subscription ;;
                                Ok (PList (flatten r))) l ;;
                get_dot_notation_recursive rest (PList (flatten (PList all_attributes)))
            | _ => Raise DotNotationError
            end
          else
            r <- get_subscription_notation_recursive attribute subscription ;;
            get_dot_notation_recursive rest (PList (flatten r))
      | None =>
          match attribute with
          | PDict d => get_dot_notation_recursive rest (dict_get key d)
          | PList l =>
              rs <- map_result (fun x =>
                                  a <- py_get x key ;;
                                  get_dot_notation_recursive rest a) l ;;
              Ok (PList rs)
          | _ => Raise DotNotationError
          end
      end
  end.

Definition py_assert (b : bool) : result unit :=
  if b then Ok tt else Raise AssertionError.

(** [keys[-1] == "$val"] and [keys[:-1]] *)
Definition last_is_val (keys : list string) : bool :=
  match rev keys with
  | k :: _ => String.eqb k "$val"
  | [] => false
  end.

(** [get_dot_notation] *)
Definition get_dot_notation (obj : pyval) (dot_specifier : string) : result pyval :=
  obj <- json_roundtrip obj ;;
  _ <- py_assert (0 <? String.length dot_specifier)%nat ;;
  let keys := split_keys dot_specifier in
  let value_parse := last_is_val keys in
  let keys := if value_parse then removelast keys else keys in
  _ <- py_assert (1 <=? List.length keys)%nat ;;
  r <- get_dot_notation_recursive keys obj ;;
  let result := flatten r in
  if value_parse then
    match result with
    | [x] => Ok x
    | _ => Raise AssertionError
    end
  else Ok (PList result).

(** [isinstance(value, list)] *)
Definition as_list (value : pyval) : option (list pyval) :=
  match value with
  | PList l => Some l
  | _ => None
  end.

(** The assignment to a slice at the last key of a specifier: a list is
    assigned as it is, anything else is copied through JSON and repeated
    once for every element of the slice. *)
Definition assign_slice (l : list pyval) (a b c : option Z) (value : pyval)
  : result (list pyval) :=
  match as_list value with
  | Some vs => py_setslice l a b c vs
  | None =>
      v <- json_roundtrip value ;;
      covered <- py_getslice l a b c ;;
      py_setslice l a b c (repeat v (List.length covered))
  end.

(** [__set_subscription_notation].  [deeper] is the call
    [__set_dot_notation_recursive(_, specifier[1:], value)] when
    [len(specifier) > 1], and [None] at the last key.  The list is updated
    in place in the source; here the updated list is returned. *)
Definition set_subscription_notation (deeper : option (pyval -> result pyval))
    (attribute : pyval) (subscription : string) (value : pyval) : result pyval :=
  match attribute with
  | PList l =>
      sub <- parse_subscript (strip subscription) ;;
      match sub with
      | SubIndex i =>
          match deeper with
          | Some f =>
              x <- list_item l i ;;
              x' <- f x ;;
              l' <- list_set_item l i x' ;;
              Ok (PList l')
          | None =>
              v <- json_roundtrip value ;;
              l' <- list_set_item l i v ;;
              Ok (PList l')
          end
      | SubSlice a b =>
          match deeper with
          | Some f =>
              _ <- py_getslice l a b None ;;
              l' <- update_positions f (slice_positions (py_len l) a b None) l ;;
              Ok (PList l')
          | None => l' <- assign_slice l a b None value ;; Ok (PList l')
          end
      | SubStride a b c =>
          match deeper with
          | Some f =>
              _ <- py_getslice l a b c ;;
              l' <- update_positions f (slice_positions (py_len l) a b c) l ;;
              Ok (PList l')
          | None => l' <- assign_slice l a b c value ;; Ok (PList l')
          end
      end
  | _ => Raise SubscriptionError
  end.

(** [__set_dot_notation_recursive].  The source updates [attribute] in
    place and returns nothing; the embedding returns the updated value and
    the caller puts it back where [attribute] was read.  The [print] of the
    sub-key is not modelled. *)
Fixpoint set_dot_notation_recursive (specifier : list string) (value : pyval)
    {struct specifier} : pyval -> result pyval :=
  match specifier with
  | [] => fun _ => Raise IndexError
  | key :: rest =>
      let deeper :=
        match rest with
        | [] => None
        | _ :: _ => Some (set_dot_notation_recursive rest value)
        end in
      fix here (attribute : pyval) {struct attribute} : result pyval :=
        match find_index_specifier false key with
        | Some (start, group0) =>
            let sub_key := substring 0 start key in
            if (0 <? String.length (strip sub_key))%nat then
              match attribute with
              | PDict d =>
                  a' <- set_subscription_notation deeper (dict_get sub_key d)
                          (match_str group0) value ;;
                  Ok (PDict (dict_set sub_key a' d))
              | _ => Raise AttributeError
              end
            else
              set_subscription_notation deeper attribute (match_str group0) value
        | None =>
            match attribute with
            | PDict d =>
                match deeper with
                | None =>
                    v <- json_roundtrip value ;;
                    Ok (PDict (dict_set key v d))
                | Some f =>
                    a' <- f (dict_get key d) ;;
                    Ok (PDict (dict_set key a' d))
                end
            | PList l =>
                l' <- (fix each (xs : list pyval) : result (list pyval) :=
                         match xs with
                         | [] => Ok []
                         | x :: t => x' <- here x ;; t' <- each t ;; Ok (x' :: t')
                         end) l ;;
                Ok (PList l')
            | _ => Raise DotNotationError
            end
        end
  end.

(** [set_dot_notation] *)
Definition set_dot_notation (obj : pyval) (dot_specifier : string) (value : pyval)
  : result pyval :=
  obj_dc <- json_roundtrip obj ;;
  let keys := split_keys dot_specifier in
  set_dot_notation_recursive keys value obj_dc.

(* ===================================================================== *)
(** * The builtins of the Python runtime the engine calls *)
(* ===================================================================== *)

(** What the interpreter and the [datetime] module compute is not part of
    the repository; the engine is modelled over any behaviour of these
    builtins.  [None] stands for a raised exception. *)
Record PyRuntime : Type := {
  (** [str(value)] for a value that is no [str] *)
  py_str : pyval -> string;
  (** [float(s)] for a string [s] *)
  py_float : string -> option pyfloat;
  (** [float(n)] for an integer [n]; [OverflowError] when too large *)
  py_float_of_int : Z -> option pyfloat;
  (** [datetime.utcfromtimestamp(value)] for an [int] or a [float] *)
  utcfromtimestamp : pyval -> option datetime;
  (** [datetime.strptime(s, BUSINESS_RULE_DATETIME_FORMAT)] *)
  strptime : string -> option datetime;
  (** [value.strftime(BUSINESS_RULE_DATETIME_FORMAT)] *)
  strftime : datetime -> string;
  (** [value.replace(tzinfo=timezone.utc).timestamp()] *)
  utc_timestamp : datetime -> pyfloat
}.

(** [str(value)]: a [str] is returned as it is. *)
Definition str_of (rt : PyRuntime) (value : pyval) : string :=
  match value with
  | PStr s => s
  | _ => py_str rt value
  end.

(* ===================================================================== *)
(** * parsers.py *)
(* ===================================================================== *)

Definition parse_dict (value : pyval) : result pyval :=
  match value with
  | PNone => Ok PNone
  | PDict _ => Ok value
  | _ => Raise ParseError
  end.

Definition parse_boolean (value : pyval) : result pyval :=
  match value with
  | PNone => Ok PNone
  | PBool _ => Ok value
  | _ => Raise ParseError
  end.

Definition parse_numeric (rt : PyRuntime) (value : pyval) : result pyval :=
  match value with
  | PNone => Ok PNone
  | _ =>
      match py_float rt (str_of rt value) with
      | Some f => Ok (PFloat f)
      | None => Raise ParseError
      end
  end.

Definition parse_datetime (rt : PyRuntime) (value : pyval) : result pyval :=
  match value with
  | PNone => Ok PNone
  | PInt _ | PFloat _ =>
      match utcfromtimestamp rt value with
      | Some d => Ok (PDateTime d)
      | None => Raise ParseError
      end
  | _ =>
      match strptime rt (str_of rt value) with
      | Some d => Ok (PDateTime d)
      | None => Raise ParseError
      end
  end.

Definition parse_string (rt : PyRuntime) (value : pyval) : result pyval :=
  match value with
  | PNone => Ok PNone
  | PDateTime d => Ok (PStr (strftime rt d))
  | PInt n =>
      match py_float_of_int rt n with
      | Some f => Ok (PStr (py_str rt (PFloat f)))
      | None => Raise OverflowError
      end
  | _ => Ok (PStr (str_of rt value))
  end.

(** The five list parsers: [type(value) != list] raises, otherwise
    [list(map(lambda x: parse(x), value))]. *)
Definition parse_list_with (parse : pyval -> result pyval) (value : pyval) : result pyval :=
  match value with
  | PList l => l' <- map_result parse l ;; Ok (PList l')
  | _ => Raise ParseError
  end.

Definition parse_numeric_list (rt : PyRuntime) : pyval -> result pyval :=
  parse_list_with (parse_numeric rt).
Definition parse_datetime_list (rt : PyRuntime) : pyval -> result pyval :=
  parse_list_with (parse_datetime rt).
Definition parse_string_list (rt : PyRuntime) : pyval -> result pyval :=
  parse_list_with (parse_string rt).
Definition parse_dict_list : pyval -> result pyval :=
  parse_list_with parse_dict.
Definition parse_boolean_list : pyval -> result pyval :=
  parse_list_with parse_boolean.

(* ===================================================================== *)
(** * ruleengine.py: the type tables *)
(* ===================================================================== *)

(** A [frozenset]; only membership is ever asked of it. *)
Definition ALLOWED_TYPES : list string :=
  ["Dict"; "Boolean"; "String"; "Numeric"; "DateTime"; "DictList"; "BooleanList";
   "StringList"; "NumericList"; "DateTimeList"].

Definition ALLOWED_IMPLICIT_CONVERSIONS : list (string * string) :=
  [("Boolean", "String");
   ("Numeric", "String");
   ("DateTime", "String");
   ("BooleanList", "StringList");
   ("NumericList", "StringList");
   ("DateTimeList", "StringList")].

(** A [dict]: iteration follows the order of the literal. *)
Definition TYPE_PARSERS (rt : PyRuntime) : list (string * (pyval -> result pyval)) :=
  [("BooleanList", parse_boolean_list);
   ("NumericList", parse_numeric_list rt);
   ("DateTimeList", parse_datetime_list rt);
   ("DictList", parse_dict_list);
   ("StringList", parse_string_list rt);
   ("Boolean", parse_boolean);
   ("Numeric", parse_numeric rt);
   ("DateTime", parse_datetime rt);
   ("Dict", parse_dict);
   ("String", parse_string rt)].

(** [TYPE_PARSERS[type_name](value)] *)
Definition parse (rt : PyRuntime) (type_name : string) (value : pyval) : result pyval :=
  p <- dict_item type_name (TYPE_PARSERS rt) ;; p value.

(** [TYPE_PARSERS[type_name](arg)] for an argument that is itself a call:
    the parser is looked up before the argument is evaluated. *)
Definition parse_call (rt : PyRuntime) (type_name : string) (arg : result pyval)
  : result pyval :=
  p <- dict_item type_name (TYPE_PARSERS rt) ;; a <- arg ;; p a.

(* ===================================================================== *)
(** * ruleengine.py: class BusinessRuleEngine *)
(* ===================================================================== *)

(** A decorated function: the number of its parameters and what a call
    with positional arguments does. *)
Record callable : Type := {
  fn_name : string;
  fn_arity : nat;
  fn_call : list pyval -> result pyval
}.

(** A parameter as the decorator receives it: a dict read with [get]. *)
Record raw_param : Type := {
  rp_pretty_name : option string;
  rp_type : option string;
  rp_description : option string;
  rp_value_classes : list string;
  rp_meta_options : pyval
}.

Record param : Type := {
  param_pretty_name : string;
  param_type : string;
  param_description : string;
  param_value_classes : list string;
  param_meta_options : pyval
}.

Record filter_def : Type := {
  filter_method : callable;
  manipulation_types : list (string * string);
  filter_pretty_name : string;
  filter_description : string;
  filter_params : list param;
  filter_builtin_method : bool
}.

Record comparer_def : Type := {
  comparer_method : callable;
  collation_types : list (string * string);
  comparer_pretty_name : string;
  comparer_description : string;
  comparer_params : list param;
  value_classes : list string;
  comparer_builtin_method : bool
}.

(** The two registries of the singleton, as dicts in insertion order. *)
Record BusinessRuleEngine : Type := {
  system_available_comparers : list (string * comparer_def);
  system_available_filters : list (string * filter_def)
}.

Definition empty_engine : BusinessRuleEngine :=
  {| system_available_comparers := []; system_available_filters := [] |}.

(** [__prepare_params].  [json.dumps(p_options)] fails on a [datetime]. *)
Definition prepare_param (p : raw_param) : result param :=
  match rp_pretty_name p with
  | None => Raise BusinessRuleEngineApiError
  | Some pn =>
      match rp_type p with
      | None => Raise BusinessRuleEngineApiError
      | Some ty =>
          match rp_description p with
          | None => Raise BusinessRuleEngineApiError
          | Some de =>
              if negb (str_in ty ALLOWED_TYPES) then Raise BusinessRuleEngineApiError
              else if (List.length (rp_value_classes p) =? 0)%nat
                   then Raise BusinessRuleEngineApiError
              else
                match json_roundtrip (rp_meta_options p) with
                | Raise _ => Raise BusinessRuleEngineApiError
                | Ok _ =>
                    Ok {| param_pretty_name := pn; param_type := ty;
                          param_description := de;
                          param_value_classes := rp_value_classes p;
                          param_meta_options := rp_meta_options p |}
                end
          end
      end
  end.

Definition prepare_params (params : list raw_param) : result (list param) :=
  map_result prepare_param params.

(** [len(set(xs)) == len(xs)] *)
Fixpoint no_dup_str (xs : list string) : bool :=
  match xs with
  | [] => true
  | x :: t => negb (str_in x t) && no_dup_str t
  end.

(** The loop that checks every named type against [ALLOWED_TYPES]. *)
Fixpoint check_type_pairs (pairs : list (string * string)) : result unit :=
  match pairs with
  | [] => Ok tt
  | (x1, x2) :: t =>
      if negb (str_in x1 ALLOWED_TYPES) then Raise BusinessRuleEngineApiError
      else if negb (str_in x2 ALLOWED_TYPES) then Raise BusinessRuleEngineApiError
      else check_type_pairs t
  end.

(** [list.sort(key=...)]: a stable sort by an integer key. *)
Fixpoint insert_by_key {A : Type} (key : A -> Z) (x : A) (l : list A) : list A :=
  match l with
  | [] => [x]
  | y :: t => if key x <=? key y then x :: l else y :: insert_by_key key x t
  end.

Definition sort_by_key {A : Type} (key : A -> Z) (l : list A) : list A :=
  fold_right (insert_by_key key) [] l.

(** [lambda inp: 99999 if inp[0].startswith("String") else 0] *)
Definition string_last_key (inp : string * string) : Z :=
  if String.prefix "String" (fst inp) then 99999 else 0.

(** [key if key else prefix + method_def.__name__] *)
Definition registry_key (key : option string) (prefix : string) (builtin : bool)
    (method_def : callable) : string :=
  match key with
  | Some k => if is_empty k
              then (if builtin then EmptyString else prefix) ++ fn_name method_def
              else k
  | None => (if builtin then EmptyString else prefix) ++ fn_name method_def
  end.

(** The decorator [filter(...)] applied to [method_def]. *)
Definition register_filter (bre : BusinessRuleEngine) (pretty_name description : string)
    (key : option string) (manipulation_types : list (string * string))
    (params : list raw_param) (builtin : bool) (method_def : callable)
  : result BusinessRuleEngine :=
  _ <- py_assert (0 <? List.length manipulation_types)%nat ;;
  _ <- py_assert (no_dup_str (map fst manipulation_types)) ;;
  _ <- py_assert (fn_arity method_def =? 1 + List.length params)%nat ;;
  _ <- check_type_pairs manipulation_types ;;
  let key := registry_key key "f_" builtin method_def in
  params_current <- prepare_params params ;;
  let manipulation_types := sort_by_key string_last_key manipulation_types in
  Ok {| system_available_comparers := system_available_comparers bre;
        system_available_filters :=
          dict_set key
            {| filter_method := method_def;
               manipulation_types := manipulation_types;
               filter_pretty_name := pretty_name;
               filter_description := description;
               filter_params := params_current;
               filter_builtin_method := builtin |}
            (system_available_filters bre) |}.

(** [len(set([f"{x1}-{x2}" ...])) != len(collation_types)] *)
Definition collation_tag (p : string * string) : string :=
  fst p ++ "-" ++ snd p.

(** The decorator [comparer(...)] applied to [method_def]. *)
Definition register_comparer (bre : BusinessRuleEngine) (pretty_name description : string)
    (key : option string) (collation_types : list (string * string))
    (params : list raw_param) (value_classes : list string) (builtin : bool)
    (method_def : callable) : result BusinessRuleEngine :=
  _ <- py_assert (0 <? List.length collation_types)%nat ;;
  _ <- py_assert (fn_arity method_def =? 2 + List.length params)%nat ;;
  _ <- py_assert (0 <? List.length value_classes)%nat ;;
  _ <- check_type_pairs collation_types ;;
  if negb (no_dup_str (map collation_tag collation_types))
  then Raise BusinessRuleEngineApiError
  else
    let key := registry_key key "c_" builtin method_def in
    params_current <- prepare_params params ;;
    Ok {| system_available_comparers :=
            dict_set key
              {| comparer_method := method_def;
                 collation_types := collation_types;
                 comparer_pretty_name := pretty_name;
                 comparer_description := description;
                 comparer_params := params_current;
                 value_classes := value_classes;
                 comparer_builtin_method := builtin |}
              (system_available_comparers bre);
          system_available_filters := system_available_filters bre |}.

(* ===================================================================== *)
(** * types.py: class TypesHelper *)
(* ===================================================================== *)

(** [extract_allowed_types] *)
Definition extract_allowed_types (type_name : string) : list string :=
  (if str_in type_name ALLOWED_TYPES then [type_name] else [])
  ++ map fst (filter (fun xy => String.eqb (snd xy) type_name) ALLOWED_IMPLICIT_CONVERSIONS).

(** [implicit_parse] *)
Definition implicit_parse (rt : PyRuntime) (value : pyval) (type_name : string)
  : result pyval :=
  parse rt type_name value.

Definition value_to_json_compatible_single (rt : PyRuntime) (value : pyval) : pyval :=
  match value with
  | PDateTime d => PFloat (utc_timestamp rt d)
  | _ => value
  end.

Definition value_to_json_compatible (rt : PyRuntime) (value : pyval) : pyval :=
  match value with
  | PList l => PList (map (value_to_json_compatible_single rt) l)
  | _ => value_to_json_compatible_single rt value
  end.

(* ===================================================================== *)
(** * types.py: the objects of a rule program *)
(* ===================================================================== *)

(** The two value classes.  An entry of [_filters] is the dict
    [dict(key=filter_name, filter=cur_filter, args=args)]. *)
Inductive value_source : Type :=
| Constant (base_input : pyval) (base_input_raw : pyval) (type : string)
           (filters : list filter_step)
| Attribute (base_input : pyval) (type : string) (filters : list filter_step)
with filter_step : Type :=
| FilterStep (key : string) (filter : filter_def) (args : list value_source).

(** The entry of a comparer in [_compare_objects]:
    [dict(key=..., comparer=..., selected_collation=..., comparable1=...,
    comparable2=..., args=...)] *)
Record compare_object : Type := {
  co_key : string;
  co_comparer : comparer_def;
  co_selected_collation : string * string;
  co_comparable1 : value_source;
  co_comparable2 : value_source;
  co_args : list value_source
}.

(** The two container classes carry the same fields, [_compare_objects] and
    [_not_operator]; an element of [_compare_objects] is a container or the
    dict of a comparer. *)
Inductive container : Type :=
| AndOperatorContainer (compare_objects : list member) (not_operator : bool)
| OrOperatorContainer (compare_objects : list member) (not_operator : bool)
with member : Type :=
| SubContainer (c : container)
| Comparer (o : compare_object).

Inductive JsonAttributeType : Type := INPUT | OUTPUT.

(** The frozen dataclass [JsonAttribute]. *)
Record JsonAttribute : Type := {
  dot_specifier : string;
  attribute_type : JsonAttributeType;
  attribute_data_type : string;
  pretty_name : string;
  description : string;
  read_only : bool;
  max_length : option Z
}.

Record Environment : Type := {
  env_attributes : list JsonAttribute;
  env_default_mappings : list (Z * Z)
}.

(** An entry of [_actions] is [{"key": str(action_key), "value": value}]. *)
Record RuleExpression : Type := {
  base_container : container;
  actions : list (string * value_source)
}.

Record RuleRunner : Type := {
  expressions : list RuleExpression
}.

(** An object of one of the classes registered with [register_for_json];
    what [from_dict_facade] returns, and what a caller can pass where the
    code tests [isinstance(_, BaseValue)] or reads [_key]. *)
Inductive artifact : Type :=
| AValue (v : value_source)
| AContainer (c : container)
| AJsonAttribute (a : JsonAttribute)
| AEnvironment (e : Environment)
| ARuleExpression (e : RuleExpression)
| ARuleRunner (r : RuleRunner).

(** [_key] *)
Definition value_key (v : value_source) : string :=
  match v with
  | Constant _ _ _ _ => "Constant"
  | Attribute _ _ _ => "Attribute"
  end.

Definition container_key (c : container) : string :=
  match c with
  | AndOperatorContainer _ _ => "AndOperator"
  | OrOperatorContainer _ _ => "OrOperator"
  end.

Definition artifact_key (a : artifact) : string :=
  match a with
  | AValue v => value_key v
  | AContainer c => container_key c
  | AJsonAttribute _ => "JsonAttribute"
  | AEnvironment _ => "Environment"
  | ARuleExpression _ => "RuleExpression"
  | ARuleRunner _ => "RuleRunner"
  end.

(** The arguments that are value sources; after the checks of [add_filter]
    and [add_comparer] these are all the arguments. *)
Fixpoint values_of (args : list artifact) : list value_source :=
  match args with
  | [] => []
  | AValue v :: t => v :: values_of t
  | _ :: t => values_of t
  end.

(* ===================================================================== *)
(** * types.py: classes Constant and Attribute *)
(* ===================================================================== *)

Definition get_filters (v : value_source) : list filter_step :=
  match v with
  | Constant _ _ _ fs => fs
  | Attribute _ _ fs => fs
  end.

Definition declared_type (v : value_source) : string :=
  match v with
  | Constant _ _ t _ => t
  | Attribute _ t _ => t
  end.

Definition step_key (f : filter_step) : string :=
  match f with FilterStep k _ _ => k end.
Definition step_filter (f : filter_step) : filter_def :=
  match f with FilterStep _ fd _ => fd end.
Definition step_args (f : filter_step) : list value_source :=
  match f with FilterStep _ _ a => a end.

(** The inner loop of [get_type] and of the [else] branch of [get_value]:
    the first pair of [manipulation_types] whose input admits the current
    type. *)
Fixpoint first_admitting (cur_type : string) (mt : list (string * string))
  : option (string * string) :=
  match mt with
  | [] => None
  | (inp, outp) :: t =>
      if str_in cur_type (extract_allowed_types inp) then Some (inp, outp)
      else first_admitting cur_type t
  end.

(** The loop of [get_type] over [_filters]. *)
Fixpoint thread_type (cur_type : string) (filters : list filter_step) : result string :=
  match filters with
  | [] => Ok cur_type
  | f :: t =>
      match first_admitting cur_type (manipulation_types (step_filter f)) with
      | Some (_, outp) => thread_type outp t
      | None => Raise BusinessRuleEngineApiError
      end
  end.

(** [get_type], the same code in both classes. *)
Definition get_type (v : value_source) : result string :=
  match get_filters v with
  | [] => Ok (declared_type v)
  | fs => thread_type (declared_type v) fs
  end.

(** [list([y for x, y in manipulation_types if x == current_type])[0]] *)
Definition exact_output (cur_type : string) (mt : list (string * string)) : result string :=
  match filter (fun xy => String.eqb (fst xy) cur_type) mt with
  | (_, y) :: _ => Ok y
  | [] => Raise IndexError
  end.

(** One turn of the loop of [get_value] over [_filters], on the pair
    [(current_value, current_type)]; [arg_values] evaluates
    [[x.get_value(row) for x in filter["args"]]]. *)
Definition apply_filter (rt : PyRuntime) (fd : filter_def)
    (arg_values : unit -> result (list pyval)) (cur : pyval * string)
  : result (pyval * string) :=
  let (current_value, current_type) := cur in
  let mt := manipulation_types fd in
  if str_in current_type (map fst mt) then
    argv <- arg_values tt ;;
    v <- fn_call (filter_method fd) (current_value :: argv) ;;
    t <- exact_output current_type mt ;;
    Ok (v, t)
  else
    match first_admitting current_type mt with
    | Some (type_name, outp_type) =>
        converted <- parse rt type_name current_value ;;
        argv <- arg_values tt ;;
        v <- fn_call (filter_method fd) (converted :: argv) ;;
        Ok (v, outp_type)
    | None => Raise RunnerError
    end.

Fixpoint fold_result {A S : Type} (step : A -> S -> result S) (xs : list A) (s : S)
  : result S :=
  match xs with
  | [] => Ok s
  | x :: t => s' <- step x s ;; fold_result step t s'
  end.

(** [get_value], the same loop in both classes, with its two locals
    [current_value] and [current_type] as they stand when the loop ends. *)
Fixpoint get_value_typed (rt : PyRuntime) (row : pyval) (v : value_source)
  : result (pyval * string) :=
  let run (start : pyval * string) (fs : list filter_step) :=
    fold_result
      (fun f cur =>
         match f with
         | FilterStep _ fd args =>
             apply_filter rt fd
               (fun _ => map_result
                           (fun x => r <- get_value_typed rt row x ;; Ok (fst r)) args)
               cur
         end) fs start in
  match v with
  | Constant base_input _ type fs => run (base_input, type) fs
  | Attribute base_input type fs =>
      current_value <-
        parse_call rt type (get_dot_notation row (str_of rt base_input)) ;;
      run (current_value, type) fs
  end.

(** [get_value]: the source returns [current_value]. *)
Definition get_value (rt : PyRuntime) (row : pyval) (v : value_source) : result pyval :=
  r <- get_value_typed rt row v ;; Ok (fst r).

(** [fetch_addable_filters] *)
Definition available_inputs (fd : filter_def) : list string :=
  flat_map (fun xy => extract_allowed_types (fst xy)) (manipulation_types fd).

Definition fetch_addable_filters (bre : BusinessRuleEngine) (v : value_source)
  : result (list string) :=
  cur_type <- get_type v ;;
  Ok (map fst (filter (fun kf => str_in cur_type (available_inputs (snd kf)))
                      (system_available_filters bre))).

(** The checks on the extra arguments of a filter or of a comparer.  The
    list [_det] gets one entry, here the index of the argument, for every
    argument that is refused. *)
Fixpoint check_args (i : nat) (params : list param) (args : list artifact)
  : result (list nat) :=
  match args, params with
  | [], _ => Ok []
  | AValue arg :: args', p :: params' =>
      if negb (str_in (value_key arg) (param_value_classes p)) then
        det <- check_args (S i) params' args' ;; Ok (i :: det)
      else
        t <- get_type arg ;;
        if negb (str_in t (extract_allowed_types (param_type p))) then
          det <- check_args (S i) params' args' ;; Ok (i :: det)
        else check_args (S i) params' args'
  | _ :: args', _ :: params' =>
      det <- check_args (S i) params' args' ;; Ok (i :: det)
  | _ :: _, [] => Raise IndexError
  end.

Definition with_filters (v : value_source) (fs : list filter_step) : value_source :=
  match v with
  | Constant b r t _ => Constant b r t fs
  | Attribute b t _ => Attribute b t fs
  end.

(** [add_filter], the same code in both classes. *)
Definition add_filter (bre : BusinessRuleEngine) (v : value_source) (filter_name : string)
    (args : list artifact) : result value_source :=
  avail_filters <- fetch_addable_filters bre v ;;
  if negb (str_in filter_name avail_filters) then Raise RuleCreationError
  else
    cur_filter <- dict_item filter_name (system_available_filters bre) ;;
    if negb (List.length (filter_params cur_filter) =? List.length args)%nat
    then Raise RuleCreationError
    else
      det <- check_args 0 (filter_params cur_filter) args ;;
      if (0 <? List.length det)%nat then Raise RuleCreationError
      else Ok (with_filters v
                 (get_filters v ++ [FilterStep filter_name cur_filter (values_of args)])).

(** [Constant._try_extract_type]: the parsers in the order of the dict;
    only [ParseError] is caught. *)
Fixpoint try_parsers (parsers : list (string * (pyval -> result pyval))) (value : pyval)
  : result (pyval * string) :=
  match parsers with
  | [] => Raise RuleCreationError
  | (k, p) :: t =>
      match p value with
      | Ok parsed => Ok (parsed, k)
      | Raise ParseError => try_parsers t value
      | Raise e => Raise e
      end
  end.

Definition _try_extract_type (rt : PyRuntime) (value : pyval) : result (pyval * string) :=
  try_parsers (TYPE_PARSERS rt) value.

(** The [else] branch of [Constant.set_input]: a declared type. *)
Definition parse_declared (rt : PyRuntime) (type : string) (value : pyval) : result pyval :=
  match parse rt type value with
  | Raise ParseError => Raise RuleCreationError
  | r => r
  end.

(** [Constant.set_input(value, try_parse)] on a constant whose [_type] is
    set. *)
Definition constant_set_input (rt : PyRuntime) (v : value_source) (value : pyval)
    (try_parse : bool) : result value_source :=
  match v with
  | Constant _ _ type fs =>
      if (0 <? List.length fs)%nat then Raise RuleCreationError
      else if try_parse then
        '(parsed_value, extracted_type) <- _try_extract_type rt value ;;
        Ok (Constant parsed_value value extracted_type fs)
      else
        parsed <- parse_declared rt type value ;;
        Ok (Constant parsed value type fs)
  | Attribute _ _ _ => Raise TypeError
  end.

(** [Constant(value, value_type)]: [__init__] followed by the [set_input]
    it ends with, on the fresh object ([_type] is [None] when no type is
    given, [_filters] is empty). *)
Definition Constant_init (rt : PyRuntime) (value : pyval) (value_type : option string)
  : result value_source :=
  match value_type with
  | Some t =>
      if negb (str_in t ALLOWED_TYPES) then Raise RuleCreationError
      else
        parsed <- parse_declared rt t value ;;
        Ok (Constant parsed value t [])
  | None =>
      '(parsed_value, extracted_type) <- _try_extract_type rt value ;;
      Ok (Constant parsed_value value extracted_type [])
  end.

(** [Constant.set_input_type] *)
Definition constant_set_input_type (rt : PyRuntime) (v : value_source) (type_name : string)
  : result value_source :=
  match v with
  | Constant _ raw _ fs =>
      if (0 <? List.length fs)%nat then Raise RuleCreationError
      else if negb (str_in type_name ALLOWED_TYPES) then Raise RuleCreationError
      else
        match parse rt type_name raw with
        | Ok parsed => Ok (Constant parsed raw type_name fs)
        | Raise ParseError => Raise RuleCreationError
        | Raise e => Raise e
        end
  | Attribute _ _ _ => Raise TypeError
  end.

(** [Attribute(value_dot_notation, value_type)] *)
Definition Attribute_init (value_dot_notation : pyval) (value_type : string)
  : result value_source :=
  if negb (str_in value_type ALLOWED_TYPES) then Raise RuleCreationError
  else Ok (Attribute value_dot_notation value_type []).

(* ===================================================================== *)
(** * Methods that update [self] *)
(* ===================================================================== *)

(** A method that may update the object it is called on and may raise:
    from the state of the object to the outcome and the state it leaves
    behind.  A [raise] leaves the state as it is at that point. *)
Definition method (S A : Type) : Type := S -> result A * S.

Definition m_ret {S A : Type} (a : A) : method S A := fun s => (Ok a, s).

Definition m_raise {S A : Type} (e : exn) : method S A := fun s => (Raise e, s).

Definition m_bind {S A B : Type} (m : method S A) (k : A -> method S B) : method S B :=
  fun s =>
    match m s with
    | (Ok a, s') => k a s'
    | (Raise e, s') => (Raise e, s')
    end.

(** A computation that does not touch the object. *)
Definition m_lift {S A : Type} (r : result A) : method S A := fun s => (r, s).

Definition m_get {S : Type} : method S S := fun s => (Ok s, s).

Definition m_put {S : Type} (s' : S) : method S unit := fun _ => (Ok tt, s').

(** [if cond: raise e] *)
Definition m_raise_if {S : Type} (cond : bool) (e : exn) : method S unit :=
  if cond then m_raise e else m_ret tt.

Declare Scope method_scope.
Delimit Scope method_scope with method.
Notation "x <~ m ;; k" := (m_bind m (fun x => k))
  (at level 61, m at next level, right associativity) : method_scope.

(** What a caller that chains the builders keeps: the updated object, or
    the exception. *)
Definition run_method {S A : Type} (m : method S A) (s : S) : result S :=
  match m s with
  | (Ok _, s') => Ok s'
  | (Raise e, _) => Raise e
  end.

(* ===================================================================== *)
(** * types.py: classes AndOperatorContainer and OrOperatorContainer *)
(* ===================================================================== *)

Definition get_all_objects (c : container) : list member :=
  match c with
  | AndOperatorContainer objs _ => objs
  | OrOperatorContainer objs _ => objs
  end.

Definition not_operator_of (c : container) : bool :=
  match c with
  | AndOperatorContainer _ n => n
  | OrOperatorContainer _ n => n
  end.

Definition with_objects (c : container) (objs : list member) : container :=
  match c with
  | AndOperatorContainer _ n => AndOperatorContainer objs n
  | OrOperatorContainer _ n => OrOperatorContainer objs n
  end.

(** The setter of [not_operator] *)
Definition set_not_operator (c : container) (value : bool) : container :=
  match c with
  | AndOperatorContainer objs _ => AndOperatorContainer objs value
  | OrOperatorContainer objs _ => OrOperatorContainer objs value
  end.

(** The truth value of a Python object, as [all], [any] and [if] take it. *)
Definition py_truthy (v : pyval) : bool :=
  match v with
  | PNone => false
  | PBool b => b
  | PInt n => negb (n =? 0)
  | PFloat f => negb ((float_bits f =? 0) || (float_bits f =? 2 ^ 63))
  | PStr s => negb (is_empty s)
  | PDateTime _ => true
  | PList l => (0 <? List.length l)%nat
  | PDict d => (0 <? List.length d)%nat
  end.

(** The loop over [args] in [_evaluate_comparable_obj]. *)
Fixpoint evaluate_args (rt : PyRuntime) (row : pyval) (params : list param)
    (args : list value_source) : result (list pyval) :=
  match args, params with
  | [], _ => Ok []
  | arg :: args', p :: params' =>
      let current_target_type := param_type p in
      cur_value <- get_value rt row arg ;;
      t <- get_type arg ;;
      cur_value <- (if negb (String.eqb current_target_type t)
                    then implicit_parse rt cur_value current_target_type
                    else Ok cur_value) ;;
      rest <- evaluate_args rt row params' args' ;;
      Ok (cur_value :: rest)
  | _ :: _, [] => Raise IndexError
  end.

(** [_evaluate_comparable_obj], the same code in both classes. *)
Definition evaluate_comparable_obj (rt : PyRuntime) (compare_obj : compare_object)
    (row : pyval) : result pyval :=
  let comparer := co_comparer compare_obj in
  let selected_collation := co_selected_collation compare_obj in
  value1 <- get_value rt row (co_comparable1 compare_obj) ;;
  value1 <- implicit_parse rt value1 (fst selected_collation) ;;
  value2 <- get_value rt row (co_comparable2 compare_obj) ;;
  value2 <- implicit_parse rt value2 (snd selected_collation) ;;
  arg_values <- evaluate_args rt row (comparer_params comparer) (co_args compare_obj) ;;
  fn_call (comparer_method comparer) (value1 :: value2 :: arg_values).

(** [evaluate]: the list comprehension evaluates every member, in order,
    before [all] or [any] looks at the outcomes. *)
Fixpoint evaluate (rt : PyRuntime) (row : pyval) (c : container) : result bool :=
  let outcomes (objs : list member) : result (list bool) :=
    map_result
      (fun x =>
         match x with
         | SubContainer sub => evaluate rt row sub
         | Comparer o => r <- evaluate_comparable_obj rt o row ;; Ok (py_truthy r)
         end) objs in
  match c with
  | AndOperatorContainer objs n =>
      rs <- outcomes objs ;;
      let result := forallb (fun b => b) rs in
      Ok (if n then negb result else result)
  | OrOperatorContainer objs n =>
      rs <- outcomes objs ;;
      let result := existsb (fun b => b) rs in
      Ok (if n then negb result else result)
  end.

(** The search of [add_comparer] for an exact match. *)
Fixpoint find_exact (cmp1_type cmp2_type : string) (cts : list (string * string))
  : option (string * string) :=
  match cts with
  | [] => None
  | (x, y) :: t =>
      if String.eqb x cmp1_type && String.eqb y cmp2_type then Some (x, y)
      else find_exact cmp1_type cmp2_type t
  end.

(** The second search, through the allowed types. *)
Fixpoint find_allowed (cmp1_type cmp2_type : string) (cts : list (string * string))
  : option (string * string) :=
  match cts with
  | [] => None
  | (x, y) :: t =>
      if str_in cmp1_type (extract_allowed_types x)
         && str_in cmp2_type (extract_allowed_types y)
      then Some (x, y)
      else find_allowed cmp1_type cmp2_type t
  end.

(** The part of [add_comparer] between [# Extracting convenient types.] and
    [###].  [collation_type] is [None] or a list or tuple of values. *)
Definition select_collation (cur_comparer : comparer_def) (cmp1_type cmp2_type : string)
    (collation_type : option (list pyval)) : result (string * string) :=
  match collation_type with
  | Some override_collation_type =>
      match override_collation_type with
      | [PStr o0; PStr o1] =>
          match filter (fun xy => String.eqb (fst xy) o0 && String.eqb (snd xy) o1)
                       (collation_types cur_comparer) with
          | [] => Raise RuleCreationError
          | selected_collation :: _ =>
              if negb (str_in cmp1_type (extract_allowed_types (fst selected_collation))
                       && str_in cmp2_type (extract_allowed_types (snd selected_collation)))
              then Raise RuleCreationError
              else Ok selected_collation
          end
      | _ => Raise RuleCreationError
      end
  | None =>
      match find_exact cmp1_type cmp2_type (collation_types cur_comparer) with
      | Some xy => Ok xy
      | None =>
          match find_allowed cmp1_type cmp2_type (collation_types cur_comparer) with
          | Some xy => Ok xy
          | None => Raise RuleCreationError
          end
      end
  end.

(** [x.get_type()] on an arbitrary object: only the value classes have
    the method. *)
Definition artifact_get_type (a : artifact) : result string :=
  match a with
  | AValue v => get_type v
  | _ => Raise AttributeError
  end.

Open Scope method_scope.

(** [add_comparer], the same code in both classes, as a method of the
    container: the only update of [self] is the [append] at the end. *)
Definition add_comparer (bre : BusinessRuleEngine) (comparer_name : string)
    (comparable1 comparable2 : artifact) (collation_type : option (list pyval))
    (args : list artifact) : method container unit :=
  let available_comparers := system_available_comparers bre in
  _ <~ m_raise_if (negb (dict_mem comparer_name available_comparers)) RuleCreationError ;;
  cur_comparer <~ m_lift (dict_item comparer_name available_comparers) ;;
  _ <~ m_raise_if (negb (String.eqb (artifact_key comparable1) "Attribute"))
         RuleCreationError ;;
  _ <~ m_raise_if (negb (str_in (artifact_key comparable2) (value_classes cur_comparer)))
         RuleCreationError ;;
  cmp1_type <~ m_lift (artifact_get_type comparable1) ;;
  cmp2_type <~ m_lift (artifact_get_type comparable2) ;;
  selected_collation <~
    m_lift (select_collation cur_comparer cmp1_type cmp2_type collation_type) ;;
  _ <~ m_raise_if (negb (List.length (comparer_params cur_comparer) =? List.length args)%nat)
         RuleCreationError ;;
  det <~ m_lift (check_args 0 (comparer_params cur_comparer) args) ;;
  _ <~ m_raise_if (0 <? List.length det)%nat RuleCreationError ;;
  match comparable1, comparable2 with
  | AValue c1, AValue c2 =>
      self <~ m_get ;;
      m_put (with_objects self
               (get_all_objects self ++
                [Comparer {| co_key := comparer_name;
                             co_comparer := cur_comparer;
                             co_selected_collation := selected_collation;
                             co_comparable1 := c1;
                             co_comparable2 := c2;
                             co_args := values_of args |}]))
  | _, _ => m_raise AttributeError
  end.

(** [add_sub_container] *)
Definition add_sub_container (sub : artifact) : method container unit :=
  match sub with
  | AContainer c =>
      self <~ m_get ;;
      m_put (with_objects self (get_all_objects self ++ [SubContainer c]))
  | _ => m_raise RuleCreationError
  end.

Close Scope method_scope.

(* ===================================================================== *)
(** * types.py: classes JsonAttribute and Environment *)
(* ===================================================================== *)

Definition attribute_type_eqb (a b : JsonAttributeType) : bool :=
  match a, b with
  | INPUT, INPUT | OUTPUT, OUTPUT => true
  | _, _ => false
  end.

Definition option_Z_eqb (a b : option Z) : bool :=
  match a, b with
  | Some x, Some y => x =? y
  | None, None => true
  | _, _ => false
  end.

(** The [__eq__] the dataclass generates: field by field. *)
Definition JsonAttribute_eqb (a b : JsonAttribute) : bool :=
  String.eqb (dot_specifier a) (dot_specifier b)
  && attribute_type_eqb (attribute_type a) (attribute_type b)
  && String.eqb (attribute_data_type a) (attribute_data_type b)
  && String.eqb (pretty_name a) (pretty_name b)
  && String.eqb (description a) (description b)
  && Bool.eqb (read_only a) (read_only b)
  && option_Z_eqb (max_length a) (max_length b).

Definition empty_environment : Environment :=
  {| env_attributes := []; env_default_mappings := [] |}.

(** [add_attribute] *)
Definition add_attribute (env : Environment) (attr : artifact) : result Environment :=
  match attr with
  | AJsonAttribute a =>
      if existsb (JsonAttribute_eqb a) (env_attributes env) then Ok env
      else Ok {| env_attributes := env_attributes env ++ [a];
                 env_default_mappings := env_default_mappings env |}
  | _ => Raise AssertionError
  end.

Definition pair_Z_eqb (a b : Z * Z) : bool :=
  (fst a =? fst b) && (snd a =? snd b).

(** [add_default_mapping_with_index] *)
Definition add_default_mapping_with_index (env : Environment) (input_index output_index : Z)
  : result Environment :=
  i <- list_item (env_attributes env) input_index ;;
  if negb (attribute_type_eqb (attribute_type i) INPUT) then Raise ValueError
  else
    o <- list_item (env_attributes env) output_index ;;
    if negb (attribute_type_eqb (attribute_type o) OUTPUT) then Raise ValueError
    else if existsb (pair_Z_eqb (input_index, output_index)) (env_default_mappings env)
         then Ok env
    else Ok {| env_attributes := env_attributes env;
               env_default_mappings :=
                 env_default_mappings env ++ [(input_index, output_index)] |}.

(** [get_all_default_mappings] *)
Definition get_all_default_mappings (env : Environment)
  : result (list (JsonAttribute * JsonAttribute)) :=
  map_result (fun xy =>
                a <- list_item (env_attributes env) (fst xy) ;;
                b <- list_item (env_attributes env) (snd xy) ;;
                Ok (a, b))
             (env_default_mappings env).

(* ===================================================================== *)
(** * types.py: classes RuleExpression and RuleRunner *)
(* ===================================================================== *)

(** [RuleExpression(base_container)] *)
Definition RuleExpression_init (base : artifact) : result RuleExpression :=
  match base with
  | AContainer c => Ok {| base_container := c; actions := [] |}
  | _ => Raise RuleCreationError
  end.

(** [add_action] *)
Definition add_action (e : RuleExpression) (action_key : string) (value : artifact)
  : result RuleExpression :=
  match value with
  | AValue v => Ok {| base_container := base_container e;
                      actions := actions e ++ [(action_key, v)] |}
  | _ => Raise RuleCreationError
  end.

(** [change_set.add(key)] on a set kept as a list without repetition. *)
Definition set_add (x : string) (s : list string) : list string :=
  if str_in x s then s else s ++ [x].

(** [global_change_set.update(change_set)] *)
Definition set_update (s : list string) (xs : list string) : list string :=
  fold_left (fun acc x => set_add x acc) xs s.

(** [run_on_dict]: the row and the change set. *)
Definition run_on_dict (rt : PyRuntime) (e : RuleExpression) (row : pyval)
  : result (pyval * list string) :=
  b <- evaluate rt row (base_container e) ;;
  if b then
    fold_result
      (fun action st =>
         let (row, change_set) := st : pyval * list string in
         v <- get_value rt row (snd action) ;;
         row' <- set_dot_notation row (fst action) v ;;
         Ok (row', set_add (fst action) change_set))
      (actions e) (row, [])
  else Ok (row, []).

(** [add_expression] *)
Definition add_expression (r : RuleRunner) (expression : artifact) : result RuleRunner :=
  match expression with
  | ARuleExpression e => Ok {| expressions := expressions r ++ [e] |}
  | _ => Raise RuleCreationError
  end.

(** The loop of [run_on_iterable] over [self._expressions]. *)
Definition run_expressions (rt : PyRuntime) (exprs : list RuleExpression) (row : pyval)
  : result (pyval * list string) :=
  fold_result
    (fun expression st =>
       let (current_row, global_change_set) := st : pyval * list string in
       '(current_row, change_set) <- run_on_dict rt expression current_row ;;
       Ok (current_row, set_update global_change_set change_set))
    exprs (row, []).

(** One turn of the loop over the default mappings. *)
Definition apply_default_mapping (rt : PyRuntime) (global_change_set : list string)
    (mapping : JsonAttribute * JsonAttribute) (current_row : pyval) : result pyval :=
  let (input_attribute, output_attribute) := mapping in
  if negb (str_in (dot_specifier output_attribute) global_change_set) then
    v <- parse_call rt (attribute_data_type output_attribute)
           (get_dot_notation current_row (dot_specifier input_attribute)) ;;
    set_dot_notation current_row (dot_specifier output_attribute) v
  else Ok current_row.

(** The body of the loop of [run_on_iterable] over the rows: what is
    yielded for [current_row]. *)
Definition run_on_row (rt : PyRuntime) (runner : RuleRunner) (environment : Environment)
    (current_row : pyval) : result pyval :=
  '(current_row, global_change_set) <-
     run_expressions rt (expressions runner) current_row ;;
  mappings <- get_all_default_mappings environment ;;
  fold_result (apply_default_mapping rt global_change_set) mappings current_row.

(** [run_on_iterable]: the rows the generator yields, and the exception
    that ends it when a row raises. *)
Fixpoint run_on_iterable (rt : PyRuntime) (runner : RuleRunner) (environment : Environment)
    (iter_object : list pyval) : list pyval * option exn :=
  match iter_object with
  | [] => ([], None)
  | current_row :: rest =>
      match run_on_row rt runner environment current_row with
      | Ok out =>
          let (outs, e) := run_on_iterable rt runner environment rest in
          (out :: outs, e)
      | Raise e => ([], Some e)
      end
  end.

(* ===================================================================== *)
(** * types.py: the tagged serialization *)
(* ===================================================================== *)

(** [{"key": self.__class__._key, "obj": result_dict}] *)
Definition envelope (key : string) (obj : pyval) : pyval :=
  PDict [("key", PStr key); ("obj", obj)].

(** [Constant.to_dict] and [Attribute.to_dict] *)
Fixpoint value_to_dict (rt : PyRuntime) (v : value_source) : pyval :=
  let filters_to_dict (fs : list filter_step) : list pyval :=
    map (fun filt =>
           match filt with
           | FilterStep key _ args =>
               PDict [("filter_key", PStr key);
                      ("args", PList (map (value_to_dict rt) args))]
           end) fs in
  match v with
  | Constant base_input _ type fs =>
      envelope "Constant"
        (PDict [("value", value_to_json_compatible rt base_input);
                ("type", PStr type);
                ("filters", PList (filters_to_dict fs))])
  | Attribute base_input type fs =>
      envelope "Attribute"
        (PDict [("value", value_to_json_compatible rt base_input);
                ("type", PStr type);
                ("filters", PList (filters_to_dict fs))])
  end.

Definition comparer_to_dict (rt : PyRuntime) (cmp : compare_object) : pyval :=
  PDict [("comparer_key", PStr (co_key cmp));
         ("comparable1", value_to_dict rt (co_comparable1 cmp));
         ("comparable2", value_to_dict rt (co_comparable2 cmp));
         ("selected_collation",
          PList [PStr (fst (co_selected_collation cmp));
                 PStr (snd (co_selected_collation cmp))]);
         ("args", PList (map (value_to_dict rt) (co_args cmp)))].

(** [AndOperatorContainer.to_dict] and [OrOperatorContainer.to_dict]: the
    members go to two lists, the comparers and the sub-containers. *)
Fixpoint container_to_dict (rt : PyRuntime) (c : container) : pyval :=
  let payload (objs : list member) (n : bool) : pyval :=
    PDict [("comparers",
            PList (flat_map (fun cmp =>
                               match cmp with
                               | Comparer o => [comparer_to_dict rt o]
                               | SubContainer _ => []
                               end) objs));
           ("sub_containers",
            PList (flat_map (fun cmp =>
                               match cmp with
                               | SubContainer sub => [container_to_dict rt sub]
                               | Comparer _ => []
                               end) objs));
           ("not_operator", PBool n)] in
  match c with
  | AndOperatorContainer objs n => envelope "AndOperator" (payload objs n)
  | OrOperatorContainer objs n => envelope "OrOperator" (payload objs n)
  end.

(** [JsonAttributeType.value] *)
Definition attribute_type_value (t : JsonAttributeType) : string :=
  match t with
  | INPUT => "in"
  | OUTPUT => "out"
  end.

Definition JsonAttribute_to_dict (a : JsonAttribute) : pyval :=
  envelope "JsonAttribute"
    (PDict [("dot_specifier", PStr (dot_specifier a));
            ("attribute_type", PStr (attribute_type_value (attribute_type a)));
            ("attribute_data_type", PStr (attribute_data_type a));
            ("pretty_name", PStr (pretty_name a));
            ("description", PStr (description a));
            ("read_only", PBool (read_only a));
            ("max_length", match max_length a with Some n => PInt n | None => PNone end)]).

Definition Environment_to_dict (env : Environment) : pyval :=
  envelope "Environment"
    (PDict [("default_mappings",
             PList (map (fun xy => PList [PInt (fst xy); PInt (snd xy)])
                        (env_default_mappings env)));
            ("attributes", PList (map JsonAttribute_to_dict (env_attributes env)))]).

Definition RuleExpression_to_dict (rt : PyRuntime) (e : RuleExpression) : pyval :=
  envelope "RuleExpression"
    (PDict [("base_container", container_to_dict rt (base_container e));
            ("actions",
             PList (map (fun el => PDict [("param_key", PStr (fst el));
                                          ("value", value_to_dict rt (snd el))])
                        (actions e)))]).

Definition RuleRunner_to_dict (rt : PyRuntime) (r : RuleRunner) : pyval :=
  envelope "RuleRunner"
    (PDict [("expressions", PList (map (RuleExpression_to_dict rt) (expressions r)))]).

(** [x.to_dict()] *)
Definition to_dict (rt : PyRuntime) (x : artifact) : pyval :=
  match x with
  | AValue v => value_to_dict rt v
  | AContainer c => container_to_dict rt c
  | AJsonAttribute a => JsonAttribute_to_dict a
  | AEnvironment e => Environment_to_dict e
  | ARuleExpression e => RuleExpression_to_dict rt e
  | ARuleRunner r => RuleRunner_to_dict rt r
  end.

(** [o[k]] for a string [k]: only a dict can be read that way. *)
Definition py_item (o : pyval) (k : string) : result pyval :=
  match o with
  | PDict d => dict_item k d
  | _ => Raise TypeError
  end.

Fixpoint chars_of (s : string) : list pyval :=
  match s with
  | EmptyString => []
  | String c r => PStr (String c EmptyString) :: chars_of r
  end.

(** [for x in o] and [tuple(o)]: the elements of a list, the keys of a
    dict, the characters of a string. *)
Definition py_iter (o : pyval) : result (list pyval) :=
  match o with
  | PList l => Ok l
  | PDict d => Ok (map (fun kv => PStr (fst kv)) d)
  | PStr s => Ok (chars_of s)
  | _ => Raise TypeError
  end.

(** A name looked up with [in] in a frozenset or a dict: a list or a dict
    cannot be hashed, anything else that is no string is just not there. *)
Definition hashed_name (o : pyval) : result (option string) :=
  match o with
  | PStr s => Ok (Some s)
  | PList _ | PDict _ => Raise TypeError
  | _ => Ok None
  end.

(** The fields of the record [JsonAttribute] are typed here; the dataclass
    itself stores whatever it is given, and a payload with a field of
    another type is outside the model. *)
Definition as_str (o : pyval) : result string :=
  match o with PStr s => Ok s | _ => Raise TypeError end.
Definition as_bool (o : pyval) : result bool :=
  match o with PBool b => Ok b | _ => Raise TypeError end.
Definition as_optional_int (o : pyval) : result (option Z) :=
  match o with PInt n => Ok (Some n) | PNone => Ok None | _ => Raise TypeError end.

(** [JsonAttributeType(value)] *)
Definition JsonAttributeType_of (o : pyval) : result JsonAttributeType :=
  match o with
  | PStr s => if String.eqb s "in" then Ok INPUT
              else if String.eqb s "out" then Ok OUTPUT
              else Raise ValueError
  | _ => Raise ValueError
  end.

(** [assert dict_obj["key"] == cls._key] *)
Definition assert_key (dict_obj : pyval) (key : string) : result unit :=
  k <- py_item dict_obj "key" ;;
  match k with
  | PStr s => py_assert (String.eqb s key)
  | _ => Raise AssertionError
  end.

Section FromDict.

Variable rt : PyRuntime.
Variable bre : BusinessRuleEngine.
(** [TypesHelper.from_dict_facade], for the nested objects *)
Variable facade : pyval -> result artifact.

(** [result_obj.add_filter(filt["filter_key"], *[facade(x) for x in filt["args"]])] *)
Definition add_filter_from (result_obj : value_source) (filt : pyval)
  : result value_source :=
  filter_key <- py_item filt "filter_key" ;;
  args_list <- py_item filt "args" ;;
  args_list <- py_iter args_list ;;
  args <- map_result facade args_list ;;
  match filter_key with
  | PStr name => add_filter bre result_obj name args
  | _ => _ <- fetch_addable_filters bre result_obj ;; Raise RuleCreationError
  end.

Definition add_filters_from (result_obj : value_source) (obj : pyval)
  : result value_source :=
  filters <- py_item obj "filters" ;;
  filters <- py_iter filters ;;
  fold_result (fun filt result_obj => add_filter_from result_obj filt) filters result_obj.

(** [Constant.from_dict] *)
Definition Constant_from_dict (dict_obj : pyval) : result value_source :=
  _ <- assert_key dict_obj "Constant" ;;
  obj <- py_item dict_obj "obj" ;;
  value <- py_item obj "value" ;;
  type <- py_item obj "type" ;;
  result_obj <-
    match type with
    | PNone => Constant_init rt value None
    | _ =>
        name <- hashed_name type ;;
        match name with
        | Some t => Constant_init rt value (Some t)
        | None => Raise RuleCreationError
        end
    end ;;
  add_filters_from result_obj obj.

(** [Attribute.from_dict] *)
Definition Attribute_from_dict (dict_obj : pyval) : result value_source :=
  _ <- assert_key dict_obj "Attribute" ;;
  obj <- py_item dict_obj "obj" ;;
  value <- py_item obj "value" ;;
  type <- py_item obj "type" ;;
  name <- hashed_name type ;;
  result_obj <-
    match name with
    | Some t => Attribute_init value t
    | None => Raise RuleCreationError
    end ;;
  add_filters_from result_obj obj.

(** One turn of the loop over [dict_obj["obj"]["comparers"]]. *)
Definition add_comparer_from (comparer : pyval) (result_obj : container)
  : result container :=
  args_list <- py_item comparer "args" ;;
  args_list <- py_iter args_list ;;
  args <- map_result facade args_list ;;
  comparer_key <- py_item comparer "comparer_key" ;;
  c1 <- py_item comparer "comparable1" ;;
  comparable1 <- facade c1 ;;
  c2 <- py_item comparer "comparable2" ;;
  comparable2 <- facade c2 ;;
  sel <- py_item comparer "selected_collation" ;;
  selected_collation <- py_iter sel ;;
  name <- hashed_name comparer_key ;;
  match name with
  | Some comparer_name =>
      run_method (add_comparer bre comparer_name comparable1 comparable2
                    (Some selected_collation) args) result_obj
  | None => Raise RuleCreationError
  end.

(** [AndOperatorContainer.from_dict] and [OrOperatorContainer.from_dict];
    [fresh] is the new, empty container of the class. *)
Definition container_from_dict (fresh : container) (dict_obj : pyval)
  : result container :=
  _ <- assert_key dict_obj (container_key fresh) ;;
  obj <- py_item dict_obj "obj" ;;
  subs <- py_item obj "sub_containers" ;;
  subs <- py_iter subs ;;
  result_obj <-
    fold_result (fun sub_container result_obj =>
                   sub <- facade sub_container ;;
                   run_method (add_sub_container sub) result_obj)
                subs fresh ;;
  comparers <- py_item obj "comparers" ;;
  comparers <- py_iter comparers ;;
  result_obj <- fold_result add_comparer_from comparers result_obj ;;
  n <- py_item obj "not_operator" ;;
  match n with
  | PBool value => Ok (set_not_operator result_obj value)
  | _ => Raise TypeError
  end.

(** [JsonAttribute.from_dict] *)
Definition JsonAttribute_from_dict (dict_obj : pyval) : result JsonAttribute :=
  _ <- assert_key dict_obj "JsonAttribute" ;;
  obj <- py_item dict_obj "obj" ;;
  ds <- py_item obj "dot_specifier" ;;
  at_ <- py_item obj "attribute_type" ;;
  at_ <- JsonAttributeType_of at_ ;;
  adt <- py_item obj "attribute_data_type" ;;
  pn <- py_item obj "pretty_name" ;;
  de <- py_item obj "description" ;;
  ro <- py_item obj "read_only" ;;
  ml <- py_item obj "max_length" ;;
  ds <- as_str ds ;; adt <- as_str adt ;; pn <- as_str pn ;; de <- as_str de ;;
  ro <- as_bool ro ;; ml <- as_optional_int ml ;;
  Ok {| dot_specifier := ds; attribute_type := at_; attribute_data_type := adt;
        pretty_name := pn; description := de; read_only := ro; max_length := ml |}.

(** One turn of [for input_index, output_index in ...]. *)
Definition add_mapping_from (pair : pyval) (result_obj : Environment)
  : result Environment :=
  items <- py_iter pair ;;
  match items with
  | [PInt input_index; PInt output_index] =>
      add_default_mapping_with_index result_obj input_index output_index
  | [_; _] => Raise AssertionError
  | _ => Raise ValueError
  end.

(** [Environment.from_dict] *)
Definition Environment_from_dict (dict_obj : pyval) : result Environment :=
  _ <- assert_key dict_obj "Environment" ;;
  obj <- py_item dict_obj "obj" ;;
  attrs <- py_item obj "attributes" ;;
  attrs <- py_iter attrs ;;
  result_obj <-
    fold_result (fun attribute_dict result_obj =>
                   a <- facade attribute_dict ;; add_attribute result_obj a)
                attrs empty_environment ;;
  maps <- py_item obj "default_mappings" ;;
  maps <- py_iter maps ;;
  fold_result add_mapping_from maps result_obj.

(** [RuleExpression.from_dict] *)
Definition RuleExpression_from_dict (dict_obj : pyval) : result RuleExpression :=
  _ <- assert_key dict_obj "RuleExpression" ;;
  current_obj <- py_item dict_obj "obj" ;;
  bc <- py_item current_obj "base_container" ;;
  base <- facade bc ;;
  result_obj <- RuleExpression_init base ;;
  acts <- py_item current_obj "actions" ;;
  acts <- py_iter acts ;;
  fold_result (fun action result_obj =>
                 param_key <- py_item action "param_key" ;;
                 v <- py_item action "value" ;;
                 value <- facade v ;;
                 add_action result_obj (str_of rt param_key) value)
              acts result_obj.

(** [RuleRunner.from_dict] *)
Definition RuleRunner_from_dict (dict_obj : pyval) : result RuleRunner :=
  _ <- assert_key dict_obj "RuleRunner" ;;
  obj <- py_item dict_obj "obj" ;;
  exprs <- py_item obj "expressions" ;;
  exprs <- py_iter exprs ;;
  fold_result (fun expr result_obj =>
                 e <- facade expr ;; add_expression result_obj e)
              exprs {| expressions := [] |}.

(** The dispatch of [from_dict_facade] on [dict_obj["key"]], over the
    classes that [register_for_json] has recorded. *)
Definition dispatch_from_dict (dict_obj : pyval) : result artifact :=
  key <- py_item dict_obj "key" ;;
  name <- hashed_name key ;;
  match name with
  | None => Raise RuleCreationError
  | Some k =>
      if String.eqb k "Constant" then
        v <- Constant_from_dict dict_obj ;; Ok (AValue v)
      else if String.eqb k "Attribute" then
        v <- Attribute_from_dict dict_obj ;; Ok (AValue v)
      else if String.eqb k "AndOperator" then
        c <- container_from_dict (AndOperatorContainer [] false) dict_obj ;;
        Ok (AContainer c)
      else if String.eqb k "OrOperator" then
        c <- container_from_dict (OrOperatorContainer [] false) dict_obj ;;
        Ok (AContainer c)
      else if String.eqb k "JsonAttribute" then
        a <- JsonAttribute_from_dict dict_obj ;; Ok (AJsonAttribute a)
      else if String.eqb k "Environment" then
        e <- Environment_from_dict dict_obj ;; Ok (AEnvironment e)
      else if String.eqb k "RuleExpression" then
        e <- RuleExpression_from_dict dict_obj ;; Ok (ARuleExpression e)
      else if String.eqb k "RuleRunner" then
        r <- RuleRunner_from_dict dict_obj ;; Ok (ARuleRunner r)
      else Raise RuleCreationError
  end.

End FromDict.

(** [TypesHelper.from_dict_facade].  [depth] bounds the nesting of calls, as
    the recursion limit of the interpreter does. *)
Fixpoint from_dict_facade (depth : nat) (rt : PyRuntime) (bre : BusinessRuleEngine)
    (dict_obj : pyval) : result artifact :=
  match depth with
  | O => Raise RecursionError
  | S depth' => dispatch_from_dict rt bre (from_dict_facade depth' rt bre) dict_obj
  end.

(* ===================================================================== *)
(** * DotNotation.set_dot_notation on a store of shared objects *)
(* ===================================================================== *)

(** The embedding above works on values.  Lists and dicts are objects that
    several references can share, and [set_dot_notation] updates objects in
    place; what it shares with its arguments is only visible on a store.
    This module embeds the same code once more, over a store in which a list
    or a dict is read and written through its address. *)
Module Store.

Definition loc : Type := nat.

(** A value as a variable holds it: the immutable values themselves, and
    the address of a list or of a dict. *)
Inductive ref : Type :=
| RNone
| RBool (b : bool)
| RInt (n : Z)
| RFloat (f : pyfloat)
| RStr (s : string)
| RDateTime (d : datetime)
| RObj (l : loc).

Inductive object : Type :=
| OList (items : list ref)
| ODict (items : list (string * ref)).

(** The address of an object is its position; a new object goes last. *)
Definition store : Type := list object.

Definition read (st : store) (l : loc) : option object := nth_error st l.

Definition write (st : store) (l : loc) (o : object) : store := replace_nth l o st.

Definition alloc (st : store) (o : object) : ref * store :=
  (RObj (List.length st), st ++ [o]).

(** The value a reference stands for, down to [depth] levels of nesting;
    used to look at the outcome of an example. *)
Fixpoint value_of (depth : nat) (st : store) (v : ref) : option pyval :=
  match v with
  | RNone => Some PNone
  | RBool b => Some (PBool b)
  | RInt n => Some (PInt n)
  | RFloat f => Some (PFloat f)
  | RStr s => Some (PStr s)
  | RDateTime d => Some (PDateTime d)
  | RObj l =>
      match depth with
      | O => None
      | S depth' =>
          match read st l with
          | Some (OList items) =>
              option_map PList
                ((fix each (xs : list ref) : option (list pyval) :=
                    match xs with
                    | [] => Some []
                    | x :: t =>
                        match value_of depth' st x, each t with
                        | Some x', Some t' => Some (x' :: t')
                        | _, _ => None
                        end
                    end) items)
          | Some (ODict items) =>
              option_map PDict
                ((fix each (xs : list (string * ref)) : option (list (string * pyval)) :=
                    match xs with
                    | [] => Some []
                    | (k, x) :: t =>
                        match value_of depth' st x, each t with
                        | Some x', Some t' => Some ((k, x') :: t')
                        | _, _ => None
                        end
                    end) items)
          | None => None
          end
      end
  end.

(** [json.loads(json.dumps(v))]: every list and dict met on the way is
    built anew.  [json.dumps] raises [TypeError] on a [datetime] and
    [ValueError] on a circular reference; a nesting deeper than the
    number of objects in the store goes through some object twice. *)
Fixpoint json_copy_depth (depth : nat) (st : store) (v : ref) : result (ref * store) :=
  match v with
  | RDateTime _ => Raise TypeError
  | RObj l =>
      match depth with
      | O => Raise ValueError
      | S depth' =>
          match read st l with
          | Some (OList items) =>
              '(items', st') <-
                (fix each (xs : list ref) (st : store) : result (list ref * store) :=
                   match xs with
                   | [] => Ok ([], st)
                   | x :: t =>
                       '(x', st1) <- json_copy_depth depth' st x ;;
                       '(t', st2) <- each t st1 ;;
                       Ok (x' :: t', st2)
                   end) items st ;;
              Ok (alloc st' (OList items'))
          | Some (ODict items) =>
              '(items', st') <-
                (fix each (xs : list (string * ref)) (st : store)
                   : result (list (string * ref) * store) :=
                   match xs with
                   | [] => Ok ([], st)
                   | (k, x) :: t =>
                       '(x', st1) <- json_copy_depth depth' st x ;;
                       '(t', st2) <- each t st1 ;;
                       Ok ((k, x') :: t', st2)
                   end) items st ;;
              Ok (alloc st' (ODict items'))
          | None => Raise ValueError
          end
      end
  | _ => Ok (v, st)
  end.

Definition json_copy (st : store) (v : ref) : result (ref * store) :=
  json_copy_depth (S (List.length st)) st v.

(** [isinstance(value, list)] *)
Definition as_list (st : store) (value : ref) : option (list ref) :=
  match value with
  | RObj l => match read st l with Some (OList items) => Some items | _ => None end
  | _ => None
  end.

Definition ref_dict_get (k : string) (d : list (string * ref)) : ref :=
  match dict_lookup k d with
  | Some v => v
  | None => RNone
  end.

(** The assignment to a slice of the list at [l] at the last key of a
    specifier: the elements of a list are stored as they are, anything
    else is copied through JSON once and that copy is repeated. *)
Definition assign_slice (st : store) (l : loc) (items : list ref) (a b c : option Z)
    (value : ref) : result store :=
  match as_list st value with
  | Some vs =>
      items' <- py_setslice items a b c vs ;;
      Ok (write st l (OList items'))
  | None =>
      '(v, st1) <- json_copy st value ;;
      covered <- py_getslice items a b c ;;
      items' <- py_setslice items a b c (repeat v (List.length covered)) ;;
      Ok (write st1 l (OList items'))
  end.

(** [for x in xs: f(x)] for an [f] that updates the store. *)
Fixpoint for_each (f : store -> ref -> result store) (xs : list ref) (st : store)
  : result store :=
  match xs with
  | [] => Ok st
  | x :: t => st' <- f st x ;; for_each f t st'
  end.

(** [__set_subscription_notation]; [deeper] is the recursive call on
    [specifier[1:]] when [len(specifier) > 1]. *)
Definition set_subscription_notation (deeper : option (store -> ref -> result store))
    (st : store) (attribute : ref) (subscription : string) (value : ref)
  : result store :=
  match attribute with
  | RObj l =>
      match read st l with
      | Some (OList items) =>
          sub <- parse_subscript (strip subscription) ;;
          match sub with
          | SubIndex i =>
              match deeper with
              | Some f => x <- list_item items i ;; f st x
              | None =>
                  '(v, st1) <- json_copy st value ;;
                  items' <- list_set_item items i v ;;
                  Ok (write st1 l (OList items'))
              end
          | SubSlice a b =>
              match deeper with
              | Some f => covered <- py_getslice items a b None ;; for_each f covered st
              | None => assign_slice st l items a b None value
              end
          | SubStride a b c =>
              match deeper with
              | Some f => covered <- py_getslice items a b c ;; for_each f covered st
              | None => assign_slice st l items a b c value
              end
          end
      | _ => Raise SubscriptionError
      end
  | _ => Raise SubscriptionError
  end.

(** [__set_dot_notation_recursive].  [depth] bounds the nesting of the
    calls; the object worked on comes out of [json.loads], a tree no deeper
    than the store is large. *)
Fixpoint set_dot_notation_recursive (depth : nat) (specifier : list string) (value : ref)
    (st : store) (attribute : ref) : result store :=
  match depth with
  | O => Raise RecursionError
  | S depth' =>
      match specifier with
      | [] => Raise IndexError
      | key :: rest =>
          let deeper :=
            match rest with
            | [] => None
            | _ :: _ => Some (set_dot_notation_recursive depth' rest value)
            end in
          match find_index_specifier false key with
          | Some (start, group0) =>
              let sub_key := substring 0 start key in
              if (0 <? String.length (strip sub_key))%nat then
                match attribute with
                | RObj l =>
                    match read st l with
                    | Some (ODict d) =>
                        set_subscription_notation deeper st (ref_dict_get sub_key d)
                          (match_str group0) value
                    | _ => Raise AttributeError
                    end
                | _ => Raise AttributeError
                end
              else
                set_subscription_notation deeper st attribute (match_str group0) value
          | None =>
              match attribute with
              | RObj l =>
                  match read st l with
                  | Some (ODict d) =>
                      match deeper with
                      | None =>
                          '(v, st1) <- json_copy st value ;;
                          Ok (write st1 l (ODict (dict_set key v d)))
                      | Some f => f st (ref_dict_get key d)
                      end
                  | Some (OList items) =>
                      for_each (set_dot_notation_recursive depth' specifier value) items st
                  | None => Raise DotNotationError
                  end
              | _ => Raise DotNotationError
              end
          end
      end
  end.

(** [set_dot_notation]: the object returned and the store afterwards. *)
Definition set_dot_notation (st : store) (obj : ref) (dot_specifier : string) (value : ref)
  : result (ref * store) :=
  '(obj_dc, st1) <- json_copy st obj ;;
  let keys := split_keys dot_specifier in
  st2 <- set_dot_notation_recursive (List.length keys + List.length st1) keys value
           st1 obj_dc ;;
  Ok (obj_dc, st2).

(** The addresses met when following references from [v], at most [depth]
    levels down. *)
Fixpoint reachable (depth : nat) (st : store) (v : ref) : list loc :=
  match v, depth with
  | RObj l, S depth' =>
      l :: match read st l with
           | Some (OList items) => flat_map (reachable depth' st) items
           | Some (ODict items) => flat_map (fun kv => reachable depth' st (snd kv)) items
           | None => []
           end
  | _, _ => []
  end.

End Store.

(* ===================================================================== *)
(** * builtins.py *)
(* ===================================================================== *)

(** The integer a float holds, when it is finite and holds one. *)
Definition int_of_float (f : pyfloat) : option Z :=
  let b := float_bits f mod 2 ^ 63 in
  let negative := 2 ^ 63 <=? float_bits f in
  let E := b / 2 ^ 52 in
  let m := b mod 2 ^ 52 in
  if b =? 0 then Some 0
  else if (E =? 0) || (E =? 2047) then None
  else
    let sh := E - 1075 in
    let v :=
      if 0 <=? sh then Some ((2 ^ 52 + m) * 2 ^ sh)
      else if (2 ^ 52 + m) mod 2 ^ (- sh) =? 0 then Some ((2 ^ 52 + m) / 2 ^ (- sh))
      else None in
    option_map (fun n => if negative then - n else n) v.

(** [a == b] on floats: a NaN equals nothing, the two zeros are equal. *)
Definition float_eqb (a b : pyfloat) : bool :=
  let is_nan (f : pyfloat) := 2047 * 2 ^ 52 <? float_bits f mod 2 ^ 63 in
  let is_zero (f : pyfloat) := float_bits f mod 2 ^ 63 =? 0 in
  if is_nan a || is_nan b then false
  else if is_zero a && is_zero b then true
  else float_bits a =? float_bits b.

Definition int_float_eqb (n : Z) (f : pyfloat) : bool :=
  match int_of_float f with
  | Some m => n =? m
  | None => false
  end.

Definition datetime_eqb (a b : datetime) : bool :=
  (dt_year a =? dt_year b) && (dt_month a =? dt_month b) && (dt_day a =? dt_day b)
  && (dt_hour a =? dt_hour b) && (dt_minute a =? dt_minute b)
  && (dt_second a =? dt_second b) && (dt_microsecond a =? dt_microsecond b).

Definition bool_int (b : bool) : Z := if b then 1 else 0.

(** [a == b] *)
Fixpoint py_eq (a b : pyval) : bool :=
  match a, b with
  | PNone, PNone => true
  | PBool x, PBool y => Bool.eqb x y
  | PBool x, PInt y => bool_int x =? y
  | PInt x, PBool y => x =? bool_int y
  | PBool x, PFloat y => int_float_eqb (bool_int x) y
  | PFloat x, PBool y => int_float_eqb (bool_int y) x
  | PInt x, PInt y => x =? y
  | PInt x, PFloat y => int_float_eqb x y
  | PFloat x, PInt y => int_float_eqb y x
  | PFloat x, PFloat y => float_eqb x y
  | PStr x, PStr y => String.eqb x y
  | PDateTime x, PDateTime y => datetime_eqb x y
  | PList xs, PList ys =>
      (fix each (xs ys : list pyval) : bool :=
         match xs, ys with
         | [], [] => true
         | x :: xt, y :: yt => py_eq x y && each xt yt
         | _, _ => false
         end) xs ys
  | PDict xs, PDict ys =>
      (List.length xs =? List.length ys)%nat
      && (fix each (xs : list (string * pyval)) : bool :=
            match xs with
            | [] => true
            | (k, x) :: xt =>
                match dict_lookup k ys with
                | Some y => py_eq x y && each xt
                | None => false
                end
            end) xs
  | _, _ => false
  end.

(** [c.lower()] on a code point below 256 *)
Definition lower_char (c : ascii) : ascii :=
  let n := nat_of_ascii c in
  if (((65 <=? n) && (n <=? 90))
      || ((192 <=? n) && (n <=? 222) && negb (n =? 215)))%nat
  then ascii_of_nat (n + 32) else c.

Fixpoint lower (s : string) : string :=
  match s with
  | EmptyString => EmptyString
  | String c r => String (lower_char c) (lower r)
  end.

(** [needle in hay] on strings *)
Fixpoint str_contains (needle hay : string) : bool :=
  String.prefix needle hay
  || match hay with
     | EmptyString => false
     | String _ r => str_contains needle r
     end.

(** [x.lower()]: only a string has the method. *)
Definition py_lower (x : pyval) : result string :=
  match x with
  | PStr s => Ok (lower s)
  | _ => Raise AttributeError
  end.

Definition is_None (x : pyval) : bool :=
  match x with PNone => true | _ => false end.

Definition equals (args : list pyval) : result pyval :=
  match args with
  | [value; constant] =>
      if is_None value || is_None constant then Ok (PBool false)
      else Ok (PBool (py_eq value constant))
  | _ => Raise TypeError
  end.

Definition includes (args : list pyval) : result pyval :=
  match args with
  | [valuelist; constant] =>
      if is_None valuelist || is_None constant then Ok (PBool false)
      else
        match valuelist, constant with
        | PList l, _ => Ok (PBool (existsb (fun x => py_eq x constant) l))
        | PDict d, PStr k => Ok (PBool (dict_mem k d))
        | PDict _, (PList _ | PDict _) => Raise TypeError
        | PDict _, _ => Ok (PBool false)
        | PStr s, PStr k => Ok (PBool (str_contains k s))
        | _, _ => Raise TypeError
        end
  | _ => Raise TypeError
  end.

Definition string_includes_ignorecase (rt : PyRuntime) (args : list pyval) : result pyval :=
  match args with
  | [value; constant] =>
      if is_None value || is_None constant then Ok (PBool false)
      else Ok (PBool (str_contains (lower (str_of rt constant)) (lower (str_of rt value))))
  | _ => Raise TypeError
  end.

Definition string_to_numeric (rt : PyRuntime) (args : list pyval) : result pyval :=
  match args with
  | [PNone] => Ok PNone
  | [PStr s] =>
      match py_float rt s with
      | Some f => Ok (PFloat f)
      | None => Raise ValueError
      end
  | [PInt n] =>
      match py_float_of_int rt n with
      | Some f => Ok (PFloat f)
      | None => Raise OverflowError
      end
  | [PBool b] =>
      match py_float_of_int rt (bool_int b) with
      | Some f => Ok (PFloat f)
      | None => Raise OverflowError
      end
  | [PFloat f] => Ok (PFloat f)
  | [_] => Raise TypeError
  | _ => Raise TypeError
  end.

(** [value.lower() <rel> DotNotation.get_dot_notation(row, dot_specifier).lower()] *)
Definition subvalue_test (rt : PyRuntime) (rel : string -> string -> bool)
    (row dot_specifier value : pyval) : result bool :=
  v <- py_lower value ;;
  got <- get_dot_notation row (str_of rt dot_specifier) ;;
  g <- py_lower got ;;
  Ok (rel v g).

(** The loop [for row in dict_list_obj] of the four filters by sub-value;
    [for] over a dict goes through its keys, over a string through its
    characters. *)
Fixpoint filter_rows (test : pyval -> result bool) (rows : list pyval) : result (list pyval) :=
  match rows with
  | [] => Ok []
  | row :: t =>
      b <- test row ;;
      rest <- filter_rows test t ;;
      Ok (if b then row :: rest else rest)
  end.

Fixpoint first_row (test : pyval -> result bool) (rows : list pyval) : result pyval :=
  match rows with
  | [] => Ok PNone
  | row :: t =>
      b <- test row ;;
      if b then Ok row else first_row test t
  end.

(** [try: ... except Exception as e: return default] *)
Definition try_except {A : Type} (r : result A) (default : A) : result A :=
  match r with
  | Ok a => Ok a
  | Raise _ => Ok default
  end.

Definition multiple_filter_by_subvalue_with (rt : PyRuntime) (rel : string -> string -> bool)
    (args : list pyval) : result pyval :=
  match args with
  | [dict_list_obj; dot_specifier; value] =>
      if is_None dict_list_obj then Ok PNone
      else
        try_except
          (rows <- py_iter dict_list_obj ;;
           result_set <- filter_rows (fun row => subvalue_test rt rel row dot_specifier value)
                           rows ;;
           Ok (PList result_set))
          (PList [])
  | _ => Raise TypeError
  end.

Definition filter_by_subvalue_with (rt : PyRuntime) (rel : string -> string -> bool)
    (args : list pyval) : result pyval :=
  match args with
  | [dict_list_obj; dot_specifier; value] =>
      if is_None dict_list_obj then Ok PNone
      else
        try_except
          (rows <- py_iter dict_list_obj ;;
           first_row (fun row => subvalue_test rt rel row dot_specifier value) rows)
          PNone
  | _ => Raise TypeError
  end.

Definition multiple_filter_by_subvalue_include (rt : PyRuntime) :=
  multiple_filter_by_subvalue_with rt str_contains.
Definition filter_by_subvalue_include (rt : PyRuntime) :=
  filter_by_subvalue_with rt str_contains.
Definition multiple_filter_by_subvalue (rt : PyRuntime) :=
  multiple_filter_by_subvalue_with rt String.eqb.
Definition filter_by_subvalue (rt : PyRuntime) :=
  filter_by_subvalue_with rt String.eqb.

Definition extract_with_dot_specifier (rt : PyRuntime) (type_name : string)
    (args : list pyval) : result pyval :=
  match args with
  | [dict_obj; dot_specifier] =>
      if is_None dict_obj then Ok PNone
      else
        value <- get_dot_notation dict_obj (str_of rt dot_specifier) ;;
        if is_None value then Ok PNone else parse rt type_name value
  | _ => Raise TypeError
  end.

Definition extract_with_dot_specifier_to_string (rt : PyRuntime) :=
  extract_with_dot_specifier rt "String".
Definition extract_with_dot_specifier_to_numeric (rt : PyRuntime) :=
  extract_with_dot_specifier rt "Numeric".

Definition numeric_to_string (rt : PyRuntime) (args : list pyval) : result pyval :=
  match args with
  | [numeric] => if is_None numeric then Ok PNone else Ok (PStr (str_of rt numeric))
  | _ => Raise TypeError
  end.

Definition unixepoch_to_datetime (rt : PyRuntime) (args : list pyval) : result pyval :=
  match args with
  | [numeric] =>
      if is_None numeric then Ok PNone
      else
        match numeric with
        | PInt _ | PFloat _ | PBool _ =>
            match utcfromtimestamp rt numeric with
            | Some d => Ok (PDateTime d)
            | None => Raise OverflowError
            end
        | _ => Raise TypeError
        end
  | _ => Raise TypeError
  end.

Definition string_param (pretty_name description : string) : raw_param :=
  {| rp_pretty_name := Some pretty_name; rp_type := Some "String";
     rp_description := Some description; rp_value_classes := ["Constant"];
     rp_meta_options := PNone |}.

Definition def (name : string) (arity : nat) (call : list pyval -> result pyval) : callable :=
  {| fn_name := name; fn_arity := arity; fn_call := call |}.

Definition subvalue_params (value_description : string) : list raw_param :=
  [string_param "Dot specifier" "Dot specifier of extracted value.";
   string_param "Value" value_description].

(** The registrations of [builtins.py], in the order of the file. *)
Definition register_builtins (rt : PyRuntime) (bre : BusinessRuleEngine)
  : result BusinessRuleEngine :=
  bre <- register_comparer bre "Equals" "Checks values are whether equals or not." None
           [("Boolean", "Boolean"); ("String", "String"); ("Numeric", "Numeric");
            ("DateTime", "DateTime")]
           [] ["Constant"; "Attribute"] true (def "equals" 2 equals) ;;
  bre <- register_comparer bre "Includes" "Checks first parameter includes second." None
           [("StringList", "String"); ("NumericList", "Numeric");
            ("DateTimeList", "DateTime")]
           [] ["Constant"; "Attribute"] true (def "includes" 2 includes) ;;
  bre <- register_comparer bre "String Includes - Ignore Case"
           "Checks whether first parameter includes second." None
           [("String", "String")]
           [] ["Constant"; "Attribute"] true
           (def "string_includes_ignorecase" 2 (string_includes_ignorecase rt)) ;;
  bre <- register_filter bre "String to Numeric" "Convert string to numeric data." None
           [("String", "Numeric")] [] true
           (def "string_to_numeric" 1 (string_to_numeric rt)) ;;
  bre <- register_filter bre "Multiple Filter by Subvalue(Include) - Ignore case"
           "Filters values of dictionary list by dot specified value." None
           [("DictList", "DictList")]
           (subvalue_params "Constant which will be tested whether in extracted value.")
           true
           (def "multiple_filter_by_subvalue_include" 3
                (multiple_filter_by_subvalue_include rt)) ;;
  bre <- register_filter bre "Filter by Subvalue(Include) - Ignore case"
           "Filters values of dictionary list by dot specified value." None
           [("DictList", "Dict")]
           (subvalue_params "Constant which will be tested whether in extracted value.")
           true
           (def "filter_by_subvalue_include" 3 (filter_by_subvalue_include rt)) ;;
  bre <- register_filter bre "Multiple Filter by Subvalue(Exact) - Ignore case"
           "Filters values of dictionary list by dot specified value." None
           [("DictList", "DictList")]
           (subvalue_params
              "Constant which will be tested whether equals to extracted value.")
           true
           (def "multiple_filter_by_subvalue" 3 (multiple_filter_by_subvalue rt)) ;;
  bre <- register_filter bre "Filter by Subvalue(Exact) - Ignore case"
           "Filters values of dictionary list by dot specified value." None
           [("DictList", "Dict")]
           (subvalue_params
              "Constant which will be tested whether equals to extracted value.")
           true
           (def "filter_by_subvalue" 3 (filter_by_subvalue rt)) ;;
  bre <- register_filter bre "Extract String from a dictionary object."
           "Extract string value from a single dictionary object." None
           [("Dict", "String")]
           [string_param "Dot specifier" "Dot specifier of which will be extracted."]
           true
           (def "extract_with_dot_specifier_to_string" 2
                (extract_with_dot_specifier_to_string rt)) ;;
  bre <- register_filter bre "Extract String from a dictionary object."
           "Extract numeric value from a single dictionary object." None
           [("Dict", "Numeric")]
           [string_param "Dot specifier" "Dot specifier of which will be extracted."]
           true
           (def "extract_with_dot_specifier_to_numeric" 2
                (extract_with_dot_specifier_to_numeric rt)) ;;
  bre <- register_filter bre "Numeric to String" "Convert Numeric to String data." None
           [("Numeric", "String")] [] true
           (def "numeric_to_string" 1 (numeric_to_string rt)) ;;
  register_filter bre "UTC Epoch to DateTime" "Convert unix utc epoch to DateTime" None
    [("Numeric", "DateTime")] [] true
    (def "unixepoch_to_datetime" 1 (unixepoch_to_datetime rt)).

(** The engine once [builtins.py] is imported; the registrations all pass,
    so the default is never taken. *)
Definition builtin_engine (rt : PyRuntime) : BusinessRuleEngine :=
  match register_builtins rt empty_engine with
  | Ok bre => bre
  | Raise _ => empty_engine
  end.

(* ===================================================================== *)
(** * A runtime for the examples *)
(* ===================================================================== *)

(** The examples below need the builtins on a few inputs only.  This
    runtime answers as CPython does on [None], the booleans, the integers,
    the floats that hold an integer below [10^16] and the decimal strings of
    such numbers; no example leaves that domain.  Outside of it the answers
    are placeholders: [float] refuses a string with a fraction or an
    exponent, [str] of any other float, of a list and of a dict is a fixed
    text, and no date but the epoch second is parsed or formatted. *)
Module ExampleRuntime.

(** The binary64 nearest to a positive integer, ties to even; [None] when
    the integer is too large for a finite float. *)
Definition float_of_positive (n : Z) : option Z :=
  let e := Z.log2 n in
  let '(m, e) :=
    if e <=? 52 then (n * 2 ^ (52 - e), e)
    else
      let sh := e - 52 in
      let q := n / 2 ^ sh in
      let r := n mod 2 ^ sh in
      let half := 2 ^ (sh - 1) in
      let q := if (half <? r) || ((r =? half) && Z.odd q) then q + 1 else q in
      if q =? 2 ^ 53 then (2 ^ 52, e + 1) else (q, e) in
  if 1024 <=? e then None else Some ((e + 1023) * 2 ^ 52 + (m - 2 ^ 52)).

Definition inf_bits : Z := 2047 * 2 ^ 52.

(** [float(n)] *)
Definition float_of_int (n : Z) : option pyfloat :=
  if n =? 0 then Some {| float_bits := 0 |}
  else if 0 <? n then option_map (fun b => {| float_bits := b |}) (float_of_positive n)
  else option_map (fun b => {| float_bits := 2 ^ 63 + b |}) (float_of_positive (- n)).

Definition decimal (n : Z) : string :=
  DecimalString.NilZero.string_of_int (Z.to_int n).

(** [str(value)] *)
Definition str (value : pyval) : string :=
  match value with
  | PNone => "None"
  | PBool true => "True"
  | PBool false => "False"
  | PInt n => decimal n
  | PFloat f =>
      match int_of_float f with
      | Some n => if Z.abs n <? 10 ^ 16 then decimal n ++ ".0" else "<float>"
      | None => "<float>"
      end
  | PStr s => s
  | PDateTime _ => "<datetime>"
  | PList _ => "<list>"
  | PDict _ => "<dict>"
  end.

Fixpoint all_zero (s : string) : bool :=
  match s with
  | EmptyString => true
  | String c r => ascii_eqb c "0"%char && all_zero r
  end.

(** [float(s)] for a string: the decimal integers, with an optional
    fraction of zeros.  An integer too large for a finite float gives
    infinity, as in CPython. *)
Definition float_of_str (s : string) : option pyfloat :=
  let s := strip s in
  let (g, rest) := take_int s in
  match g with
  | None => None
  | Some digits =>
      let fraction_ok :=
        match rest with
        | EmptyString => true
        | String c r => ascii_eqb c "."%char && all_zero r
        end in
      if fraction_ok then
        let n := py_int digits in
        match float_of_int n with
        | Some f => Some f
        | None => Some {| float_bits := if 0 <? n then inf_bits else 2 ^ 63 + inf_bits |}
        end
      else None
  end.

Definition epoch : datetime :=
  {| dt_year := 1970; dt_month := 1; dt_day := 1;
     dt_hour := 0; dt_minute := 0; dt_second := 0; dt_microsecond := 0 |}.

Definition runtime : PyRuntime :=
  {| py_str := str;
     py_float := float_of_str;
     py_float_of_int := float_of_int;
     utcfromtimestamp := fun v =>
       match v with
       | PInt 0 => Some epoch
       | _ => None
       end;
     strptime := fun s =>
       if String.eqb s "1970-01-01T00:00:00" then Some epoch else None;
     strftime := fun _ => "1970-01-01T00:00:00";
     utc_timestamp := fun _ => {| float_bits := 0 |} |}.

End ExampleRuntime.

(* ===================================================================== *)
(** * The choice of a collation, in the words of the specification *)
(* ===================================================================== *)

(** A declared collation [(L, R)] admits the types of the two comparables
    when the left type is an allowed source of [L] and the right type an
    allowed source of [R]. *)
Definition admits (cmp1_type cmp2_type : string) (xy : string * string) : Prop :=
  str_in cmp1_type (extract_allowed_types (fst xy)) = true
  /\ str_in cmp2_type (extract_allowed_types (snd xy)) = true.

(** The collation the specification asks for when none is given: the exact
    pair when it is declared; otherwise the first declared pair that admits
    the two types; otherwise none. *)
Inductive chosen_collation (cmp1_type cmp2_type : string) (cts : list (string * string))
  : option (string * string) -> Prop :=
| chosen_exact :
    In (cmp1_type, cmp2_type) cts ->
    chosen_collation cmp1_type cmp2_type cts (Some (cmp1_type, cmp2_type))
| chosen_allowed (pre : list (string * string)) (xy : string * string)
    (post : list (string * string)) :
    ~ In (cmp1_type, cmp2_type) cts ->
    cts = pre ++ xy :: post ->
    admits cmp1_type cmp2_type xy ->
    Forall (fun p => ~ admits cmp1_type cmp2_type p) pre ->
    chosen_collation cmp1_type cmp2_type cts (Some xy)
| chosen_none :
    ~ In (cmp1_type, cmp2_type) cts ->
    Forall (fun p => ~ admits cmp1_type cmp2_type p) cts ->
    chosen_collation cmp1_type cmp2_type cts None.

(** The container after a successful [add_comparer]. *)
Definition with_comparer (self : container) (comparer_name : string)
    (cur_comparer : comparer_def) (selected_collation : string * string)
    (comparable1 comparable2 : value_source) (args : list artifact) : container :=
  with_objects self
    (get_all_objects self ++
     [Comparer {| co_key := comparer_name;
                  co_comparer := cur_comparer;
                  co_selected_collation := selected_collation;
                  co_comparable1 := comparable1;
                  co_comparable2 := comparable2;
                  co_args := values_of args |}]).

(* ===================================================================== *)
(** * The objects of the examples *)
(* ===================================================================== *)

(** The engine of the examples: the builtins over the example runtime. *)
Definition example_engine : BusinessRuleEngine :=
  builtin_engine ExampleRuntime.runtime.

(** [Attribute("a.$val", "String")] and [Constant(5)] of the tests. *)
Definition example_attribute : value_source :=
  Attribute (PStr "a.$val") "String" [].

Definition example_five : value_source :=
  Constant (PFloat {| float_bits := 4617315517961601024 |}) (PInt 5) "Numeric" [].

(** The comparer registered as [equals]. *)
Definition equals_def : comparer_def :=
  {| comparer_method := def "equals" 2 equals;
     collation_types := [("Boolean", "Boolean"); ("String", "String");
                         ("Numeric", "Numeric"); ("DateTime", "DateTime")];
     comparer_pretty_name := "Equals";
     comparer_description := "Checks values are whether equals or not.";
     comparer_params := [];
     value_classes := ["Constant"; "Attribute"];
     comparer_builtin_method := true |}.

(* ===================================================================== *)
(** * Default mappings, in the words of the specification *)
(* ===================================================================== *)

(** What a default mapping writes:
    [parse(output_path.data_type, path_get(row, input_path))] at
    [output_path]. *)
Definition write_default (rt : PyRuntime) (mapping : JsonAttribute * JsonAttribute)
    (row : pyval) : result pyval :=
  v <- parse_call rt (attribute_data_type (snd mapping))
         (get_dot_notation row (dot_specifier (fst mapping))) ;;
  set_dot_notation row (dot_specifier (snd mapping)) v.

(** The mappings whose output path is not in the change set. *)
Definition unassigned (change_set : list string)
    (mappings : list (JsonAttribute * JsonAttribute)) : list (JsonAttribute * JsonAttribute) :=
  filter (fun m => negb (str_in (dot_specifier (snd m)) change_set)) mappings.

(** A path is assigned by an action on a row when, in the run of the
    expressions in their order, some expression holds of the row as it
    stands at its turn and has an action on that path. *)
Inductive assigned_by_action (rt : PyRuntime)
  : list RuleExpression -> pyval -> string -> Prop :=
| assigned_here (e : RuleExpression) (es : list RuleExpression) (row : pyval) (k : string) :
    evaluate rt row (base_container e) = Ok true ->
    In k (map fst (actions e)) ->
    assigned_by_action rt (e :: es) row k
| assigned_later (e : RuleExpression) (es : list RuleExpression) (row row' : pyval)
    (cs : list string) (k : string) :
    run_on_dict rt e row = Ok (row', cs) ->
    assigned_by_action rt es row' k ->
    assigned_by_action rt (e :: es) row k.

Definition example_thirty : value_source :=
  Constant (PFloat {| float_bits := 4629137466983448576 |}) (PInt 30) "Numeric" [].

Definition example_thirty_five : value_source :=
  Constant (PFloat {| float_bits := 4630122629401935872 |}) (PInt 35) "Numeric" [].

(** The program of scenario S2:
    [OrOperatorContainer().add_comparer("equals", Attribute("a.$val", "String"), Constant(5))
       .add_comparer("equals", Attribute("a.$val", "String"), Constant(30))]
    with the action [c := Constant(35)]. *)
Definition example_container : container :=
  with_comparer
    (with_comparer (OrOperatorContainer [] false) "equals" equals_def
       ("String", "String") example_attribute example_five [])
    "equals" equals_def ("String", "String") example_attribute example_thirty [].

Definition example_expression : RuleExpression :=
  {| base_container := example_container; actions := [("c", example_thirty_five)] |}.

Definition example_runner : RuleRunner :=
  {| expressions := [example_expression] |}.

Definition json_attribute (path : string) (direction : JsonAttributeType)
    (data_type name : string) : JsonAttribute :=
  {| dot_specifier := path; attribute_type := direction; attribute_data_type := data_type;
     pretty_name := name; description := EmptyString; read_only := false;
     max_length := None |}.

(** The environment of the tests: input [a.$val], outputs [b] and [c],
    input [d], and the default mapping from [a.$val] to [b]. *)
Definition example_environment : Environment :=
  {| env_attributes :=
       [json_attribute "a.$val" INPUT "String" "A";
        json_attribute "b" OUTPUT "Numeric" "B";
        json_attribute "c" OUTPUT "Numeric" "C";
        json_attribute "d" INPUT "Numeric" "C"];
     env_default_mappings := [(0, 1)] |}.

Definition S2_row : pyval := PDict [("a", PStr "5.0")].

Definition S2_out : pyval :=
  PDict [("a", PStr "5.0");
         ("c", PFloat {| float_bits := 4630122629401935872 |});
         ("b", PFloat {| float_bits := 4617315517961601024 |})].

(* ===================================================================== *)
(** * Type propagation, in the words of the specification *)
(* ===================================================================== *)

(** The first manipulation pair [(in, out)] of a filter whose allowed
    source set contains the current type. *)
Inductive first_pair (cur_type : string) (mt : list (string * string))
  : string * string -> Prop :=
| first_pair_at (pre : list (string * string)) (inp outp : string)
    (post : list (string * string)) :
    mt = pre ++ (inp, outp) :: post ->
    str_in cur_type (extract_allowed_types inp) = true ->
    Forall (fun p => str_in cur_type (extract_allowed_types (fst p)) = false) pre ->
    first_pair cur_type mt (inp, outp).

(** The type threaded through a filter chain: each filter, in order, moves
    the current type to the output of its first admitting pair. *)
Inductive threaded : string -> list filter_step -> string -> Prop :=
| threaded_end (t : string) : threaded t [] t
| threaded_step (t : string) (f : filter_step) (fs : list filter_step)
    (inp outp t' : string) :
    first_pair t (manipulation_types (step_filter f)) (inp, outp) ->
    threaded outp fs t' ->
    threaded t (f :: fs) t'.

(** What the decorator [filter] leaves in the registry: the declared
    pairs, of known types and with distinct inputs, sorted so that the
    inputs that start with [String] come last. *)
Definition registered_filter (fd : filter_def) : Prop :=
  exists declared : list (string * string),
    Forall (fun p => str_in (fst p) ALLOWED_TYPES = true) declared
    /\ no_dup_str (map fst declared) = true
    /\ manipulation_types fd = sort_by_key string_last_key declared.

(** A list in the order of a key. *)
Fixpoint sorted_by {A : Type} (key : A -> Z) (l : list A) : Prop :=
  match l with
  | [] => True
  | x :: t => Forall (fun y => key x <= key y) t /\ sorted_by key t
  end.

(** [bre.get_filters()[name]], for a name that is registered. *)
Definition engine_filter (bre : BusinessRuleEngine) (name : string) : filter_def :=
  match dict_lookup name (system_available_filters bre) with
  | Some fd => fd
  | None =>
      {| filter_method := def EmptyString 0 (fun _ => Raise KeyError);
         manipulation_types := []; filter_pretty_name := EmptyString;
         filter_description := EmptyString; filter_params := [];
         filter_builtin_method := false |}
  end.

Definition string_constant (s : string) : value_source :=
  Constant (PStr s) (PStr s) "String" [].

(** The attribute of scenario S3:
    [Attribute("$transaction_variations", "DictList")
       .add_filter("filter_by_subvalue_include", Constant("formatted_name.$val"),
                   Constant("Color"))
       .add_filter("extract_with_dot_specifier_to_string",
                   Constant("formatted_value.$val"))] *)
Definition S3_attribute : value_source :=
  Attribute (PStr "$transaction_variations") "DictList"
    [FilterStep "filter_by_subvalue_include"
       (engine_filter example_engine "filter_by_subvalue_include")
       [string_constant "formatted_name.$val"; string_constant "Color"];
     FilterStep "extract_with_dot_specifier_to_string"
       (engine_filter example_engine "extract_with_dot_specifier_to_string")
       [string_constant "formatted_value.$val"]].

Definition S3_row : pyval :=
  PDict [("$transaction_variations",
          PList [PDict [("formatted_name", PStr "Primary color");
                        ("formatted_value", PStr "14k Gold")];
                 PDict [("formatted_name", PStr "Length");
                        ("formatted_value", PStr "18 inches")]])].

(* ===================================================================== *)
(** * Reading back what was written, in the words of the specification *)
(* ===================================================================== *)

Fixpoint string_forallb (f : ascii -> bool) (s : string) : bool :=
  match s with
  | EmptyString => true
  | String c r => f c && string_forallb f r
  end.

(** A key that the path language takes as it is written: not empty, not
    the terminator [$val], and free of the dot, the backslash and the
    closing bracket. *)
Definition plain_key (k : string) : bool :=
  negb (is_empty k) && negb (String.eqb k "$val")
  && string_forallb (fun c => negb (ascii_eqb c "."%char) && negb (ascii_eqb c backslash)
                              && negb (ascii_eqb c "]"%char)) k.

(** The specifier that names the keys [ks] one under the other. *)
Definition dotted (ks : list string) : string := String.concat "." ks.


(** A value that [json.dumps] accepts: no [datetime] in it. *)
Fixpoint json_value (x : pyval) : bool :=
  match x with
  | PDateTime _ => false
  | PList l => forallb json_value l
  | PDict d => forallb (fun kv => json_value (snd kv)) d
  | _ => true
  end.


(* ===================================================================== *)
(** * Assignment to a slice, in the words of the specification *)
(* ===================================================================== *)

(** The slots [ps] of [l] are assigned one by one from [vs]: the list keeps
    its length, the slot [ps[i]] holds [vs[i]], every other slot is
    untouched. *)
Definition assigned_elementwise (l l' : list pyval) (ps : list nat) (vs : list pyval)
  : Prop :=
  List.length l' = List.length l
  /\ (forall i p x, nth_error ps i = Some p -> nth_error vs i = Some x ->
                    nth_error l' p = Some x)
  /\ (forall j, ~ In j ps -> nth_error l' j = nth_error l j).

(** The bounds and the step of a subscription that is a slice. *)
Definition slice_of (sub : subscript) : option (option Z * option Z * option Z) :=
  match sub with
  | SubIndex _ => None
  | SubSlice a b => Some (a, b, None)
  | SubStride a b c => Some (a, b, c)
  end.

(** The list a last key with a subscription works on, and how the updated
    list is put back: under the sub-key of a dict, or the node itself when
    there is no sub-key. *)
Definition slice_target (sub_key : string) (attribute : pyval)
  : option (list pyval * (list pyval -> pyval)) :=
  if (0 <? String.length (strip sub_key))%nat then
    match attribute with
    | PDict d =>
        match dict_get sub_key d with
        | PList l => Some (l, fun l' => PDict (dict_set sub_key (PList l') d))
        | _ => None
        end
    | _ => None
    end
  else
    match attribute with
    | PList l => Some (l, PList)
    | _ => None
    end.

(** The store of the example of sharing: the dict [{"k": 1}] at address 0,
    the list [y] that holds it at 1, the list [x] at 2, and at 3 the object
    [obj = {"x": [0, 0], "y": [{"k": 1}]}]. *)
Definition sharing_store : Store.store :=
  [Store.ODict [("k", Store.RInt 1)];
   Store.OList [Store.RObj 0%nat];
   Store.OList [Store.RInt 0; Store.RInt 0];
   Store.ODict [("x", Store.RObj 2%nat); ("y", Store.RObj 1%nat)]].

(* ===================================================================== *)
(** * The round trip through the serialization, in the words of the
      specification *)
(* ===================================================================== *)

(** What [from_dict(to_dict(x))] is expected to build.  A value source comes
    back with its stored value as raw input; a container comes back with
    its sub-containers ahead of its comparers, since [to_dict] files the two
    kinds of members in two lists and [from_dict] adds the sub-containers
    first. *)
Fixpoint rehydrate_value (rt : PyRuntime) (v : value_source) : value_source :=
  let steps (fs : list filter_step) : list filter_step :=
    map (fun f =>
           match f with
           | FilterStep k fd args => FilterStep k fd (map (rehydrate_value rt) args)
           end) fs in
  match v with
  | Constant b _ t fs =>
      Constant b (value_to_json_compatible rt b) t (steps fs)
  | Attribute b t fs =>
      Attribute (value_to_json_compatible rt b) t (steps fs)
  end.

Definition rehydrate_comparer (rt : PyRuntime) (o : compare_object) : compare_object :=
  {| co_key := co_key o;
     co_comparer := co_comparer o;
     co_selected_collation := co_selected_collation o;
     co_comparable1 := rehydrate_value rt (co_comparable1 o);
     co_comparable2 := rehydrate_value rt (co_comparable2 o);
     co_args := map (rehydrate_value rt) (co_args o) |}.

Definition sub_containers_of (objs : list member) : list container :=
  flat_map (fun m => match m with SubContainer c => [c] | Comparer _ => [] end) objs.

Definition comparers_of (objs : list member) : list compare_object :=
  flat_map (fun m => match m with Comparer o => [o] | SubContainer _ => [] end) objs.

Fixpoint rehydrate_container (rt : PyRuntime) (c : container) : container :=
  let members (objs : list member) : list member :=
    flat_map (fun m =>
                match m with
                | SubContainer sub => [SubContainer (rehydrate_container rt sub)]
                | Comparer _ => []
                end) objs
    ++ map (fun o => Comparer (rehydrate_comparer rt o)) (comparers_of objs) in
  match c with
  | AndOperatorContainer objs n => AndOperatorContainer (members objs) n
  | OrOperatorContainer objs n => OrOperatorContainer (members objs) n
  end.

Definition rehydrate_expression (rt : PyRuntime) (e : RuleExpression) : RuleExpression :=
  {| base_container := rehydrate_container rt (base_container e);
     actions := map (fun a => (fst a, rehydrate_value rt (snd a))) (actions e) |}.

Definition rehydrate_runner (rt : PyRuntime) (r : RuleRunner) : RuleRunner :=
  {| expressions := map (rehydrate_expression rt) (expressions r) |}.

Definition rehydrate (rt : PyRuntime) (x : artifact) : artifact :=
  match x with
  | AValue v => AValue (rehydrate_value rt v)
  | AContainer c => AContainer (rehydrate_container rt c)
  | AJsonAttribute a => AJsonAttribute a
  | AEnvironment e => AEnvironment e
  | ARuleExpression e => ARuleExpression (rehydrate_expression rt e)
  | ARuleRunner r => ARuleRunner (rehydrate_runner rt r)
  end.

(** A registry as the decorator [comparer] fills it: the collations of
    every comparer name known types. *)
Definition registered_comparers (bre : BusinessRuleEngine) : Prop :=
  forall k cur,
    dict_lookup k (system_available_comparers bre) = Some cur ->
    Forall (fun xy => str_in (fst xy) ALLOWED_TYPES = true
                      /\ str_in (snd xy) ALLOWED_TYPES = true) (collation_types cur).

(** A value source made with the builders over [bre]: [Constant(...)] or
    [Attribute(...)] with a path that is a string and a known type,
    followed by calls of [add_filter] that succeed, with arguments made the
    same way.  The stored value of a constant is one that survives the
    trip: its parser gives it back from its JSON form. *)
Fixpoint built_value (rt : PyRuntime) (bre : BusinessRuleEngine) (v : value_source) : Prop :=
  let built_steps (fs : list filter_step) : Prop :=
    (fix go (prefix fs : list filter_step) {struct fs} : Prop :=
       match fs with
       | [] => True
       | FilterStep k fd args :: rest =>
           add_filter bre (with_filters v prefix) k (map AValue args)
           = Ok (with_filters v (prefix ++ [FilterStep k fd args]))
           /\ (fix all (xs : list value_source) : Prop :=
                 match xs with
                 | [] => True
                 | x :: t => built_value rt bre x /\ all t
                 end) args
           /\ go (prefix ++ [FilterStep k fd args]) rest
       end) [] fs in
  match v with
  | Constant b _ t fs =>
      str_in t ALLOWED_TYPES = true
      /\ parse_declared rt t (value_to_json_compatible rt b) = Ok b
      /\ built_steps fs
  | Attribute b t fs =>
      str_in t ALLOWED_TYPES = true
      /\ (exists path, b = PStr path)
      /\ built_steps fs
  end.

(** A comparer entry as [add_comparer] appends it, over value sources made
    with the builders. *)
Definition built_comparer (rt : PyRuntime) (bre : BusinessRuleEngine) (o : compare_object)
  : Prop :=
  (exists collation_type self,
      add_comparer bre (co_key o) (AValue (co_comparable1 o)) (AValue (co_comparable2 o))
        collation_type (map AValue (co_args o)) self
      = (Ok tt, with_comparer self (co_key o) (co_comparer o) (co_selected_collation o)
                  (co_comparable1 o) (co_comparable2 o) (map AValue (co_args o))))
  /\ built_value rt bre (co_comparable1 o)
  /\ built_value rt bre (co_comparable2 o)
  /\ Forall (built_value rt bre) (co_args o).

Fixpoint built_container (rt : PyRuntime) (bre : BusinessRuleEngine) (c : container) : Prop :=
  (fix all (objs : list member) : Prop :=
     match objs with
     | [] => True
     | SubContainer sub :: t => built_container rt bre sub /\ all t
     | Comparer o :: t => built_comparer rt bre o /\ all t
     end) (match c with
           | AndOperatorContainer objs _ => objs
           | OrOperatorContainer objs _ => objs
           end).

Definition built_expression (rt : PyRuntime) (bre : BusinessRuleEngine) (e : RuleExpression)
  : Prop :=
  built_container rt bre (base_container e)
  /\ Forall (fun a => built_value rt bre (snd a)) (actions e).

Definition built_runner (rt : PyRuntime) (bre : BusinessRuleEngine) (r : RuleRunner) : Prop :=
  Forall (built_expression rt bre) (expressions r).

(** An environment as [add_attribute] and [add_default_mapping_with_index]
    leave it: no attribute twice, no mapping twice, and every mapping from
    an input to an output of the list. *)
Fixpoint no_dup_by {A : Type} (eqb : A -> A -> bool) (l : list A) : bool :=
  match l with
  | [] => true
  | x :: t => negb (existsb (eqb x) t) && no_dup_by eqb t
  end.

Definition mapping_ok (attrs : list JsonAttribute) (xy : Z * Z) : bool :=
  match list_item attrs (fst xy), list_item attrs (snd xy) with
  | Ok i, Ok o => attribute_type_eqb (attribute_type i) INPUT
                  && attribute_type_eqb (attribute_type o) OUTPUT
  | _, _ => false
  end.

Definition built_environment (env : Environment) : Prop :=
  no_dup_by JsonAttribute_eqb (env_attributes env) = true
  /\ no_dup_by pair_Z_eqb (env_default_mappings env) = true
  /\ forallb (mapping_ok (env_attributes env)) (env_default_mappings env) = true.

Definition built (rt : PyRuntime) (bre : BusinessRuleEngine) (x : artifact) : Prop :=
  match x with
  | AValue v => built_value rt bre v
  | AContainer c => built_container rt bre c
  | AJsonAttribute _ => True
  | AEnvironment e => built_environment e
  | ARuleExpression e => built_expression rt bre e
  | ARuleRunner r => built_runner rt bre r
  end.

(** How deep the calls of [from_dict_facade] nest on [to_dict(x)]. *)
Fixpoint value_depth (v : value_source) : nat :=
  let steps (fs : list filter_step) : nat :=
    fold_right (fun f acc =>
                  match f with
                  | FilterStep _ _ args =>
                      Nat.max (fold_right (fun x a => Nat.max (value_depth x) a) 0%nat args) acc
                  end) 0%nat fs in
  match v with
  | Constant _ _ _ fs => S (steps fs)
  | Attribute _ _ fs => S (steps fs)
  end.

Definition values_depth (vs : list value_source) : nat :=
  fold_right (fun x a => Nat.max (value_depth x) a) 0%nat vs.

Definition comparer_depth (o : compare_object) : nat :=
  Nat.max (value_depth (co_comparable1 o))
    (Nat.max (value_depth (co_comparable2 o)) (values_depth (co_args o))).

Fixpoint container_depth (c : container) : nat :=
  S (fold_right (fun m acc =>
                   Nat.max (match m with
                            | SubContainer sub => container_depth sub
                            | Comparer o => comparer_depth o
                            end) acc) 0%nat
       (match c with
        | AndOperatorContainer objs _ => objs
        | OrOperatorContainer objs _ => objs
        end)).

Definition expression_depth (e : RuleExpression) : nat :=
  S (Nat.max (container_depth (base_container e))
       (values_depth (map snd (actions e)))).

Definition runner_depth (r : RuleRunner) : nat :=
  S (fold_right (fun e a => Nat.max (expression_depth e) a) 0%nat (expressions r)).

Definition artifact_depth (x : artifact) : nat :=
  match x with
  | AValue v => value_depth v
  | AContainer c => container_depth c
  | AJsonAttribute _ => 1
  | AEnvironment _ => 2
  | ARuleExpression e => expression_depth e
  | ARuleRunner r => runner_depth r
  end.

(** Two outcomes that a caller cannot tell apart but by the class of the
    exception: the same result, or an exception on both sides. *)
Definition same_outcome {A : Type} (r1 r2 : result A) : Prop :=
  match r1, r2 with
  | Ok a, Ok b => a = b
  | Raise _, Raise _ => True
  | _, _ => False
  end.

(** Two artifacts behave alike on every row. *)
Definition equivalent (rt : PyRuntime) (x y : artifact) : Prop :=
  match x, y with
  | AValue v, AValue w =>
      forall row, get_value rt row v = get_value rt row w
  | AContainer c, AContainer d =>
      forall row, same_outcome (evaluate rt row c) (evaluate rt row d)
  | AJsonAttribute a, AJsonAttribute b => a = b
  | AEnvironment e, AEnvironment f => e = f
  | ARuleExpression e, ARuleExpression f =>
      forall row, same_outcome (run_on_dict rt e row) (run_on_dict rt f row)
  | ARuleRunner r, ARuleRunner s =>
      forall env row, same_outcome (run_on_row rt r env row) (run_on_row rt s env row)
  | _, _ => False
  end.

(* ===================================================================== *)
(** * Paths that lead through dicts *)
(* ===================================================================== *)

(** The node reached from [obj] by looking the keys [ks] up, one dict under
    the other, as [attribute.get(key)] does; nothing when a node on the way
    is no dict. *)
Fixpoint walk (ks : list string) (obj : pyval) : option pyval :=
  match ks with
  | [] => Some obj
  | k :: rest =>
      match obj with
      | PDict d => walk rest (dict_get k d)
      | _ => None
      end
  end.

(** A value that is neither a list nor a dict. *)
Definition is_scalar (x : pyval) : bool :=
  match x with
  | PList _ | PDict _ => false
  | _ => true
  end.

(** [set_dot_notation] twice in a row. *)
Definition set_twice (obj : pyval) (p : string) (v : pyval) (q : string) (w : pyval)
  : result pyval :=
  r <- set_dot_notation obj p v ;; set_dot_notation r q w.

(** The object [obj] with the node at the end of the keys [ks] replaced by
    [x]; [obj] itself when the keys do not lead through dicts. *)
Fixpoint put (ks : list string) (obj : pyval) (x : pyval) : pyval :=
  match ks with
  | [] => x
  | k :: rest =>
      match obj with
      | PDict d => PDict (dict_set k (put rest (dict_get k d) x) d)
      | _ => obj
      end
  end.

(** The key of a dict that a key of a specifier names when written: the
    text before the subscription, or the whole key when there is none. *)
Definition target_key (key : string) : string :=
  match find_index_specifier false key with
  | Some (start, _) => substring 0 start key
  | None => key
  end.

(** The call of [__set_dot_notation_recursive] at the keys after the first,
    when there are any. *)
Definition deeper_of (rest : list string) (value : pyval)
  : option (pyval -> result pyval) :=
  match rest with
  | [] => None
  | _ :: _ => Some (set_dot_notation_recursive rest value)
  end.

(* ===================================================================== *)
(** * The values of a semantic type *)
(* ===================================================================== *)

(** A value as the parser of the scalar type [T] returns it: [None], or a
    value of the Python type that stands for [T]. *)
Definition scalar_of_type (T : string) (x : pyval) : bool :=
  match x with
  | PNone => true
  | PBool _ => String.eqb T "Boolean"
  | PFloat _ => String.eqb T "Numeric"
  | PStr _ => String.eqb T "String"
  | PDateTime _ => String.eqb T "DateTime"
  | PDict _ => String.eqb T "Dict"
  | _ => false
  end.

(** The type of the elements of a list type. *)
Definition element_type (T : string) : option string :=
  dict_lookup T
    [("BooleanList", "Boolean"); ("NumericList", "Numeric"); ("StringList", "String");
     ("DateTimeList", "DateTime"); ("DictList", "Dict")].

(** A value of the semantic type [T]. *)
Definition of_type (T : string) (x : pyval) : bool :=
  match element_type T with
  | Some E =>
      match x with
      | PList l => forallb (scalar_of_type E) l
      | _ => false
      end
  | None => scalar_of_type T x
  end.

(* ===================================================================== *)
(** * What the registry and the builders accept *)
(* ===================================================================== *)

(** A parameter that [__prepare_params] takes: it has a pretty name, a
    description, a known type, at least one value class, and options that
    [json.dumps] accepts. *)
Definition well_formed_param (p : raw_param) : Prop :=
  rp_pretty_name p <> None
  /\ rp_description p <> None
  /\ (exists ty, rp_type p = Some ty /\ str_in ty ALLOWED_TYPES = true)
  /\ rp_value_classes p <> []
  /\ json_value (rp_meta_options p) = true.

(** Both names of a pair are known types. *)
Definition known_pair (p : string * string) : Prop :=
  str_in (fst p) ALLOWED_TYPES = true /\ str_in (snd p) ALLOWED_TYPES = true.

(** The input of a manipulation pair starts with [String]. *)
Definition string_input (p : string * string) : bool :=
  String.prefix "String" (fst p).

(** An extra argument that a parameter takes: a value source of one of the
    parameter's value classes, whose type the parameter's type admits. *)
Definition accepted_arg (arg : artifact) (p : param) : Prop :=
  exists v t,
    arg = AValue v
    /\ str_in (value_key v) (param_value_classes p) = true
    /\ get_type v = Ok t
    /\ str_in t (extract_allowed_types (param_type p)) = true.

(** The outcome of one member of a container on a row: the element of the
    list comprehension of [evaluate], as [all] and [any] take it. *)
Definition member_outcome (rt : PyRuntime) (row : pyval) (x : member) : result bool :=
  match x with
  | SubContainer sub => evaluate rt row sub
  | Comparer o => r <- evaluate_comparable_obj rt o row ;; Ok (py_truthy r)
  end.

(* ===================================================================== *)
(** * types.py: [Environment.query], [add_default_mapping] and
      [validate_with_environment] *)
(* ===================================================================== *)

(** One test of [query]: [x == attr.field or x is None], for an argument
    that is [None] or of the type of the field. *)
Definition query_matches {A : Type} (eqb : A -> A -> bool) (x : option A) (field : A) : bool :=
  match x with
  | Some v => eqb v field
  | None => true
  end.

(** [query]: the attributes that pass every test, in the order of the
    environment.  The specifier is taken as any value, since
    [Attribute.validate_with_environment] passes its [_base_input]. *)
Definition query (env : Environment) (by_dot_specifier : pyval)
    (by_attribute_type : option JsonAttributeType)
    (by_attribute_data_type by_pretty_name by_description : option string)
    (by_read_only : option bool) : list JsonAttribute :=
  filter
    (fun attr =>
       (py_eq by_dot_specifier (PStr (dot_specifier attr)) || is_None by_dot_specifier)
       && query_matches attribute_type_eqb by_attribute_type (attribute_type attr)
       && query_matches String.eqb by_pretty_name (pretty_name attr)
       && query_matches String.eqb by_description (description attr)
       && query_matches String.eqb by_attribute_data_type (attribute_data_type attr)
       && query_matches Bool.eqb by_read_only (read_only attr))
    (env_attributes env).

(** [Constant.validate_with_environment] and
    [Attribute.validate_with_environment] *)
Fixpoint value_validate_with_environment (environment : Environment) (v : value_source)
  : bool :=
  let args_valid (fs : list filter_step) : bool :=
    forallb (fun filter_obj =>
               match filter_obj with
               | FilterStep _ _ args =>
                   forallb (value_validate_with_environment environment) args
               end) fs in
  match v with
  | Constant _ _ _ fs => args_valid fs
  | Attribute base_input _ fs =>
      if (List.length (query environment base_input (Some INPUT) None None None None) =? 0)%nat
      then false
      else args_valid fs
  end.

(** The branch of the loop of a container for the dict of a comparer. *)
Definition comparer_validate_with_environment (environment : Environment)
    (o : compare_object) : bool :=
  value_validate_with_environment environment (co_comparable1 o)
  && value_validate_with_environment environment (co_comparable2 o)
  && forallb (value_validate_with_environment environment) (co_args o).

(** [AndOperatorContainer.validate_with_environment] and
    [OrOperatorContainer.validate_with_environment] *)
Fixpoint container_validate_with_environment (environment : Environment) (c : container)
  : bool :=
  let members_valid (objs : list member) : bool :=
    forallb (fun compare_object =>
               match compare_object with
               | SubContainer sub => container_validate_with_environment environment sub
               | Comparer o => comparer_validate_with_environment environment o
               end) objs in
  match c with
  | AndOperatorContainer objs _ => members_valid objs
  | OrOperatorContainer objs _ => members_valid objs
  end.

(** [RuleExpression.validate_with_environment] *)
Definition RuleExpression_validate_with_environment (environment : Environment)
    (e : RuleExpression) : bool :=
  if negb (container_validate_with_environment environment (base_container e)) then false
  else
    forallb (fun action =>
               negb (List.length
                       (query environment (PStr (fst action)) (Some OUTPUT) None None None
                          (Some false)) =? 0)%nat
               && value_validate_with_environment environment (snd action))
            (actions e).

(** [RuleRunner.validate_with_environment] *)
Definition RuleRunner_validate_with_environment (environment : Environment)
    (r : RuleRunner) : bool :=
  forallb (RuleExpression_validate_with_environment environment) (expressions r).

(** [x.validate_with_environment(environment)]; a [JsonAttribute] and an
    [Environment] are always valid. *)
Definition validate_with_environment (x : artifact) (environment : Environment) : bool :=
  match x with
  | AValue v => value_validate_with_environment environment v
  | AContainer c => container_validate_with_environment environment c
  | AJsonAttribute _ => true
  | AEnvironment _ => true
  | ARuleExpression e => RuleExpression_validate_with_environment environment e
  | ARuleRunner r => RuleRunner_validate_with_environment environment r
  end.

(** [self._attributes.index(attr)]: the first position of an attribute
    equal to [attr]; [ValueError] when there is none. *)
Fixpoint list_index (attr : JsonAttribute) (l : list JsonAttribute) : result Z :=
  match l with
  | [] => Raise ValueError
  | x :: t =>
      if JsonAttribute_eqb x attr then Ok 0
      else i <- list_index attr t ;; Ok (i + 1)
  end.

(** [add_default_mapping] *)
Definition add_default_mapping (env : Environment)
    (input_attribute output_attribute : JsonAttribute) : result Environment :=
  if negb (attribute_type_eqb (attribute_type input_attribute) INPUT) then Raise ValueError
  else if negb (attribute_type_eqb (attribute_type output_attribute) OUTPUT)
       then Raise ValueError
  else
    i <- list_index input_attribute (env_attributes env) ;;
    o <- list_index output_attribute (env_attributes env) ;;
    add_default_mapping_with_index env i o.

(** [clear_attributes] *)
Definition clear_attributes (env : Environment) : Environment :=
  {| env_attributes := []; env_default_mappings := [] |}.

(** Every default mapping of the environment names an input attribute and
    an output attribute. *)
Definition mappings_typed (env : Environment) : Prop :=
  forallb (mapping_ok (env_attributes env)) (env_default_mappings env) = true.

(* ===================================================================== *)
(** * helpers.py *)
(* ===================================================================== *)

(** [{k: dict_obj[k] for k in dict_obj if keep(k)}]: the new dict is filled
    key by key, in the order of [dict_obj]. *)
Definition dict_comprehension (keep : string -> bool) (dict_obj : list (string * pyval))
  : list (string * pyval) :=
  fold_left
    (fun acc k =>
       if keep k then
         match dict_lookup k dict_obj with
         | Some v => dict_set k v acc
         | None => acc
         end
       else acc)
    (map fst dict_obj) [].

(** [k in keys], for a key of a dict and a list of any values *)
Definition key_in (k : string) (keys : list pyval) : bool :=
  existsb (fun x => py_eq x (PStr k)) keys.

(** [Helper.exclude_keys] *)
Definition exclude_keys (dict_obj : list (string * pyval)) (keys : list pyval)
  : list (string * pyval) :=
  dict_comprehension (fun k => negb (key_in k keys)) dict_obj.

(** [Helper.include_keys] *)
Definition include_keys (dict_obj : list (string * pyval)) (keys : list pyval)
  : list (string * pyval) :=
  dict_comprehension (fun k => key_in k keys) dict_obj.

(** [Helper.base_copy] *)
Definition base_copy (dict_obj : list (string * pyval)) : list (string * pyval) :=
  dict_comprehension (fun _ => true) dict_obj.

(** What a generator that works on one element after the other yields, and
    the exception that ends it when an element raises. *)
Fixpoint yield_each (f : pyval -> result pyval) (xs : list pyval) : list pyval * option exn :=
  match xs with
  | [] => ([], None)
  | x :: t =>
      match f x with
      | Ok y => let (ys, e) := yield_each f t in (y :: ys, e)
      | Raise e => ([], Some e)
      end
  end.

(** The dict that [Helper.prefix_filter] yields for [row]:
    [{k: row[k] for k in row if k.startswith(str(prefix))}].  Only a string
    has [startswith]; only a dict can be read with a string. *)
Definition prefix_filter_row (rt : PyRuntime) (prefix : pyval) (row : pyval) : result pyval :=
  keys <- py_iter row ;;
  d <- fold_result
         (fun k acc =>
            match k with
            | PStr s =>
                if String.prefix (str_of rt prefix) s
                then v <- py_item row s ;; Ok (dict_set s v acc)
                else Ok acc
            | _ => Raise AttributeError
            end) keys [] ;;
  Ok (PDict d).

(** [Helper.prefix_filter] *)
Definition prefix_filter (rt : PyRuntime) (iterable : list pyval) (prefix : pyval)
  : list pyval * option exn :=
  yield_each (prefix_filter_row rt prefix) iterable.

(** [o[k]] for any index *)
Definition py_getitem (o k : pyval) : result pyval :=
  match o with
  | PDict d =>
      match k with
      | PStr s => dict_item s d
      | PList _ | PDict _ => Raise TypeError
      | _ => Raise KeyError
      end
  | PList l =>
      match k with
      | PInt i => list_item l i
      | PBool b => list_item l (bool_int b)
      | _ => Raise TypeError
      end
  | PStr s =>
      match k with
      | PInt i => list_item (chars_of s) i
      | PBool b => list_item (chars_of s) (bool_int b)
      | _ => Raise TypeError
      end
  | _ => Raise TypeError
  end.

(** The two fields of a [DetailDataNormalizer]; the setter of [detail_key]
    stores [str(value)], and the prefix is the [str] of the annotation. *)
Record DetailDataNormalizer : Type := {
  detail_key : string;
  normalized_prefix : string
}.

(** The body of the inner loop of [iterate_on]: the copy of the outer row
    with every key of the inner row written under the prefix.  The right
    side [inner_row[inner_key]] is worked out before the key
    [prefix + inner_key]. *)
Definition normalize_inner (prefix : string) (outer_row : list (string * pyval))
    (inner_row : pyval) : result pyval :=
  inner_keys <- py_iter inner_row ;;
  current_row <-
    fold_result
      (fun inner_key current_row =>
         v <- py_getitem inner_row inner_key ;;
         match inner_key with
         | PStr s => Ok (dict_set (prefix ++ s) v current_row)
         | _ => Raise TypeError
         end) inner_keys (base_copy outer_row) ;;
  Ok (PDict current_row).

(** The rows yielded for one outer row. *)
Definition iterate_on_row (n : DetailDataNormalizer) (outer_row : pyval)
  : list pyval * option exn :=
  match (d <- py_item outer_row (detail_key n) ;; py_iter d) with
  | Raise e => ([], Some e)
  | Ok inner_rows =>
      match outer_row with
      | PDict outer => yield_each (normalize_inner (normalized_prefix n) outer) inner_rows
      | _ => ([], Some TypeError)
      end
  end.

(** [DetailDataNormalizer.iterate_on] *)
Fixpoint iterate_on (n : DetailDataNormalizer) (iterable : list pyval)
  : list pyval * option exn :=
  match iterable with
  | [] => ([], None)
  | outer_row :: rest =>
      let (ys, e) := iterate_on_row n outer_row in
      match e with
      | Some _ => (ys, e)
      | None => let (zs, e') := iterate_on n rest in (ys ++ zs, e')
      end
  end.

(** [k] without the prefix [p], when it starts with it. *)
Fixpoint strip_prefix (p k : string) : option string :=
  match p with
  | EmptyString => Some k
  | String c p' =>
      match k with
      | String c' k' => if Ascii.eqb c c' then strip_prefix p' k' else None
      | EmptyString => None
      end
  end.

(** The pairs of an outer row and one of its detail rows, in the order in
    which [iterate_on] meets them; outer rows without a list of details
    under the key give none. *)
Definition detail_pairs (key : string) (rows : list pyval)
  : list (list (string * pyval) * pyval) :=
  flat_map (fun outer_row =>
              match outer_row with
              | PDict outer =>
                  match dict_lookup key outer with
                  | Some (PList inner_rows) => map (fun inner => (outer, inner)) inner_rows
                  | _ => []
                  end
              | _ => []
              end) rows.

(* ===================================================================== *)
(** * The round trip of a value source, step by step *)
(* ===================================================================== *)

(** The filter chain of [rehydrate_value]: the same filters, each with its
    arguments rehydrated. *)
Definition rehydrate_steps (rt : PyRuntime) (fs : list filter_step) : list filter_step :=
  map (fun f =>
         match f with
         | FilterStep k fd args => FilterStep k fd (map (rehydrate_value rt) args)
         end) fs.

(** The filters [fs] were added one after the other by [add_filter], to the
    value source [v] that had the filters [prefix], with arguments made by
    the builders. *)
Fixpoint built_steps_from (rt : PyRuntime) (bre : BusinessRuleEngine) (v : value_source)
    (prefix fs : list filter_step) : Prop :=
  match fs with
  | [] => True
  | FilterStep k fd args :: rest =>
      add_filter bre (with_filters v prefix) k (map AValue args)
      = Ok (with_filters v (prefix ++ [FilterStep k fd args]))
      /\ Forall (built_value rt bre) args
      /\ built_steps_from rt bre v (prefix ++ [FilterStep k fd args]) rest
  end.

(** [[x.to_dict() ...]] over a filter chain, as [to_dict] builds the list
    under ["filters"]. *)
Definition filters_to_dict (rt : PyRuntime) (fs : list filter_step) : list pyval :=
  map (fun filt =>
         match filt with
         | FilterStep key _ args =>
             PDict [("filter_key", PStr key);
                    ("args", PList (map (value_to_dict rt) args))]
         end) fs.

(** The deepest argument of a filter chain. *)
Definition steps_depth (fs : list filter_step) : nat :=
  fold_right (fun f acc => Nat.max (values_depth (step_args f)) acc) 0%nat fs.

(* ===================================================================== *)
(** * Properties *)
(* ===================================================================== *)

Unset Implicit Arguments.

(** ** The result monad *)

Lemma bind_Ok_inv {A B : Type} (r : result A) (k : A -> result B) (b : B) :
  bind r k = Ok b -> exists a, r = Ok a /\ k a = Ok b.
Proof.
  destruct r as [a|e]; simpl; intros H.
  - exists a. split; [reflexivity | exact H].
  - discriminate H.
Qed.

Lemma map_result_Ok_length {A B : Type} (f : A -> result B) (xs : list A) (ys : list B) :
  map_result f xs = Ok ys -> List.length ys = List.length xs.
Proof.
  revert ys. induction xs as [|x t IH]; simpl; intros ys H.
  - inversion H. reflexivity.
  - apply bind_Ok_inv in H. destruct H as [y [_ H]].
    apply bind_Ok_inv in H. destruct H as [ys' [Ht H]].
    inversion H. subst. simpl. f_equal. apply IH. exact Ht.
Qed.

(** ** Scenario S4: reading with a slice, through a list, and with [$val] *)

Definition S4_slice_row : pyval :=
  PDict [("x", PList [PInt 10; PInt 20; PInt 30; PInt 40])].

Definition S4_lift_row : pyval :=
  PDict [("x", PList [PDict [("k", PInt 1)]; PDict [("k", PInt 2)]])].

Definition S4_val_row : pyval :=
  PDict [("x", PList [PInt 10; PInt 20; PInt 30])].

(** C3.  The three readings of scenario S4: the slice [x[1:3]] of
    [10, 20, 30, 40] is [20, 30]; the key [k] read through the list under
    [x] gives [1, 2]; and [x[0].$val] gives the bare 10. *)
Theorem get_dot_notation_S4 :
  get_dot_notation S4_slice_row "x[1:3]" = Ok (PList [PInt 20; PInt 30])
  /\ get_dot_notation S4_lift_row "x.k" = Ok (PList [PInt 1; PInt 2])
  /\ get_dot_notation S4_val_row "x[0].$val" = Ok (PInt 10).
Proof.
  repeat split; vm_compute; reflexivity.
Qed.

(** ** The parsers on [None] *)

Definition scalar_types : list string :=
  ["Boolean"; "Numeric"; "String"; "DateTime"; "Dict"].

Definition list_types : list string :=
  ["BooleanList"; "NumericList"; "StringList"; "DateTimeList"; "DictList"].

(** C10.  Whatever the runtime, the parser of every scalar type returns
    [None] on [None], and so does the implicit conversion to that type; the
    parser of every list type raises [ParseError] on [None]. *)
Theorem parse_None :
  forall rt : PyRuntime,
    Forall (fun T => parse rt T PNone = Ok PNone
                     /\ implicit_parse rt PNone T = Ok PNone) scalar_types
    /\ Forall (fun T => parse rt T PNone = Raise ParseError) list_types.
Proof.
  intros rt. split.
  - repeat constructor.
  - repeat constructor.
Qed.

(** ** Auto-detection of the type of a constant *)

Lemma TYPE_PARSERS_order (rt : PyRuntime) :
  map fst (TYPE_PARSERS rt) =
  ["BooleanList"; "NumericList"; "DateTimeList"; "DictList"; "StringList";
   "Boolean"; "Numeric"; "DateTime"; "Dict"; "String"].
Proof. reflexivity. Qed.

(** [try_parsers] returns the outcome of the first parser that does not
    raise [ParseError]. *)
Lemma try_parsers_Ok (parsers : list (string * (pyval -> result pyval))) (value parsed : pyval)
    (k : string) :
  try_parsers parsers value = Ok (parsed, k) <->
  exists pre p post,
    parsers = pre ++ (k, p) :: post
    /\ Forall (fun kp => snd kp value = Raise ParseError) pre
    /\ p value = Ok parsed.
Proof.
  induction parsers as [|[k' p'] t IH]; simpl.
  - split; [discriminate|].
    intros [pre [p [post [H _]]]]. destruct pre; discriminate H.
  - split.
    + destruct (p' value) as [v|e] eqn:E.
      * intros H. inversion H; subst.
        exists [], p', t. repeat split; [constructor | exact E].
      * destruct e; try discriminate.
        intros H. apply IH in H. destruct H as [pre [p [post [H1 [H2 H3]]]]].
        exists ((k', p') :: pre), p, post. subst. repeat split; [|exact H3].
        constructor; [exact E | exact H2].
    + intros [pre [p [post [H1 [H2 H3]]]]].
      destruct pre as [|[k0 p0] pre].
      * simpl in H1. inversion H1; subst. rewrite H3. reflexivity.
      * simpl in H1. inversion H1; subst. inversion H2; subst. simpl in H4.
        rewrite H4. apply IH. exists pre, p, post. auto.
Qed.

(** Which exceptions the parsers raise: every parser but the two for
    strings raises [ParseError] only. *)
Lemma parse_list_with_raises (parse1 : pyval -> result pyval) (value : pyval) (e : exn) :
  (forall x e', parse1 x = Raise e' -> e' = ParseError) ->
  parse_list_with parse1 value = Raise e -> e = ParseError.
Proof.
  intros Hp. destruct value; simpl; try (intros H; inversion H; reflexivity).
  induction l as [|x t IH]; simpl; [discriminate|].
  destruct (parse1 x) as [y|e'] eqn:E; simpl.
  - destruct (map_result parse1 t) as [ys|e'']; simpl; [discriminate|].
    intros H. inversion H; subst. apply IH. reflexivity.
  - intros H. inversion H; subst. eapply Hp. exact E.
Qed.

Lemma parse_boolean_raises (x : pyval) (e : exn) :
  parse_boolean x = Raise e -> e = ParseError.
Proof. destruct x; simpl; intros H; inversion H; reflexivity. Qed.

Lemma parse_dict_raises (x : pyval) (e : exn) :
  parse_dict x = Raise e -> e = ParseError.
Proof. destruct x; simpl; intros H; inversion H; reflexivity. Qed.

Lemma parse_numeric_raises (rt : PyRuntime) (x : pyval) (e : exn) :
  parse_numeric rt x = Raise e -> e = ParseError.
Proof.
  unfold parse_numeric.
  destruct x; try discriminate;
    destruct (py_float rt _); intros H; inversion H; reflexivity.
Qed.

Lemma parse_datetime_raises (rt : PyRuntime) (x : pyval) (e : exn) :
  parse_datetime rt x = Raise e -> e = ParseError.
Proof.
  unfold parse_datetime.
  destruct x; try discriminate;
    match goal with
    | |- context [utcfromtimestamp rt ?v] => destruct (utcfromtimestamp rt v)
    | |- context [strptime rt ?v] => destruct (strptime rt v)
    end; intros H; inversion H; reflexivity.
Qed.

Lemma parse_string_raises (rt : PyRuntime) (x : pyval) (e : exn) :
  parse_string rt x = Raise e ->
  e = OverflowError /\ exists n, x = PInt n /\ py_float_of_int rt n = None.
Proof.
  destruct x; simpl; try discriminate.
  destruct (py_float_of_int rt n) eqn:E; [discriminate|].
  intros H. inversion H. split; [reflexivity|]. exists n. auto.
Qed.

Lemma try_parsers_Raise (parsers : list (string * (pyval -> result pyval))) (value : pyval)
    (e : exn) :
  try_parsers parsers value = Raise e ->
  (e = RuleCreationError /\ Forall (fun kp => snd kp value = Raise ParseError) parsers)
  \/ (e <> ParseError /\ exists kp, In kp parsers /\ snd kp value = Raise e).
Proof.
  induction parsers as [|[k p] t IH]; simpl; intros H.
  - left. inversion H. split; [reflexivity | constructor].
  - destruct (p value) as [v|e'] eqn:E; [discriminate|].
    assert (D : e' = ParseError \/ e' <> ParseError).
    { destruct e'; (left; reflexivity) || (right; discriminate). }
    destruct D as [D|D].
    + subst e'. destruct (IH H) as [[He Hall]|[Hne [kp [Hin Hkp]]]].
      * left. split; [exact He|]. constructor; [exact E | exact Hall].
      * right. split; [exact Hne|]. exists kp. split; [right; exact Hin | exact Hkp].
    + right. assert (e' = e) by (destruct e'; try congruence; inversion H; reflexivity).
      subst e'. split; [exact D|]. exists (k, p). split; [left; reflexivity | exact E].
Qed.

(** The auto-detection never ends in its own [RuleCreationError]: the
    last parser, for [String], does not raise [ParseError].  The only
    exception that leaves it is the [OverflowError] of [parse_string]. *)
Lemma try_extract_type_raises (rt : PyRuntime) (value : pyval) (e : exn) :
  _try_extract_type rt value = Raise e -> e = OverflowError.
Proof.
  intros H. apply try_parsers_Raise in H.
  destruct H as [[_ Hall]|[Hne [kp [Hin Hkp]]]].
  - exfalso.
    assert (Hs : parse_string rt value = Raise ParseError).
    { rewrite Forall_forall in Hall.
      apply (Hall ("String", parse_string rt)). simpl. tauto. }
    apply parse_string_raises in Hs. destruct Hs as [Hs _]. discriminate Hs.
  - unfold TYPE_PARSERS in Hin. simpl in Hin.
    assert (Hl : forall x e', parse_string rt x = Raise e' -> e' = OverflowError).
    { intros x e' Hx. apply parse_string_raises in Hx. tauto. }
    repeat (destruct Hin as [Hin|Hin]; [subst kp; simpl in Hkp |]); try contradiction.
    + apply parse_list_with_raises in Hkp; [contradiction | apply parse_boolean_raises].
    + apply parse_list_with_raises in Hkp;
        [contradiction | apply parse_numeric_raises].
    + apply parse_list_with_raises in Hkp;
        [contradiction | apply parse_datetime_raises].
    + apply parse_list_with_raises in Hkp; [contradiction | apply parse_dict_raises].
    + unfold parse_string_list, parse_list_with in Hkp.
      destruct value; try (inversion Hkp; subst; contradiction).
      clear Hne. induction l as [|x t IH]; simpl in Hkp; [discriminate|].
      destruct (parse_string rt x) as [y|e'] eqn:E; simpl in Hkp.
      * destruct (map_result (parse_string rt) t) as [ys|e'']; simpl in Hkp;
          [discriminate|].
        apply IH. rewrite <- Hkp. reflexivity.
      * inversion Hkp; subst. eapply Hl. exact E.
    + apply parse_boolean_raises in Hkp. contradiction.
    + apply parse_numeric_raises in Hkp. contradiction.
    + apply parse_datetime_raises in Hkp. contradiction.
    + apply parse_dict_raises in Hkp. contradiction.
    + eapply Hl. exact Hkp.
Qed.

Definition overflow_input : pyval := PList [PInt (10 ^ 400); PStr "a"].

(** C6.  Where the claim fails: a list that holds an integer too large
    for a float next to a string that is no number.  The four list parsers
    ahead of [StringList] raise [ParseError]; the parser for [StringList]
    turns the integer into a float first and raises [OverflowError], which
    [_try_extract_type] does not catch.  The [Constant] is not built,
    although the parser for [String], the last of the ten, accepts the
    list. *)
Theorem try_extract_type_overflow :
  forall rt : PyRuntime,
    py_float_of_int rt (10 ^ 400) = None ->
    py_float rt "a" = None ->
    strptime rt "a" = None ->
    _try_extract_type rt overflow_input = Raise OverflowError
    /\ Constant_init rt overflow_input None = Raise OverflowError
    /\ exists s, parse_string rt overflow_input = Ok (PStr s).
Proof.
  intros rt Hint Hfloat Htime.
  assert (H : _try_extract_type rt overflow_input = Raise OverflowError).
  { unfold _try_extract_type, TYPE_PARSERS, try_parsers, overflow_input.
    replace (parse_boolean_list (PList [PInt (10 ^ 400); PStr "a"]))
      with (@Raise pyval ParseError) by reflexivity.
    replace (parse_numeric_list rt (PList [PInt (10 ^ 400); PStr "a"]))
      with (@Raise pyval ParseError).
    2:{ unfold parse_numeric_list, parse_list_with, map_result, parse_numeric, str_of.
        destruct (py_float rt (py_str rt (PInt (10 ^ 400)))); simpl;
          [rewrite Hfloat|]; reflexivity. }
    replace (parse_datetime_list rt (PList [PInt (10 ^ 400); PStr "a"]))
      with (@Raise pyval ParseError).
    2:{ unfold parse_datetime_list, parse_list_with, map_result, parse_datetime, str_of.
        destruct (utcfromtimestamp rt (PInt (10 ^ 400))); simpl;
          [rewrite Htime|]; reflexivity. }
    replace (parse_dict_list (PList [PInt (10 ^ 400); PStr "a"]))
      with (@Raise pyval ParseError) by reflexivity.
    replace (parse_string_list rt (PList [PInt (10 ^ 400); PStr "a"]))
      with (@Raise pyval OverflowError).
    2:{ unfold parse_string_list, parse_list_with, map_result, parse_string.
        rewrite Hint. reflexivity. }
    reflexivity. }
  split; [exact H|]. split.
  - unfold Constant_init. rewrite H. reflexivity.
  - eexists. reflexivity.
Qed.

Lemma try_extract_type_overflow_witness :
  _try_extract_type ExampleRuntime.runtime overflow_input = Raise OverflowError
  /\ Constant_init ExampleRuntime.runtime overflow_input None = Raise OverflowError
  /\ exists s, parse_string ExampleRuntime.runtime overflow_input = Ok (PStr s).
Proof.
  apply (try_extract_type_overflow ExampleRuntime.runtime); vm_compute; reflexivity.
Defined.

(** ** The collation of a comparer *)

Lemma find_exact_Some (t1 t2 : string) (cts : list (string * string)) (xy : string * string) :
  find_exact t1 t2 cts = Some xy -> xy = (t1, t2) /\ In (t1, t2) cts.
Proof.
  induction cts as [|[x y] t IH]; simpl; [discriminate|].
  destruct (String.eqb x t1) eqn:E1; simpl.
  - destruct (String.eqb y t2) eqn:E2.
    + apply String.eqb_eq in E1. apply String.eqb_eq in E2. subst.
      intros H. inversion H. split; [reflexivity | left; reflexivity].
    + intros H. destruct (IH H) as [H1 H2]. split; [exact H1 | right; exact H2].
  - intros H. destruct (IH H) as [H1 H2]. split; [exact H1 | right; exact H2].
Qed.

Lemma find_exact_None (t1 t2 : string) (cts : list (string * string)) :
  find_exact t1 t2 cts = None -> ~ In (t1, t2) cts.
Proof.
  induction cts as [|[x y] t IH]; simpl; [tauto|].
  destruct (String.eqb x t1) eqn:E1; simpl.
  - destruct (String.eqb y t2) eqn:E2; [discriminate|].
    intros H [Hin|Hin]; [|exact (IH H Hin)].
    inversion Hin; subst. rewrite String.eqb_refl in E2. discriminate.
  - intros H [Hin|Hin]; [|exact (IH H Hin)].
    inversion Hin; subst. rewrite String.eqb_refl in E1. discriminate.
Qed.

Lemma admits_dec (t1 t2 : string) (xy : string * string) :
  (str_in t1 (extract_allowed_types (fst xy))
   && str_in t2 (extract_allowed_types (snd xy)) = true <-> admits t1 t2 xy).
Proof. unfold admits. apply andb_true_iff. Qed.

Lemma find_allowed_Some (t1 t2 : string) (cts : list (string * string)) (xy : string * string) :
  find_allowed t1 t2 cts = Some xy ->
  exists pre post,
    cts = pre ++ xy :: post /\ admits t1 t2 xy
    /\ Forall (fun p => ~ admits t1 t2 p) pre.
Proof.
  induction cts as [|[x y] t IH]; simpl; [discriminate|].
  destruct (str_in t1 (extract_allowed_types x) && str_in t2 (extract_allowed_types y))
    eqn:E.
  - intros H. inversion H; subst. exists [], t.
    split; [reflexivity|]. split; [|constructor].
    apply (admits_dec t1 t2 (x, y)). exact E.
  - intros H. destruct (IH H) as [pre [post [H1 [H2 H3]]]].
    exists ((x, y) :: pre), post. subst. split; [reflexivity|]. split; [exact H2|].
    constructor; [|exact H3].
    intros Ha. apply (admits_dec t1 t2 (x, y)) in Ha. simpl in Ha. congruence.
Qed.

Lemma find_allowed_None (t1 t2 : string) (cts : list (string * string)) :
  find_allowed t1 t2 cts = None -> Forall (fun p => ~ admits t1 t2 p) cts.
Proof.
  induction cts as [|[x y] t IH]; simpl; [constructor|].
  destruct (str_in t1 (extract_allowed_types x) && str_in t2 (extract_allowed_types y))
    eqn:E; [discriminate|].
  intros H. constructor; [|exact (IH H)].
  intros Ha. apply (admits_dec t1 t2 (x, y)) in Ha. simpl in Ha. congruence.
Qed.

(** The search of [add_comparer] finds the collation the specification
    describes. *)
Lemma select_collation_chosen (cur : comparer_def) (t1 t2 : string) :
  exists sel,
    chosen_collation t1 t2 (collation_types cur) sel
    /\ select_collation cur t1 t2 None =
       match sel with
       | Some xy => Ok xy
       | None => Raise RuleCreationError
       end.
Proof.
  unfold select_collation.
  destruct (find_exact t1 t2 (collation_types cur)) as [xy|] eqn:E.
  - apply find_exact_Some in E. destruct E as [-> Hin].
    exists (Some (t1, t2)). split; [constructor; exact Hin | reflexivity].
  - apply find_exact_None in E.
    destruct (find_allowed t1 t2 (collation_types cur)) as [xy|] eqn:F.
    + apply find_allowed_Some in F. destruct F as [pre [post [H1 [H2 H3]]]].
      exists (Some xy). split; [|reflexivity].
      eapply chosen_allowed; eassumption.
    + apply find_allowed_None in F.
      exists None. split; [|reflexivity]. apply chosen_none; assumption.
Qed.

(** Whatever its arguments, [add_comparer] leaves the container as it was
    when it raises. *)
Lemma add_comparer_raise_unchanged (bre : BusinessRuleEngine) (comparer_name : string)
    (comparable1 comparable2 : artifact) (collation_type : option (list pyval))
    (args : list artifact) (self st : container) (e : exn) :
  add_comparer bre comparer_name comparable1 comparable2 collation_type args self
  = (Raise e, st) -> st = self.
Proof.
  unfold add_comparer, m_bind, m_raise_if, m_lift, m_raise, m_ret, m_get, m_put.
  repeat match goal with
         | |- context [if ?b then _ else _] => destruct b
         | |- context [match ?r with Ok _ => _ | Raise _ => _ end] => destruct r
         | |- context [match ?a with AValue _ => _ | _ => _ end] => destruct a
         end;
    intros H; inversion H; reflexivity.
Qed.

(** C8.  [add_comparer] without a collation, on a registered comparer,
    an [Attribute] on the left and a right side of an accepted class: the
    declared collations are searched in order, first for the exact pair of
    the two types, then for the first pair that admits them.  When neither
    search finds one, [RuleCreationError] is raised; when one is found and
    the arguments pass their checks, the comparer is appended with that
    collation; and whenever the call raises, the container is unchanged. *)
Theorem add_comparer_searches_collations :
  forall (bre : BusinessRuleEngine) (comparer_name : string)
         (comparable1 comparable2 : value_source) (args : list artifact)
         (self : container) (cur_comparer : comparer_def) (cmp1_type cmp2_type : string),
    dict_lookup comparer_name (system_available_comparers bre) = Some cur_comparer ->
    value_key comparable1 = "Attribute" ->
    str_in (value_key comparable2) (value_classes cur_comparer) = true ->
    get_type comparable1 = Ok cmp1_type ->
    get_type comparable2 = Ok cmp2_type ->
    let outcome :=
      add_comparer bre comparer_name (AValue comparable1) (AValue comparable2) None
        args self in
    (exists sel,
        chosen_collation cmp1_type cmp2_type (collation_types cur_comparer) sel
        /\ match sel with
           | None => outcome = (Raise RuleCreationError, self)
           | Some xy =>
               List.length (comparer_params cur_comparer) = List.length args ->
               check_args 0 (comparer_params cur_comparer) args = Ok [] ->
               outcome = (Ok tt, with_comparer self comparer_name cur_comparer xy
                                   comparable1 comparable2 args)
           end)
    /\ (forall e st, outcome = (Raise e, st) -> st = self).
Proof.
  intros bre name c1 c2 args self cur t1 t2 Hreg Hk1 Hk2 Ht1 Ht2 outcome.
  split.
  - destruct (select_collation_chosen cur t1 t2) as [sel [Hsel Hcode]].
    exists sel. split; [exact Hsel|].
    subst outcome.
    cbv [add_comparer m_bind m_raise_if m_lift m_raise m_ret m_get m_put
         dict_mem dict_item artifact_key artifact_get_type].
    rewrite Hreg. cbv beta iota. rewrite Hk1. cbv beta iota.
    change (String.eqb "Attribute" "Attribute") with true. cbv beta iota.
    rewrite Hk2. cbv beta iota. rewrite Ht1, Ht2. cbv beta iota. rewrite Hcode.
    destruct sel as [xy|]; [|reflexivity].
    intros Hlen Hargs. rewrite Hlen, Nat.eqb_refl. cbv beta iota.
    rewrite Hargs. reflexivity.
  - intros e st H. eapply add_comparer_raise_unchanged. exact H.
Qed.

Lemma example_engine_equals :
  dict_lookup "equals" (system_available_comparers example_engine) = Some equals_def.
Proof. reflexivity. Qed.

Lemma example_values_built :
  Attribute_init (PStr "a.$val") "String" = Ok example_attribute
  /\ Constant_init ExampleRuntime.runtime (PInt 5) None = Ok example_five.
Proof. split; vm_compute; reflexivity. Qed.

Lemma add_comparer_searches_collations_witness :
  let outcome :=
    add_comparer example_engine "equals" (AValue example_attribute) (AValue example_five)
      None [] (AndOperatorContainer [] false) in
  (exists sel,
      chosen_collation "String" "Numeric" (collation_types equals_def) sel
      /\ match sel with
         | None => outcome = (Raise RuleCreationError, AndOperatorContainer [] false)
         | Some xy =>
             List.length (comparer_params equals_def) = List.length (@nil artifact) ->
             check_args 0 (comparer_params equals_def) [] = Ok [] ->
             outcome = (Ok tt, with_comparer (AndOperatorContainer [] false) "equals"
                                 equals_def xy example_attribute example_five [])
         end)
  /\ (forall e st, outcome = (Raise e, st) -> st = AndOperatorContainer [] false).
Proof.
  apply (add_comparer_searches_collations example_engine "equals" example_attribute
           example_five [] (AndOperatorContainer [] false) equals_def
           "String" "Numeric").
  - exact example_engine_equals.
  - reflexivity.
  - reflexivity.
  - reflexivity.
  - reflexivity.
Defined.

(** ** The run of a rule program on a row *)

Lemma str_in_In (x : string) (xs : list string) : str_in x xs = true <-> In x xs.
Proof.
  unfold str_in. rewrite existsb_exists. split.
  - intros [y [Hin Heq]]. apply String.eqb_eq in Heq. subst. exact Hin.
  - intros Hin. exists x. split; [exact Hin | apply String.eqb_refl].
Qed.

Lemma set_add_In (k x : string) (s : list string) :
  In k (set_add x s) <-> k = x \/ In k s.
Proof.
  unfold set_add. destruct (str_in x s) eqn:E.
  - apply str_in_In in E. split; [tauto|]. intros [->|H]; assumption.
  - rewrite in_app_iff. simpl. split; intros H; intuition congruence.
Qed.

Lemma set_update_In (k : string) (xs s : list string) :
  In k (set_update s xs) <-> In k s \/ In k xs.
Proof.
  unfold set_update. revert s. induction xs as [|x t IH]; intros s; simpl.
  - tauto.
  - rewrite IH, set_add_In. intuition congruence.
Qed.

(** The change set of the loop over the actions: the keys of the actions,
    on top of what it held. *)
Lemma actions_change_set (rt : PyRuntime) (acts : list (string * value_source))
    (row row' : pyval) (cs0 cs : list string) (k : string) :
  fold_result
    (fun action st =>
       let (row, change_set) := st : pyval * list string in
       v <- get_value rt row (snd action) ;;
       row' <- set_dot_notation row (fst action) v ;;
       Ok (row', set_add (fst action) change_set))
    acts (row, cs0) = Ok (row', cs) ->
  (In k cs <-> In k cs0 \/ In k (map fst acts)).
Proof.
  revert row cs0. induction acts as [|a t IH]; simpl; intros row cs0 H.
  - inversion H; subst. tauto.
  - apply bind_Ok_inv in H. destruct H as [[row1 cs1] [H1 H2]].
    apply bind_Ok_inv in H1. destruct H1 as [v [_ H1]].
    apply bind_Ok_inv in H1. destruct H1 as [r [_ H1]].
    inversion H1; subst. rewrite (IH _ _ H2), set_add_In. intuition congruence.
Qed.

Lemma run_on_dict_change_set (rt : PyRuntime) (e : RuleExpression) (row row' : pyval)
    (cs : list string) (k : string) :
  run_on_dict rt e row = Ok (row', cs) ->
  (In k cs <-> evaluate rt row (base_container e) = Ok true /\ In k (map fst (actions e))).
Proof.
  unfold run_on_dict. intros H.
  apply bind_Ok_inv in H. destruct H as [b [Hb H]]. destruct b.
  - apply actions_change_set with (k := k) in H. simpl in H. tauto.
  - inversion H; subst. simpl. split; [tauto|]. intros [E _]. congruence.
Qed.

(** The accumulated change set holds exactly the paths that an action
    assigned. *)
Lemma run_expressions_change_set (rt : PyRuntime) (es : list RuleExpression)
    (row row' : pyval) (g0 g : list string) (k : string) :
  fold_result
    (fun expression st =>
       let (current_row, global_change_set) := st : pyval * list string in
       '(current_row, change_set) <- run_on_dict rt expression current_row ;;
       Ok (current_row, set_update global_change_set change_set))
    es (row, g0) = Ok (row', g) ->
  (In k g <-> In k g0 \/ assigned_by_action rt es row k).
Proof.
  revert row g0. induction es as [|e t IH]; simpl; intros row g0 H.
  - inversion H; subst. split; [tauto|]. intros [Hin|Ha]; [exact Hin | inversion Ha].
  - apply bind_Ok_inv in H. destruct H as [[row1 g1] [H1 H2]].
    apply bind_Ok_inv in H1. destruct H1 as [[row2 cs] [Hrun H1]].
    inversion H1; subst.
    rewrite (IH _ _ H2), set_update_In.
    pose proof (run_on_dict_change_set rt e row _ _ k Hrun) as Hcs.
    split.
    + intros [[Hin|Hin]|Ha].
      * left. exact Hin.
      * right. apply Hcs in Hin. destruct Hin as [Hev Hk].
        apply assigned_here; assumption.
      * right. eapply assigned_later; eassumption.
    + intros [Hin|Ha]; [left; left; exact Hin|].
      inversion Ha; subst.
      * left. right. apply Hcs. split; assumption.
      * right. rewrite Hrun in H3. inversion H3; subst. assumption.
Qed.

(** The loop over the default mappings writes for the mappings whose
    output path is not in the change set, and for no other. *)
Lemma default_mappings_unassigned (rt : PyRuntime) (g : list string)
    (ms : list (JsonAttribute * JsonAttribute)) (row : pyval) :
  fold_result (apply_default_mapping rt g) ms row
  = fold_result (write_default rt) (unassigned g ms) row.
Proof.
  revert row. induction ms as [|[i o] t IH]; intros row; simpl; [reflexivity|].
  unfold apply_default_mapping at 1.
  destruct (negb (str_in (dot_specifier o) g)) eqn:E; simpl.
  - unfold write_default at 1. simpl.
    destruct (parse_call rt (attribute_data_type o)
                (get_dot_notation row (dot_specifier i))) as [v|e]; simpl; [|reflexivity].
    destruct (set_dot_notation row (dot_specifier o) v) as [r|e]; simpl; [|reflexivity].
    apply IH.
  - apply IH.
Qed.

(** C9.  A row that [run_on_iterable] yields: the expressions run first,
    in their order, and give a row and a change set; the change set holds
    exactly the paths assigned by an action on that row; then the default
    mappings whose output path is not in the change set, and only these,
    write the parsed value read at their input path.  No mapping that
    writes has an output path that an action assigned. *)
Theorem run_on_row_default_mappings :
  forall (rt : PyRuntime) (runner : RuleRunner) (environment : Environment)
         (row out : pyval),
    run_on_row rt runner environment row = Ok out ->
    exists row' change_set mappings,
      run_expressions rt (expressions runner) row = Ok (row', change_set)
      /\ get_all_default_mappings environment = Ok mappings
      /\ (forall k, In k change_set <->
                    assigned_by_action rt (expressions runner) row k)
      /\ fold_result (write_default rt) (unassigned change_set mappings) row' = Ok out
      /\ (forall m, In m (unassigned change_set mappings) ->
                    In m mappings
                    /\ ~ assigned_by_action rt (expressions runner) row
                           (dot_specifier (snd m))).
Proof.
  intros rt runner env row out H.
  unfold run_on_row in H.
  apply bind_Ok_inv in H. destruct H as [[row' g] [Hrun H]].
  apply bind_Ok_inv in H. destruct H as [ms [Hms H]].
  exists row', g, ms.
  assert (Hg : forall k, In k g <-> assigned_by_action rt (expressions runner) row k).
  { intros k. unfold run_expressions in Hrun.
    rewrite (run_expressions_change_set rt (expressions runner) row _ [] _ k Hrun).
    simpl. tauto. }
  repeat split; try assumption.
  - apply Hg.
  - apply Hg.
  - rewrite <- default_mappings_unassigned. exact H.
  - unfold unassigned in H0. apply filter_In in H0. tauto.
  - unfold unassigned in H0. apply filter_In in H0. destruct H0 as [_ Hn].
    intros Ha. apply Hg in Ha. apply str_in_In in Ha. rewrite Ha in Hn. discriminate.
Qed.

(** The example program is what the builders return. *)
Lemma example_runner_built :
  (c <- run_method (add_comparer example_engine "equals" (AValue example_attribute)
                      (AValue example_five) None []) (OrOperatorContainer [] false) ;;
   c <- run_method (add_comparer example_engine "equals" (AValue example_attribute)
                      (AValue example_thirty) None []) c ;;
   e <- RuleExpression_init (AContainer c) ;;
   e <- add_action e "c" (AValue example_thirty_five) ;;
   add_expression {| expressions := [] |} (ARuleExpression e))
  = Ok example_runner.
Proof. reflexivity. Qed.

Lemma run_on_row_default_mappings_witness :
  exists row' change_set mappings,
    run_expressions ExampleRuntime.runtime (expressions example_runner) S2_row
    = Ok (row', change_set)
    /\ get_all_default_mappings example_environment = Ok mappings
    /\ (forall k, In k change_set <->
                  assigned_by_action ExampleRuntime.runtime (expressions example_runner)
                    S2_row k)
    /\ fold_result (write_default ExampleRuntime.runtime) (unassigned change_set mappings)
         row' = Ok S2_out
    /\ (forall m, In m (unassigned change_set mappings) ->
                  In m mappings
                  /\ ~ assigned_by_action ExampleRuntime.runtime
                         (expressions example_runner) S2_row (dot_specifier (snd m))).
Proof.
  apply (run_on_row_default_mappings ExampleRuntime.runtime example_runner
           example_environment S2_row S2_out).
  vm_compute. reflexivity.
Defined.

(** ** The type of a filter chain *)

Lemma insert_by_key_perm {A : Type} (key : A -> Z) (x : A) (l : list A) :
  Permutation (insert_by_key key x l) (x :: l).
Proof.
  induction l as [|y t IH]; simpl.
  - apply Permutation_refl.
  - destruct (key x <=? key y).
    + apply Permutation_refl.
    + eapply perm_trans; [apply perm_skip; exact IH | apply perm_swap].
Qed.

Lemma sort_by_key_perm {A : Type} (key : A -> Z) (l : list A) :
  Permutation (sort_by_key key l) l.
Proof.
  induction l as [|x t IH]; simpl.
  - apply Permutation_refl.
  - eapply perm_trans; [apply insert_by_key_perm | apply perm_skip; exact IH].
Qed.

Lemma insert_by_key_sorted {A : Type} (key : A -> Z) (x : A) (l : list A) :
  sorted_by key l -> sorted_by key (insert_by_key key x l).
Proof.
  induction l as [|y t IH]; simpl; intros H.
  - split; [constructor | exact I].
  - destruct H as [Hy Ht]. destruct (key x <=? key y) eqn:E.
    + apply Z.leb_le in E. simpl. split; [|split; assumption].
      constructor; [exact E|].
      eapply Forall_impl; [|exact Hy]. simpl. intros a Ha. lia.
    + apply Z.leb_gt in E. simpl. split; [|apply IH; exact Ht].
      eapply Permutation_Forall.
      * apply Permutation_sym. apply insert_by_key_perm.
      * constructor; [lia | exact Hy].
Qed.

Lemma sort_by_key_sorted {A : Type} (key : A -> Z) (l : list A) :
  sorted_by key (sort_by_key key l).
Proof.
  induction l as [|x t IH]; simpl; [exact I|].
  apply insert_by_key_sorted. exact IH.
Qed.

Lemma no_dup_str_NoDup (xs : list string) : no_dup_str xs = true <-> NoDup xs.
Proof.
  induction xs as [|x t IH]; simpl.
  - split; [constructor | reflexivity].
  - rewrite andb_true_iff, negb_true_iff, IH. split.
    + intros [Hx Ht]. constructor; [|exact Ht].
      intros Hin. apply str_in_In in Hin. congruence.
    + intros H. inversion H; subst. split; [|assumption].
      destruct (str_in x t) eqn:E; [|reflexivity].
      apply str_in_In in E. contradiction.
Qed.

(** A type admitted by an input other than itself: the input starts with
    [String] and the type does not. *)
Lemma admitted_by_conversion (inp c : string) :
  str_in inp ALLOWED_TYPES = true ->
  str_in c (extract_allowed_types inp) = true ->
  c <> inp ->
  String.prefix "String" inp = true /\ String.prefix "String" c = false.
Proof.
  intros Hinp Hc Hne.
  apply str_in_In in Hinp. apply str_in_In in Hc.
  simpl in Hinp.
  repeat (destruct Hinp as [Hinp|Hinp]; [subst inp; simpl in Hc|]); try contradiction;
    repeat (destruct Hc as [Hc|Hc]; [subst c; try (exfalso; apply Hne; reflexivity)|]);
    try contradiction; split; reflexivity.
Qed.

Lemma allowed_type_admits_itself (c : string) :
  str_in c ALLOWED_TYPES = true -> str_in c (extract_allowed_types c) = true.
Proof.
  intros H. unfold extract_allowed_types. rewrite H. simpl.
  rewrite String.eqb_refl. reflexivity.
Qed.

Lemma exact_output_cons (c inp outp : string) (t : list (string * string)) :
  exact_output c ((inp, outp) :: t)
  = if String.eqb inp c then Ok outp else exact_output c t.
Proof. unfold exact_output. simpl. destruct (String.eqb inp c); reflexivity. Qed.

Lemma str_in_cons (c x : string) (l : list string) :
  str_in c (x :: l) = String.eqb c x || str_in c l.
Proof. reflexivity. Qed.

(** On the pairs of a registered filter, the pair whose input is the
    current type is also the first pair that admits it: the two rules of
    [get_value] pick the same output. *)
Lemma first_admitting_exact (mt : list (string * string)) (c : string) :
  Forall (fun p => str_in (fst p) ALLOWED_TYPES = true) mt ->
  NoDup (map fst mt) ->
  sorted_by string_last_key mt ->
  str_in c (map fst mt) = true ->
  exists y, exact_output c mt = Ok y /\ first_admitting c mt = Some (c, y).
Proof.
  induction mt as [|[inp outp] t IH]; intros Hall Hnd Hs Hc.
  - discriminate Hc.
  - inversion Hall as [|? ? Hinp Hall']; subst. cbn [fst] in Hinp.
    cbn [map fst] in Hnd, Hc.
    inversion Hnd as [|? ? Hnotin Hnd']; subst.
    destruct Hs as [Hhead Hs'].
    rewrite exact_output_cons. cbn [first_admitting].
    rewrite str_in_cons in Hc.
    destruct (String.eqb inp c) eqn:E.
    + apply String.eqb_eq in E. subst inp.
      exists outp. split; [reflexivity|].
      rewrite (allowed_type_admits_itself c Hinp). reflexivity.
    + assert (Hne : c <> inp).
      { intros ->. rewrite String.eqb_refl in E. discriminate. }
      assert (Hct : str_in c (map fst t) = true).
      { rewrite String.eqb_sym in E. rewrite E, orb_false_l in Hc. exact Hc. }
      destruct (str_in c (extract_allowed_types inp)) eqn:Hadm.
      * exfalso.
        destruct (admitted_by_conversion inp c Hinp Hadm Hne) as [Hp Hq].
        apply str_in_In in Hct. apply in_map_iff in Hct.
        destruct Hct as [[c' y] [Hfst Hin]]. cbn [fst] in Hfst. subst c'.
        rewrite Forall_forall in Hhead. specialize (Hhead _ Hin).
        unfold string_last_key in Hhead. cbn [fst] in Hhead.
        rewrite Hp, Hq in Hhead. lia.
      * destruct (IH Hall' Hnd' Hs' Hct) as [y [Hy Hf]].
        exists y. split; [exact Hy | exact Hf].
Qed.

Lemma registered_filter_exact (fd : filter_def) (c : string) :
  registered_filter fd ->
  str_in c (map fst (manipulation_types fd)) = true ->
  exists y, exact_output c (manipulation_types fd) = Ok y
            /\ first_admitting c (manipulation_types fd) = Some (c, y).
Proof.
  intros [declared [Hall [Hnd Hmt]]] Hc. rewrite Hmt in *.
  pose proof (sort_by_key_perm string_last_key declared) as Hperm.
  apply first_admitting_exact.
  - eapply Permutation_Forall; [apply Permutation_sym; exact Hperm | exact Hall].
  - eapply Permutation_NoDup.
    + apply Permutation_map. apply Permutation_sym. exact Hperm.
    + apply no_dup_str_NoDup. exact Hnd.
  - apply sort_by_key_sorted.
  - exact Hc.
Qed.

(** One turn of the loop of [get_value] moves the type as one turn of the
    loop of [get_type] does. *)
Lemma apply_filter_type (rt : PyRuntime) (fd : filter_def)
    (arg_values : unit -> result (list pyval)) (v v' : pyval) (t t' : string) :
  registered_filter fd ->
  apply_filter rt fd arg_values (v, t) = Ok (v', t') ->
  exists inp, first_admitting t (manipulation_types fd) = Some (inp, t').
Proof.
  intros Hreg H. unfold apply_filter in H.
  destruct (str_in t (map fst (manipulation_types fd))) eqn:E.
  - apply bind_Ok_inv in H. destruct H as [argv [_ H]].
    apply bind_Ok_inv in H. destruct H as [r [_ H]].
    apply bind_Ok_inv in H. destruct H as [y [Hy H]].
    inversion H; subst.
    destruct (registered_filter_exact fd t Hreg E) as [y' [Hy' Hf]].
    rewrite Hy in Hy'. inversion Hy'; subst. exists t. exact Hf.
  - destruct (first_admitting t (manipulation_types fd)) as [[inp outp]|]; [|discriminate].
    apply bind_Ok_inv in H. destruct H as [cv [_ H]].
    apply bind_Ok_inv in H. destruct H as [argv [_ H]].
    apply bind_Ok_inv in H. destruct H as [r [_ H]].
    inversion H; subst. exists inp. reflexivity.
Qed.

Lemma fold_filters_type (rt : PyRuntime) (row : pyval) (fs : list filter_step)
    (v v' : pyval) (t t' : string) :
  Forall (fun f => registered_filter (step_filter f)) fs ->
  fold_result
    (fun f cur =>
       match f with
       | FilterStep _ fd args =>
           apply_filter rt fd
             (fun _ => map_result
                         (fun x => r <- get_value_typed rt row x ;; Ok (fst r)) args)
             cur
       end) fs (v, t) = Ok (v', t') ->
  thread_type t fs = Ok t'.
Proof.
  revert v t. induction fs as [|[k fd args] fs IH]; intros v t Hreg H.
  - inversion H; subst. reflexivity.
  - inversion Hreg as [|? ? Hfd Hreg']; subst. cbn [step_filter] in Hfd.
    cbn [fold_result] in H.
    apply bind_Ok_inv in H. destruct H as [[v1 t1] [H1 H2]].
    cbv beta iota in H1.
    destruct (apply_filter_type _ _ _ _ _ _ _ Hfd H1) as [inp Hf].
    cbn [thread_type step_filter]. rewrite Hf. eapply IH; eassumption.
Qed.

Lemma first_admitting_first_pair (t : string) (mt : list (string * string))
    (p : string * string) :
  first_admitting t mt = Some p <-> first_pair t mt p.
Proof.
  revert p. induction mt as [|[inp outp] r IH]; intros p; simpl.
  - split; [discriminate|]. intros H. inversion H. destruct pre; discriminate.
  - destruct (str_in t (extract_allowed_types inp)) eqn:E.
    + split.
      * intros H. inversion H; subst.
        apply first_pair_at with (pre := []) (post := r); [reflexivity | exact E | constructor].
      * intros H. inversion H as [pre i o post Hmt Hadm Hpre]; subst.
        destruct pre as [|q pre]; simpl in Hmt.
        -- inversion Hmt; subst. reflexivity.
        -- inversion Hmt; subst. inversion Hpre; subst. simpl in *. congruence.
    + rewrite IH. split.
      * intros H. inversion H as [pre i o post Hmt Hadm Hpre]; subst.
        apply first_pair_at with (pre := (inp, outp) :: pre) (post := post);
          [reflexivity | exact Hadm | constructor; [exact E | exact Hpre]].
      * intros H. inversion H as [pre i o post Hmt Hadm Hpre]; subst.
        destruct pre as [|q pre]; simpl in Hmt.
        -- inversion Hmt; subst. congruence.
        -- inversion Hmt; subst. inversion Hpre; subst.
           apply first_pair_at with (pre := pre) (post := post);
             [reflexivity | exact Hadm | assumption].
Qed.

Lemma thread_type_threaded (t : string) (fs : list filter_step) (t' : string) :
  thread_type t fs = Ok t' <-> threaded t fs t'.
Proof.
  revert t. induction fs as [|f fs IH]; intros t; simpl.
  - split.
    + intros H. inversion H. constructor.
    + intros H. inversion H. reflexivity.
  - destruct (first_admitting t (manipulation_types (step_filter f))) as [[inp outp]|] eqn:E.
    + rewrite IH. split.
      * intros H. eapply threaded_step; [|exact H].
        apply first_admitting_first_pair. exact E.
      * intros H. inversion H; subst.
        apply first_admitting_first_pair in H3. rewrite E in H3.
        inversion H3; subst. assumption.
    + split; [discriminate|].
      intros H. inversion H; subst.
      apply first_admitting_first_pair in H3. rewrite E in H3. discriminate.
Qed.

Lemma thread_type_raises (t : string) (fs : list filter_step) (e : exn) :
  thread_type t fs = Raise e -> e = BusinessRuleEngineApiError.
Proof.
  revert t. induction fs as [|f fs IH]; intros t; simpl; [discriminate|].
  destruct (first_admitting t (manipulation_types (step_filter f))) as [[inp outp]|].
  - apply IH.
  - intros H. inversion H. reflexivity.
Qed.

Lemma get_type_thread_type (v : value_source) :
  get_type v = thread_type (declared_type v) (get_filters v).
Proof. unfold get_type. destruct (get_filters v); reflexivity. Qed.

(** C7.  For a value source whose filters are registered filters:
    [get_type] is the function of the declared type and the chain that
    moves the type, filter by filter, to the output of the first pair
    admitting it; it raises the engine error, and nothing else, exactly
    when some filter has no such pair; and when [get_value] returns, the
    type its loop has threaded is the type [get_type] returns. *)
Theorem get_type_threads_first_admitting :
  forall (rt : PyRuntime) (v : value_source),
    Forall (fun f => registered_filter (step_filter f)) (get_filters v) ->
    (forall t, get_type v = Ok t <-> threaded (declared_type v) (get_filters v) t)
    /\ (forall t t', threaded (declared_type v) (get_filters v) t ->
                     threaded (declared_type v) (get_filters v) t' -> t = t')
    /\ (forall e, get_type v = Raise e <->
                  e = BusinessRuleEngineApiError
                  /\ ~ exists t, threaded (declared_type v) (get_filters v) t)
    /\ (forall row value t,
           get_value_typed rt row v = Ok (value, t) -> get_type v = Ok t).
Proof.
  intros rt v Hreg.
  assert (Hiff : forall t, get_type v = Ok t <->
                           threaded (declared_type v) (get_filters v) t).
  { intros t. rewrite get_type_thread_type. apply thread_type_threaded. }
  split; [exact Hiff|]. split; [|split].
  - intros t t' H1 H2. apply Hiff in H1. apply Hiff in H2. congruence.
  - intros e. split.
    + intros H. split.
      * rewrite get_type_thread_type in H. eapply thread_type_raises. exact H.
      * intros [t Ht]. apply Hiff in Ht. congruence.
    + intros [-> Hno]. destruct (get_type v) as [t|e] eqn:E.
      * exfalso. apply Hno. exists t. apply Hiff. reflexivity.
      * rewrite get_type_thread_type in E. apply thread_type_raises in E. subst.
        reflexivity.
  - intros row value t H. rewrite get_type_thread_type.
    destruct v as [b raw ty fs|b ty fs]; simpl in *.
    + eapply fold_filters_type; eassumption.
    + apply bind_Ok_inv in H. destruct H as [cv [_ H]].
      eapply fold_filters_type; eassumption.
Qed.

(** The hypothesis of the theorem holds of every value source made with
    the builders: the decorator registers filters of that shape only, and
    [add_filter] takes the filter from the registry. *)
Lemma dict_lookup_dict_set {V : Type} (k k' : string) (v : V) (d : list (string * V)) :
  dict_lookup k (dict_set k' v d)
  = if String.eqb k k' then Some v else dict_lookup k d.
Proof.
  induction d as [|[k0 v0] t IH]; simpl.
  - destruct (String.eqb k k'); reflexivity.
  - destruct (String.eqb k' k0) eqn:E; simpl.
    + apply String.eqb_eq in E. subst k0. destruct (String.eqb k k'); reflexivity.
    + destruct (String.eqb k k0) eqn:F.
      * apply String.eqb_eq in F. subst k0. rewrite String.eqb_sym, E. reflexivity.
      * exact IH.
Qed.

Lemma check_type_pairs_Ok (pairs : list (string * string)) :
  check_type_pairs pairs = Ok tt ->
  Forall (fun p => str_in (fst p) ALLOWED_TYPES = true) pairs.
Proof.
  induction pairs as [|[x1 x2] t IH]; intros H; [constructor|].
  cbn [check_type_pairs] in H.
  destruct (str_in x1 ALLOWED_TYPES) eqn:E1; cbn [negb] in H; [|discriminate].
  destruct (str_in x2 ALLOWED_TYPES) eqn:E2; cbn [negb] in H; [|discriminate].
  constructor; [exact E1 | exact (IH H)].
Qed.

Lemma register_filter_registered (bre bre' : BusinessRuleEngine)
    (pretty_name description : string) (key : option string)
    (mt : list (string * string)) (params : list raw_param) (builtin : bool)
    (method_def : callable) :
  register_filter bre pretty_name description key mt params builtin method_def = Ok bre' ->
  forall k fd,
    dict_lookup k (system_available_filters bre') = Some fd ->
    registered_filter fd \/ dict_lookup k (system_available_filters bre) = Some fd.
Proof.
  unfold register_filter. intros H k fd Hk.
  apply bind_Ok_inv in H. destruct H as [u1 [_ H]].
  apply bind_Ok_inv in H. destruct H as [u2 [Hnd H]].
  apply bind_Ok_inv in H. destruct H as [u3 [_ H]].
  apply bind_Ok_inv in H. destruct H as [[] [Hty H]].
  apply bind_Ok_inv in H. destruct H as [ps [_ H]].
  inversion H; subst bre'; clear H. cbn [system_available_filters] in Hk.
  rewrite dict_lookup_dict_set in Hk.
  destruct (String.eqb k (registry_key key "f_" builtin method_def)).
  - left. inversion Hk; subst fd. exists mt. split; [|split].
    + apply check_type_pairs_Ok. exact Hty.
    + unfold py_assert in Hnd. destruct (no_dup_str (map fst mt)); [reflexivity|discriminate].
    + reflexivity.
  - right. exact Hk.
Qed.

Lemma add_filter_registered (bre : BusinessRuleEngine) (v v' : value_source)
    (filter_name : string) (args : list artifact) :
  (forall k fd, dict_lookup k (system_available_filters bre) = Some fd ->
                registered_filter fd) ->
  Forall (fun f => registered_filter (step_filter f)) (get_filters v) ->
  add_filter bre v filter_name args = Ok v' ->
  Forall (fun f => registered_filter (step_filter f)) (get_filters v').
Proof.
  intros Hbre Hv H. unfold add_filter in H.
  apply bind_Ok_inv in H. destruct H as [avail [_ H]].
  destruct (negb (str_in filter_name avail)); [discriminate|].
  apply bind_Ok_inv in H. destruct H as [cur [Hcur H]].
  destruct (negb _); [discriminate|].
  apply bind_Ok_inv in H. destruct H as [det [_ H]].
  destruct (0 <? List.length det)%nat; [discriminate|].
  inversion H; subst v'; clear H.
  assert (Hf : get_filters (with_filters v
                 (get_filters v ++ [FilterStep filter_name cur (values_of args)]))
               = get_filters v ++ [FilterStep filter_name cur (values_of args)]).
  { destruct v; reflexivity. }
  rewrite Hf. apply Forall_app. split; [exact Hv|].
  constructor; [|constructor]. cbn [step_filter].
  unfold dict_item in Hcur.
  destruct (dict_lookup filter_name (system_available_filters bre)) as [fd|] eqn:E;
    [|discriminate].
  inversion Hcur; subst. eapply Hbre. exact E.
Qed.

Lemma S3_attribute_built :
  (a <- Attribute_init (PStr "$transaction_variations") "DictList" ;;
   c1 <- Constant_init ExampleRuntime.runtime (PStr "formatted_name.$val") None ;;
   c2 <- Constant_init ExampleRuntime.runtime (PStr "Color") None ;;
   c3 <- Constant_init ExampleRuntime.runtime (PStr "formatted_value.$val") None ;;
   a <- add_filter example_engine a "filter_by_subvalue_include" [AValue c1; AValue c2] ;;
   add_filter example_engine a "extract_with_dot_specifier_to_string" [AValue c3])
  = Ok S3_attribute.
Proof. reflexivity. Qed.

Lemma S3_filters_registered :
  Forall (fun f => registered_filter (step_filter f)) (get_filters S3_attribute).
Proof.
  repeat constructor.
  - exists [("DictList", "Dict")]. repeat split. repeat constructor.
  - exists [("Dict", "String")]. repeat split. repeat constructor.
Qed.

Lemma S3_attribute_value :
  get_value_typed ExampleRuntime.runtime S3_row S3_attribute
  = Ok (PStr "14k Gold", "String").
Proof. vm_compute. reflexivity. Qed.

Lemma get_type_threads_first_admitting_witness :
  (forall t, get_type S3_attribute = Ok t <->
             threaded (declared_type S3_attribute) (get_filters S3_attribute) t)
  /\ (forall t t', threaded (declared_type S3_attribute) (get_filters S3_attribute) t ->
                   threaded (declared_type S3_attribute) (get_filters S3_attribute) t' ->
                   t = t')
  /\ (forall e, get_type S3_attribute = Raise e <->
                e = BusinessRuleEngineApiError
                /\ ~ exists t, threaded (declared_type S3_attribute)
                                 (get_filters S3_attribute) t)
  /\ (forall row value t,
         get_value_typed ExampleRuntime.runtime row S3_attribute = Ok (value, t) ->
         get_type S3_attribute = Ok t).
Proof.
  apply (get_type_threads_first_admitting ExampleRuntime.runtime S3_attribute).
  repeat constructor.
  - exists [("DictList", "Dict")]. repeat split. repeat constructor.
  - exists [("Dict", "String")]. repeat split. repeat constructor.
Defined.

(** ** Values: induction through lists and dicts *)

Section pyval_induction.

Variable P : pyval -> Prop.
Hypothesis HNone : P PNone.
Hypothesis HBool : forall b, P (PBool b).
Hypothesis HInt : forall n, P (PInt n).
Hypothesis HFloat : forall f, P (PFloat f).
Hypothesis HStr : forall s, P (PStr s).
Hypothesis HDateTime : forall d, P (PDateTime d).
Hypothesis HList : forall l, Forall P l -> P (PList l).
Hypothesis HDict : forall d, Forall (fun kv => P (snd kv)) d -> P (PDict d).

Fixpoint pyval_nested_ind (v : pyval) : P v :=
  match v with
  | PNone => HNone
  | PBool b => HBool b
  | PInt n => HInt n
  | PFloat f => HFloat f
  | PStr s => HStr s
  | PDateTime d => HDateTime d
  | PList l =>
      HList l
        ((fix each (xs : list pyval) : Forall P xs :=
            match xs with
            | [] => Forall_nil P
            | x :: t => Forall_cons x (pyval_nested_ind x) (each t)
            end) l)
  | PDict d =>
      HDict d
        ((fix each (xs : list (string * pyval)) : Forall (fun kv => P (snd kv)) xs :=
            match xs with
            | [] => Forall_nil _
            | kv :: t => Forall_cons kv (pyval_nested_ind (snd kv)) (each t)
            end) d)
  end.

End pyval_induction.

(** [json.loads(json.dumps(x))] returns a value equal to [x]. *)
Lemma json_roundtrip_json (x : pyval) : json_value x = true -> json_roundtrip x = Ok x.
Proof.
  induction x using pyval_nested_ind; intros Hj; try reflexivity.
  - discriminate Hj.
  - cbn [json_value] in Hj. cbn [json_roundtrip].
    match goal with
    | |- bind ?e _ = _ => assert (He : e = Ok l)
    end.
    { induction l as [|x t IHt]; [reflexivity|].
      inversion H as [|? ? Hx Ht]; subst.
      cbn [forallb] in Hj. apply andb_true_iff in Hj. destruct Hj as [Hjx Hjt].
      rewrite (Hx Hjx). cbn [bind]. rewrite (IHt Ht Hjt). reflexivity. }
    rewrite He. reflexivity.
  - cbn [json_value] in Hj. cbn [json_roundtrip].
    match goal with
    | |- bind ?e _ = _ => assert (He : e = Ok d)
    end.
    { induction d as [|[k x] t IHt]; [reflexivity|].
      inversion H as [|? ? Hx Ht]; subst. cbn [snd] in Hx.
      cbn [forallb snd] in Hj. apply andb_true_iff in Hj. destruct Hj as [Hjx Hjt].
      rewrite (Hx Hjx). cbn [bind]. rewrite (IHt Ht Hjt). reflexivity. }
    rewrite He. reflexivity.
Qed.

(** ** Strings: the keys of a dotted specifier *)

Lemma append_assoc (a b c : string) : ((a ++ b) ++ c = a ++ (b ++ c))%string.
Proof. induction a as [|x a IH]; simpl; [reflexivity | rewrite IH; reflexivity]. Qed.

Lemma append_empty (a : string) : (a ++ EmptyString = a)%string.
Proof. induction a as [|x a IH]; simpl; [reflexivity | rewrite IH; reflexivity]. Qed.

(** The character before the position reached after reading [k]. *)
Fixpoint last_char (prev : option ascii) (k : string) : option ascii :=
  match k with
  | EmptyString => prev
  | String c r => last_char (Some c) r
  end.

Definition no_dot_no_backslash (k : string) : bool :=
  string_forallb (fun c => negb (ascii_eqb c "."%char) && negb (ascii_eqb c backslash)) k.

Definition no_bracket (k : string) : bool :=
  string_forallb (fun c => negb (ascii_eqb c "]"%char)) k.

Lemma plain_key_inv (k : string) :
  plain_key k = true ->
  is_empty k = false /\ String.eqb k "$val" = false
  /\ no_dot_no_backslash k = true /\ no_bracket k = true.
Proof.
  unfold plain_key, no_dot_no_backslash, no_bracket. intros H.
  apply andb_true_iff in H. destruct H as [H H3].
  apply andb_true_iff in H. destruct H as [H1 H2].
  apply negb_true_iff in H1. apply negb_true_iff in H2.
  split; [exact H1|]. split; [exact H2|].
  clear H1 H2. induction k as [|c r IH]; [split; reflexivity|].
  cbn [string_forallb] in *.
  apply andb_true_iff in H3. destruct H3 as [Hc Hr].
  apply andb_true_iff in Hc. destruct Hc as [Hc H3].
  destruct (IH Hr) as [IH1 IH2]. rewrite IH1, IH2, Hc, H3. split; reflexivity.
Qed.

Lemma re_split_dot_aux_key (k : string) :
  forall prev cur s,
    no_dot_no_backslash k = true ->
    re_split_dot_aux prev cur (k ++ s) = re_split_dot_aux (last_char prev k) (cur ++ k) s.
Proof.
  induction k as [|c r IH]; intros prev cur s H.
  - simpl. rewrite append_empty. reflexivity.
  - cbn [no_dot_no_backslash string_forallb] in H.
    apply andb_true_iff in H. destruct H as [Hc Hr].
    apply andb_true_iff in Hc. destruct Hc as [Hdot _].
    apply negb_true_iff in Hdot.
    change ((String c r ++ s)%string) with (String c (r ++ s)%string).
    cbn [re_split_dot_aux last_char]. rewrite Hdot. cbn [andb].
    rewrite (IH (Some c) (cur ++ String c EmptyString)%string s Hr).
    rewrite append_assoc. reflexivity.
Qed.

Lemma last_char_not_backslash (k : string) :
  forall prev,
    no_dot_no_backslash k = true ->
    is_backslash prev = false ->
    is_backslash (last_char prev k) = false.
Proof.
  induction k as [|c r IH]; intros prev H Hp; [exact Hp|].
  cbn [no_dot_no_backslash string_forallb] in H.
  apply andb_true_iff in H. destruct H as [Hc Hr].
  apply andb_true_iff in Hc. destruct Hc as [_ Hbs].
  apply negb_true_iff in Hbs.
  cbn [last_char]. apply IH; [exact Hr | exact Hbs].
Qed.

Lemma concat_cons2 (sep k k' : string) (r : list string) :
  String.concat sep (k :: k' :: r) = (k ++ sep ++ String.concat sep (k' :: r))%string.
Proof. reflexivity. Qed.

Lemma re_split_dot_dotted (ks : list string) :
  forall k prev cur,
    Forall (fun x => no_dot_no_backslash x = true) (k :: ks) ->
    is_backslash prev = false ->
    re_split_dot_aux prev cur (dotted (k :: ks)) = (cur ++ k)%string :: ks.
Proof.
  induction ks as [|k' r IH]; intros k prev cur H Hp.
  - inversion H; subst. unfold dotted. cbn [String.concat].
    rewrite <- (append_empty k) at 1.
    rewrite re_split_dot_aux_key by assumption. reflexivity.
  - inversion H as [|? ? Hk Hrest]; subst.
    unfold dotted. rewrite concat_cons2.
    rewrite re_split_dot_aux_key by assumption.
    change (("." ++ String.concat "." (k' :: r))%string)
      with (String "."%char (String.concat "." (k' :: r))).
    cbn [re_split_dot_aux].
    rewrite (last_char_not_backslash k prev Hk Hp).
    change (ascii_eqb "." "." && negb false) with true. cbv iota.
    f_equal.
    change (String.concat "." (k' :: r)) with (dotted (k' :: r)).
    rewrite (IH k' (Some "."%char) EmptyString Hrest eq_refl). reflexivity.
Qed.

Lemma unescape_dot_key (k : string) :
  no_dot_no_backslash k = true -> unescape_dot k = k.
Proof.
  induction k as [|c r IH]; intros H; [reflexivity|].
  cbn [no_dot_no_backslash string_forallb] in H.
  apply andb_true_iff in H. destruct H as [Hc Hr].
  apply andb_true_iff in Hc. destruct Hc as [_ Hbs]. apply negb_true_iff in Hbs.
  cbn [unescape_dot]. destruct r as [|d r']; [reflexivity|].
  rewrite Hbs. cbn [andb]. rewrite (IH Hr). reflexivity.
Qed.

(** The keys of a dotted specifier are the keys it was made of. *)
Lemma split_keys_dotted (ks : list string) :
  ks <> [] ->
  Forall (fun x => no_dot_no_backslash x = true) ks ->
  split_keys (dotted ks) = ks.
Proof.
  intros Hne H. destruct ks as [|k r]; [contradiction|].
  unfold split_keys, re_split_dot.
  rewrite (re_split_dot_dotted r k None EmptyString H eq_refl).
  change (EmptyString ++ k)%string with k.
  clear Hne. induction H as [|x l Hx Hl IH]; [reflexivity|].
  cbn [map]. rewrite (unescape_dot_key x Hx), IH. reflexivity.
Qed.


Lemma index_tail_no_bracket (comma : bool) (r : string) :
  no_bracket r = true -> index_tail comma r = false.
Proof.
  induction r as [|c r IH]; intros H; [reflexivity|].
  cbn [no_bracket string_forallb] in H.
  apply andb_true_iff in H. destruct H as [Hc Hr]. apply negb_true_iff in Hc.
  cbn [index_tail]. rewrite Hc, (IH Hr). apply andb_false_r.
Qed.

(** A key without a closing bracket carries no subscription. *)
Lemma find_index_specifier_no_bracket (comma : bool) (k : string) :
  no_bracket k = true -> find_index_specifier comma k = None.
Proof.
  unfold find_index_specifier. generalize (@None ascii) 0%nat.
  induction k as [|c r IH]; intros prev pos H; [reflexivity|].
  cbn [no_bracket string_forallb] in H.
  apply andb_true_iff in H. destruct H as [_ Hr].
  cbn [find_index_specifier_aux].
  rewrite (index_tail_no_bracket comma r Hr), andb_false_r.
  apply IH. exact Hr.
Qed.

(** ** Reading back what was written *)

Lemma dict_get_dict_set (k : string) (v : pyval) (d : list (string * pyval)) :
  dict_get k (dict_set k v d) = v.
Proof.
  unfold dict_get. rewrite dict_lookup_dict_set, String.eqb_refl. reflexivity.
Qed.

Lemma json_value_dict_set (k : string) (v : pyval) (d : list (string * pyval)) :
  json_value v = true ->
  json_value (PDict d) = true ->
  json_value (PDict (dict_set k v d)) = true.
Proof.
  cbn [json_value]. intros Hv.
  induction d as [|[k0 v0] t IH]; intros Hd.
  - cbn [dict_set forallb snd]. rewrite Hv. reflexivity.
  - cbn [forallb snd] in Hd. apply andb_true_iff in Hd. destruct Hd as [H0 Ht].
    cbn [dict_set]. destruct (String.eqb k k0); cbn [forallb snd].
    + rewrite Hv, Ht. reflexivity.
    + rewrite H0, (IH Ht). reflexivity.
Qed.

(** [__set_dot_notation_recursive] at a key without subscription, on a
    dict. *)
Lemma set_dot_notation_recursive_dict (key : string) (rest : list string) (value : pyval)
    (d : list (string * pyval)) :
  find_index_specifier false key = None ->
  set_dot_notation_recursive (key :: rest) value (PDict d)
  = match rest with
    | [] => v <- json_roundtrip value ;; Ok (PDict (dict_set key v d))
    | _ :: _ =>
        a' <- set_dot_notation_recursive rest value (dict_get key d) ;;
        Ok (PDict (dict_set key a' d))
    end.
Proof.
  intros H. cbn [set_dot_notation_recursive]. rewrite H. destruct rest; reflexivity.
Qed.

Lemma get_dot_notation_recursive_dict (key : string) (rest : list string)
    (d : list (string * pyval)) :
  find_index_specifier true key = None ->
  get_dot_notation_recursive (key :: rest) (PDict d)
  = get_dot_notation_recursive rest (dict_get key d).
Proof. intros H. cbn [get_dot_notation_recursive]. rewrite H. reflexivity. Qed.


Lemma last_is_val_plain (ks : list string) :
  ks <> [] -> Forall (fun k => plain_key k = true) ks -> last_is_val ks = false.
Proof.
  intros Hne H. unfold last_is_val.
  destruct (rev ks) as [|k r] eqn:E.
  - reflexivity.
  - assert (Hin : In k ks). { apply in_rev. rewrite E. left. reflexivity. }
    rewrite Forall_forall in H. specialize (H k Hin).
    apply plain_key_inv in H. tauto.
Qed.

Lemma last_is_val_snoc (ks : list string) : last_is_val (ks ++ ["$val"]) = true.
Proof. unfold last_is_val. rewrite rev_app_distr. reflexivity. Qed.

Lemma dotted_not_empty (ks : list string) :
  ks <> [] -> Forall (fun k => plain_key k = true) ks ->
  (0 <? String.length (dotted ks))%nat = true.
Proof.
  intros Hne H. destruct ks as [|k r]; [contradiction|].
  inversion H as [|? ? Hk _]; subst. apply plain_key_inv in Hk.
  destruct Hk as [Hk _]. destruct k as [|c k]; [discriminate|].
  unfold dotted. destruct r; reflexivity.
Qed.

Lemma plain_keys_no_dot (ks : list string) :
  Forall (fun k => plain_key k = true) ks ->
  Forall (fun x => no_dot_no_backslash x = true) ks.
Proof.
  intros H. eapply Forall_impl; [|exact H]. intros k Hk.
  apply plain_key_inv in Hk. tauto.
Qed.





(** ** Lists: replacing elements and slices *)

Lemma replace_nth_length {A : Type} (n : nat) (x : A) (l : list A) :
  List.length (replace_nth n x l) = List.length l.
Proof.
  revert n. induction l as [|y t IH]; intros n; [destruct n; reflexivity|].
  destruct n; simpl; [reflexivity | rewrite IH; reflexivity].
Qed.

Lemma replace_nth_same {A : Type} (n : nat) (x : A) (l : list A) :
  (n < List.length l)%nat -> nth_error (replace_nth n x l) n = Some x.
Proof.
  revert n. induction l as [|y t IH]; intros n H; simpl in H; [lia|].
  destruct n; simpl; [reflexivity | apply IH; lia].
Qed.

Lemma replace_nth_other {A : Type} (n j : nat) (x : A) (l : list A) :
  j <> n -> nth_error (replace_nth n x l) j = nth_error l j.
Proof.
  revert n j. induction l as [|y t IH]; intros n j H; [destruct n; reflexivity|].
  destruct n, j; simpl; try reflexivity; [contradiction | apply IH; lia].
Qed.

(** The assignment of an extended slice, position by position. *)
Lemma assign_positions (ps : list nat) :
  forall (vs l : list pyval),
    NoDup ps ->
    Forall (fun p => (p < List.length l)%nat) ps ->
    List.length vs = List.length ps ->
    assigned_elementwise l
      (fold_left (fun acc px => replace_nth (fst px) (snd px) acc) (combine ps vs) l)
      ps vs.
Proof.
  induction ps as [|p ps IH]; intros vs l Hnd Hin Hlen.
  - destruct vs; [|discriminate]. simpl. split; [reflexivity|]. split.
    + intros i q x H. destruct i; discriminate.
    + reflexivity.
  - destruct vs as [|v vs]; [discriminate|]. simpl in Hlen.
    inversion Hnd as [|? ? Hnotin Hnd']; subst.
    inversion Hin as [|? ? Hp Hin']; subst.
    cbn [combine fold_left fst snd].
    assert (Hin1 : Forall (fun q => (q < List.length (replace_nth p v l))%nat) ps).
    { rewrite replace_nth_length. exact Hin'. }
    destruct (IH vs (replace_nth p v l) Hnd' Hin1 ltac:(lia)) as [H1 [H2 H3]].
    split; [rewrite H1; apply replace_nth_length|]. split.
    + intros i q x Hq Hx. destruct i as [|i].
      * simpl in Hq, Hx. inversion Hq; inversion Hx; subst.
        rewrite (H3 q Hnotin). apply replace_nth_same. exact Hp.
      * simpl in Hq, Hx. eapply H2; eassumption.
    + intros j Hj. rewrite H3 by (intros Hc; apply Hj; right; exact Hc).
      apply replace_nth_other. intros ->. apply Hj. left. reflexivity.
Qed.

(** The assignment of a slice of step 1 by replacing it as a whole, when
    the new elements are as many as the old. *)
Lemma assign_splice (l vs : list pyval) (s e : nat) :
  (s <= e <= List.length l)%nat ->
  List.length vs = (e - s)%nat ->
  assigned_elementwise l (firstn s l ++ vs ++ skipn e l)
    (map (fun k => s + k)%nat (seq 0 (e - s))) vs.
Proof.
  intros Hse Hlen. split; [|split].
  - rewrite !length_app, length_firstn, length_skipn. lia.
  - intros i p x Hp Hx.
    assert (Hi : (i < e - s)%nat).
    { rewrite <- Hlen. apply nth_error_Some. rewrite Hx. discriminate. }
    rewrite nth_error_map, nth_error_seq in Hp.
    destruct (Nat.ltb i (e - s)) eqn:E; [|apply Nat.ltb_ge in E; lia].
    simpl in Hp. inversion Hp; subst p.
    rewrite nth_error_app2 by (rewrite length_firstn; lia).
    rewrite length_firstn.
    replace (s + i - Nat.min s (List.length l))%nat with i by lia.
    rewrite nth_error_app1 by lia. exact Hx.
  - intros j Hj.
    assert (Hout : (j < s \/ e <= j)%nat).
    { destruct (Nat.lt_ge_cases j s) as [H|H]; [left; exact H|].
      destruct (Nat.lt_ge_cases j e) as [H'|H']; [|right; exact H'].
      exfalso. apply Hj. apply in_map_iff. exists (j - s)%nat.
      split; [lia|]. apply in_seq. lia. }
    destruct Hout as [H|H].
    + rewrite nth_error_app1 by (rewrite length_firstn; lia).
      rewrite nth_error_firstn.
      destruct (Nat.ltb j s) eqn:E; [reflexivity | apply Nat.ltb_ge in E; lia].
    + rewrite nth_error_app2 by (rewrite length_firstn; lia).
      rewrite length_firstn.
      rewrite nth_error_app2 by lia.
      rewrite nth_error_skipn. f_equal. lia.
Qed.

(** ** The positions of a slice *)

Lemma adjust_bound_forward (len step v : Z) :
  0 <= len -> 0 < step -> 0 <= adjust_bound len step v <= len.
Proof.
  intros Hlen Hstep. unfold adjust_bound.
  destruct (v <? 0) eqn:E1.
  - destruct (v + len <? 0) eqn:E2.
    + destruct (step <? 0) eqn:E3; lia.
    + apply Z.ltb_lt in E1. apply Z.ltb_ge in E2. lia.
  - destruct (len <=? v) eqn:E2.
    + destruct (step <? 0) eqn:E3; [apply Z.ltb_lt in E3|]; lia.
    + apply Z.ltb_ge in E1. apply Z.leb_gt in E2. lia.
Qed.

Lemma adjust_bound_backward (len step v : Z) :
  0 <= len -> step < 0 -> -1 <= adjust_bound len step v <= len - 1.
Proof.
  intros Hlen Hstep. unfold adjust_bound.
  destruct (v <? 0) eqn:E1.
  - destruct (v + len <? 0) eqn:E2.
    + destruct (step <? 0) eqn:E3; [|apply Z.ltb_ge in E3]; lia.
    + apply Z.ltb_lt in E1. apply Z.ltb_ge in E2. lia.
  - destruct (len <=? v) eqn:E2.
    + destruct (step <? 0) eqn:E3; [|apply Z.ltb_ge in E3]; lia.
    + apply Z.ltb_ge in E1. apply Z.leb_gt in E2. lia.
Qed.

Lemma slice_bounds_forward (len step : Z) (a b : option Z) :
  0 <= len -> 0 < step ->
  0 <= slice_start len step a <= len /\ 0 <= slice_stop len step b <= len.
Proof.
  intros Hlen Hstep. unfold slice_start, slice_stop.
  assert (E : (step <? 0) = false) by (apply Z.ltb_ge; lia).
  split.
  - destruct a; [apply adjust_bound_forward; assumption | rewrite E; lia].
  - destruct b; [apply adjust_bound_forward; assumption | rewrite E; lia].
Qed.

Lemma slice_bounds_backward (len step : Z) (a b : option Z) :
  0 <= len -> step < 0 ->
  -1 <= slice_start len step a <= len - 1 /\ -1 <= slice_stop len step b <= len - 1.
Proof.
  intros Hlen Hstep. unfold slice_start, slice_stop.
  assert (E : (step <? 0) = true) by (apply Z.ltb_lt; lia).
  split.
  - destruct a; [apply adjust_bound_backward; assumption | rewrite E; lia].
  - destruct b; [apply adjust_bound_backward; assumption | rewrite E; lia].
Qed.

Lemma forward_in_range (start stop step len k : Z) :
  0 < step -> 0 <= start <= len -> 0 <= stop <= len ->
  0 <= k < slice_length start stop step ->
  0 <= start + k * step < len.
Proof.
  intros Hstep Hs He Hk. unfold slice_length in Hk.
  assert (E : (step <? 0) = false) by (apply Z.ltb_ge; lia). rewrite E in Hk.
  destruct (start <? stop) eqn:E2; [|lia]. apply Z.ltb_lt in E2.
  pose proof (Z.mul_div_le (stop - start - 1) step Hstep) as Hq.
  assert (k <= (stop - start - 1) / step) by lia.
  assert (k * step <= step * ((stop - start - 1) / step)) by nia.
  nia.
Qed.

Lemma backward_in_range (start stop step len k : Z) :
  step < 0 -> -1 <= start <= len - 1 -> -1 <= stop <= len - 1 ->
  0 <= k < slice_length start stop step ->
  0 <= start + k * step < len.
Proof.
  intros Hstep Hs He Hk. unfold slice_length in Hk.
  assert (E : (step <? 0) = true) by (apply Z.ltb_lt; lia). rewrite E in Hk.
  destruct (stop <? start) eqn:E2; [|lia]. apply Z.ltb_lt in E2.
  assert (Hpos : 0 < - step) by lia.
  pose proof (Z.mul_div_le (start - stop - 1) (- step) Hpos) as Hq.
  assert (k <= (start - stop - 1) / (- step)) by lia.
  assert (k * (- step) <= (- step) * ((start - stop - 1) / (- step))) by nia.
  nia.
Qed.

Lemma slice_in_range (len : Z) (a b c : option Z) (k : Z) :
  0 <= len -> slice_step c <> 0 ->
  0 <= k < slice_length (slice_start len (slice_step c) a)
                        (slice_stop len (slice_step c) b) (slice_step c) ->
  0 <= slice_start len (slice_step c) a + k * slice_step c < len.
Proof.
  intros Hlen Hstep Hk.
  destruct (Z.lt_total (slice_step c) 0) as [Hneg|[H0|Hpos]]; [|contradiction|].
  - destruct (slice_bounds_backward len (slice_step c) a b Hlen Hneg) as [Hs He].
    eapply backward_in_range; eassumption.
  - destruct (slice_bounds_forward len (slice_step c) a b Hlen Hpos) as [Hs He].
    eapply forward_in_range; eassumption.
Qed.

Lemma py_len_nonneg {A : Type} (l : list A) : 0 <= py_len l.
Proof. unfold py_len. lia. Qed.

(** A slice covers distinct positions of the list. *)
Lemma slice_positions_in_range (l : list pyval) (a b c : option Z) :
  slice_step c <> 0 ->
  NoDup (slice_positions (py_len l) a b c)
  /\ Forall (fun p => (p < List.length l)%nat) (slice_positions (py_len l) a b c).
Proof.
  intros Hstep. unfold slice_positions.
  set (step := slice_step c) in *.
  set (start := slice_start (py_len l) step a).
  set (stop := slice_stop (py_len l) step b).
  set (n := slice_length start stop step).
  assert (Hr : forall k, In k (seq 0 (Z.to_nat n)) ->
                         0 <= start + Z.of_nat k * step < py_len l).
  { intros k Hk. apply in_seq in Hk.
    apply (slice_in_range (py_len l) a b c (Z.of_nat k) (py_len_nonneg l) Hstep).
    fold step start stop n. lia. }
  split.
  - apply NoDup_map_NoDup_ForallPairs; [|apply seq_NoDup].
    intros x y Hx Hy Heq.
    pose proof (Hr x Hx). pose proof (Hr y Hy).
    assert (start + Z.of_nat x * step = start + Z.of_nat y * step) by lia.
    assert (Z.of_nat x = Z.of_nat y) by nia. lia.
  - apply Forall_forall. intros p Hp. apply in_map_iff in Hp.
    destruct Hp as [k [Hk Hin]]. pose proof (Hr k Hin). unfold py_len in *. lia.
Qed.

(** With step 1 the positions are the run from the start to the stop. *)
Lemma slice_positions_step_1 (len : Z) (a b c : option Z) :
  0 <= len -> slice_step c = 1 ->
  let start := slice_start len 1 a in
  let stop := slice_stop len 1 b in
  slice_positions len a b c
  = map (fun k => Z.to_nat start + k)%nat
        (seq 0 (Z.to_nat (Z.max start stop) - Z.to_nat start))
  /\ (Z.to_nat start <= Z.to_nat (Z.max start stop) <= Z.to_nat len)%nat.
Proof.
  intros Hlen Hc start stop. unfold slice_positions. rewrite Hc. fold start stop.
  destruct (slice_bounds_forward len 1 a b Hlen ltac:(lia)) as [Hs He].
  fold start in Hs. fold stop in He.
  assert (Hn : Z.to_nat (slice_length start stop 1)
               = (Z.to_nat (Z.max start stop) - Z.to_nat start)%nat).
  { unfold slice_length. change (1 <? 0) with false. cbv iota.
    destruct (start <? stop) eqn:E.
    - apply Z.ltb_lt in E. rewrite Z.div_1_r. lia.
    - apply Z.ltb_ge in E. lia. }
  rewrite Hn. split; [|lia].
  apply map_ext. intros k. lia.
Qed.

(** A slice assigned from as many elements as it covers is assigned
    element by element, whatever the step. *)
Lemma py_setslice_elementwise (l : list pyval) (a b c : option Z) (vs : list pyval) :
  slice_step c <> 0 ->
  List.length vs = List.length (slice_positions (py_len l) a b c) ->
  exists l',
    py_setslice l a b c vs = Ok l'
    /\ assigned_elementwise l l' (slice_positions (py_len l) a b c) vs.
Proof.
  intros Hstep Hlen. unfold py_setslice.
  destruct (slice_step c =? 0) eqn:E0; [apply Z.eqb_eq in E0; contradiction|].
  destruct (slice_step c =? 1) eqn:E1.
  - apply Z.eqb_eq in E1.
    destruct (slice_positions_step_1 (py_len l) a b c (py_len_nonneg l) E1) as [Hps Hb].
    rewrite E1. eexists. split; [reflexivity|].
    rewrite Hps. apply assign_splice.
    + unfold py_len in Hb. rewrite Nat2Z.id in Hb. exact Hb.
    + rewrite Hlen, Hps, length_map, length_seq. reflexivity.
  - rewrite Hlen, Nat.eqb_refl. eexists. split; [reflexivity|].
    destruct (slice_positions_in_range l a b c Hstep) as [Hnd Hin].
    apply assign_positions; assumption.
Qed.

Lemma py_getslice_length (l : list pyval) (a b c : option Z) :
  slice_step c <> 0 ->
  exists covered,
    py_getslice l a b c = Ok covered
    /\ List.length covered = List.length (slice_positions (py_len l) a b c).
Proof.
  intros Hstep. unfold py_getslice.
  destruct (slice_step c =? 0) eqn:E0; [apply Z.eqb_eq in E0; contradiction|].
  eexists. split; [reflexivity|].
  destruct (slice_positions_in_range l a b c Hstep) as [_ Hin].
  induction Hin as [|p ps Hp _ IH]; [reflexivity|].
  cbn [flat_map]. rewrite length_app, IH. unfold nth_list.
  destruct (nth_error l p) eqn:E; [reflexivity|].
  apply nth_error_None in E. lia.
Qed.

(** ** Writing to a slice *)

(** [__set_dot_notation_recursive] at a last key that carries a slice: the
    list found under the key is assigned by [assign_slice] and put back. *)
Lemma set_last_key_slice (key : string) (start : nat) (group0 : string) (sub : subscript)
    (a b c : option Z) (attribute : pyval) (l : list pyval) (put : list pyval -> pyval)
    (value : pyval) :
  find_index_specifier false key = Some (start, group0) ->
  parse_subscript (strip (match_str group0)) = Ok sub ->
  slice_of sub = Some (a, b, c) ->
  slice_target (substring 0 start key) attribute = Some (l, put) ->
  set_dot_notation_recursive [key] value attribute
  = (l' <- assign_slice l a b c value ;; Ok (put l')).
Proof.
  intros Hfind Hparse Hslice Htarget.
  assert (Hsub : set_subscription_notation None (PList l) (match_str group0) value
                 = (l' <- assign_slice l a b c value ;; Ok (PList l'))).
  { unfold set_subscription_notation. rewrite Hparse. cbn [bind].
    destruct sub as [i|a' b'|a' b' c']; cbn [slice_of] in Hslice;
      [discriminate| |]; inversion Hslice; subst; reflexivity. }
  unfold slice_target in Htarget.
  cbn [set_dot_notation_recursive]. rewrite Hfind.
  destruct (0 <? String.length (strip (substring 0 start key)))%nat.
  - destruct attribute; try discriminate.
    destruct (dict_get (substring 0 start key) d) eqn:E; try discriminate.
    inversion Htarget; subst. rewrite Hsub.
    destruct (assign_slice l a b c value); reflexivity.
  - destruct attribute; try discriminate.
    inversion Htarget; subst. exact Hsub.
Qed.

Lemma repeat_nth_error {A : Type} (x : A) (n i : nat) (y : A) :
  nth_error (repeat x n) i = Some y -> y = x.
Proof.
  revert i. induction n as [|n IH]; intros i H; [destruct i; discriminate|].
  destruct i; simpl in H; [inversion H; reflexivity | eapply IH; exact H].
Qed.

(** C4, as amended.  At a last key that carries a slice of a list: a
    list of as many elements as the slice covers is assigned to the covered
    slots one by one and the list keeps its length; a list of another size
    replaces the slice as a whole when the step is 1 and raises
    [ValueError] with any other step; a value that is no list is copied and
    written into every covered slot, and the list keeps its length. *)
Theorem set_slice_at_last_key :
  forall (key : string) (start : nat) (group0 : string) (sub : subscript)
         (a b c : option Z) (attribute : pyval) (l : list pyval)
         (put : list pyval -> pyval) (value : pyval),
    find_index_specifier false key = Some (start, group0) ->
    parse_subscript (strip (match_str group0)) = Ok sub ->
    slice_of sub = Some (a, b, c) ->
    slice_target (substring 0 start key) attribute = Some (l, put) ->
    slice_step c <> 0 ->
    let ps := slice_positions (py_len l) a b c in
    let outcome := set_dot_notation_recursive [key] value attribute in
    (forall vs, value = PList vs -> List.length vs = List.length ps ->
                exists l', outcome = Ok (put l') /\ assigned_elementwise l l' ps vs)
    /\ (forall vs, value = PList vs -> slice_step c = 1 ->
                   outcome =
                   Ok (put (firstn (Z.to_nat (slice_start (py_len l) 1 a)) l ++ vs
                            ++ skipn (Z.to_nat (Z.max (slice_start (py_len l) 1 a)
                                                      (slice_stop (py_len l) 1 b))) l)))
    /\ (forall vs, value = PList vs -> slice_step c <> 1 ->
                   List.length vs <> List.length ps -> outcome = Raise ValueError)
    /\ (as_list value = None -> json_value value = true ->
        exists l', outcome = Ok (put l')
                   /\ assigned_elementwise l l' ps (repeat value (List.length ps))).
Proof.
  intros key start group0 sub a b c attribute l put value
         Hfind Hparse Hslice Htarget Hstep ps outcome.
  subst outcome.
  rewrite (set_last_key_slice key start group0 sub a b c attribute l put value
             Hfind Hparse Hslice Htarget).
  assert (E0 : (slice_step c =? 0) = false) by (apply Z.eqb_neq; exact Hstep).
  split; [|split; [|split]].
  - intros vs -> Hlen. unfold assign_slice. cbn [as_list].
    destruct (py_setslice_elementwise l a b c vs Hstep Hlen) as [l' [Hset Hl']].
    rewrite Hset. exists l'. split; [reflexivity | exact Hl'].
  - intros vs -> H1. unfold assign_slice. cbn [as_list].
    unfold py_setslice. rewrite E0, H1. reflexivity.
  - intros vs -> H1 Hlen. unfold assign_slice. cbn [as_list].
    unfold py_setslice. rewrite E0.
    destruct (slice_step c =? 1) eqn:E1; [apply Z.eqb_eq in E1; contradiction|].
    fold ps. destruct (Nat.eqb (List.length vs) (List.length ps)) eqn:E;
      [apply Nat.eqb_eq in E; contradiction | reflexivity].
  - intros Hleaf Hjson. unfold assign_slice. rewrite Hleaf.
    rewrite (json_roundtrip_json value Hjson). cbn [bind].
    destruct (py_getslice_length l a b c Hstep) as [covered [Hget Hcov]].
    rewrite Hget. cbn [bind]. rewrite Hcov. fold ps.
    destruct (py_setslice_elementwise l a b c (repeat value (List.length ps)) Hstep)
      as [l' [Hset Hl']].
    { rewrite repeat_length. reflexivity. }
    rewrite Hset. exists l'. split; [reflexivity | exact Hl'].
Qed.

(** C4, as stated, fails: a list of one element written to the slice
    [x[1:3]], which covers two slots, replaces the slice; the list shrinks
    and the second covered slot holds the old last element. *)
Lemma set_slice_shorter_list :
  set_dot_notation S4_slice_row "x[1:3]" (PList [PInt 7])
  = Ok (PDict [("x", PList [PInt 10; PInt 7; PInt 40])])
  /\ slice_positions 4 (Some 1) (Some 3) None = [1%nat; 2%nat]
  /\ ~ assigned_elementwise [PInt 10; PInt 20; PInt 30; PInt 40]
         [PInt 10; PInt 7; PInt 40] [1%nat; 2%nat] [PInt 7].
Proof.
  split; [reflexivity|]. split; [reflexivity|].
  intros [Hlen _]. discriminate Hlen.
Qed.

Lemma set_slice_at_last_key_witness :
  let l := [PInt 10; PInt 20; PInt 30; PInt 40] in
  let put := fun l' => PDict (dict_set "x" (PList l') [("x", PList l)]) in
  let ps := slice_positions (py_len l) (Some 1) (Some 3) None in
  let outcome := set_dot_notation_recursive ["x[1:3]"] (PInt 7) S4_slice_row in
  (forall vs, PInt 7 = PList vs -> List.length vs = List.length ps ->
              exists l', outcome = Ok (put l') /\ assigned_elementwise l l' ps vs)
  /\ (forall vs, PInt 7 = PList vs -> slice_step None = 1 ->
                 outcome =
                 Ok (put (firstn (Z.to_nat (slice_start (py_len l) 1 (Some 1))) l ++ vs
                          ++ skipn (Z.to_nat (Z.max (slice_start (py_len l) 1 (Some 1))
                                                    (slice_stop (py_len l) 1 (Some 3)))) l)))
  /\ (forall vs, PInt 7 = PList vs -> slice_step None <> 1 ->
                 List.length vs <> List.length ps -> outcome = Raise ValueError)
  /\ (as_list (PInt 7) = None -> json_value (PInt 7) = true ->
      exists l', outcome = Ok (put l')
                 /\ assigned_elementwise l l' ps (repeat (PInt 7) (List.length ps))).
Proof.
  apply (set_slice_at_last_key "x[1:3]" 1 "[1:3]" (SubSlice (Some 1) (Some 3))
           (Some 1) (Some 3) None S4_slice_row
           [PInt 10; PInt 20; PInt 30; PInt 40]
           (fun l' => PDict (dict_set "x" (PList l')
                               [("x", PList [PInt 10; PInt 20; PInt 30; PInt 40])]))
           (PInt 7)).
  - reflexivity.
  - reflexivity.
  - reflexivity.
  - reflexivity.
  - simpl. lia.
Defined.

(** ** What [set_dot_notation] shares with its arguments *)

(** C2.  Where the claim fails: [obj = {"x": [0, 0], "y": [{"k": 1}]}]
    and the call [set_dot_notation(obj, "x[0:1]", obj["y"])].  No object of
    the store is changed and the object returned is new, but the dict
    [{"k": 1}] of the input, at address 0, is an element of the list [x] of
    the result: the list given as value is assigned to the slice without
    a copy.  With the index [x[0]] in place of the slice, the value goes
    through JSON first and nothing of the input is reachable from the
    result. *)
Theorem set_dot_notation_shares_slice_value :
  exists root st',
    Store.set_dot_notation sharing_store (Store.RObj 3%nat) "x[0:1]" (Store.RObj 1%nat)
    = Ok (root, st')
    /\ firstn (List.length sharing_store) st' = sharing_store
    /\ Store.value_of 4 st' root
       = Some (PDict [("x", PList [PDict [("k", PInt 1)]; PInt 0]);
                      ("y", PList [PDict [("k", PInt 1)]])])
    /\ In 0%nat (Store.reachable 4 sharing_store (Store.RObj 3%nat))
    /\ In 0%nat (Store.reachable 4 st' root)
    /\ exists root2 st2,
         Store.set_dot_notation sharing_store (Store.RObj 3%nat) "x[0]" (Store.RObj 1%nat)
         = Ok (root2, st2)
         /\ Forall (fun l => (List.length sharing_store <= l)%nat)
              (Store.reachable 4 st2 root2).
Proof.
  eexists. eexists. split; [vm_compute; reflexivity|].
  split; [reflexivity|]. split; [reflexivity|].
  split; [vm_compute; tauto|]. split; [vm_compute; tauto|].
  eexists. eexists. split; [vm_compute; reflexivity|].
  vm_compute. repeat constructor.
Qed.

(* ===================================================================== *)
(** * Further properties of the path language *)
(* ===================================================================== *)

(** ** What [get_dot_notation] returns *)

Lemma flatten_flat (v : pyval) : Forall (fun x => as_list x = None) (flatten v).
Proof.
  induction v using pyval_nested_ind; try (repeat constructor).
  cbn [flatten]. induction l as [|x t IHt]; [constructor|].
  inversion H as [|? ? Hx Ht]; subst.
  apply Forall_app. split; [exact Hx | exact (IHt Ht)].
Qed.

Lemma get_dot_notation_Ok_inv (obj : pyval) (p : string) (res : pyval) :
  get_dot_notation obj p = Ok res ->
  exists obj0 r,
    json_roundtrip obj = Ok obj0
    /\ (0 <? String.length p)%nat = true
    /\ get_dot_notation_recursive
         (if last_is_val (split_keys p) then removelast (split_keys p) else split_keys p)
         obj0 = Ok r
    /\ (if last_is_val (split_keys p)
        then flatten r = [res]
        else res = PList (flatten r)).
Proof.
  unfold get_dot_notation. intros H.
  apply bind_Ok_inv in H. destruct H as [obj0 [H0 H]].
  apply bind_Ok_inv in H. destruct H as [[] [Hlen H]].
  apply bind_Ok_inv in H. destruct H as [[] [_ H]].
  apply bind_Ok_inv in H. destruct H as [r [Hr H]].
  exists obj0, r. split; [exact H0|]. split.
  - unfold py_assert in Hlen. destruct (0 <? String.length p)%nat; [reflexivity|discriminate].
  - split; [exact Hr|].
    destruct (last_is_val (split_keys p)).
    + destruct (flatten r) as [|x [|y t]]; try discriminate. inversion H. reflexivity.
    + inversion H. reflexivity.
Qed.

(** X1.  Without the terminator [$val], [get_dot_notation] returns a list
    that holds no list: whatever the nesting of the data and of the
    subscriptions, the result is flattened. *)
Theorem get_dot_notation_flat :
  forall (obj : pyval) (p : string) (res : pyval),
    last_is_val (split_keys p) = false ->
    get_dot_notation obj p = Ok res ->
    exists l, res = PList l /\ Forall (fun x => as_list x = None) l.
Proof.
  intros obj p res Hval H.
  apply get_dot_notation_Ok_inv in H. destruct H as [obj0 [r [_ [_ [_ H]]]]].
  rewrite Hval in H. exists (flatten r). split; [exact H | apply flatten_flat].
Qed.

Lemma get_dot_notation_flat_witness :
  exists l, PList [PInt 1; PInt 2; PInt 3] = PList l
            /\ Forall (fun x => as_list x = None) l.
Proof.
  apply (get_dot_notation_flat
           (PDict [("x", PList [PList [PInt 1; PInt 2]; PList [PInt 3]])]) "x"
           (PList [PInt 1; PInt 2; PInt 3])).
  - reflexivity.
  - reflexivity.
Defined.

(** ** The terminator [$val] *)

Lemma re_split_dot_aux_nonempty (s : string) :
  forall prev cur, re_split_dot_aux prev cur s <> [].
Proof.
  induction s as [|c r IH]; intros prev cur; cbn [re_split_dot_aux].
  - discriminate.
  - destruct (ascii_eqb c "."%char && negb (is_backslash prev)); [discriminate | apply IH].
Qed.

Lemma split_keys_nonempty (p : string) : split_keys p <> [].
Proof.
  unfold split_keys, re_split_dot.
  pose proof (re_split_dot_aux_nonempty p None EmptyString) as H.
  destruct (re_split_dot_aux None EmptyString p); [contradiction | discriminate].
Qed.

Lemma re_split_dot_aux_val (p : string) :
  forall prev cur,
    is_backslash (last_char prev p) = false ->
    re_split_dot_aux prev cur (p ++ ".$val") = re_split_dot_aux prev cur p ++ ["$val"].
Proof.
  induction p as [|c r IH]; intros prev cur H.
  - cbn [last_char] in H. cbn [String.append re_split_dot_aux].
    change (ascii_eqb "."%char "."%char) with true. rewrite H. reflexivity.
  - cbn [last_char] in H. cbn [String.append re_split_dot_aux].
    destruct (ascii_eqb c "."%char && negb (is_backslash prev)).
    + rewrite (IH _ _ H). reflexivity.
    + apply IH. exact H.
Qed.

Lemma split_keys_val (p : string) :
  is_backslash (last_char None p) = false ->
  split_keys (p ++ ".$val") = split_keys p ++ ["$val"].
Proof.
  intros H. unfold split_keys, re_split_dot.
  rewrite (re_split_dot_aux_val p None EmptyString H), map_app. reflexivity.
Qed.

Lemma length_append_pos (p q : string) :
  (0 <? String.length p)%nat = true -> (0 <? String.length (p ++ q))%nat = true.
Proof. destruct p; [discriminate | reflexivity]. Qed.

(** X2.  The terminator [$val] unwraps a result of one element and refuses
    any other: when the read at [p] returns the list [l], the read at
    [p.$val] returns the element of [l] if [l] has exactly one, and raises
    [AssertionError] otherwise.  ([p] does not end with a backslash, which
    would escape the dot, nor with [$val] itself.) *)
Theorem get_dot_notation_val :
  forall (obj : pyval) (p : string) (l : list pyval),
    last_is_val (split_keys p) = false ->
    is_backslash (last_char None p) = false ->
    get_dot_notation obj p = Ok (PList l) ->
    get_dot_notation obj (p ++ ".$val")
    = match l with
      | [x] => Ok x
      | _ => Raise AssertionError
      end.
Proof.
  intros obj p l Hval Hbs H.
  apply get_dot_notation_Ok_inv in H.
  destruct H as [obj0 [r [H0 [Hlen [Hr Hres]]]]].
  rewrite Hval in Hr, Hres. inversion Hres; subst l.
  unfold get_dot_notation. rewrite H0. cbn [bind].
  rewrite (length_append_pos p ".$val" Hlen). cbn [py_assert bind].
  rewrite (split_keys_val p Hbs), last_is_val_snoc, removelast_last.
  pose proof (split_keys_nonempty p) as Hne.
  destruct (split_keys p) as [|k ks] eqn:E; [contradiction|].
  cbn [List.length Nat.leb py_assert bind]. rewrite Hr. cbn [bind].
  destruct (flatten r) as [|x [|y t]]; reflexivity.
Qed.

Lemma get_dot_notation_val_witness :
  get_dot_notation (PDict [("x", PList [PInt 10; PInt 20; PInt 30])]) ("x[0]" ++ ".$val")
  = Ok (PInt 10)
  /\ get_dot_notation (PDict [("x", PList [PInt 10; PInt 20; PInt 30])]) ("x" ++ ".$val")
     = Raise AssertionError.
Proof.
  split.
  - apply (get_dot_notation_val (PDict [("x", PList [PInt 10; PInt 20; PInt 30])])
             "x[0]" [PInt 10]); reflexivity.
  - apply (get_dot_notation_val (PDict [("x", PList [PInt 10; PInt 20; PInt 30])])
             "x" [PInt 10; PInt 20; PInt 30]); reflexivity.
Defined.

(** ** [set_dot_notation] keeps JSON values JSON *)

Lemma json_roundtrip_Ok (x y : pyval) :
  json_roundtrip x = Ok y -> y = x /\ json_value x = true.
Proof.
  revert y. induction x using pyval_nested_ind; intros y Hy;
    try (inversion Hy; split; reflexivity).
  - cbn [json_roundtrip] in Hy. apply bind_Ok_inv in Hy. destruct Hy as [l' [Hl Hy]].
    inversion Hy; subst y. clear Hy.
    assert (Hgoal : l' = l /\ forallb json_value l = true).
    { revert l' Hl. induction l as [|x t IHt]; intros l' Hl.
      - inversion Hl. split; reflexivity.
      - inversion H as [|? ? Hx Ht]; subst.
        apply bind_Ok_inv in Hl. destruct Hl as [x' [Hx' Hl]].
        apply bind_Ok_inv in Hl. destruct Hl as [t' [Ht' Hl]].
        inversion Hl; subst l'.
        destruct (Hx _ Hx') as [-> Hjx]. destruct (IHt Ht _ Ht') as [-> Hjt].
        split; [reflexivity|]. cbn [forallb]. rewrite Hjx, Hjt. reflexivity. }
    destruct Hgoal as [-> Hj]. split; [reflexivity | exact Hj].
  - cbn [json_roundtrip] in Hy. apply bind_Ok_inv in Hy. destruct Hy as [d' [Hd Hy]].
    inversion Hy; subst y. clear Hy.
    assert (Hgoal : d' = d /\ forallb (fun kv => json_value (snd kv)) d = true).
    { revert d' Hd. induction d as [|[k x] t IHt]; intros d' Hd.
      - inversion Hd. split; reflexivity.
      - inversion H as [|? ? Hx Ht]; subst. cbn [snd] in Hx.
        apply bind_Ok_inv in Hd. destruct Hd as [x' [Hx' Hd]].
        apply bind_Ok_inv in Hd. destruct Hd as [t' [Ht' Hd]].
        inversion Hd; subst d'.
        destruct (Hx _ Hx') as [-> Hjx]. destruct (IHt Ht _ Ht') as [-> Hjt].
        split; [reflexivity|]. cbn [forallb snd]. rewrite Hjx, Hjt. reflexivity. }
    destruct Hgoal as [-> Hj]. split; [reflexivity | exact Hj].
Qed.

Lemma json_dict_get (k : string) (d : list (string * pyval)) :
  json_value (PDict d) = true -> json_value (dict_get k d) = true.
Proof.
  cbn [json_value]. unfold dict_get. intros Hd.
  destruct (dict_lookup k d) as [x|] eqn:E; [|reflexivity].
  induction d as [|[k0 v0] t IHd]; [discriminate|].
  cbn [forallb snd] in Hd. apply andb_true_iff in Hd. destruct Hd as [H0 Ht].
  cbn [dict_lookup] in E. destruct (String.eqb k k0).
  - inversion E; subst. exact H0.
  - apply IHd; assumption.
Qed.

Lemma json_nth_error (l : list pyval) (j : nat) (x : pyval) :
  forallb json_value l = true -> nth_error l j = Some x -> json_value x = true.
Proof.
  intros Hl Hx. rewrite forallb_forall in Hl. apply Hl. eapply nth_error_In. exact Hx.
Qed.

Lemma json_replace_nth (l : list pyval) (j : nat) (x : pyval) :
  forallb json_value l = true -> json_value x = true ->
  forallb json_value (replace_nth j x l) = true.
Proof.
  revert j. induction l as [|y t IH]; intros j Hl Hx.
  - destruct j; reflexivity.
  - cbn [forallb] in Hl. apply andb_true_iff in Hl. destruct Hl as [Hy Ht].
    destruct j; cbn [replace_nth forallb].
    + rewrite Hx, Ht. reflexivity.
    + rewrite Hy, (IH j Ht Hx). reflexivity.
Qed.

Lemma json_list_item (l : list pyval) (i : Z) (x : pyval) :
  forallb json_value l = true -> list_item l i = Ok x -> json_value x = true.
Proof.
  intros Hl H. unfold list_item in H. apply bind_Ok_inv in H. destruct H as [j [_ H]].
  destruct (nth_error l j) as [y|] eqn:E; [|discriminate].
  inversion H; subst. eapply json_nth_error; eassumption.
Qed.

Lemma json_list_set_item (l l' : list pyval) (i : Z) (x : pyval) :
  forallb json_value l = true -> json_value x = true ->
  list_set_item l i x = Ok l' -> forallb json_value l' = true.
Proof.
  intros Hl Hx H. unfold list_set_item in H. apply bind_Ok_inv in H.
  destruct H as [j [_ H]]. inversion H; subst. apply json_replace_nth; assumption.
Qed.

Lemma json_update_positions (f : pyval -> result pyval) (ps : list nat) :
  (forall x x', f x = Ok x' -> json_value x = true -> json_value x' = true) ->
  forall l l', forallb json_value l = true ->
               update_positions f ps l = Ok l' -> forallb json_value l' = true.
Proof.
  intros Hf. induction ps as [|p t IH]; intros l l' Hl H; cbn [update_positions] in H.
  - inversion H; subst. exact Hl.
  - destruct (nth_error l p) as [x|] eqn:E; [|discriminate].
    apply bind_Ok_inv in H. destruct H as [x' [Hx' H]].
    apply (IH _ _ (json_replace_nth l p x' Hl
                     (Hf _ _ Hx' (json_nth_error l p x Hl E))) H).
Qed.

Lemma json_firstn (n : nat) (l : list pyval) :
  forallb json_value l = true -> forallb json_value (firstn n l) = true.
Proof.
  intros Hl. rewrite <- (firstn_skipn n l), forallb_app in Hl.
  apply andb_true_iff in Hl. tauto.
Qed.

Lemma json_skipn (n : nat) (l : list pyval) :
  forallb json_value l = true -> forallb json_value (skipn n l) = true.
Proof.
  intros Hl. rewrite <- (firstn_skipn n l), forallb_app in Hl.
  apply andb_true_iff in Hl. tauto.
Qed.

Lemma json_py_setslice (l vs l' : list pyval) (a b c : option Z) :
  forallb json_value l = true -> forallb json_value vs = true ->
  py_setslice l a b c vs = Ok l' -> forallb json_value l' = true.
Proof.
  intros Hl Hvs H. unfold py_setslice in H.
  destruct (slice_step c =? 0); [discriminate|].
  destruct (slice_step c =? 1).
  - inversion H; subst. rewrite !forallb_app.
    rewrite (json_firstn _ l Hl), Hvs, (json_skipn _ l Hl). reflexivity.
  - destruct (List.length vs =? List.length (slice_positions (py_len l) a b c))%nat;
      [|discriminate].
    inversion H; subst. clear H.
    assert (Hps : forall px, In px (combine (slice_positions (py_len l) a b c) vs) ->
                             json_value (snd px) = true).
    { intros [p x] Hin. apply in_combine_r in Hin. rewrite forallb_forall in Hvs.
      apply Hvs. exact Hin. }
    remember (combine (slice_positions (py_len l) a b c) vs) as pxs eqn:E. clear E.
    revert l Hl. induction pxs as [|px t IH]; intros l0 Hl0; cbn [fold_left].
    + exact Hl0.
    + apply IH.
      * intros q Hq. apply Hps. right. exact Hq.
      * apply json_replace_nth; [exact Hl0 | apply Hps; left; reflexivity].
Qed.

Lemma json_repeat (v : pyval) (n : nat) :
  json_value v = true -> forallb json_value (repeat v n) = true.
Proof.
  intros Hv. induction n as [|n IH]; [reflexivity|].
  cbn [repeat forallb]. rewrite Hv, IH. reflexivity.
Qed.

Lemma json_assign_slice (l l' : list pyval) (a b c : option Z) (value : pyval) :
  forallb json_value l = true -> json_value value = true ->
  assign_slice l a b c value = Ok l' -> forallb json_value l' = true.
Proof.
  intros Hl Hv H. unfold assign_slice in H.
  destruct (as_list value) as [vs|] eqn:E.
  - destruct value; try discriminate. inversion E; subst.
    eapply json_py_setslice; [exact Hl | exact Hv | exact H].
  - apply bind_Ok_inv in H. destruct H as [v [Hv' H]].
    apply bind_Ok_inv in H. destruct H as [covered [_ H]].
    apply json_roundtrip_Ok in Hv'. destruct Hv' as [-> _].
    eapply json_py_setslice; [exact Hl | apply json_repeat; exact Hv | exact H].
Qed.

Lemma json_set_subscription_notation (deeper : option (pyval -> result pyval))
    (attribute a' : pyval) (subscription : string) (value : pyval) :
  (forall f, deeper = Some f ->
             forall x x', f x = Ok x' -> json_value x = true -> json_value x' = true) ->
  json_value attribute = true -> json_value value = true ->
  set_subscription_notation deeper attribute subscription value = Ok a' ->
  json_value a' = true.
Proof.
  intros Hdeep Ha Hv H. unfold set_subscription_notation in H.
  destruct attribute; try discriminate. cbn [json_value] in Ha.
  apply bind_Ok_inv in H. destruct H as [sub [_ H]].
  destruct sub as [i|a b|a b c]; destruct deeper as [f|].
  - apply bind_Ok_inv in H. destruct H as [x [Hx H]].
    apply bind_Ok_inv in H. destruct H as [x' [Hx' H]].
    apply bind_Ok_inv in H. destruct H as [l' [Hl' H]].
    inversion H; subst. cbn [json_value].
    eapply json_list_set_item; [exact Ha | | exact Hl'].
    eapply (Hdeep f eq_refl); [exact Hx' | eapply json_list_item; eassumption].
  - apply bind_Ok_inv in H. destruct H as [v [Hv' H]].
    apply bind_Ok_inv in H. destruct H as [l' [Hl' H]].
    inversion H; subst. cbn [json_value].
    apply json_roundtrip_Ok in Hv'. destruct Hv' as [-> _].
    eapply json_list_set_item; [exact Ha | exact Hv | exact Hl'].
  - apply bind_Ok_inv in H. destruct H as [s [_ H]].
    apply bind_Ok_inv in H. destruct H as [l' [Hl' H]].
    inversion H; subst. cbn [json_value].
    eapply json_update_positions; [exact (Hdeep f eq_refl) | exact Ha | exact Hl'].
  - apply bind_Ok_inv in H. destruct H as [l' [Hl' H]].
    inversion H; subst. cbn [json_value].
    eapply json_assign_slice; [exact Ha | exact Hv | exact Hl'].
  - apply bind_Ok_inv in H. destruct H as [s [_ H]].
    apply bind_Ok_inv in H. destruct H as [l' [Hl' H]].
    inversion H; subst. cbn [json_value].
    eapply json_update_positions; [exact (Hdeep f eq_refl) | exact Ha | exact Hl'].
  - apply bind_Ok_inv in H. destruct H as [l' [Hl' H]].
    inversion H; subst. cbn [json_value].
    eapply json_assign_slice; [exact Ha | exact Hv | exact Hl'].
Qed.

(** [__set_dot_notation_recursive], unfolded once. *)
Lemma set_dot_notation_recursive_cons (key : string) (rest : list string)
    (value attribute : pyval) :
  set_dot_notation_recursive (key :: rest) value attribute
  = match find_index_specifier false key with
    | Some (start, group0) =>
        let sub_key := substring 0 start key in
        if (0 <? String.length (strip sub_key))%nat then
          match attribute with
          | PDict d =>
              a' <- set_subscription_notation (deeper_of rest value) (dict_get sub_key d)
                      (match_str group0) value ;;
              Ok (PDict (dict_set sub_key a' d))
          | _ => Raise AttributeError
          end
        else
          set_subscription_notation (deeper_of rest value) attribute (match_str group0) value
    | None =>
        match attribute with
        | PDict d =>
            match deeper_of rest value with
            | None =>
                v <- json_roundtrip value ;;
                Ok (PDict (dict_set key v d))
            | Some f =>
                a' <- f (dict_get key d) ;;
                Ok (PDict (dict_set key a' d))
            end
        | PList l =>
            l' <- map_result (set_dot_notation_recursive (key :: rest) value) l ;;
            Ok (PList l')
        | _ => Raise DotNotationError
        end
    end.
Proof.
  destruct attribute; cbn [set_dot_notation_recursive];
    try (destruct rest; reflexivity).
  destruct (find_index_specifier false key) as [[start group0]|];
    [destruct rest; reflexivity|].
  f_equal.
  induction l as [|x t IH]; [reflexivity|].
  cbn [map_result]. rewrite <- IH. destruct rest; reflexivity.
Qed.

Lemma json_map_result (f : pyval -> result pyval) (l l' : list pyval) :
  Forall (fun x => forall x', f x = Ok x' -> json_value x = true -> json_value x' = true) l ->
  forallb json_value l = true ->
  map_result f l = Ok l' -> forallb json_value l' = true.
Proof.
  revert l'. induction l as [|x t IH]; intros l' HF Hl H.
  - inversion H. reflexivity.
  - inversion HF as [|? ? Hx Ht]; subst.
    cbn [forallb] in Hl. apply andb_true_iff in Hl. destruct Hl as [Hjx Hjt].
    cbn [map_result] in H. apply bind_Ok_inv in H. destruct H as [x' [Hx' H]].
    apply bind_Ok_inv in H. destruct H as [t' [Ht' H]]. inversion H; subst.
    cbn [forallb]. rewrite (Hx _ Hx' Hjx), (IH _ Ht Hjt Ht'). reflexivity.
Qed.

Lemma json_set_dot_notation_recursive (specifier : list string) (value : pyval) :
  json_value value = true ->
  forall attribute attribute',
    set_dot_notation_recursive specifier value attribute = Ok attribute' ->
    json_value attribute = true -> json_value attribute' = true.
Proof.
  intros Hv. induction specifier as [|key rest IHrest]; intros attribute attribute' H Ha.
  - discriminate H.
  - assert (Hdeep : forall f, deeper_of rest value = Some f ->
                      forall x x', f x = Ok x' -> json_value x = true -> json_value x' = true).
    { intros f Hf. destruct rest; [discriminate|]. inversion Hf; subst. exact IHrest. }
    revert attribute' H Ha.
    induction attribute using pyval_nested_ind; intros attribute' H0 Ha;
      rewrite set_dot_notation_recursive_cons in H0;
      destruct (find_index_specifier false key) as [[start group0]|];
      cbv zeta in H0;
      try (destruct (0 <? String.length (strip (substring 0 start key)))%nat;
           [discriminate|]);
      try (eapply json_set_subscription_notation; [exact Hdeep | exact Ha | exact Hv | exact H0]);
      try discriminate.
    + (* a list, no subscription *)
      apply bind_Ok_inv in H0. destruct H0 as [l' [Hl' H0]]. inversion H0; subst.
      cbn [json_value] in *. eapply json_map_result; [|exact Ha|exact Hl'].
      eapply Forall_impl; [|exact H]. intros x Hx x' Hx' Hjx. exact (Hx _ Hx' Hjx).
    + (* a dict, with a subscription *)
      destruct (0 <? String.length (strip (substring 0 start key)))%nat.
      * apply bind_Ok_inv in H0. destruct H0 as [a' [Ha' H0]]. inversion H0; subst.
        apply json_value_dict_set; [|exact Ha].
        eapply json_set_subscription_notation;
          [exact Hdeep | apply json_dict_get; exact Ha | exact Hv | exact Ha'].
      * eapply json_set_subscription_notation; [exact Hdeep | exact Ha | exact Hv | exact H0].
    + (* a dict, no subscription *)
      destruct (deeper_of rest value) as [f|] eqn:Ef.
      * apply bind_Ok_inv in H0. destruct H0 as [a' [Ha' H0]]. inversion H0; subst.
        apply json_value_dict_set; [|exact Ha].
        eapply (Hdeep f eq_refl); [exact Ha' | apply json_dict_get; exact Ha].
      * apply bind_Ok_inv in H0. destruct H0 as [v [Hv' H0]]. inversion H0; subst.
        apply json_roundtrip_Ok in Hv'. destruct Hv' as [-> _].
        apply json_value_dict_set; [exact Hv | exact Ha].
Qed.

Lemma set_dot_notation_json_aux (obj : pyval) (p : string) (v obj' : pyval) :
  json_value v = true ->
  set_dot_notation obj p v = Ok obj' ->
  json_value obj' = true /\ json_value obj = true.
Proof.
  intros Hv H. unfold set_dot_notation in H.
  apply bind_Ok_inv in H. destruct H as [obj_dc [Hdc H]].
  apply json_roundtrip_Ok in Hdc. destruct Hdc as [-> Hobj].
  split; [exact (json_set_dot_notation_recursive _ _ Hv _ _ H Hobj) | exact Hobj].
Qed.

(** X3.  [set_dot_notation] keeps JSON values JSON: when the value written
    can be serialized, so can the object returned, whatever the specifier.
    (The object given is serialized by the call itself; a value that is a
    list is stored by a slice assignment as it is, so a [datetime] in it
    would reach the result.) *)
Theorem set_dot_notation_json :
  forall (obj : pyval) (p : string) (v obj' : pyval),
    json_value v = true ->
    set_dot_notation obj p v = Ok obj' ->
    json_value obj' = true /\ json_roundtrip obj' = Ok obj'.
Proof.
  intros obj p v obj' Hv H. unfold set_dot_notation in H.
  apply bind_Ok_inv in H. destruct H as [obj_dc [Hdc H]].
  apply json_roundtrip_Ok in Hdc. destruct Hdc as [-> Hobj].
  pose proof (json_set_dot_notation_recursive _ _ Hv _ _ H Hobj) as Hj.
  split; [exact Hj | apply json_roundtrip_json; exact Hj].
Qed.

Lemma set_dot_notation_json_witness :
  json_value (PDict [("x", PList [PInt 7; PInt 8; PInt 2])]) = true
  /\ json_roundtrip (PDict [("x", PList [PInt 7; PInt 8; PInt 2])])
     = Ok (PDict [("x", PList [PInt 7; PInt 8; PInt 2])]).
Proof.
  apply (set_dot_notation_json (PDict [("x", PList [PInt 0; PInt 1; PInt 2])]) "x[0:2]"
           (PList [PInt 7; PInt 8])).
  - reflexivity.
  - reflexivity.
Defined.

(** ** Reading and writing along keys that lead through dicts *)

Lemma plain_key_find (comma : bool) (k : string) :
  plain_key k = true -> find_index_specifier comma k = None.
Proof.
  intros H. apply plain_key_inv in H. apply find_index_specifier_no_bracket. tauto.
Qed.

Lemma get_recursive_walk (ks rest : list string) :
  forall obj x,
    Forall (fun k => plain_key k = true) ks ->
    walk ks obj = Some x ->
    get_dot_notation_recursive (ks ++ rest) obj = get_dot_notation_recursive rest x.
Proof.
  induction ks as [|k ks IH]; intros obj x Hks Hw.
  - inversion Hw. reflexivity.
  - inversion Hks as [|? ? Hk Hks']; subst. cbn [walk] in Hw.
    destruct obj; try discriminate. cbn [app].
    rewrite get_dot_notation_recursive_dict by (apply plain_key_find; exact Hk).
    apply IH; assumption.
Qed.

Lemma set_recursive_walk (ks rest : list string) (v : pyval) :
  rest <> [] ->
  forall obj x,
    Forall (fun k => plain_key k = true) ks ->
    walk ks obj = Some x ->
    set_dot_notation_recursive (ks ++ rest) v obj
    = (x' <- set_dot_notation_recursive rest v x ;; Ok (put ks obj x')).
Proof.
  intros Hrest. induction ks as [|k ks IH]; intros obj x Hks Hw.
  - inversion Hw; subst. cbn [app put].
    destruct (set_dot_notation_recursive rest v x); reflexivity.
  - inversion Hks as [|? ? Hk Hks']; subst. cbn [walk] in Hw.
    destruct obj; try discriminate. cbn [app].
    rewrite set_dot_notation_recursive_dict by (apply plain_key_find; exact Hk).
    destruct (ks ++ rest) as [|k' r] eqn:E.
    + apply app_eq_nil in E. destruct E as [_ E]. contradiction.
    + rewrite (IH _ _ Hks' Hw).
      destruct (set_dot_notation_recursive rest v x); reflexivity.
Qed.

Lemma walk_put (ks : list string) :
  forall obj y x, walk ks obj = Some y -> walk ks (put ks obj x) = Some x.
Proof.
  induction ks as [|k ks IH]; intros obj y x Hw.
  - reflexivity.
  - cbn [walk] in Hw. destruct obj; try discriminate.
    cbn [put walk]. rewrite dict_get_dict_set. eapply IH. exact Hw.
Qed.

Lemma dict_set_dict_set {V : Type} (k : string) (v w : V) (d : list (string * V)) :
  dict_set k w (dict_set k v d) = dict_set k w d.
Proof.
  induction d as [|[k' v'] t IH]; cbn [dict_set].
  - rewrite String.eqb_refl. reflexivity.
  - destruct (String.eqb k k') eqn:E; cbn [dict_set]; rewrite E; [reflexivity|].
    rewrite IH. reflexivity.
Qed.

Lemma put_put (ks : list string) :
  forall obj y x z, walk ks obj = Some y -> put ks (put ks obj x) z = put ks obj z.
Proof.
  induction ks as [|k ks IH]; intros obj y x z Hw.
  - reflexivity.
  - cbn [walk] in Hw. destruct obj; try discriminate.
    cbn [put]. rewrite dict_get_dict_set, dict_set_dict_set, (IH _ _ _ _ Hw). reflexivity.
Qed.

Lemma dict_get_dict_set_other (k k' : string) (v : pyval) (d : list (string * pyval)) :
  k <> k' -> dict_get k (dict_set k' v d) = dict_get k d.
Proof.
  intros Hne. unfold dict_get. rewrite dict_lookup_dict_set.
  destruct (String.eqb k k') eqn:E; [|reflexivity].
  apply String.eqb_eq in E. contradiction.
Qed.

(** The body of [get_dot_notation] on a specifier given by its keys. *)
Lemma get_dot_notation_dotted (obj : pyval) (ks : list string) :
  ks <> [] ->
  Forall (fun x => no_dot_no_backslash x = true) ks ->
  json_value obj = true ->
  get_dot_notation obj (dotted ks)
  = (_ <- py_assert (0 <? String.length (dotted ks))%nat ;;
     let keys := if last_is_val ks then removelast ks else ks in
     _ <- py_assert (1 <=? List.length keys)%nat ;;
     r <- get_dot_notation_recursive keys obj ;;
     if last_is_val ks then
       match flatten r with
       | [x] => Ok x
       | _ => Raise AssertionError
       end
     else Ok (PList (flatten r))).
Proof.
  intros Hne Hks Hobj. unfold get_dot_notation.
  rewrite (json_roundtrip_json obj Hobj). cbn [bind].
  rewrite (split_keys_dotted ks Hne Hks). reflexivity.
Qed.

Lemma get_dot_notation_plain (obj : pyval) (ks : list string) :
  ks <> [] ->
  Forall (fun k => plain_key k = true) ks ->
  json_value obj = true ->
  get_dot_notation obj (dotted ks)
  = (r <- get_dot_notation_recursive ks obj ;; Ok (PList (flatten r))).
Proof.
  intros Hne Hks Hobj.
  rewrite (get_dot_notation_dotted obj ks Hne (plain_keys_no_dot ks Hks) Hobj).
  rewrite (dotted_not_empty ks Hne Hks), (last_is_val_plain ks Hne Hks).
  destruct ks as [|k r]; [contradiction | reflexivity].
Qed.

Lemma set_dot_notation_dotted (obj : pyval) (ks : list string) (v : pyval) :
  ks <> [] ->
  Forall (fun x => no_dot_no_backslash x = true) ks ->
  json_value obj = true ->
  set_dot_notation obj (dotted ks) v = set_dot_notation_recursive ks v obj.
Proof.
  intros Hne Hks Hobj. unfold set_dot_notation.
  rewrite (json_roundtrip_json obj Hobj). cbn [bind].
  rewrite (split_keys_dotted ks Hne Hks). reflexivity.
Qed.

Lemma snoc_not_nil {A : Type} (l : list A) (x : A) : l ++ [x] <> [].
Proof. destruct l; discriminate. Qed.

Lemma app_not_nil {A : Type} (l r : list A) : r <> [] -> l ++ r <> [].
Proof. intros H E. apply app_eq_nil in E. tauto. Qed.

(** X4.  A key that a dict does not hold reads as [None]: when the keys
    [ks] lead through dicts to a dict without the key [k], the read at
    [ks.k] succeeds and returns [[None]]. *)
Theorem get_dot_notation_missing_key :
  forall (obj : pyval) (ks : list string) (k : string) (d : list (string * pyval)),
    Forall (fun x => plain_key x = true) (ks ++ [k]) ->
    json_value obj = true ->
    walk ks obj = Some (PDict d) ->
    dict_lookup k d = None ->
    get_dot_notation obj (dotted (ks ++ [k])) = Ok (PList [PNone]).
Proof.
  intros obj ks k d Hks Hobj Hw Hk.
  rewrite (get_dot_notation_plain obj (ks ++ [k]) (snoc_not_nil ks k) Hks Hobj).
  apply Forall_app in Hks. destruct Hks as [Hks Hk'].
  inversion Hk' as [|? ? Hpk _]; subst.
  rewrite (get_recursive_walk ks [k] obj (PDict d) Hks Hw).
  rewrite get_dot_notation_recursive_dict by (apply plain_key_find; exact Hpk).
  cbn [get_dot_notation_recursive bind]. unfold dict_get. rewrite Hk. reflexivity.
Qed.

Lemma get_dot_notation_missing_key_witness :
  get_dot_notation (PDict [("a", PDict [("b", PInt 1)])]) (dotted (["a"] ++ ["c"]))
  = Ok (PList [PNone]).
Proof.
  apply (get_dot_notation_missing_key (PDict [("a", PDict [("b", PInt 1)])]) ["a"] "c"
           [("b", PInt 1)]).
  - repeat constructor.
  - reflexivity.
  - reflexivity.
  - reflexivity.
Defined.

(** X5.  Neither a read nor a write goes through a value that is no dict
    and no list: when the keys [ks] lead through dicts to such a value (the
    [None] of a missing key included) and more keys follow, both
    [get_dot_notation] and [set_dot_notation] raise [DotNotationError]; a
    write never creates the dicts that are missing on its way. *)
Theorem dot_notation_through_scalar :
  forall (obj : pyval) (ks rest : list string) (x v : pyval),
    Forall (fun k => plain_key k = true) (ks ++ rest) ->
    rest <> [] ->
    json_value obj = true ->
    walk ks obj = Some x ->
    is_scalar x = true ->
    get_dot_notation obj (dotted (ks ++ rest)) = Raise DotNotationError
    /\ set_dot_notation obj (dotted (ks ++ rest)) v = Raise DotNotationError.
Proof.
  intros obj ks rest x v Hall Hrest Hobj Hw Hx.
  pose proof (app_not_nil ks rest Hrest) as Hne.
  pose proof Hall as Hall'. apply Forall_app in Hall'. destruct Hall' as [Hks Hr].
  destruct rest as [|k r]; [contradiction|].
  inversion Hr as [|? ? Hk _]; subst.
  split.
  - rewrite (get_dot_notation_plain obj _ Hne Hall Hobj).
    rewrite (get_recursive_walk ks (k :: r) obj x Hks Hw).
    cbn [get_dot_notation_recursive]. rewrite (plain_key_find true k Hk).
    destruct x; try discriminate; reflexivity.
  - rewrite (set_dot_notation_dotted obj _ v Hne (plain_keys_no_dot _ Hall) Hobj).
    rewrite (set_recursive_walk ks (k :: r) v Hrest obj x Hks Hw).
    rewrite set_dot_notation_recursive_cons, (plain_key_find false k Hk).
    destruct x; try discriminate; reflexivity.
Qed.

Lemma dot_notation_through_scalar_witness :
  get_dot_notation (PDict [("a", PInt 1)]) (dotted (["b"] ++ ["c"])) = Raise DotNotationError
  /\ set_dot_notation (PDict [("a", PInt 1)]) (dotted (["b"] ++ ["c"])) (PInt 5)
     = Raise DotNotationError.
Proof.
  apply (dot_notation_through_scalar (PDict [("a", PInt 1)]) ["b"] ["c"] PNone (PInt 5)).
  - repeat constructor.
  - discriminate.
  - reflexivity.
  - reflexivity.
  - reflexivity.
Defined.

(** ** What a write leaves alone *)

Lemma set_recursive_dict_shape (k1 : string) (r1 : list string) (v : pyval)
    (d : list (string * pyval)) (o' : pyval) :
  set_dot_notation_recursive (k1 :: r1) v (PDict d) = Ok o' ->
  exists a', o' = PDict (dict_set (target_key k1) a' d).
Proof.
  rewrite set_dot_notation_recursive_cons. unfold target_key.
  destruct (find_index_specifier false k1) as [[start group0]|]; cbv zeta.
  - destruct (0 <? String.length (strip (substring 0 start k1)))%nat.
    + intros H. apply bind_Ok_inv in H. destruct H as [a' [_ H]].
      inversion H. exists a'. reflexivity.
    + intros H. discriminate H.
  - destruct (deeper_of r1 v); intros H; apply bind_Ok_inv in H;
      destruct H as [a' [_ H]]; inversion H; exists a'; reflexivity.
Qed.

Lemma frame_recursive (ks : list string) (k1 k2 : string) (r1 r2 : list string)
    (v obj obj' : pyval) (d : list (string * pyval)) :
  Forall (fun k => plain_key k = true) (ks ++ [k2]) ->
  target_key k1 <> k2 ->
  walk ks obj = Some (PDict d) ->
  set_dot_notation_recursive (ks ++ k1 :: r1) v obj = Ok obj' ->
  get_dot_notation_recursive (ks ++ k2 :: r2) obj'
  = get_dot_notation_recursive (ks ++ k2 :: r2) obj.
Proof.
  intros Hall Hne Hw Hset.
  apply Forall_app in Hall. destruct Hall as [Hks Hk2].
  inversion Hk2 as [|? ? Hp2 _]; subst.
  rewrite (set_recursive_walk ks (k1 :: r1) v) with (x := PDict d) in Hset;
    [|discriminate|exact Hks|exact Hw].
  apply bind_Ok_inv in Hset. destruct Hset as [x' [Hx' Hset]]. inversion Hset; subst obj'.
  apply set_recursive_dict_shape in Hx'. destruct Hx' as [a' ->].
  rewrite (get_recursive_walk ks (k2 :: r2) _ _ Hks (walk_put ks obj _ _ Hw)).
  rewrite (get_recursive_walk ks (k2 :: r2) _ _ Hks Hw).
  rewrite !get_dot_notation_recursive_dict by (apply plain_key_find; exact Hp2).
  rewrite dict_get_dict_set_other; [reflexivity|].
  intros E. apply Hne. symmetry. exact E.
Qed.

Lemma last_is_val_cons (k : string) (r : list string) :
  r <> [] -> last_is_val (k :: r) = last_is_val r.
Proof.
  intros Hr. unfold last_is_val. cbn [rev].
  destruct (rev r) as [|x t] eqn:E; [|reflexivity].
  apply (f_equal (@rev string)) in E. rewrite rev_involutive in E. contradiction.
Qed.

Lemma last_is_val_app (ks r : list string) :
  r <> [] -> last_is_val (ks ++ r) = last_is_val r.
Proof.
  intros Hr. induction ks as [|k ks IH]; [reflexivity|].
  cbn [app]. rewrite last_is_val_cons by (apply app_not_nil; exact Hr). exact IH.
Qed.

(** X6.  A write changes nothing beside the key it goes through.  Let the
    keys [ks] lead through dicts to a dict; a successful write at a
    specifier that continues with the key [k1] (which may carry a
    subscription) leaves every read unchanged that continues with another
    key [k2] of that dict, whatever follows [k1] and [k2]. *)
Theorem set_dot_notation_frame :
  forall (obj : pyval) (ks : list string) (k1 : string) (r1 : list string)
         (k2 : string) (r2 : list string) (v obj' : pyval) (d : list (string * pyval)),
    Forall (fun k => plain_key k = true) (ks ++ [k2]) ->
    Forall (fun x => no_dot_no_backslash x = true) (k1 :: r1) ->
    Forall (fun x => no_dot_no_backslash x = true) r2 ->
    target_key k1 <> k2 ->
    json_value v = true ->
    walk ks obj = Some (PDict d) ->
    set_dot_notation obj (dotted (ks ++ k1 :: r1)) v = Ok obj' ->
    get_dot_notation obj' (dotted (ks ++ k2 :: r2))
    = get_dot_notation obj (dotted (ks ++ k2 :: r2)).
Proof.
  intros obj ks k1 r1 k2 r2 v obj' d Hall H1 H2 Hne Hv Hw Hset.
  pose proof Hall as Hall'. apply Forall_app in Hall'. destruct Hall' as [Hks Hk2].
  inversion Hk2 as [|? ? Hp2 _]; subst.
  assert (Hobj : json_value obj = true).
  { unfold set_dot_notation in Hset. apply bind_Ok_inv in Hset.
    destruct Hset as [o [Ho _]]. apply json_roundtrip_Ok in Ho. tauto. }
  destruct (set_dot_notation_json_aux obj _ v obj' Hv Hset) as [Hobj' _].
  rewrite set_dot_notation_dotted in Hset;
    [| apply app_not_nil; discriminate
     | apply Forall_app; split; [apply plain_keys_no_dot; exact Hks | exact H1]
     | exact Hobj].
  assert (HQ : Forall (fun x => no_dot_no_backslash x = true) (ks ++ k2 :: r2)).
  { apply Forall_app. split; [apply plain_keys_no_dot; exact Hks|].
    constructor; [|exact H2]. apply plain_key_inv in Hp2. tauto. }
  assert (HQne : ks ++ k2 :: r2 <> []) by (apply app_not_nil; discriminate).
  rewrite (get_dot_notation_dotted obj' _ HQne HQ Hobj').
  rewrite (get_dot_notation_dotted obj _ HQne HQ Hobj).
  assert (Hkeys :
    get_dot_notation_recursive
      (if last_is_val (ks ++ k2 :: r2) then removelast (ks ++ k2 :: r2) else ks ++ k2 :: r2)
      obj'
    = get_dot_notation_recursive
        (if last_is_val (ks ++ k2 :: r2) then removelast (ks ++ k2 :: r2) else ks ++ k2 :: r2)
        obj).
  { destruct (last_is_val (ks ++ k2 :: r2)) eqn:Elast.
    - destruct r2 as [|k3 r3].
      + rewrite last_is_val_app in Elast by discriminate.
        unfold last_is_val in Elast. cbn [rev app] in Elast.
        apply plain_key_inv in Hp2. destruct Hp2 as [_ [Hp2 _]]. congruence.
      + rewrite removelast_app by discriminate.
        change (removelast (k2 :: k3 :: r3)) with (k2 :: removelast (k3 :: r3)).
        eapply frame_recursive; eassumption.
    - eapply frame_recursive; eassumption. }
  cbv zeta. rewrite Hkeys. reflexivity.
Qed.

Lemma set_dot_notation_frame_witness :
  get_dot_notation
    (PDict [("a", PDict [("b", PInt 1); ("c", PList [PInt 9; PInt 2])])])
    (dotted (["a"] ++ "b" :: []))
  = get_dot_notation
      (PDict [("a", PDict [("b", PInt 1); ("c", PList [PInt 1; PInt 2])])])
      (dotted (["a"] ++ "b" :: [])).
Proof.
  apply (set_dot_notation_frame
           (PDict [("a", PDict [("b", PInt 1); ("c", PList [PInt 1; PInt 2])])])
           ["a"] "c[0]" [] "b" [] (PInt 9)
           (PDict [("a", PDict [("b", PInt 1); ("c", PList [PInt 9; PInt 2])])])
           [("b", PInt 1); ("c", PList [PInt 1; PInt 2])]).
  - repeat constructor.
  - repeat constructor.
  - constructor.
  - discriminate.
  - reflexivity.
  - reflexivity.
  - reflexivity.
Defined.

(** ** Writing twice at the same key *)

Lemma set_dot_notation_plain (obj : pyval) (ks : list string) (k : string) (v : pyval)
    (d : list (string * pyval)) :
  Forall (fun x => plain_key x = true) (ks ++ [k]) ->
  json_value obj = true ->
  json_value v = true ->
  walk ks obj = Some (PDict d) ->
  set_dot_notation obj (dotted (ks ++ [k])) v
  = Ok (put ks obj (PDict (dict_set k v d))).
Proof.
  intros Hall Hobj Hv Hw.
  rewrite (set_dot_notation_dotted obj _ v (snoc_not_nil ks k)
             (plain_keys_no_dot _ Hall) Hobj).
  apply Forall_app in Hall. destruct Hall as [Hks Hk].
  inversion Hk as [|? ? Hpk _]; subst.
  rewrite (set_recursive_walk ks [k] v) with (x := PDict d);
    [|discriminate|exact Hks|exact Hw].
  rewrite set_dot_notation_recursive_dict by (apply plain_key_find; exact Hpk).
  rewrite (json_roundtrip_json v Hv). reflexivity.
Qed.

(** X7.  The last write wins, and a write along dicts changes one key only.
    When the keys [ks] lead through dicts of [obj] to the dict [d], writing
    [v] and then [w] at [ks.k] gives what writing [w] alone gives: [obj]
    with [d] replaced by [d] with [k] set to [w]. *)
Theorem set_dot_notation_overwrite :
  forall (obj : pyval) (ks : list string) (k : string) (v w : pyval)
         (d : list (string * pyval)),
    Forall (fun x => plain_key x = true) (ks ++ [k]) ->
    json_value obj = true ->
    json_value v = true ->
    json_value w = true ->
    walk ks obj = Some (PDict d) ->
    set_twice obj (dotted (ks ++ [k])) v (dotted (ks ++ [k])) w
    = set_dot_notation obj (dotted (ks ++ [k])) w
    /\ set_dot_notation obj (dotted (ks ++ [k])) w
       = Ok (put ks obj (PDict (dict_set k w d))).
Proof.
  intros obj ks k v w d Hall Hobj Hv Hw Hwalk.
  pose proof (set_dot_notation_plain obj ks k v d Hall Hobj Hv Hwalk) as H1.
  pose proof (set_dot_notation_plain obj ks k w d Hall Hobj Hw Hwalk) as H2.
  split; [|exact H2].
  unfold set_twice. rewrite H1, H2. cbn [bind].
  destruct (set_dot_notation_json_aux obj _ v _ Hv H1) as [Hj _].
  rewrite (set_dot_notation_plain _ ks k w (dict_set k v d) Hall Hj Hw
             (walk_put ks obj _ _ Hwalk)).
  rewrite (put_put ks obj _ _ _ Hwalk), dict_set_dict_set. reflexivity.
Qed.

Lemma set_dot_notation_overwrite_witness :
  set_twice (PDict [("a", PDict [("b", PInt 1)])]) (dotted (["a"] ++ ["b"])) (PInt 2)
    (dotted (["a"] ++ ["b"])) (PInt 3)
  = set_dot_notation (PDict [("a", PDict [("b", PInt 1)])]) (dotted (["a"] ++ ["b"])) (PInt 3)
  /\ set_dot_notation (PDict [("a", PDict [("b", PInt 1)])]) (dotted (["a"] ++ ["b"])) (PInt 3)
     = Ok (put ["a"] (PDict [("a", PDict [("b", PInt 1)])])
             (PDict (dict_set "b" (PInt 3) [("b", PInt 1)]))).
Proof.
  apply (set_dot_notation_overwrite (PDict [("a", PDict [("b", PInt 1)])]) ["a"] "b"
           (PInt 2) (PInt 3) [("b", PInt 1)]).
  - repeat constructor.
  - reflexivity.
  - reflexivity.
  - reflexivity.
  - reflexivity.
Defined.

(** ** The empty specifier *)

(** X8.  The two directions treat the empty specifier differently: a read
    refuses it, as it refuses the bare terminator [$val], with
    [AssertionError]; a write takes it as the key that is the empty string
    and, on a dict, sets that key. *)
Theorem dot_notation_empty_specifier :
  forall (d : list (string * pyval)) (v : pyval),
    json_value (PDict d) = true ->
    json_value v = true ->
    get_dot_notation (PDict d) "" = Raise AssertionError
    /\ get_dot_notation (PDict d) "$val" = Raise AssertionError
    /\ set_dot_notation (PDict d) "" v = Ok (PDict (dict_set "" v d)).
Proof.
  intros d v Hd Hv. unfold get_dot_notation, set_dot_notation.
  rewrite (json_roundtrip_json (PDict d) Hd). cbn [bind].
  split; [reflexivity|]. split; [reflexivity|].
  change (split_keys "") with [""]. rewrite set_dot_notation_recursive_cons.
  change (find_index_specifier false "") with (@None (nat * string)).
  cbn [deeper_of]. rewrite (json_roundtrip_json v Hv). reflexivity.
Qed.

Lemma dot_notation_empty_specifier_witness :
  get_dot_notation (PDict [("a", PInt 1)]) "" = Raise AssertionError
  /\ get_dot_notation (PDict [("a", PInt 1)]) "$val" = Raise AssertionError
  /\ set_dot_notation (PDict [("a", PInt 1)]) "" (PInt 2)
     = Ok (PDict (dict_set "" (PInt 2) [("a", PInt 1)])).
Proof.
  apply (dot_notation_empty_specifier [("a", PInt 1)] (PInt 2)); reflexivity.
Defined.

(* ===================================================================== *)
(** * Further properties of the parsers *)
(* ===================================================================== *)

(** [TYPE_PARSERS[T]] exists for the ten names of the table only. *)
Lemma parse_cases (rt : PyRuntime) (T : string) (v : pyval) :
  (T = "BooleanList" /\ parse rt T v = parse_boolean_list v)
  \/ (T = "NumericList" /\ parse rt T v = parse_numeric_list rt v)
  \/ (T = "DateTimeList" /\ parse rt T v = parse_datetime_list rt v)
  \/ (T = "DictList" /\ parse rt T v = parse_dict_list v)
  \/ (T = "StringList" /\ parse rt T v = parse_string_list rt v)
  \/ (T = "Boolean" /\ parse rt T v = parse_boolean v)
  \/ (T = "Numeric" /\ parse rt T v = parse_numeric rt v)
  \/ (T = "DateTime" /\ parse rt T v = parse_datetime rt v)
  \/ (T = "Dict" /\ parse rt T v = parse_dict v)
  \/ (T = "String" /\ parse rt T v = parse_string rt v)
  \/ (str_in T (map fst (TYPE_PARSERS rt)) = false /\ parse rt T v = Raise KeyError).
Proof.
  unfold parse, dict_item, TYPE_PARSERS, str_in.
  cbn [dict_lookup map fst existsb].
  repeat match goal with
         | |- context [String.eqb T ?s] =>
             let E := fresh "E" in
             destruct (String.eqb T s) eqn:E;
             [apply String.eqb_eq in E; subst T; cbn [bind]; tauto|]
         end.
  cbn [bind orb]. repeat right. split; reflexivity.
Qed.

Lemma map_result_Forall2 {A B : Type} (f : A -> result B) (xs : list A) (ys : list B) :
  map_result f xs = Ok ys <-> Forall2 (fun x y => f x = Ok y) xs ys.
Proof.
  revert ys. induction xs as [|x t IH]; intros ys; split; intros H.
  - inversion H. constructor.
  - inversion H. reflexivity.
  - cbn [map_result] in H. apply bind_Ok_inv in H. destruct H as [y [Hy H]].
    apply bind_Ok_inv in H. destruct H as [t' [Ht' H]]. inversion H; subst.
    constructor; [exact Hy | apply IH; exact Ht'].
  - inversion H as [|? y ? t' Hy Ht']; subst. cbn [map_result].
    rewrite Hy. cbn [bind]. apply IH in Ht'. rewrite Ht'. reflexivity.
Qed.

Lemma parse_boolean_of_type (v r : pyval) :
  parse_boolean v = Ok r -> scalar_of_type "Boolean" r = true /\ r = v.
Proof. destruct v; intros H; inversion H; split; reflexivity. Qed.

Lemma parse_dict_of_type (v r : pyval) :
  parse_dict v = Ok r -> scalar_of_type "Dict" r = true /\ r = v.
Proof. destruct v; intros H; inversion H; split; reflexivity. Qed.

Lemma parse_numeric_of_type (rt : PyRuntime) (v r : pyval) :
  parse_numeric rt v = Ok r -> scalar_of_type "Numeric" r = true.
Proof.
  unfold parse_numeric. intros H.
  destruct v; try (inversion H; reflexivity);
    destruct (py_float rt _); inversion H; reflexivity.
Qed.

Lemma parse_datetime_of_type (rt : PyRuntime) (v r : pyval) :
  parse_datetime rt v = Ok r -> scalar_of_type "DateTime" r = true.
Proof.
  unfold parse_datetime. intros H.
  destruct v; try (inversion H; reflexivity);
    try (destruct (utcfromtimestamp rt _); inversion H; reflexivity);
    destruct (strptime rt _); inversion H; reflexivity.
Qed.

Lemma parse_string_of_type (rt : PyRuntime) (v r : pyval) :
  parse_string rt v = Ok r ->
  scalar_of_type "String" r = true /\ parse_string rt r = Ok r.
Proof.
  unfold parse_string. intros H.
  destruct v; try (inversion H; split; reflexivity).
  destruct (py_float_of_int rt n); inversion H; split; reflexivity.
Qed.

Lemma parse_list_with_of_type (p : pyval -> result pyval) (E : string) (v r : pyval) :
  (forall x y, p x = Ok y -> scalar_of_type E y = true) ->
  parse_list_with p v = Ok r ->
  exists l, r = PList l /\ forallb (scalar_of_type E) l = true.
Proof.
  intros Hp H. unfold parse_list_with in H. destruct v; try discriminate.
  apply bind_Ok_inv in H. destruct H as [l' [Hl' H]]. inversion H; subst. clear H.
  exists l'. split; [reflexivity|].
  apply map_result_Forall2 in Hl'. apply forallb_forall. intros y Hy.
  induction Hl' as [|x y' t t' Hxy _ IH]; [contradiction|].
  destruct Hy as [->|Hy]; [eapply Hp; exact Hxy | exact (IH Hy)].
Qed.

Lemma parse_of_type_aux (rt : PyRuntime) (T : string) (v r : pyval) :
  parse rt T v = Ok r -> of_type T r = true.
Proof.
  intros H.
  destruct (parse_cases rt T v) as
    [[-> E]|[[-> E]|[[-> E]|[[-> E]|[[-> E]|[[-> E]|[[-> E]|[[-> E]|[[-> E]|[[-> E]|[_ E]]]]]]]]]]];
    rewrite E in H; clear E; unfold of_type; cbn [element_type dict_lookup String.eqb Ascii.eqb Bool.eqb].
  - destruct (parse_list_with_of_type parse_boolean "Boolean" v r) as [l [-> Hl]];
      [intros x y Hxy; apply parse_boolean_of_type in Hxy; tauto | exact H | exact Hl].
  - destruct (parse_list_with_of_type (parse_numeric rt) "Numeric" v r) as [l [-> Hl]];
      [intros x y Hxy; eapply parse_numeric_of_type; exact Hxy | exact H | exact Hl].
  - destruct (parse_list_with_of_type (parse_datetime rt) "DateTime" v r) as [l [-> Hl]];
      [intros x y Hxy; eapply parse_datetime_of_type; exact Hxy | exact H | exact Hl].
  - destruct (parse_list_with_of_type parse_dict "Dict" v r) as [l [-> Hl]];
      [intros x y Hxy; apply parse_dict_of_type in Hxy; tauto | exact H | exact Hl].
  - destruct (parse_list_with_of_type (parse_string rt) "String" v r) as [l [-> Hl]];
      [intros x y Hxy; apply parse_string_of_type in Hxy; tauto | exact H | exact Hl].
  - apply parse_boolean_of_type in H. tauto.
  - eapply parse_numeric_of_type. exact H.
  - eapply parse_datetime_of_type. exact H.
  - apply parse_dict_of_type in H. tauto.
  - apply parse_string_of_type in H. tauto.
  - discriminate H.
Qed.

(** X9.  What a parser returns is of the type it is named after: [None] or
    a [bool], a [float], a [str], a [datetime], a [dict] for the scalar
    types, and a list of such values for the list types. *)
Theorem parse_of_type :
  forall (rt : PyRuntime) (T : string) (v r : pyval),
    parse rt T v = Ok r -> of_type T r = true.
Proof. intros rt T v r. apply parse_of_type_aux. Qed.

Lemma parse_of_type_witness :
  of_type "StringList" (PList [PStr "a"; PNone; PStr "True"]) = true.
Proof.
  apply (parse_of_type ExampleRuntime.runtime "StringList"
           (PList [PStr "a"; PNone; PBool true])).
  reflexivity.
Defined.

(** X10.  A list parser is the parser of its element type applied to every
    element: on a list it succeeds exactly when every element parses, with
    the list of the parsed elements, of the same length and in the same
    order; on anything that is no list it raises [ParseError], so a single
    value is never taken for a list of one. *)
Theorem parse_list_elementwise :
  forall (rt : PyRuntime) (T E : string) (v : pyval),
    element_type T = Some E ->
    (forall l r,
        v = PList l ->
        (parse rt T v = Ok r <->
         exists l', r = PList l' /\ Forall2 (fun x y => parse rt E x = Ok y) l l'))
    /\ (as_list v = None -> parse rt T v = Raise ParseError).
Proof.
  intros rt T E v HT.
  assert (Hcases :
    exists p, (forall x, parse rt T x = parse_list_with p x)
              /\ (forall x, parse rt E x = p x)).
  { unfold element_type in HT. cbn [dict_lookup] in HT.
    repeat match type of HT with
           | (if String.eqb T ?s then _ else _) = _ =>
               let Es := fresh "Es" in
               destruct (String.eqb T s) eqn:Es;
               [apply String.eqb_eq in Es; subst T; inversion HT; subst E;
                eexists; split; intros x; reflexivity|]
           end.
    discriminate HT. }
  destruct Hcases as [p [HpT HpE]]. split.
  - intros l r ->. rewrite HpT. cbn [parse_list_with]. split.
    + intros H. apply bind_Ok_inv in H. destruct H as [l' [Hl' H]]. inversion H; subst.
      exists l'. split; [reflexivity|]. apply map_result_Forall2 in Hl'.
      eapply Forall2_impl; [|exact Hl']. intros x y Hxy. rewrite HpE. exact Hxy.
    + intros [l' [-> Hl']].
      assert (Hm : map_result p l = Ok l').
      { apply map_result_Forall2. eapply Forall2_impl; [|exact Hl'].
        intros x y Hxy. rewrite <- HpE. exact Hxy. }
      rewrite Hm. reflexivity.
  - intros Hv. rewrite HpT. destruct v; try reflexivity. discriminate Hv.
Qed.

Lemma parse_list_elementwise_witness :
  (forall l r,
      PInt 5 = PList l ->
      (parse ExampleRuntime.runtime "NumericList" (PInt 5) = Ok r <->
       exists l', r = PList l'
                  /\ Forall2 (fun x y => parse ExampleRuntime.runtime "Numeric" x = Ok y) l l'))
  /\ (as_list (PInt 5) = None ->
      parse ExampleRuntime.runtime "NumericList" (PInt 5) = Raise ParseError).
Proof.
  apply (parse_list_elementwise ExampleRuntime.runtime "NumericList" "Numeric" (PInt 5)).
  reflexivity.
Defined.

Lemma map_result_fixed (p : pyval -> result pyval) (l l' : list pyval) :
  (forall x y, p x = Ok y -> p y = Ok y) ->
  map_result p l = Ok l' -> map_result p l' = Ok l'.
Proof.
  intros Hp H. apply map_result_Forall2 in H. apply map_result_Forall2.
  induction H as [|x y t t' Hxy _ IH]; constructor; [eapply Hp; exact Hxy | exact IH].
Qed.

Lemma parse_list_with_fixed (p : pyval -> result pyval) (v r : pyval) :
  (forall x y, p x = Ok y -> p y = Ok y) ->
  parse_list_with p v = Ok r -> parse_list_with p r = Ok r.
Proof.
  intros Hp H. unfold parse_list_with in H. destruct v; try discriminate.
  apply bind_Ok_inv in H. destruct H as [l' [Hl' H]]. inversion H; subst.
  cbn [parse_list_with]. rewrite (map_result_fixed p l l' Hp Hl'). reflexivity.
Qed.

(** X11.  Parsing what a parser returned changes nothing, for the types
    whose parser does not go through the runtime's [float] or [strptime]:
    for [Boolean], [Dict], [String] and their list types, a value that
    [parse] returned parses to itself. *)
Theorem parse_idempotent :
  forall (rt : PyRuntime) (T : string) (v r : pyval),
    In T ["Boolean"; "Dict"; "String"; "BooleanList"; "DictList"; "StringList"] ->
    parse rt T v = Ok r ->
    parse rt T r = Ok r.
Proof.
  intros rt T v r HT H.
  assert (Hb : forall x y, parse_boolean x = Ok y -> parse_boolean y = Ok y).
  { intros x y Hxy. destruct (parse_boolean_of_type x y Hxy) as [_ ->]. exact Hxy. }
  assert (Hd : forall x y, parse_dict x = Ok y -> parse_dict y = Ok y).
  { intros x y Hxy. destruct (parse_dict_of_type x y Hxy) as [_ ->]. exact Hxy. }
  assert (Hs : forall x y, parse_string rt x = Ok y -> parse_string rt y = Ok y).
  { intros x y Hxy. apply parse_string_of_type in Hxy. tauto. }
  cbn [In] in HT.
  destruct HT as [<-|[<-|[<-|[<-|[<-|[<-|[]]]]]]]; unfold parse in *;
    cbn [TYPE_PARSERS dict_item dict_lookup String.eqb Ascii.eqb Bool.eqb bind] in *.
  - apply (Hb v r H).
  - apply (Hd v r H).
  - apply (Hs v r H).
  - apply (parse_list_with_fixed parse_boolean v r Hb H).
  - apply (parse_list_with_fixed parse_dict v r Hd H).
  - apply (parse_list_with_fixed (parse_string rt) v r Hs H).
Qed.

Lemma parse_idempotent_witness :
  parse ExampleRuntime.runtime "String" (PStr "5.0") = Ok (PStr "5.0").
Proof.
  apply (parse_idempotent ExampleRuntime.runtime "String" (PInt 5) (PStr "5.0")).
  - cbn [In]. tauto.
  - reflexivity.
Defined.

(** X12.  The detection of a type never gives up: [Constant(value)] with no
    declared type either succeeds, with the value parsed by a parser of the
    table and of the type that parser is named after, or raises
    [OverflowError]; the [RuleCreationError] that ends [_try_extract_type]
    is never raised.  [None] and a [bool] are detected as [Boolean], and a
    list whose elements are all [None], the empty list included, as
    [BooleanList]. *)
Theorem Constant_init_detects :
  forall (rt : PyRuntime) (value : pyval),
    (forall e, Constant_init rt value None = Raise e -> e = OverflowError)
    /\ (forall c, Constant_init rt value None = Ok c ->
                  exists parsed T,
                    c = Constant parsed value T []
                    /\ str_in T ALLOWED_TYPES = true
                    /\ parse rt T value = Ok parsed
                    /\ of_type T parsed = true)
    /\ (value = PNone \/ (exists b, value = PBool b) ->
        Constant_init rt value None = Ok (Constant value value "Boolean" []))
    /\ (forall l, value = PList l -> forallb is_None l = true ->
                  Constant_init rt value None = Ok (Constant value value "BooleanList" [])).
Proof.
  intros rt value. split; [|split; [|split]].
  - intros e H. cbn [Constant_init] in H.
    destruct (_try_extract_type rt value) as [[p T]|e'] eqn:E.
    + discriminate H.
    + inversion H; subst. eapply try_extract_type_raises. exact E.
  - intros c H. cbn [Constant_init] in H.
    destruct (_try_extract_type rt value) as [[p T]|e'] eqn:E; [|discriminate].
    inversion H; subst c. exists p, T. split; [reflexivity|].
    unfold _try_extract_type in E. apply try_parsers_Ok in E.
    destruct E as [pre [q [post [Hsplit [_ Hq]]]]].
    assert (Hin : In (T, q) (TYPE_PARSERS rt)).
    { rewrite Hsplit. apply in_or_app. right. left. reflexivity. }
    assert (Hparse : parse rt T value = Ok p).
    { unfold TYPE_PARSERS in Hin. cbn [In] in Hin.
      repeat (destruct Hin as [Hin|Hin]; [inversion Hin; subst; exact Hq|]).
      contradiction. }
    split; [|split; [exact Hparse | eapply parse_of_type_aux; exact Hparse]].
    unfold TYPE_PARSERS in Hin. cbn [In] in Hin.
    repeat (destruct Hin as [Hin|Hin]; [inversion Hin; subst; reflexivity|]).
    contradiction.
  - intros [->|[b ->]]; reflexivity.
  - intros l -> Hl. cbn [Constant_init _try_extract_type TYPE_PARSERS try_parsers].
    assert (Hm : map_result parse_boolean l = Ok l).
    { induction l as [|x t IH]; [reflexivity|].
      cbn [forallb] in Hl. apply andb_true_iff in Hl. destruct Hl as [Hx Ht].
      destruct x; try discriminate. cbn [map_result parse_boolean bind].
      rewrite (IH Ht). reflexivity. }
    unfold parse_boolean_list, parse_list_with. rewrite Hm. reflexivity.
Qed.

(* ===================================================================== *)
(** * Further properties of the registry *)
(* ===================================================================== *)

Lemma py_assert_Ok (b : bool) (u : unit) : py_assert b = Ok u <-> b = true.
Proof. destruct b, u; split; intros H; try reflexivity; discriminate H. Qed.

Lemma check_type_pairs_known (pairs : list (string * string)) :
  check_type_pairs pairs = Ok tt <-> Forall known_pair pairs.
Proof.
  induction pairs as [|[x1 x2] t IH]; cbn [check_type_pairs].
  - split; [constructor | reflexivity].
  - destruct (str_in x1 ALLOWED_TYPES) eqn:E1; cbn [negb].
    + destruct (str_in x2 ALLOWED_TYPES) eqn:E2; cbn [negb].
      * rewrite IH. split.
        -- intros H. constructor; [split; assumption | exact H].
        -- intros H. inversion H; assumption.
      * split; [discriminate|]. intros H. inversion H as [|? ? [_ Hk] _]; subst.
        cbn [snd] in Hk. congruence.
    + split; [discriminate|]. intros H. inversion H as [|? ? [Hk _] _]; subst.
      cbn [fst] in Hk. congruence.
Qed.

Lemma check_type_pairs_raises (pairs : list (string * string)) (e : exn) :
  check_type_pairs pairs = Raise e -> e = BusinessRuleEngineApiError.
Proof.
  induction pairs as [|[x1 x2] t IH]; cbn [check_type_pairs]; [discriminate|].
  destruct (negb (str_in x1 ALLOWED_TYPES)); [intros H; inversion H; reflexivity|].
  destruct (negb (str_in x2 ALLOWED_TYPES)); [intros H; inversion H; reflexivity|].
  exact IH.
Qed.

Lemma prepare_param_well_formed (p : raw_param) :
  (exists q, prepare_param p = Ok q) <-> well_formed_param p.
Proof.
  unfold prepare_param, well_formed_param.
  destruct (rp_pretty_name p) as [pn|].
  2:{ split; [intros [q H]; discriminate H | intros [H _]; contradiction]. }
  destruct (rp_type p) as [ty|].
  2:{ split; [intros [q H]; discriminate H | intros [_ [_ [[ty [H _]] _]]]; discriminate H]. }
  destruct (rp_description p) as [de|].
  2:{ split; [intros [q H]; discriminate H | intros [_ [H _]]; contradiction]. }
  destruct (str_in ty ALLOWED_TYPES) eqn:Ety; cbn [negb].
  2:{ split; [intros [q H]; discriminate H|].
      intros [_ [_ [[ty' [H1 H2]] _]]]. inversion H1; subst. congruence. }
  destruct (rp_value_classes p) as [|c cs] eqn:Ec; cbn [List.length Nat.eqb].
  { split; [intros [q H]; discriminate H | intros [_ [_ [_ [H _]]]]; contradiction]. }
  destruct (json_roundtrip (rp_meta_options p)) as [o|e] eqn:Ej.
  - apply json_roundtrip_Ok in Ej. destruct Ej as [_ Ej]. split.
    + intros _. repeat split; try discriminate; try exact Ej.
      exists ty. split; [reflexivity | exact Ety].
    + intros _. eexists. reflexivity.
  - split; [intros [q H]; discriminate H|].
    intros [_ [_ [_ [_ H]]]]. rewrite (json_roundtrip_json _ H) in Ej. discriminate Ej.
Qed.

Lemma prepare_param_raises (p : raw_param) (e : exn) :
  prepare_param p = Raise e -> e = BusinessRuleEngineApiError.
Proof.
  unfold prepare_param.
  destruct (rp_pretty_name p); [|intros H; inversion H; reflexivity].
  destruct (rp_type p); [|intros H; inversion H; reflexivity].
  destruct (rp_description p); [|intros H; inversion H; reflexivity].
  destruct (negb _); [intros H; inversion H; reflexivity|].
  destruct (_ =? _)%nat; [intros H; inversion H; reflexivity|].
  destruct (json_roundtrip _); [discriminate | intros H; inversion H; reflexivity].
Qed.

Lemma map_result_Ok_Forall {A B : Type} (f : A -> result B) (xs : list A) :
  (exists ys, map_result f xs = Ok ys) <-> Forall (fun x => exists y, f x = Ok y) xs.
Proof.
  induction xs as [|x t IH].
  - split; [constructor | intros _; exists []; reflexivity].
  - split.
    + intros [ys H]. cbn [map_result] in H. apply bind_Ok_inv in H.
      destruct H as [y [Hy H]]. apply bind_Ok_inv in H. destruct H as [t' [Ht' _]].
      constructor; [exists y; exact Hy | apply IH; exists t'; exact Ht'].
    + intros H. inversion H as [|? ? [y Hy] Ht]; subst.
      apply IH in Ht. destruct Ht as [t' Ht']. exists (y :: t').
      cbn [map_result]. rewrite Hy. cbn [bind]. rewrite Ht'. reflexivity.
Qed.

Lemma map_result_raises {A B : Type} (f : A -> result B) (xs : list A) (e : exn) :
  map_result f xs = Raise e -> exists x, In x xs /\ f x = Raise e.
Proof.
  induction xs as [|x t IH]; cbn [map_result]; [discriminate|].
  destruct (f x) as [y|e'] eqn:E; cbn [bind].
  - destruct (map_result f t) as [t'|e'']; cbn [bind]; [discriminate|].
    intros H. inversion H; subst. destruct (IH eq_refl) as [x' [Hin Hx']].
    exists x'. split; [right; exact Hin | exact Hx'].
  - intros H. inversion H; subst. exists x. split; [left; reflexivity | exact E].
Qed.

Lemma prepare_params_well_formed (params : list raw_param) :
  (exists qs, prepare_params params = Ok qs) <-> Forall well_formed_param params.
Proof.
  unfold prepare_params. rewrite map_result_Ok_Forall.
  split; intros H; (eapply Forall_impl; [|exact H]); intros p Hp;
    apply prepare_param_well_formed; exact Hp.
Qed.

Lemma prepare_params_raises (params : list raw_param) (e : exn) :
  prepare_params params = Raise e -> e = BusinessRuleEngineApiError.
Proof.
  intros H. apply map_result_raises in H. destruct H as [p [_ Hp]].
  eapply prepare_param_raises. exact Hp.
Qed.

Lemma length_pos_not_nil {A : Type} (l : list A) :
  (0 <? List.length l)%nat = true <-> l <> [].
Proof. destruct l; split; intros H; try reflexivity; try discriminate; contradiction. Qed.

(** X13.  What the decorator [filter] accepts: a filter is registered
    exactly when it declares at least one manipulation pair, no input type
    twice, only known types, well-formed parameters, and a function with one
    parameter more than it declares; otherwise the decorator raises
    [AssertionError] or [BusinessRuleEngineApiError]. *)
Theorem register_filter_accepts :
  forall (bre : BusinessRuleEngine) (pretty_name description : string)
         (key : option string) (mt : list (string * string)) (params : list raw_param)
         (builtin : bool) (method_def : callable),
    ((exists bre', register_filter bre pretty_name description key mt params builtin
                     method_def = Ok bre')
     <-> (mt <> []
          /\ NoDup (map fst mt)
          /\ fn_arity method_def = S (List.length params)
          /\ Forall known_pair mt
          /\ Forall well_formed_param params))
    /\ (forall e, register_filter bre pretty_name description key mt params builtin
                    method_def = Raise e ->
                  e = AssertionError \/ e = BusinessRuleEngineApiError).
Proof.
  intros bre pn de key mt params builtin m. unfold register_filter. split.
  - split.
    + intros [bre' H].
      apply bind_Ok_inv in H. destruct H as [[] [H1 H]].
      apply bind_Ok_inv in H. destruct H as [[] [H2 H]].
      apply bind_Ok_inv in H. destruct H as [[] [H3 H]].
      apply bind_Ok_inv in H. destruct H as [[] [H4 H]].
      apply bind_Ok_inv in H. destruct H as [qs [H5 _]].
      apply py_assert_Ok in H1, H2, H3.
      repeat split.
      * apply length_pos_not_nil. exact H1.
      * apply no_dup_str_NoDup. exact H2.
      * apply Nat.eqb_eq in H3. exact H3.
      * apply check_type_pairs_known. exact H4.
      * apply prepare_params_well_formed. exists qs. exact H5.
    + intros [H1 [H2 [H3 [H4 H5]]]].
      apply length_pos_not_nil in H1. apply no_dup_str_NoDup in H2.
      apply check_type_pairs_known in H4. apply prepare_params_well_formed in H5.
      destruct H5 as [qs H5].
      rewrite H1, H2, H3, H4, H5. cbn [py_assert bind Nat.add].
      rewrite Nat.eqb_refl. cbn [bind]. eexists. reflexivity.
  - intros e H.
    destruct (py_assert (0 <? List.length mt)%nat) as [[]|e1] eqn:E1;
      [|unfold py_assert in E1; destruct (0 <? List.length mt)%nat; inversion E1; subst;
        inversion H; left; reflexivity].
    cbn [bind] in H.
    destruct (py_assert (no_dup_str (map fst mt))) as [[]|e2] eqn:E2;
      [|unfold py_assert in E2; destruct (no_dup_str (map fst mt)); inversion E2; subst;
        inversion H; left; reflexivity].
    cbn [bind] in H.
    destruct (py_assert (fn_arity m =? 1 + List.length params)%nat) as [[]|e3] eqn:E3;
      [|unfold py_assert in E3; destruct (fn_arity m =? 1 + List.length params)%nat;
        inversion E3; subst; inversion H; left; reflexivity].
    cbn [bind] in H.
    destruct (check_type_pairs mt) as [[]|e4] eqn:E4;
      [|inversion H; subst; right; eapply check_type_pairs_raises; exact E4].
    cbn [bind] in H.
    destruct (prepare_params params) as [qs|e5] eqn:E5; [discriminate H|].
    inversion H; subst. right. eapply prepare_params_raises. exact E5.
Qed.

(** ** The order of the manipulation pairs *)

Lemma insert_by_key_partition (x : string * string) (A B : list (string * string)) :
  Forall (fun p => string_input p = false) A ->
  Forall (fun p => string_input p = true) B ->
  insert_by_key string_last_key x (A ++ B)
  = if string_input x then A ++ x :: B else x :: A ++ B.
Proof.
  intros HA HB. unfold string_input in *.
  destruct (String.prefix "String" (fst x)) eqn:Ex.
  - induction HA as [|a A' Ha _ IH]; cbn [app insert_by_key].
    + destruct HB as [|b B' Hb _]; [reflexivity|]. cbn [insert_by_key].
      unfold string_last_key. rewrite Ex, Hb. reflexivity.
    + unfold string_last_key at 1 2. rewrite Ex, Ha. cbn [Z.leb Z.compare].
      rewrite IH. reflexivity.
  - destruct (A ++ B) as [|y t]; [reflexivity|]. cbn [insert_by_key].
    unfold string_last_key. rewrite Ex.
    destruct (String.prefix "String" (fst y)); reflexivity.
Qed.

Lemma sort_by_key_partition (mt : list (string * string)) :
  sort_by_key string_last_key mt
  = filter (fun p => negb (string_input p)) mt ++ filter string_input mt.
Proof.
  induction mt as [|x t IH]; [reflexivity|].
  unfold sort_by_key in *. cbn [fold_right]. rewrite IH.
  rewrite insert_by_key_partition.
  - cbn [filter]. destruct (string_input x); reflexivity.
  - apply Forall_forall. intros p Hp. apply filter_In in Hp.
    destruct Hp as [_ Hp]. apply negb_true_iff in Hp. exact Hp.
  - apply Forall_forall. intros p Hp. apply filter_In in Hp. tauto.
Qed.

(** X14.  What the decorator [filter] stores.  The filter is filed under
    its key, with its manipulation pairs reordered so that the pairs whose
    input type starts with [String] come last, each group in the order
    given; a filter already filed under that key is replaced, every other
    filter and every comparer stays as it was. *)
Theorem register_filter_stores :
  forall (bre bre' : BusinessRuleEngine) (pretty_name description : string)
         (key : option string) (mt : list (string * string)) (params : list raw_param)
         (builtin : bool) (method_def : callable),
    register_filter bre pretty_name description key mt params builtin method_def = Ok bre' ->
    let k := registry_key key "f_" builtin method_def in
    (exists fd,
        dict_lookup k (system_available_filters bre') = Some fd
        /\ filter_method fd = method_def
        /\ prepare_params params = Ok (filter_params fd)
        /\ manipulation_types fd
           = filter (fun p => negb (string_input p)) mt ++ filter string_input mt)
    /\ (forall k', k' <> k ->
                   dict_lookup k' (system_available_filters bre')
                   = dict_lookup k' (system_available_filters bre))
    /\ system_available_comparers bre' = system_available_comparers bre.
Proof.
  intros bre bre' pn de key mt params builtin m H k. unfold register_filter in H.
  apply bind_Ok_inv in H. destruct H as [[] [_ H]].
  apply bind_Ok_inv in H. destruct H as [[] [_ H]].
  apply bind_Ok_inv in H. destruct H as [[] [_ H]].
  apply bind_Ok_inv in H. destruct H as [[] [_ H]].
  apply bind_Ok_inv in H. destruct H as [qs [Hqs H]].
  inversion H; subst bre'. clear H. cbn [system_available_filters system_available_comparers].
  split; [|split].
  - eexists. split.
    + rewrite dict_lookup_dict_set. fold k. rewrite String.eqb_refl. reflexivity.
    + cbn [filter_method filter_params manipulation_types].
      split; [reflexivity|]. split; [exact Hqs | apply sort_by_key_partition].
  - intros k' Hk'. rewrite dict_lookup_dict_set. fold k.
    destruct (String.eqb k' k) eqn:E; [|reflexivity].
    apply String.eqb_eq in E. contradiction.
  - reflexivity.
Qed.

Lemma register_filter_stores_witness :
  let k := registry_key None "f_" false (def "to_text" 1 (fun _ => Ok PNone)) in
  exists bre',
    (exists fd,
        dict_lookup k (system_available_filters bre') = Some fd
        /\ filter_method fd = def "to_text" 1 (fun _ => Ok PNone)
        /\ prepare_params [] = Ok (filter_params fd)
        /\ manipulation_types fd
           = filter (fun p => negb (string_input p))
               [("String", "String"); ("Numeric", "String"); ("StringList", "String");
                ("Boolean", "String")]
             ++ filter string_input
                  [("String", "String"); ("Numeric", "String"); ("StringList", "String");
                   ("Boolean", "String")])
    /\ (forall k', k' <> k ->
                   dict_lookup k' (system_available_filters bre')
                   = dict_lookup k' (system_available_filters empty_engine))
    /\ system_available_comparers bre' = system_available_comparers empty_engine.
Proof.
  eexists.
  apply (register_filter_stores empty_engine _ "To text" "Any scalar as text." None
           [("String", "String"); ("Numeric", "String"); ("StringList", "String");
            ("Boolean", "String")]
           [] false (def "to_text" 1 (fun _ => Ok PNone))).
  reflexivity.
Defined.

(** ** What the decorator [comparer] accepts *)

Lemma append_inj_l (a b c : string) : (a ++ b = a ++ c)%string -> b = c.
Proof.
  induction a as [|ch a IH]; cbn [String.append]; intros H; [exact H|].
  inversion H. apply IH. assumption.
Qed.

(** The text [f"{x1}-{x2}"] names the pair when [x1] is a known type: no
    known type has a hyphen in it. *)
Lemma collation_tag_inj (p q : string * string) :
  str_in (fst p) ALLOWED_TYPES = true ->
  str_in (fst q) ALLOWED_TYPES = true ->
  collation_tag p = collation_tag q -> p = q.
Proof.
  destruct p as [x1 y1], q as [x2 y2]. cbn [fst snd]. unfold collation_tag. cbn [fst snd].
  intros H1 H2. apply str_in_In in H1, H2. unfold ALLOWED_TYPES in H1, H2.
  cbn [In] in H1, H2.
  repeat (destruct H1 as [<-|H1]); try contradiction;
    repeat (destruct H2 as [<-|H2]); try contradiction;
    intros E;
    first [ apply append_inj_l in E; inversion E; reflexivity
          | cbn [String.append] in E; discriminate E
          | cbn [String.append] in E; congruence ].
Qed.

Lemma NoDup_map_inj_in {A B : Type} (f : A -> B) (l : list A) :
  (forall x y, In x l -> In y l -> f x = f y -> x = y) ->
  (NoDup (map f l) <-> NoDup l).
Proof.
  intros Hinj. split.
  - apply NoDup_map_inv.
  - intros Hl. induction Hl as [|x t Hx Ht IH]; cbn [map]; constructor.
    + intros Hin. apply in_map_iff in Hin. destruct Hin as [y [Hy Hin]].
      assert (y = x) by (apply Hinj; [right; exact Hin | left; reflexivity | exact Hy]).
      subst. contradiction.
    + apply IH. intros a b Ha Hb. apply Hinj; right; assumption.
Qed.

(** X15.  What the decorator [comparer] accepts: a comparer is registered
    exactly when it declares at least one collation pair, no pair twice,
    only known types, at least one value class, well-formed parameters, and
    a function with two parameters more than it declares; otherwise the
    decorator raises [AssertionError] or [BusinessRuleEngineApiError]. *)
Theorem register_comparer_accepts :
  forall (bre : BusinessRuleEngine) (pretty_name description : string)
         (key : option string) (cts : list (string * string)) (params : list raw_param)
         (classes : list string) (builtin : bool) (method_def : callable),
    ((exists bre', register_comparer bre pretty_name description key cts params classes
                     builtin method_def = Ok bre')
     <-> (cts <> []
          /\ fn_arity method_def = S (S (List.length params))
          /\ classes <> []
          /\ Forall known_pair cts
          /\ NoDup cts
          /\ Forall well_formed_param params))
    /\ (forall e, register_comparer bre pretty_name description key cts params classes
                    builtin method_def = Raise e ->
                  e = AssertionError \/ e = BusinessRuleEngineApiError).
Proof.
  intros bre pn de key cts params classes builtin m. unfold register_comparer.
  assert (Htags : Forall known_pair cts ->
                  (no_dup_str (map collation_tag cts) = true <-> NoDup cts)).
  { intros Hk. rewrite no_dup_str_NoDup. apply NoDup_map_inj_in.
    intros x y Hx Hy. rewrite Forall_forall in Hk.
    apply collation_tag_inj; [apply (Hk x Hx) | apply (Hk y Hy)]. }
  split.
  - split.
    + intros [bre' H].
      apply bind_Ok_inv in H. destruct H as [[] [H1 H]].
      apply bind_Ok_inv in H. destruct H as [[] [H2 H]].
      apply bind_Ok_inv in H. destruct H as [[] [H3 H]].
      apply bind_Ok_inv in H. destruct H as [[] [H4 H]].
      apply py_assert_Ok in H1, H2, H3. apply check_type_pairs_known in H4.
      destruct (no_dup_str (map collation_tag cts)) eqn:E5; cbn [negb] in H;
        [|discriminate H].
      apply bind_Ok_inv in H. destruct H as [qs [H6 _]].
      repeat split.
      * apply length_pos_not_nil. exact H1.
      * apply Nat.eqb_eq in H2. exact H2.
      * apply length_pos_not_nil. exact H3.
      * exact H4.
      * apply (Htags H4). reflexivity.
      * apply prepare_params_well_formed. exists qs. exact H6.
    + intros [H1 [H2 [H3 [H4 [H5 H6]]]]].
      apply (Htags H4) in H5.
      apply length_pos_not_nil in H1, H3.
      apply check_type_pairs_known in H4. apply prepare_params_well_formed in H6.
      destruct H6 as [qs H6].
      rewrite H1, H2, H3, H4, H5, H6. cbn [py_assert bind Nat.add negb].
      rewrite Nat.eqb_refl. cbn [bind]. eexists. reflexivity.
  - intros e H.
    destruct (0 <? List.length cts)%nat; cbn [py_assert bind] in H;
      [|inversion H; left; reflexivity].
    destruct (fn_arity m =? 2 + List.length params)%nat; cbn [py_assert bind] in H;
      [|inversion H; left; reflexivity].
    destruct (0 <? List.length classes)%nat; cbn [py_assert bind] in H;
      [|inversion H; left; reflexivity].
    destruct (check_type_pairs cts) as [[]|e4] eqn:E4; cbn [bind] in H;
      [|inversion H; subst; right; eapply check_type_pairs_raises; exact E4].
    destruct (negb (no_dup_str (map collation_tag cts)));
      [inversion H; right; reflexivity|].
    destruct (prepare_params params) as [qs|e5] eqn:E5; [discriminate H|].
    inversion H; subst. right. eapply prepare_params_raises. exact E5.
Qed.

(* ===================================================================== *)
(** * Further properties of the value sources *)
(* ===================================================================== *)

Lemma dict_lookup_In {V : Type} (k : string) (v : V) (d : list (string * V)) :
  NoDup (map fst d) -> (In (k, v) d <-> dict_lookup k d = Some v).
Proof.
  induction d as [|[k' v'] t IH]; intros Hnd; cbn [dict_lookup In].
  - split; [contradiction | discriminate].
  - inversion Hnd as [|? ? Hk' Ht]; subst. cbn [fst] in Hk'.
    destruct (String.eqb k k') eqn:E.
    + apply String.eqb_eq in E. subst k'. split.
      * intros [H|H]; [inversion H; reflexivity|].
        exfalso. apply Hk'. apply in_map_iff. exists (k, v). split; [reflexivity | exact H].
      * intros H. inversion H. left. reflexivity.
    + rewrite <- (IH Ht). split.
      * intros [H|H]; [|exact H]. inversion H; subst.
        rewrite String.eqb_refl in E. discriminate E.
      * intros H. right. exact H.
Qed.

Lemma first_admitting_available (t : string) (fd : filter_def) :
  str_in t (available_inputs fd) = true
  <-> exists p, first_admitting t (manipulation_types fd) = Some p.
Proof.
  unfold available_inputs. generalize (manipulation_types fd). intros mt.
  induction mt as [|[inp outp] r IH]; cbn [flat_map first_admitting fst].
  - split; [discriminate | intros [p H]; discriminate H].
  - unfold str_in in *. rewrite existsb_app.
    destruct (existsb (String.eqb t) (extract_allowed_types inp)); cbn [orb].
    + split; [intros _; eexists; reflexivity | reflexivity].
    + exact IH.
Qed.

Lemma check_args_accepted (params : list param) :
  forall (args : list artifact) (i : nat),
    List.length params = List.length args ->
    (check_args i params args = Ok [] <-> Forall2 accepted_arg args params).
Proof.
  induction params as [|p ps IH]; intros args i Hlen.
  - destruct args; [|discriminate Hlen]. cbn [check_args].
    split; [constructor | reflexivity].
  - destruct args as [|a args]; [discriminate Hlen|].
    cbn [List.length] in Hlen. inversion Hlen as [Hlen'].
    specialize (IH args (S i) Hlen').
    assert (Hcons : forall r : result (list nat),
               (det <- r ;; Ok (i :: det)) <> Ok []).
    { intros [det|e]; cbn [bind]; discriminate. }
    split.
    + intros H. cbn [check_args] in H.
      destruct a as [v| | | | |]; try (exfalso; exact (Hcons _ H)).
      destruct (str_in (value_key v) (param_value_classes p)) eqn:Ec; cbn [negb] in H;
        [|exfalso; exact (Hcons _ H)].
      destruct (get_type v) as [t|e] eqn:Et; cbn [bind] in H; [|discriminate H].
      destruct (str_in t (extract_allowed_types (param_type p))) eqn:Ea; cbn [negb] in H;
        [|exfalso; exact (Hcons _ H)].
      constructor; [|apply IH; exact H].
      exists v, t. repeat split; assumption.
    + intros H. inversion H as [|? ? ? ? [v [t [-> [Hc [Ht Ha]]]]] Hrest]; subst.
      cbn [check_args]. rewrite Hc. cbn [negb]. rewrite Ht. cbn [bind].
      rewrite Ha. cbn [negb]. apply IH. exact Hrest.
Qed.

Lemma check_args_det (params : list param) (args : list artifact) (i : nat)
    (det : list nat) :
  check_args i params args = Ok det ->
  (0 <? List.length det)%nat = false -> det = [].
Proof. intros _ H. destruct det; [reflexivity | discriminate H]. Qed.

Lemma thread_type_app (t : string) (fs gs : list filter_step) :
  thread_type t (fs ++ gs) = (t' <- thread_type t fs ;; thread_type t' gs).
Proof.
  revert t. induction fs as [|f fs IH]; intros t; cbn [app thread_type bind];
    [reflexivity|].
  destruct (first_admitting t (manipulation_types (step_filter f))) as [[inp outp]|];
    [apply IH | reflexivity].
Qed.

Lemma get_type_with_filters (v : value_source) (fs : list filter_step) :
  get_type (with_filters v fs) = thread_type (declared_type v) fs.
Proof.
  rewrite get_type_thread_type. destruct v; reflexivity.
Qed.

Lemma Forall2_length_eq {A B : Type} (R : A -> B -> Prop) (l : list A) (l' : list B) :
  Forall2 R l l' -> List.length l = List.length l'.
Proof. induction 1; cbn [List.length]; congruence. Qed.

(** X16.  What [add_filter] accepts, and what it leaves.  Over a registry
    whose keys are distinct, the call succeeds exactly when the name is
    that of a registered filter with a manipulation pair whose input admits
    the current type of the value, and every extra argument is a value
    source of a class and of a type that the matching parameter takes; the
    value then has one more filter, the registered one with these arguments,
    and its type is the output of the first such pair: [get_type] does not
    fail on a value that [add_filter] returned. *)
Theorem add_filter_accepts :
  forall (bre : BusinessRuleEngine) (v v' : value_source) (filter_name : string)
         (args : list artifact),
    NoDup (map fst (system_available_filters bre)) ->
    (add_filter bre v filter_name args = Ok v'
     <-> exists fd t inp outp,
           dict_lookup filter_name (system_available_filters bre) = Some fd
           /\ get_type v = Ok t
           /\ first_admitting t (manipulation_types fd) = Some (inp, outp)
           /\ Forall2 accepted_arg args (filter_params fd)
           /\ v' = with_filters v
                     (get_filters v ++ [FilterStep filter_name fd (values_of args)]))
    /\ (add_filter bre v filter_name args = Ok v' ->
        exists fd t inp outp,
          dict_lookup filter_name (system_available_filters bre) = Some fd
          /\ get_type v = Ok t
          /\ first_admitting t (manipulation_types fd) = Some (inp, outp)
          /\ get_type v' = Ok outp).
Proof.
  intros bre v v' name args Hnd.
  assert (Havail : forall t,
    str_in name
      (map fst (filter (fun kf => str_in t (available_inputs (snd kf)))
                       (system_available_filters bre))) = true
    <-> exists fd p, dict_lookup name (system_available_filters bre) = Some fd
                     /\ first_admitting t (manipulation_types fd) = Some p).
  { intros t. rewrite str_in_In, in_map_iff. split.
    - intros [[k fd] [Hk Hin]]. cbn [fst] in Hk. subst k.
      apply filter_In in Hin. destruct Hin as [Hin Hp]. cbn [snd] in Hp.
      apply first_admitting_available in Hp. destruct Hp as [p Hp].
      exists fd, p. split; [apply dict_lookup_In; assumption | exact Hp].
    - intros [fd [p [Hfd Hp]]]. exists (name, fd). split; [reflexivity|].
      apply filter_In. split; [apply dict_lookup_In; assumption|].
      cbn [snd]. apply first_admitting_available. exists p. exact Hp. }
  assert (Hiff :
    add_filter bre v name args = Ok v'
    <-> exists fd t inp outp,
          dict_lookup name (system_available_filters bre) = Some fd
          /\ get_type v = Ok t
          /\ first_admitting t (manipulation_types fd) = Some (inp, outp)
          /\ Forall2 accepted_arg args (filter_params fd)
          /\ v' = with_filters v (get_filters v ++ [FilterStep name fd (values_of args)])).
  { unfold add_filter, fetch_addable_filters. split.
    - intros H. destruct (get_type v) as [t|e] eqn:Et; cbn [bind] in H; [|discriminate H].
      match type of H with
      | (if negb ?b then _ else _) = _ => destruct b eqn:Eb; cbn [negb] in H
      end; [|discriminate H].
      apply (Havail t) in Eb. destruct Eb as [fd [[inp outp] [Hfd Hp]]].
      unfold dict_item in H. rewrite Hfd in H. cbn [bind] in H.
      destruct (List.length (filter_params fd) =? List.length args)%nat eqn:El;
        cbn [negb] in H; [|discriminate H].
      apply Nat.eqb_eq in El.
      destruct (check_args 0 (filter_params fd) args) as [det|e] eqn:Ec; cbn [bind] in H;
        [|discriminate H].
      destruct (0 <? List.length det)%nat eqn:Ed; [discriminate H|].
      rewrite (check_args_det _ _ _ _ Ec Ed) in Ec. inversion H; subst v'.
      exists fd, t, inp, outp. repeat split; try assumption.
      apply (check_args_accepted _ _ 0%nat El). exact Ec.
    - intros [fd [t [inp [outp [Hfd [Ht [Hp [Hargs ->]]]]]]]].
      rewrite Ht. cbn [bind].
      assert (Eb : str_in name
                (map fst (filter (fun kf => str_in t (available_inputs (snd kf)))
                                 (system_available_filters bre))) = true).
      { apply Havail. exists fd, (inp, outp). split; assumption. }
      rewrite Eb. cbn [negb]. unfold dict_item. rewrite Hfd. cbn [bind].
      pose proof (Forall2_length_eq _ _ _ Hargs) as El. symmetry in El.
      rewrite El, Nat.eqb_refl. cbn [negb].
      apply (check_args_accepted _ _ 0%nat El) in Hargs. rewrite Hargs. reflexivity. }
  split; [exact Hiff|].
  intros H. apply Hiff in H.
  destruct H as [fd [t [inp [outp [Hfd [Ht [Hp [_ ->]]]]]]]].
  exists fd, t, inp, outp. repeat split; try assumption.
  rewrite get_type_with_filters, thread_type_app.
  rewrite <- get_type_thread_type, Ht. cbn [bind thread_type step_filter].
  rewrite Hp. reflexivity.
Qed.

Lemma add_filter_accepts_witness :
  (add_filter example_engine (Attribute (PStr "a") "Numeric" []) "numeric_to_string" []
   = Ok (Attribute (PStr "a") "Numeric"
           [FilterStep "numeric_to_string" (engine_filter example_engine "numeric_to_string")
              []])
   <-> exists fd t inp outp,
         dict_lookup "numeric_to_string" (system_available_filters example_engine) = Some fd
         /\ get_type (Attribute (PStr "a") "Numeric" []) = Ok t
         /\ first_admitting t (manipulation_types fd) = Some (inp, outp)
         /\ Forall2 accepted_arg [] (filter_params fd)
         /\ Attribute (PStr "a") "Numeric"
              [FilterStep "numeric_to_string"
                 (engine_filter example_engine "numeric_to_string") []]
            = with_filters (Attribute (PStr "a") "Numeric" [])
                (get_filters (Attribute (PStr "a") "Numeric" [])
                 ++ [FilterStep "numeric_to_string" fd (values_of [])]))
  /\ (add_filter example_engine (Attribute (PStr "a") "Numeric" []) "numeric_to_string" []
      = Ok (Attribute (PStr "a") "Numeric"
              [FilterStep "numeric_to_string"
                 (engine_filter example_engine "numeric_to_string") []]) ->
      exists fd t inp outp,
        dict_lookup "numeric_to_string" (system_available_filters example_engine) = Some fd
        /\ get_type (Attribute (PStr "a") "Numeric" []) = Ok t
        /\ first_admitting t (manipulation_types fd) = Some (inp, outp)
        /\ get_type (Attribute (PStr "a") "Numeric"
                       [FilterStep "numeric_to_string"
                          (engine_filter example_engine "numeric_to_string") []])
           = Ok outp).
Proof.
  apply (add_filter_accepts example_engine (Attribute (PStr "a") "Numeric" [])).
  apply no_dup_str_NoDup. reflexivity.
Defined.

(* ===================================================================== *)
(** * Further properties of the containers *)
(* ===================================================================== *)

Lemma select_collation_sound (cur : comparer_def) (t1 t2 : string)
    (collation_type : option (list pyval)) (sel : string * string) :
  select_collation cur t1 t2 collation_type = Ok sel ->
  In sel (collation_types cur)
  /\ (sel = (t1, t2) \/ admits t1 t2 sel)
  /\ (collation_type = None
      \/ collation_type = Some [PStr (fst sel); PStr (snd sel)]).
Proof.
  unfold select_collation. destruct collation_type as [o|].
  - destruct o as [|[| | | |o0| | |] [|[| | | |o1| | |] [|? ?]]]; try discriminate.
    destruct (filter (fun xy => String.eqb (fst xy) o0 && String.eqb (snd xy) o1)
                     (collation_types cur)) as [|s r] eqn:Ef; [discriminate|].
    assert (Hin : In s (filter (fun xy => String.eqb (fst xy) o0 && String.eqb (snd xy) o1)
                               (collation_types cur))) by (rewrite Ef; left; reflexivity).
    apply filter_In in Hin. destruct Hin as [Hin Hs].
    apply andb_true_iff in Hs. destruct Hs as [Hs0 Hs1].
    apply String.eqb_eq in Hs0, Hs1.
    destruct (str_in t1 (extract_allowed_types (fst s))
              && str_in t2 (extract_allowed_types (snd s))) eqn:Ea; cbn [negb];
      [|discriminate].
    intros H. inversion H; subst sel. split; [exact Hin|]. split.
    + right. apply admits_dec. exact Ea.
    + right. rewrite Hs0, Hs1. reflexivity.
  - destruct (find_exact t1 t2 (collation_types cur)) as [xy|] eqn:Ee.
    + intros H. inversion H; subst xy. apply find_exact_Some in Ee.
      destruct Ee as [-> Hin]. split; [exact Hin|]. split; left; reflexivity.
    + destruct (find_allowed t1 t2 (collation_types cur)) as [xy|] eqn:Ea; [|discriminate].
      intros H. inversion H; subst xy. apply find_allowed_Some in Ea.
      destruct Ea as [pre [post [Hsplit [Hadm _]]]].
      split; [rewrite Hsplit; apply in_or_app; right; left; reflexivity|].
      split; [right; exact Hadm | left; reflexivity].
Qed.

(** X17.  What a successful [add_comparer] has checked, with or without an
    explicit collation: the name is that of a registered comparer, the left
    side is an [Attribute], the right side is a value source of a class the
    comparer takes, the selected collation is one the comparer declares and
    it is the exact pair of the two types or admits them both, it is the
    explicit collation when one was given, and every extra argument is
    accepted by its parameter; the container then holds one more member,
    the comparer with this collation, after the members it had. *)
Theorem add_comparer_sound :
  forall (bre : BusinessRuleEngine) (comparer_name : string)
         (comparable1 comparable2 : artifact) (collation_type : option (list pyval))
         (args : list artifact) (self self' : container),
    add_comparer bre comparer_name comparable1 comparable2 collation_type args self
    = (Ok tt, self') ->
    exists cur v1 v2 t1 t2 sel,
      dict_lookup comparer_name (system_available_comparers bre) = Some cur
      /\ comparable1 = AValue v1 /\ comparable2 = AValue v2
      /\ value_key v1 = "Attribute"
      /\ str_in (value_key v2) (value_classes cur) = true
      /\ get_type v1 = Ok t1 /\ get_type v2 = Ok t2
      /\ In sel (collation_types cur)
      /\ (sel = (t1, t2) \/ admits t1 t2 sel)
      /\ (collation_type = None
          \/ collation_type = Some [PStr (fst sel); PStr (snd sel)])
      /\ Forall2 accepted_arg args (comparer_params cur)
      /\ self' = with_comparer self comparer_name cur sel v1 v2 args.
Proof.
  intros bre name c1 c2 coll args self self' H.
  cbv [add_comparer m_bind m_raise_if m_lift m_raise m_ret m_get m_put
       dict_mem dict_item] in H.
  destruct (dict_lookup name (system_available_comparers bre)) as [cur|] eqn:Hreg;
    cbv beta iota in H; cbn [negb] in H; [|discriminate H].
  destruct (String.eqb (artifact_key c1) "Attribute") eqn:Ek1; cbn [negb] in H;
    [|discriminate H].
  destruct (str_in (artifact_key c2) (value_classes cur)) eqn:Ek2; cbn [negb] in H;
    [|discriminate H].
  destruct (artifact_get_type c1) as [t1|e] eqn:Et1; [|discriminate H].
  destruct (artifact_get_type c2) as [t2|e] eqn:Et2; [|discriminate H].
  destruct (select_collation cur t1 t2 coll) as [sel|e] eqn:Es; [|discriminate H].
  destruct (List.length (comparer_params cur) =? List.length args)%nat eqn:El;
    cbn [negb] in H; [|discriminate H].
  destruct (check_args 0 (comparer_params cur) args) as [det|e] eqn:Ec; [|discriminate H].
  destruct (0 <? List.length det)%nat eqn:Ed; [discriminate H|].
  rewrite (check_args_det _ _ _ _ Ec Ed) in Ec.
  apply Nat.eqb_eq in El. apply String.eqb_eq in Ek1.
  destruct c1 as [v1| | | | |]; try discriminate Et1.
  destruct c2 as [v2| | | | |]; try discriminate Et2.
  cbn [artifact_key artifact_get_type] in *.
  inversion H; subst self'. clear H.
  apply select_collation_sound in Es. destruct Es as [Hin [Hadm Hcoll]].
  exists cur, v1, v2, t1, t2, sel.
  repeat split; try assumption; try reflexivity.
  apply (check_args_accepted _ _ 0%nat El). exact Ec.
Qed.

Lemma add_comparer_sound_witness :
  exists cur v1 v2 t1 t2 sel,
    dict_lookup "equals" (system_available_comparers example_engine) = Some cur
    /\ AValue example_attribute = AValue v1 /\ AValue example_five = AValue v2
    /\ value_key v1 = "Attribute"
    /\ str_in (value_key v2) (value_classes cur) = true
    /\ get_type v1 = Ok t1 /\ get_type v2 = Ok t2
    /\ In sel (collation_types cur)
    /\ (sel = (t1, t2) \/ admits t1 t2 sel)
    /\ (Some [PStr "String"; PStr "String"] = None
        \/ Some [PStr "String"; PStr "String"] = Some [PStr (fst sel); PStr (snd sel)])
    /\ Forall2 accepted_arg [] (comparer_params cur)
    /\ with_comparer (AndOperatorContainer [] false) "equals" equals_def
         ("String", "String") example_attribute example_five []
       = with_comparer (AndOperatorContainer [] false) "equals" cur sel v1 v2 [].
Proof.
  apply (add_comparer_sound example_engine "equals" (AValue example_attribute)
           (AValue example_five) (Some [PStr "String"; PStr "String"]) []
           (AndOperatorContainer [] false)).
  reflexivity.
Defined.

(** ** [evaluate] looks at every member *)

Lemma evaluate_And (rt : PyRuntime) (row : pyval) (objs : list member) (n : bool) :
  evaluate rt row (AndOperatorContainer objs n)
  = (rs <- map_result (member_outcome rt row) objs ;;
     Ok (if n then negb (forallb (fun b => b) rs) else forallb (fun b => b) rs)).
Proof. reflexivity. Qed.

Lemma evaluate_Or (rt : PyRuntime) (row : pyval) (objs : list member) (n : bool) :
  evaluate rt row (OrOperatorContainer objs n)
  = (rs <- map_result (member_outcome rt row) objs ;;
     Ok (if n then negb (existsb (fun b => b) rs) else existsb (fun b => b) rs)).
Proof. reflexivity. Qed.

Lemma map_result_raise_at {A B : Type} (f : A -> result B) (pre : list A) (x : A)
    (post : list A) (ys : list B) (e : exn) :
  Forall2 (fun a b => f a = Ok b) pre ys ->
  f x = Raise e ->
  map_result f (pre ++ x :: post) = Raise e.
Proof.
  intros Hpre Hx. induction Hpre as [|a b t t' Hab _ IH]; cbn [app map_result].
  - rewrite Hx. reflexivity.
  - rewrite Hab. cbn [bind]. rewrite IH. reflexivity.
Qed.

(** X18.  [evaluate] works out every member before it combines them: when
    every member of a container has an outcome on the row, an [And]
    container gives their conjunction and an [Or] container their
    disjunction, negated when [not_operator] is set; and when a member
    raises, the container raises the exception of the first such member,
    whatever the members before it gave, so a false member of an [And]
    does not keep a later member from raising. *)
Theorem evaluate_every_member :
  forall (rt : PyRuntime) (row : pyval) (objs : list member) (n : bool),
    (forall bs,
        Forall2 (fun x b => member_outcome rt row x = Ok b) objs bs ->
        evaluate rt row (AndOperatorContainer objs n)
        = Ok (xorb n (forallb (fun b => b) bs))
        /\ evaluate rt row (OrOperatorContainer objs n)
           = Ok (xorb n (existsb (fun b => b) bs)))
    /\ (forall pre x post bs e,
           objs = pre ++ x :: post ->
           Forall2 (fun x b => member_outcome rt row x = Ok b) pre bs ->
           member_outcome rt row x = Raise e ->
           evaluate rt row (AndOperatorContainer objs n) = Raise e
           /\ evaluate rt row (OrOperatorContainer objs n) = Raise e).
Proof.
  intros rt row objs n. split.
  - intros bs H. apply map_result_Forall2 in H.
    rewrite evaluate_And, evaluate_Or, H. cbn [bind].
    destruct n; split; reflexivity.
  - intros pre x post bs e -> Hpre Hx.
    rewrite evaluate_And, evaluate_Or.
    rewrite (map_result_raise_at _ pre x post bs e Hpre Hx). split; reflexivity.
Qed.

(* ===================================================================== *)
(** * Further properties of the environment *)
(* ===================================================================== *)

Lemma attribute_type_eqb_eq (a b : JsonAttributeType) :
  attribute_type_eqb a b = true <-> a = b.
Proof. destruct a, b; split; intros H; try reflexivity; discriminate H. Qed.

Lemma option_Z_eqb_eq (a b : option Z) : option_Z_eqb a b = true <-> a = b.
Proof.
  destruct a as [x|], b as [y|]; cbn [option_Z_eqb]; split; intros H;
    try reflexivity; try discriminate H.
  - apply Z.eqb_eq in H. subst. reflexivity.
  - inversion H. apply Z.eqb_refl.
Qed.

Lemma JsonAttribute_eqb_eq (a b : JsonAttribute) : JsonAttribute_eqb a b = true <-> a = b.
Proof.
  destruct a as [d1 t1 dt1 p1 de1 r1 m1], b as [d2 t2 dt2 p2 de2 r2 m2].
  unfold JsonAttribute_eqb.
  cbn [dot_specifier attribute_type attribute_data_type pretty_name description read_only
       max_length].
  rewrite !andb_true_iff, !String.eqb_eq, attribute_type_eqb_eq, Bool.eqb_true_iff,
    option_Z_eqb_eq.
  split.
  - intros [[[[[[-> ->] ->] ->] ->] ->] ->]. reflexivity.
  - intros H. inversion H. repeat split.
Qed.

Lemma existsb_JsonAttribute (a : JsonAttribute) (l : list JsonAttribute) :
  existsb (JsonAttribute_eqb a) l = true <-> In a l.
Proof.
  rewrite existsb_exists. split.
  - intros [x [Hin Hx]]. apply JsonAttribute_eqb_eq in Hx. subst. exact Hin.
  - intros Hin. exists a. split; [exact Hin | apply JsonAttribute_eqb_eq; reflexivity].
Qed.

Lemma list_item_nonneg {A : Type} (l : list A) (i : Z) (x : A) :
  0 <= i -> (list_item l i = Ok x <-> nth_error l (Z.to_nat i) = Some x).
Proof.
  intros Hi. unfold list_item, norm_index.
  destruct (i <? 0) eqn:E; [apply Z.ltb_lt in E; lia|].
  destruct ((i <? 0) || (py_len l <=? i)) eqn:Eb; cbn [bind].
  - rewrite E in Eb. cbn [orb] in Eb. apply Z.leb_le in Eb. unfold py_len in Eb.
    split; [discriminate|]. intros H.
    assert (Hlt : (Z.to_nat i < List.length l)%nat)
      by (apply nth_error_Some; rewrite H; discriminate).
    lia.
  - destruct (nth_error l (Z.to_nat i)) as [y|]; split; intros H;
      inversion H; reflexivity.
Qed.

Lemma list_item_app_nonneg {A : Type} (l extra : list A) (i : Z) (x : A) :
  0 <= i -> list_item l i = Ok x -> list_item (l ++ extra) i = Ok x.
Proof.
  intros Hi H. apply (list_item_nonneg _ _ _ Hi) in H. apply (list_item_nonneg _ _ _ Hi).
  rewrite nth_error_app1; [exact H|]. apply nth_error_Some. rewrite H. discriminate.
Qed.

Lemma add_attribute_appends_aux (env env' : Environment) (a : JsonAttribute) :
  add_attribute env (AJsonAttribute a) = Ok env' ->
  (exists extra, env_attributes env' = env_attributes env ++ extra)
  /\ env_default_mappings env' = env_default_mappings env.
Proof.
  intros H. cbn [add_attribute] in H.
  destruct (existsb (JsonAttribute_eqb a) (env_attributes env));
    inversion H; subst env'; clear H.
  - split; [exists []; rewrite app_nil_r|]; reflexivity.
  - split; [exists [a]|]; reflexivity.
Qed.



(** ** The default mappings *)

Lemma add_default_mapping_with_index_Ok (env env' : Environment) (i o : Z) :
  add_default_mapping_with_index env i o = Ok env' ->
  mapping_ok (env_attributes env) (i, o) = true
  /\ env_attributes env' = env_attributes env
  /\ (env_default_mappings env' = env_default_mappings env
      \/ env_default_mappings env' = env_default_mappings env ++ [(i, o)])
  /\ In (i, o) (env_default_mappings env').
Proof.
  unfold add_default_mapping_with_index, mapping_ok. cbn [fst snd]. intros H.
  destruct (list_item (env_attributes env) i) as [a|e]; cbn [bind] in H; [|discriminate H].
  destruct (attribute_type_eqb (attribute_type a) INPUT); cbn [negb] in H; [|discriminate H].
  destruct (list_item (env_attributes env) o) as [b|e]; cbn [bind] in H; [|discriminate H].
  destruct (attribute_type_eqb (attribute_type b) OUTPUT); cbn [negb] in H; [|discriminate H].
  split; [reflexivity|].
  destruct (existsb (pair_Z_eqb (i, o)) (env_default_mappings env)) eqn:E;
    inversion H; subst env'; clear H; cbn [env_attributes env_default_mappings].
  - split; [reflexivity|]. split; [left; reflexivity|].
    apply existsb_exists in E. destruct E as [[i' o'] [Hin Heq]].
    unfold pair_Z_eqb in Heq. cbn [fst snd] in Heq. apply andb_true_iff in Heq.
    destruct Heq as [Hi Ho]. apply Z.eqb_eq in Hi, Ho. subst. exact Hin.
  - split; [reflexivity|]. split; [right; reflexivity|].
    apply in_or_app. right. left. reflexivity.
Qed.

Lemma mapping_ok_app_nonneg (attrs extra : list JsonAttribute) (xy : Z * Z) :
  0 <= fst xy -> 0 <= snd xy ->
  mapping_ok attrs xy = true -> mapping_ok (attrs ++ extra) xy = true.
Proof.
  intros Hx Hy. unfold mapping_ok.
  destruct (list_item attrs (fst xy)) as [a|e] eqn:Ea; [|discriminate].
  destruct (list_item attrs (snd xy)) as [b|e] eqn:Eb; [|discriminate].
  rewrite (list_item_app_nonneg attrs extra _ a Hx Ea).
  rewrite (list_item_app_nonneg attrs extra _ b Hy Eb). intros H. exact H.
Qed.

Lemma get_all_default_mappings_typed (env : Environment) :
  mappings_typed env ->
  exists ms,
    get_all_default_mappings env = Ok ms
    /\ Forall2 (fun xy m => list_item (env_attributes env) (fst xy) = Ok (fst m)
                            /\ list_item (env_attributes env) (snd xy) = Ok (snd m)
                            /\ attribute_type (fst m) = INPUT
                            /\ attribute_type (snd m) = OUTPUT)
         (env_default_mappings env) ms.
Proof.
  unfold mappings_typed, get_all_default_mappings.
  generalize (env_default_mappings env). intros maps.
  induction maps as [|xy t IH]; intros H.
  - exists []. split; [reflexivity | constructor].
  - cbn [forallb] in H. apply andb_true_iff in H. destruct H as [Hxy Ht].
    destruct (IH Ht) as [ms [Hms HF]]. unfold mapping_ok in Hxy.
    destruct (list_item (env_attributes env) (fst xy)) as [a|e] eqn:Ea; [|discriminate].
    destruct (list_item (env_attributes env) (snd xy)) as [b|e] eqn:Eb; [|discriminate].
    apply andb_true_iff in Hxy. destruct Hxy as [Ha Hb].
    apply attribute_type_eqb_eq in Ha, Hb.
    exists ((a, b) :: ms). cbn [map_result]. rewrite Ea, Eb. cbn [bind]. rewrite Hms.
    split; [reflexivity|]. constructor; [|exact HF]. cbn [fst snd]. tauto.
Qed.

(** X20.  The default mappings stay typed, as long as their indices are
    not negative.  Say that an environment is typed when each of its
    default mappings names an input attribute and an output attribute.  The
    empty environment is typed; [add_default_mapping_with_index] keeps an
    environment typed and its attributes as they are; [add_attribute] keeps
    it typed when no mapping has a negative index; and on a typed
    environment [get_all_default_mappings] succeeds and returns one pair of
    an input and an output attribute for each mapping.  A negative index is
    accepted and counts from the end of the list, so a later
    [add_attribute] can make it name another attribute: an environment with
    such a mapping need not stay typed. *)
Theorem default_mappings_stay_typed :
  mappings_typed empty_environment
  /\ (forall env i o env',
         mappings_typed env ->
         add_default_mapping_with_index env i o = Ok env' ->
         mappings_typed env' /\ env_attributes env' = env_attributes env)
  /\ (forall env a env',
         mappings_typed env ->
         Forall (fun xy => 0 <= fst xy /\ 0 <= snd xy) (env_default_mappings env) ->
         add_attribute env a = Ok env' ->
         mappings_typed env')
  /\ (forall env,
         mappings_typed env ->
         exists ms,
           get_all_default_mappings env = Ok ms
           /\ List.length ms = List.length (env_default_mappings env)
           /\ Forall (fun m => attribute_type (fst m) = INPUT
                               /\ attribute_type (snd m) = OUTPUT) ms)
  /\ (exists env i o env1 a env2,
         mappings_typed env
         /\ add_default_mapping_with_index env i o = Ok env1
         /\ add_attribute env1 (AJsonAttribute a) = Ok env2
         /\ ~ mappings_typed env2).
Proof.
  split; [reflexivity|]. split; [|split; [|split]].
  - intros env i o env' Ht H.
    apply add_default_mapping_with_index_Ok in H.
    destruct H as [Hok [Hattrs [Hmaps _]]]. split; [|exact Hattrs].
    unfold mappings_typed in *. rewrite Hattrs.
    destruct Hmaps as [->| ->]; [exact Ht|].
    rewrite forallb_app, Ht. cbn [forallb]. rewrite Hok. reflexivity.
  - intros env a env' Ht Hnn H.
    destruct a as [| |a| | |]; try discriminate H.
    apply add_attribute_appends_aux in H. destruct H as [[extra Hattrs] Hmaps].
    unfold mappings_typed in *. rewrite Hattrs, Hmaps.
    apply forallb_forall. intros xy Hin.
    rewrite forallb_forall in Ht. rewrite Forall_forall in Hnn.
    destruct (Hnn xy Hin) as [Hx Hy].
    apply mapping_ok_app_nonneg; [exact Hx | exact Hy | exact (Ht xy Hin)].
  - intros env Ht. destruct (get_all_default_mappings_typed env Ht) as [ms [Hms HF]].
    exists ms. split; [exact Hms|]. split.
    + symmetry. eapply Forall2_length_eq. exact HF.
    + clear Hms. induction HF as [|xy m t ms' Hm _ IH]; constructor; [tauto | exact IH].
  - exists {| env_attributes := [json_attribute "a" INPUT "String" "A";
                                  json_attribute "b" OUTPUT "String" "B"];
              env_default_mappings := [] |}.
    exists 0, (-1).
    exists {| env_attributes := [json_attribute "a" INPUT "String" "A";
                                  json_attribute "b" OUTPUT "String" "B"];
              env_default_mappings := [(0, -1)] |}.
    exists (json_attribute "c" INPUT "String" "C").
    exists {| env_attributes := [json_attribute "a" INPUT "String" "A";
                                  json_attribute "b" OUTPUT "String" "B";
                                  json_attribute "c" INPUT "String" "C"];
              env_default_mappings := [(0, -1)] |}.
    split; [reflexivity|]. split; [reflexivity|]. split; [reflexivity|].
    unfold mappings_typed. cbv. discriminate.
Qed.

(** ** [add_default_mapping], by attribute *)

Lemma list_index_Ok (a : JsonAttribute) (l : list JsonAttribute) (i : Z) :
  list_index a l = Ok i -> 0 <= i /\ list_item l i = Ok a.
Proof.
  revert i. induction l as [|x t IH]; intros i H; cbn [list_index] in H; [discriminate H|].
  destruct (JsonAttribute_eqb x a) eqn:E.
  - inversion H; subst. apply JsonAttribute_eqb_eq in E. subst. split; [lia | reflexivity].
  - apply bind_Ok_inv in H. destruct H as [j [Hj H]]. inversion H; subst.
    destruct (IH j Hj) as [Hnn Hitem]. split; [lia|].
    apply (list_item_nonneg _ _ _ Hnn) in Hitem.
    apply list_item_nonneg; [lia|].
    replace (Z.to_nat (j + 1)) with (S (Z.to_nat j)) by lia. exact Hitem.
Qed.

Lemma list_index_In (a : JsonAttribute) (l : list JsonAttribute) :
  (exists i, list_index a l = Ok i) <-> In a l.
Proof.
  induction l as [|x t IH]; cbn [list_index In].
  - split; [intros [i H]; discriminate H | contradiction].
  - destruct (JsonAttribute_eqb x a) eqn:E.
    + apply JsonAttribute_eqb_eq in E. split; [intros _; left; exact E|].
      intros _. exists 0. reflexivity.
    + split.
      * intros [i H]. apply bind_Ok_inv in H. destruct H as [j [Hj _]].
        right. apply IH. exists j. exact Hj.
      * intros [H|H].
        -- apply JsonAttribute_eqb_eq in H. congruence.
        -- apply IH in H. destruct H as [j Hj]. exists (j + 1). rewrite Hj. reflexivity.
Qed.

Lemma list_index_raises (a : JsonAttribute) (l : list JsonAttribute) (e : exn) :
  list_index a l = Raise e -> e = ValueError.
Proof.
  induction l as [|x t IH]; cbn [list_index]; intros H.
  - inversion H. reflexivity.
  - destruct (JsonAttribute_eqb x a); [discriminate H|].
    destruct (list_index a t); cbn [bind] in H; [discriminate H|].
    inversion H; subst. apply IH. reflexivity.
Qed.

Lemma add_default_mapping_with_index_accepts (env : Environment) (i o : Z)
    (a b : JsonAttribute) :
  list_item (env_attributes env) i = Ok a ->
  list_item (env_attributes env) o = Ok b ->
  attribute_type a = INPUT ->
  attribute_type b = OUTPUT ->
  exists env', add_default_mapping_with_index env i o = Ok env'.
Proof.
  intros Ha Hb Hta Htb. unfold add_default_mapping_with_index.
  rewrite Ha. cbn [bind]. rewrite Hta. cbn [attribute_type_eqb negb].
  rewrite Hb. cbn [bind]. rewrite Htb. cbn [attribute_type_eqb negb].
  destruct (existsb _ _); eexists; reflexivity.
Qed.

Lemma get_all_default_mappings_In (env : Environment) (ms : list (JsonAttribute * JsonAttribute))
    (i o : Z) (a b : JsonAttribute) :
  get_all_default_mappings env = Ok ms ->
  In (i, o) (env_default_mappings env) ->
  list_item (env_attributes env) i = Ok a ->
  list_item (env_attributes env) o = Ok b ->
  In (a, b) ms.
Proof.
  unfold get_all_default_mappings. intros H Hin Ha Hb.
  apply map_result_Forall2 in H.
  induction H as [|xy m t ms' Hm _ IH]; [contradiction|].
  destruct Hin as [->|Hin]; [|right; exact (IH Hin)].
  cbn [fst snd] in Hm. rewrite Ha, Hb in Hm. cbn [bind] in Hm. inversion Hm.
  left. reflexivity.
Qed.

(** X21.  [add_default_mapping] takes the two attributes themselves.  It
    succeeds exactly when the first is an input attribute, the second an
    output attribute, and both are attributes of the environment; otherwise
    it raises [ValueError].  On a typed environment it leaves a typed
    environment with the same attributes, whose default mappings, as
    [get_all_default_mappings] returns them, hold the pair of the two
    attributes. *)
Theorem add_default_mapping_accepts :
  forall (env : Environment) (input_attribute output_attribute : JsonAttribute),
    ((exists env', add_default_mapping env input_attribute output_attribute = Ok env')
     <-> (attribute_type input_attribute = INPUT
          /\ attribute_type output_attribute = OUTPUT
          /\ In input_attribute (env_attributes env)
          /\ In output_attribute (env_attributes env)))
    /\ (forall e, add_default_mapping env input_attribute output_attribute = Raise e ->
                  e = ValueError)
    /\ (forall env',
           mappings_typed env ->
           add_default_mapping env input_attribute output_attribute = Ok env' ->
           mappings_typed env'
           /\ env_attributes env' = env_attributes env
           /\ exists ms, get_all_default_mappings env' = Ok ms
                         /\ In (input_attribute, output_attribute) ms).
Proof.
  intros env inp out. unfold add_default_mapping.
  split; [|split].
  - split.
    + intros [env' H].
      destruct (attribute_type_eqb (attribute_type inp) INPUT) eqn:Ei; cbn [negb] in H;
        [|discriminate H].
      destruct (attribute_type_eqb (attribute_type out) OUTPUT) eqn:Eo; cbn [negb] in H;
        [|discriminate H].
      apply bind_Ok_inv in H. destruct H as [i [Hi H]].
      apply bind_Ok_inv in H. destruct H as [o [Ho _]].
      apply attribute_type_eqb_eq in Ei, Eo.
      repeat split; try assumption; apply list_index_In; eexists; eassumption.
    + intros [Hi [Ho [Hin Hout]]].
      rewrite Hi, Ho. cbn [attribute_type_eqb negb].
      apply list_index_In in Hin, Hout. destruct Hin as [i Hii], Hout as [o Hoo].
      rewrite Hii, Hoo. cbn [bind].
      apply list_index_Ok in Hii, Hoo. destruct Hii as [_ Hii], Hoo as [_ Hoo].
      exact (add_default_mapping_with_index_accepts env i o inp out Hii Hoo Hi Ho).
  - intros e H.
    destruct (attribute_type_eqb (attribute_type inp) INPUT) eqn:Ei; cbn [negb] in H;
      [|inversion H; reflexivity].
    destruct (attribute_type_eqb (attribute_type out) OUTPUT) eqn:Eo; cbn [negb] in H;
      [|inversion H; reflexivity].
    apply attribute_type_eqb_eq in Ei, Eo.
    destruct (list_index inp (env_attributes env)) as [i|e1] eqn:Hi; cbn [bind] in H;
      [|inversion H; subst; eapply list_index_raises; exact Hi].
    destruct (list_index out (env_attributes env)) as [o|e2] eqn:Ho; cbn [bind] in H;
      [|inversion H; subst; eapply list_index_raises; exact Ho].
    apply list_index_Ok in Hi, Ho. destruct Hi as [_ Hi], Ho as [_ Ho].
    destruct (add_default_mapping_with_index_accepts env i o inp out Hi Ho Ei Eo)
      as [env' Henv'].
    rewrite Henv' in H. discriminate H.
  - intros env' Ht H.
    destruct (attribute_type_eqb (attribute_type inp) INPUT) eqn:Ei; cbn [negb] in H;
      [|discriminate H].
    destruct (attribute_type_eqb (attribute_type out) OUTPUT) eqn:Eo; cbn [negb] in H;
      [|discriminate H].
    apply bind_Ok_inv in H. destruct H as [i [Hi H]].
    apply bind_Ok_inv in H. destruct H as [o [Ho H]].
    apply list_index_Ok in Hi, Ho. destruct Hi as [_ Hi], Ho as [_ Ho].
    apply add_default_mapping_with_index_Ok in H.
    destruct H as [Hok [Hattrs [Hmaps Hin]]].
    assert (Ht' : mappings_typed env').
    { unfold mappings_typed in *. rewrite Hattrs.
      destruct Hmaps as [->| ->]; [exact Ht|].
      rewrite forallb_app, Ht. cbn [forallb]. rewrite Hok. reflexivity. }
    split; [exact Ht'|]. split; [exact Hattrs|].
    destruct (get_all_default_mappings_typed env' Ht') as [ms [Hms _]].
    exists ms. split; [exact Hms|].
    eapply get_all_default_mappings_In; [exact Hms | exact Hin | |];
      rewrite Hattrs; assumption.
Qed.

(* ===================================================================== *)
(** * Induction through the arguments of filters and the members of
      containers *)
(* ===================================================================== *)

Section value_source_induction.

Variable P : value_source -> Prop.
Hypothesis HConstant :
  forall b r t fs, Forall (fun f => Forall P (step_args f)) fs -> P (Constant b r t fs).
Hypothesis HAttribute :
  forall b t fs, Forall (fun f => Forall P (step_args f)) fs -> P (Attribute b t fs).

Fixpoint value_source_nested_ind (v : value_source) : P v :=
  let steps :=
    fix steps (fs : list filter_step) : Forall (fun f => Forall P (step_args f)) fs :=
      match fs with
      | [] => Forall_nil _
      | f :: rest =>
          Forall_cons f
            (match f return Forall P (step_args f) with
             | FilterStep _ _ args =>
                 (fix each (xs : list value_source) : Forall P xs :=
                    match xs with
                    | [] => Forall_nil P
                    | x :: r => Forall_cons x (value_source_nested_ind x) (each r)
                    end) args
             end)
            (steps rest)
      end in
  match v with
  | Constant b r t fs => HConstant b r t fs (steps fs)
  | Attribute b t fs => HAttribute b t fs (steps fs)
  end.

End value_source_induction.

Section container_induction.

Variable P : container -> Prop.
Hypothesis HAnd :
  forall objs n,
    Forall (fun m => match m with SubContainer c => P c | Comparer _ => True end) objs ->
    P (AndOperatorContainer objs n).
Hypothesis HOr :
  forall objs n,
    Forall (fun m => match m with SubContainer c => P c | Comparer _ => True end) objs ->
    P (OrOperatorContainer objs n).

Fixpoint container_nested_ind (c : container) : P c :=
  let members :=
    fix members (objs : list member)
      : Forall (fun m => match m with SubContainer c => P c | Comparer _ => True end) objs :=
      match objs with
      | [] => Forall_nil _
      | m :: rest =>
          Forall_cons m
            (match m return match m with SubContainer c => P c | Comparer _ => True end with
             | SubContainer sub => container_nested_ind sub
             | Comparer _ => I
             end)
            (members rest)
      end in
  match c with
  | AndOperatorContainer objs n => HAnd objs n (members objs)
  | OrOperatorContainer objs n => HOr objs n (members objs)
  end.

End container_induction.

(* ===================================================================== *)
(** * Validation against an environment *)
(* ===================================================================== *)

Lemma query_incl (env env' : Environment) (ds : pyval) (ty : option JsonAttributeType)
    (dt pn de : option string) (ro : option bool) :
  incl (env_attributes env) (env_attributes env') ->
  (List.length (query env ds ty dt pn de ro) =? 0)%nat = false ->
  (List.length (query env' ds ty dt pn de ro) =? 0)%nat = false.
Proof.
  intros Hincl H. unfold query in *.
  destruct (filter _ (env_attributes env)) as [|a r] eqn:E; [discriminate H|].
  assert (Hin : In a (filter
    (fun attr =>
       (py_eq ds (PStr (dot_specifier attr)) || is_None ds)
       && query_matches attribute_type_eqb ty (attribute_type attr)
       && query_matches String.eqb pn (pretty_name attr)
       && query_matches String.eqb de (description attr)
       && query_matches String.eqb dt (attribute_data_type attr)
       && query_matches Bool.eqb ro (read_only attr))
    (env_attributes env))) by (rewrite E; left; reflexivity).
  apply filter_In in Hin. destruct Hin as [Hin Ha].
  match goal with
  | |- (List.length ?l =? 0)%nat = false =>
      assert (Hin' : In a l) by (apply filter_In; split; [apply Hincl; exact Hin | exact Ha]);
      destruct l; [contradiction | reflexivity]
  end.
Qed.

Lemma value_validate_args (environment : Environment) (fs : list filter_step) :
  forallb (fun filter_obj =>
             match filter_obj with
             | FilterStep _ _ args =>
                 forallb (value_validate_with_environment environment) args
             end) fs = true
  <-> Forall (fun f => Forall (fun x => value_validate_with_environment environment x = true)
                         (step_args f)) fs.
Proof.
  rewrite forallb_forall, Forall_forall. split; intros H f Hf; specialize (H f Hf);
    destruct f as [k fd args]; cbn [step_args] in *.
  - apply Forall_forall. apply forallb_forall. exact H.
  - apply forallb_forall. apply Forall_forall. exact H.
Qed.

Lemma value_validate_monotone (env env' : Environment) :
  incl (env_attributes env) (env_attributes env') ->
  forall v, value_validate_with_environment env v = true ->
            value_validate_with_environment env' v = true.
Proof.
  intros Hincl v.
  induction v as [b r t fs IH | b t fs IH] using value_source_nested_ind;
    cbn [value_validate_with_environment]; intros H.
  - apply value_validate_args. apply value_validate_args in H.
    rewrite Forall_forall in *. intros f Hf. specialize (IH f Hf). specialize (H f Hf).
    rewrite Forall_forall in *. intros x Hx. exact (IH x Hx (H x Hx)).
  - destruct (List.length (query env b (Some INPUT) None None None None) =? 0)%nat eqn:E;
      [discriminate H|].
    rewrite (query_incl env env' _ _ _ _ _ _ Hincl E).
    apply value_validate_args. apply value_validate_args in H.
    rewrite Forall_forall in *. intros f Hf. specialize (IH f Hf). specialize (H f Hf).
    rewrite Forall_forall in *. intros x Hx. exact (IH x Hx (H x Hx)).
Qed.

Lemma forallb_impl {A : Type} (f g : A -> bool) (l : list A) :
  (forall x, In x l -> f x = true -> g x = true) ->
  forallb f l = true -> forallb g l = true.
Proof.
  intros Himp H. rewrite forallb_forall in *. intros x Hx. exact (Himp x Hx (H x Hx)).
Qed.

Lemma comparer_validate_monotone (env env' : Environment) (o : compare_object) :
  incl (env_attributes env) (env_attributes env') ->
  comparer_validate_with_environment env o = true ->
  comparer_validate_with_environment env' o = true.
Proof.
  intros Hincl H. unfold comparer_validate_with_environment in *.
  apply andb_true_iff in H. destruct H as [H H3].
  apply andb_true_iff in H. destruct H as [H1 H2].
  rewrite (value_validate_monotone env env' Hincl _ H1).
  rewrite (value_validate_monotone env env' Hincl _ H2).
  rewrite (forallb_impl _ (value_validate_with_environment env') _
             (fun x _ => value_validate_monotone env env' Hincl x) H3).
  reflexivity.
Qed.

Lemma container_validate_monotone (env env' : Environment) :
  incl (env_attributes env) (env_attributes env') ->
  forall c, container_validate_with_environment env c = true ->
            container_validate_with_environment env' c = true.
Proof.
  intros Hincl c.
  induction c as [objs n IH | objs n IH] using container_nested_ind;
    cbn [container_validate_with_environment]; intros H;
    (eapply forallb_impl; [|exact H]); intros m Hm Hv;
    rewrite Forall_forall in IH; specialize (IH m Hm);
    (destruct m as [sub|o];
     [exact (IH Hv) | exact (comparer_validate_monotone env env' o Hincl Hv)]).
Qed.

(** X22.  Declaring more attributes never makes a rule invalid: when an
    artifact is valid with an environment, it is valid with every
    environment that holds at least the same attributes, and so with the
    environment after any [add_attribute]. *)
Theorem validate_with_environment_monotone :
  forall (x : artifact) (env : Environment),
    validate_with_environment x env = true ->
    (forall env',
        incl (env_attributes env) (env_attributes env') ->
        validate_with_environment x env' = true)
    /\ (forall a env',
           add_attribute env a = Ok env' ->
           validate_with_environment x env' = true).
Proof.
  intros x env Hx.
  assert (Hgen : forall env', incl (env_attributes env) (env_attributes env') ->
                              validate_with_environment x env' = true).
  { intros env' Hincl. destruct x as [v|c|a|e|e|r]; cbn [validate_with_environment] in *.
    - exact (value_validate_monotone env env' Hincl v Hx).
    - exact (container_validate_monotone env env' Hincl c Hx).
    - reflexivity.
    - reflexivity.
    - unfold RuleExpression_validate_with_environment in *.
      destruct (container_validate_with_environment env (base_container e)) eqn:Ec;
        cbn [negb] in Hx; [|discriminate Hx].
      rewrite (container_validate_monotone env env' Hincl _ Ec). cbn [negb].
      eapply forallb_impl; [|exact Hx]. intros action _ Ha.
      apply andb_true_iff in Ha. destruct Ha as [Hq Hv].
      apply negb_true_iff in Hq.
      rewrite (query_incl env env' _ _ _ _ _ _ Hincl Hq).
      rewrite (value_validate_monotone env env' Hincl _ Hv). reflexivity.
    - unfold RuleRunner_validate_with_environment in *.
      eapply forallb_impl; [|exact Hx]. intros e _ He.
      unfold RuleExpression_validate_with_environment in *.
      destruct (container_validate_with_environment env (base_container e)) eqn:Ec;
        cbn [negb] in He; [|discriminate He].
      rewrite (container_validate_monotone env env' Hincl _ Ec). cbn [negb].
      eapply forallb_impl; [|exact He]. intros action _ Ha.
      apply andb_true_iff in Ha. destruct Ha as [Hq Hv].
      apply negb_true_iff in Hq.
      rewrite (query_incl env env' _ _ _ _ _ _ Hincl Hq).
      rewrite (value_validate_monotone env env' Hincl _ Hv). reflexivity. }
  split; [exact Hgen|].
  intros a env' Ha. apply Hgen.
  destruct a as [| |a| | |]; try discriminate Ha.
  apply add_attribute_appends_aux in Ha. destruct Ha as [[extra ->] _].
  apply incl_appl. apply incl_refl.
Qed.

Lemma validate_with_environment_monotone_witness :
  (forall env',
      incl (env_attributes example_environment) (env_attributes env') ->
      validate_with_environment (ARuleRunner example_runner) env' = true)
  /\ (forall a env',
         add_attribute example_environment a = Ok env' ->
         validate_with_environment (ARuleRunner example_runner) env' = true).
Proof.
  apply (validate_with_environment_monotone (ARuleRunner example_runner) example_environment).
  reflexivity.
Defined.

(* ===================================================================== *)
(** * Further properties of the runner *)
(* ===================================================================== *)

(** X23.  [run_on_iterable] treats every row on its own, in order.  The
    rows it yields are, one for one and in the order of the input, what the
    body of its loop gives on the rows of a prefix of the input; nothing is
    carried from one row to the next.  When the generator ends normally the
    prefix is the whole input; when it ends with an exception, the
    exception is the one the body raises on the first row after the prefix,
    and the rows before it were yielded. *)
Theorem run_on_iterable_rows :
  forall (rt : PyRuntime) (runner : RuleRunner) (environment : Environment)
         (rows outs : list pyval) (err : option exn),
    run_on_iterable rt runner environment rows = (outs, err) ->
    exists done,
      Forall2 (fun row out => run_on_row rt runner environment row = Ok out) done outs
      /\ match err with
         | None => rows = done
         | Some e =>
             exists row rest,
               rows = done ++ row :: rest
               /\ run_on_row rt runner environment row = Raise e
         end.
Proof.
  intros rt runner environment rows.
  induction rows as [|row rest IH]; intros outs err H; cbn [run_on_iterable] in H.
  - inversion H; subst. exists []. split; [constructor | reflexivity].
  - destruct (run_on_row rt runner environment row) as [out|e] eqn:Erow.
    + destruct (run_on_iterable rt runner environment rest) as [outs' e'] eqn:Erest.
      inversion H; subst. destruct (IH outs' err eq_refl) as [done [HF Herr]].
      exists (row :: done). split; [constructor; assumption|].
      destruct err as [e|].
      * destruct Herr as [row' [rest' [-> Hraise]]].
        exists row', rest'. split; [reflexivity | exact Hraise].
      * subst. reflexivity.
    + inversion H; subst. exists []. split; [constructor|].
      exists row, rest. split; [reflexivity | exact Erow].
Qed.

Lemma run_on_iterable_rows_witness :
  exists done,
    Forall2 (fun row out =>
               run_on_row ExampleRuntime.runtime example_runner example_environment row
               = Ok out) done [S2_out]
    /\ exists row rest,
         [S2_row; PInt 0; S2_row] = done ++ row :: rest
         /\ run_on_row ExampleRuntime.runtime example_runner example_environment row
            = Raise DotNotationError.
Proof.
  apply (run_on_iterable_rows ExampleRuntime.runtime example_runner example_environment
           [S2_row; PInt 0; S2_row] [S2_out] (Some DotNotationError)).
  vm_compute. reflexivity.
Defined.

(* ===================================================================== *)
(** * Serialization: attributes and environments *)
(* ===================================================================== *)

Lemma JsonAttribute_from_to_dict (a : JsonAttribute) :
  JsonAttribute_from_dict (JsonAttribute_to_dict a) = Ok a.
Proof. destruct a as [ds [|] adt pn de ro [n|]]; reflexivity. Qed.

Lemma dispatch_JsonAttribute (rt : PyRuntime) (bre : BusinessRuleEngine)
    (facade : pyval -> result artifact) (a : JsonAttribute) :
  dispatch_from_dict rt bre facade (JsonAttribute_to_dict a) = Ok (AJsonAttribute a).
Proof.
  unfold dispatch_from_dict.
  change (py_item (JsonAttribute_to_dict a) "key") with (@Ok pyval (PStr "JsonAttribute")).
  cbn [bind hashed_name].
  change (String.eqb "JsonAttribute" "Constant") with false.
  change (String.eqb "JsonAttribute" "Attribute") with false.
  change (String.eqb "JsonAttribute" "AndOperator") with false.
  change (String.eqb "JsonAttribute" "OrOperator") with false.
  change (String.eqb "JsonAttribute" "JsonAttribute") with true.
  cbv iota. rewrite JsonAttribute_from_to_dict. reflexivity.
Qed.

(** X24.  A [JsonAttribute] survives its serialization: [from_dict] of
    [to_dict] of an attribute is an attribute equal to it, also through the
    dispatcher [from_dict_facade]. *)
Theorem JsonAttribute_round_trip :
  forall (rt : PyRuntime) (bre : BusinessRuleEngine) (depth : nat) (a : JsonAttribute),
    JsonAttribute_from_dict (JsonAttribute_to_dict a) = Ok a
    /\ from_dict_facade (S depth) rt bre (to_dict rt (AJsonAttribute a))
       = Ok (AJsonAttribute a).
Proof.
  intros rt bre depth a. split; [apply JsonAttribute_from_to_dict|].
  cbn [from_dict_facade to_dict]. apply dispatch_JsonAttribute.
Qed.


Lemma no_dup_by_NoDup {A : Type} (eqb : A -> A -> bool) (l : list A) :
  (forall x y, eqb x y = true <-> x = y) ->
  (no_dup_by eqb l = true <-> NoDup l).
Proof.
  intros Heq. induction l as [|x t IH]; cbn [no_dup_by].
  - split; [constructor | reflexivity].
  - rewrite andb_true_iff, negb_true_iff, IH. split.
    + intros [Hx Ht]. constructor; [|exact Ht]. intros Hin.
      assert (existsb (eqb x) t = true)
        by (apply existsb_exists; exists x; split; [exact Hin | apply Heq; reflexivity]).
      congruence.
    + intros H. inversion H as [|? ? Hx Ht]; subst. split; [|exact Ht].
      destruct (existsb (eqb x) t) eqn:E; [|reflexivity].
      apply existsb_exists in E. destruct E as [y [Hy Hxy]]. apply Heq in Hxy. subst.
      contradiction.
Qed.

Lemma pair_Z_eqb_eq (a b : Z * Z) : pair_Z_eqb a b = true <-> a = b.
Proof.
  destruct a as [a1 a2], b as [b1 b2]. unfold pair_Z_eqb. cbn [fst snd].
  rewrite andb_true_iff, !Z.eqb_eq. split; [intros [-> ->]; reflexivity|].
  intros H. inversion H. split; reflexivity.
Qed.

(** The first loop of [Environment.from_dict]. *)
Lemma from_dict_attributes (facade : pyval -> result artifact) (l : list JsonAttribute) :
  (forall a, facade (JsonAttribute_to_dict a) = Ok (AJsonAttribute a)) ->
  forall env,
    NoDup (env_attributes env ++ l) ->
    fold_result (fun attribute_dict result_obj =>
                   a <- facade attribute_dict ;; add_attribute result_obj a)
                (map JsonAttribute_to_dict l) env
    = Ok {| env_attributes := env_attributes env ++ l;
            env_default_mappings := env_default_mappings env |}.
Proof.
  intros Hf. induction l as [|a t IH]; intros env Hnd; cbn [map fold_result].
  - rewrite app_nil_r. destruct env; reflexivity.
  - rewrite Hf. cbn [bind add_attribute].
    assert (Hnot : existsb (JsonAttribute_eqb a) (env_attributes env) = false).
    { destruct (existsb (JsonAttribute_eqb a) (env_attributes env)) eqn:E; [|reflexivity].
      apply existsb_JsonAttribute in E. apply NoDup_remove_2 in Hnd.
      exfalso. apply Hnd. apply in_or_app. left. exact E. }
    rewrite Hnot. cbn [bind]. rewrite IH; cbn [env_attributes env_default_mappings].
    + rewrite <- app_assoc. reflexivity.
    + rewrite <- app_assoc. exact Hnd.
Qed.

(** The second loop of [Environment.from_dict]. *)
Lemma from_dict_mappings (attrs : list JsonAttribute) (l : list (Z * Z)) :
  forallb (mapping_ok attrs) l = true ->
  forall pre,
    NoDup (pre ++ l) ->
    fold_result add_mapping_from
      (map (fun xy => PList [PInt (fst xy); PInt (snd xy)]) l)
      {| env_attributes := attrs; env_default_mappings := pre |}
    = Ok {| env_attributes := attrs; env_default_mappings := pre ++ l |}.
Proof.
  induction l as [|[i o] t IH]; intros Hok pre Hnd; cbn [map fold_result].
  - rewrite app_nil_r. reflexivity.
  - cbn [forallb] in Hok. apply andb_true_iff in Hok. destruct Hok as [Hio Ht].
    cbn [add_mapping_from py_iter bind fst snd].
    unfold add_default_mapping_with_index. cbn [env_attributes env_default_mappings].
    unfold mapping_ok in Hio. cbn [fst snd] in Hio.
    destruct (list_item attrs i) as [a|e]; [|discriminate Hio].
    destruct (list_item attrs o) as [b|e]; [|discriminate Hio].
    apply andb_true_iff in Hio. destruct Hio as [Ha Hb].
    cbn [bind]. rewrite Ha, Hb. cbn [negb].
    assert (Hnot : existsb (pair_Z_eqb (i, o)) pre = false).
    { destruct (existsb (pair_Z_eqb (i, o)) pre) eqn:E; [|reflexivity].
      apply existsb_exists in E. destruct E as [y [Hy Hxy]]. apply pair_Z_eqb_eq in Hxy.
      subst y. apply NoDup_remove_2 in Hnd. exfalso. apply Hnd.
      apply in_or_app. left. exact Hy. }
    rewrite Hnot. cbn [bind]. rewrite IH.
    + rewrite <- app_assoc. reflexivity.
    + exact Ht.
    + rewrite <- app_assoc. exact Hnd.
Qed.

Lemma Environment_from_to_dict (facade : pyval -> result artifact) (env : Environment) :
  (forall a, facade (JsonAttribute_to_dict a) = Ok (AJsonAttribute a)) ->
  built_environment env ->
  Environment_from_dict facade (Environment_to_dict env) = Ok env.
Proof.
  intros Hf [Hattrs [Hmaps Hok]].
  apply (no_dup_by_NoDup _ _ JsonAttribute_eqb_eq) in Hattrs.
  apply (no_dup_by_NoDup _ _ pair_Z_eqb_eq) in Hmaps.
  unfold Environment_from_dict, Environment_to_dict, envelope.
  cbn [assert_key py_item dict_item dict_lookup String.eqb Ascii.eqb Bool.eqb bind
       py_assert py_iter].
  rewrite (from_dict_attributes facade (env_attributes env) Hf empty_environment Hattrs).
  cbn [bind empty_environment env_attributes env_default_mappings app].
  rewrite (from_dict_mappings (env_attributes env) (env_default_mappings env) Hok [] Hmaps).
  destruct env; reflexivity.
Qed.

(** X25.  An environment survives its serialization.  For an environment
    that lists no attribute and no default mapping twice and whose default
    mappings each name an input and an output attribute (which
    [add_attribute] and [add_default_mapping_with_index] ensure while no
    mapping index is negative), [from_dict_facade] of [to_dict] gives an
    environment equal to it: the same attributes in the same order and the
    same default mappings. *)
Theorem Environment_round_trip :
  forall (rt : PyRuntime) (bre : BusinessRuleEngine) (depth : nat) (env : Environment),
    built_environment env ->
    from_dict_facade (S (S depth)) rt bre (to_dict rt (AEnvironment env))
    = Ok (AEnvironment env).
Proof.
  intros rt bre depth env Hb.
  change (from_dict_facade (S (S depth)) rt bre (to_dict rt (AEnvironment env)))
    with (dispatch_from_dict rt bre (from_dict_facade (S depth) rt bre)
            (Environment_to_dict env)).
  unfold dispatch_from_dict.
  change (py_item (Environment_to_dict env) "key") with (@Ok pyval (PStr "Environment")).
  cbn [bind hashed_name].
  change (String.eqb "Environment" "Constant") with false.
  change (String.eqb "Environment" "Attribute") with false.
  change (String.eqb "Environment" "AndOperator") with false.
  change (String.eqb "Environment" "OrOperator") with false.
  change (String.eqb "Environment" "JsonAttribute") with false.
  change (String.eqb "Environment" "Environment") with true.
  cbv iota.
  rewrite Environment_from_to_dict; [reflexivity | | exact Hb].
  intros a. cbn [from_dict_facade]. apply dispatch_JsonAttribute.
Qed.

Lemma Environment_round_trip_witness :
  from_dict_facade 2 ExampleRuntime.runtime example_engine
    (to_dict ExampleRuntime.runtime (AEnvironment example_environment))
  = Ok (AEnvironment example_environment).
Proof.
  apply (Environment_round_trip ExampleRuntime.runtime example_engine 0 example_environment).
  repeat split.
Defined.

(* ===================================================================== *)
(** * Properties of the builtin comparers and filters *)
(* ===================================================================== *)

(** X26.  [None] goes through the builtins untouched: every builtin filter
    returns [None] when the value it filters is [None], whatever its other
    arguments, and every builtin comparer returns [False] when either side
    is [None]; none of them raises on it. *)
Theorem builtins_on_None :
  forall (rt : PyRuntime) (a b : pyval),
    string_to_numeric rt [PNone] = Ok PNone
    /\ multiple_filter_by_subvalue_include rt [PNone; a; b] = Ok PNone
    /\ filter_by_subvalue_include rt [PNone; a; b] = Ok PNone
    /\ multiple_filter_by_subvalue rt [PNone; a; b] = Ok PNone
    /\ filter_by_subvalue rt [PNone; a; b] = Ok PNone
    /\ extract_with_dot_specifier_to_string rt [PNone; a] = Ok PNone
    /\ extract_with_dot_specifier_to_numeric rt [PNone; a] = Ok PNone
    /\ numeric_to_string rt [PNone] = Ok PNone
    /\ unixepoch_to_datetime rt [PNone] = Ok PNone
    /\ equals [PNone; a] = Ok (PBool false) /\ equals [a; PNone] = Ok (PBool false)
    /\ includes [PNone; a] = Ok (PBool false) /\ includes [a; PNone] = Ok (PBool false)
    /\ string_includes_ignorecase rt [PNone; a] = Ok (PBool false)
    /\ string_includes_ignorecase rt [a; PNone] = Ok (PBool false).
Proof.
  intros rt a b. repeat split; try reflexivity.
  - unfold equals. cbn [is_None]. rewrite orb_true_r. reflexivity.
  - unfold includes. cbn [is_None]. rewrite orb_true_r. reflexivity.
  - unfold string_includes_ignorecase. cbn [is_None]. rewrite orb_true_r. reflexivity.
Qed.

(** ** The filters by sub-value *)





(* ===================================================================== *)
(** * Properties of the helpers *)
(* ===================================================================== *)

Lemma str_in_keys {V : Type} (k : string) (d : list (string * V)) :
  str_in k (map fst d) = false <-> dict_lookup k d = None.
Proof.
  induction d as [|[k' v] t IH]; cbn [map fst dict_lookup].
  - split; reflexivity.
  - rewrite str_in_cons. destruct (String.eqb k k'); cbn [orb]; [|exact IH].
    split; discriminate.
Qed.

Lemma dict_comprehension_fold (keep : string -> bool) (d : list (string * pyval))
    (k : string) (ks : list string) :
  forall acc,
    dict_lookup k
      (fold_left
         (fun acc k =>
            if keep k then
              match dict_lookup k d with
              | Some v => dict_set k v acc
              | None => acc
              end
            else acc) ks acc)
    = match (if keep k && str_in k ks then dict_lookup k d else None) with
      | Some v => Some v
      | None => dict_lookup k acc
      end.
Proof.
  induction ks as [|k0 t IH]; intros acc; cbn [fold_left].
  - rewrite andb_false_r. reflexivity.
  - rewrite IH, str_in_cons. clear IH.
    destruct (String.eqb k k0) eqn:E.
    + apply String.eqb_eq in E. subst k0. cbn [orb]. rewrite andb_true_r.
      destruct (keep k); cbn [andb].
      * destruct (dict_lookup k d) as [v|] eqn:El.
        -- destruct (str_in k t); [reflexivity|].
           rewrite dict_lookup_dict_set, String.eqb_refl. reflexivity.
        -- destruct (str_in k t); reflexivity.
      * reflexivity.
    + cbn [orb]. destruct (keep k && str_in k t); cbn [andb].
      * destruct (dict_lookup k d); [reflexivity|].
        destruct (keep k0); [|reflexivity].
        destruct (dict_lookup k0 d); [|reflexivity].
        rewrite dict_lookup_dict_set, E. reflexivity.
      * destruct (keep k0); [|reflexivity].
        destruct (dict_lookup k0 d); [|reflexivity].
        rewrite dict_lookup_dict_set, E. reflexivity.
Qed.

Lemma dict_comprehension_lookup (keep : string -> bool) (d : list (string * pyval))
    (k : string) :
  dict_lookup k (dict_comprehension keep d) = if keep k then dict_lookup k d else None.
Proof.
  unfold dict_comprehension. rewrite dict_comprehension_fold. cbn [dict_lookup].
  destruct (keep k); cbn [andb]; [|reflexivity].
  destruct (str_in k (map fst d)) eqn:E.
  - destruct (dict_lookup k d); reflexivity.
  - apply str_in_keys in E. rewrite E. reflexivity.
Qed.

Lemma dict_set_fresh {V : Type} (k : string) (v : V) (d : list (string * V)) :
  dict_lookup k d = None -> dict_set k v d = d ++ [(k, v)].
Proof.
  induction d as [|[k' v'] t IH]; cbn [dict_lookup dict_set app]; intros H; [reflexivity|].
  destruct (String.eqb k k'); [discriminate H|]. rewrite (IH H). reflexivity.
Qed.

Lemma dict_lookup_filter {V : Type} (keep : string -> bool) (k : string)
    (d : list (string * V)) :
  dict_lookup k (filter (fun kv => keep (fst kv)) d)
  = if keep k then dict_lookup k d else None.
Proof.
  induction d as [|[k' v] t IH]; cbn [filter dict_lookup fst].
  - destruct (keep k); reflexivity.
  - destruct (keep k') eqn:Ek'; cbn [dict_lookup].
    + destruct (String.eqb k k') eqn:E; [|exact IH].
      apply String.eqb_eq in E. subst. rewrite Ek'. reflexivity.
    + rewrite IH. destruct (String.eqb k k') eqn:E; [|reflexivity].
      apply String.eqb_eq in E. subst. rewrite Ek'. reflexivity.
Qed.

Lemma dict_comprehension_filter (keep : string -> bool) (d : list (string * pyval)) :
  NoDup (map fst d) ->
  dict_comprehension keep d = filter (fun kv => keep (fst kv)) d.
Proof.
  intros Hnd. unfold dict_comprehension.
  assert (Hgen : forall pre rest,
    d = pre ++ rest ->
    fold_left
      (fun acc k =>
         if keep k then
           match dict_lookup k d with
           | Some v => dict_set k v acc
           | None => acc
           end
         else acc) (map fst rest) (filter (fun kv => keep (fst kv)) pre)
    = filter (fun kv => keep (fst kv)) d).
  { intros pre rest. revert pre. induction rest as [|[k v] t IH]; intros pre Hd.
    - rewrite app_nil_r in Hd. subst. reflexivity.
    - cbn [map fst fold_left].
      assert (Hlook : dict_lookup k d = Some v).
      { apply dict_lookup_In; [exact Hnd|]. rewrite Hd. apply in_or_app. right.
        left. reflexivity. }
      assert (Hpre : dict_lookup k pre = None).
      { apply str_in_keys. destruct (str_in k (map fst pre)) eqn:E; [|reflexivity].
        apply str_in_In in E. rewrite Hd, map_app in Hnd. cbn [map fst] in Hnd.
        apply NoDup_remove_2 in Hnd. exfalso. apply Hnd. apply in_or_app. left. exact E. }
      specialize (IH (pre ++ [(k, v)])). rewrite <- app_assoc in IH.
      specialize (IH Hd). rewrite filter_app in IH. cbn [filter fst] in IH.
      rewrite Hlook. destruct (keep k) eqn:Ek.
      + rewrite dict_set_fresh; [exact IH|].
        rewrite dict_lookup_filter, Ek. exact Hpre.
      + rewrite app_nil_r in IH. exact IH. }
  exact (Hgen [] d eq_refl).
Qed.

Lemma prefix_filter_row_fold (rt : PyRuntime) (prefix : pyval) (d : list (string * pyval))
    (ks : list string) :
  (forall s, In s ks -> dict_lookup s d <> None) ->
  forall acc,
    fold_result
      (fun k acc =>
         match k with
         | PStr s =>
             if String.prefix (str_of rt prefix) s
             then v <- py_item (PDict d) s ;; Ok (dict_set s v acc)
             else Ok acc
         | _ => Raise AttributeError
         end) (map PStr ks) acc
    = Ok (fold_left
            (fun acc k =>
               if String.prefix (str_of rt prefix) k then
                 match dict_lookup k d with
                 | Some v => dict_set k v acc
                 | None => acc
                 end
               else acc) ks acc).
Proof.
  induction ks as [|s t IH]; intros Hks acc; cbn [map fold_result fold_left];
    [reflexivity|].
  assert (Ht : forall x, In x t -> dict_lookup x d <> None)
    by (intros x Hx; apply Hks; right; exact Hx).
  destruct (String.prefix (str_of rt prefix) s).
  - cbn [py_item]. unfold dict_item.
    destruct (dict_lookup s d) as [v|] eqn:Es;
      [|exfalso; apply (Hks s); [left; reflexivity | exact Es]].
    cbn [bind]. apply IH. exact Ht.
  - cbn [bind]. apply IH. exact Ht.
Qed.

Lemma prefix_filter_row_dict (rt : PyRuntime) (prefix : pyval) (d : list (string * pyval)) :
  prefix_filter_row rt prefix (PDict d)
  = Ok (PDict (dict_comprehension (String.prefix (str_of rt prefix)) d)).
Proof.
  unfold prefix_filter_row, dict_comprehension. cbn [py_iter bind].
  assert (Hmap : map (fun kv : string * pyval => PStr (fst kv)) d
                 = map PStr (map fst d)) by (rewrite map_map; reflexivity).
  rewrite Hmap, prefix_filter_row_fold; [reflexivity|].
  intros s Hs Hnone. apply str_in_keys in Hnone. apply str_in_In in Hs. congruence.
Qed.

(** X28.  The helpers that select keys of a dict.  [include_keys] and
    [exclude_keys] split a dict in two: a key is in the dict that
    [include_keys] returns, with its value, exactly when it is a key of the
    dict and one of [keys], and in the one that [exclude_keys] returns
    exactly when it is a key of the dict and none of [keys]; [base_copy]
    returns a dict with the same keys and values; the keys keep the order
    they have in the dict.  [prefix_filter] yields, for every dict of its
    input and in order, the dict of the entries whose key starts with the
    prefix. *)
Theorem helper_keys_split :
  forall (rt : PyRuntime) (dict_obj : list (string * pyval)) (keys : list pyval)
         (prefix : pyval),
    (forall k,
        dict_lookup k (include_keys dict_obj keys)
        = (if key_in k keys then dict_lookup k dict_obj else None)
        /\ dict_lookup k (exclude_keys dict_obj keys)
           = (if key_in k keys then None else dict_lookup k dict_obj)
        /\ dict_lookup k (base_copy dict_obj) = dict_lookup k dict_obj)
    /\ (NoDup (map fst dict_obj) ->
        include_keys dict_obj keys = filter (fun kv => key_in (fst kv) keys) dict_obj
        /\ exclude_keys dict_obj keys
           = filter (fun kv => negb (key_in (fst kv) keys)) dict_obj
        /\ base_copy dict_obj = dict_obj)
    /\ (forall rows : list (list (string * pyval)),
        exists outs,
          prefix_filter rt (map PDict rows) prefix = (map PDict outs, None)
          /\ Forall2
               (fun row out =>
                  forall k, dict_lookup k out
                            = if String.prefix (str_of rt prefix) k
                              then dict_lookup k row else None)
               rows outs).
Proof.
  intros rt d keys prefix. split; [|split].
  - intros k. unfold include_keys, exclude_keys, base_copy.
    rewrite !dict_comprehension_lookup. destruct (key_in k keys); repeat split.
  - intros Hnd. unfold include_keys, exclude_keys, base_copy.
    rewrite !(dict_comprehension_filter _ d Hnd). repeat split.
    clear Hnd. induction d as [|kv t IH]; [reflexivity|].
    cbn [filter]. rewrite IH. reflexivity.
  - intros rows. unfold prefix_filter.
    induction rows as [|row t [outs [Houts HF]]].
    + exists []. split; [reflexivity | constructor].
    + exists (dict_comprehension (String.prefix (str_of rt prefix)) row :: outs).
      cbn [map yield_each]. rewrite prefix_filter_row_dict, Houts.
      split; [reflexivity|]. constructor; [|exact HF].
      intros k. apply dict_comprehension_lookup.
Qed.

(** ** [DetailDataNormalizer.iterate_on] *)

Lemma strip_prefix_spec (p k s : string) :
  strip_prefix p k = Some s <-> k = (p ++ s)%string.
Proof.
  revert k. induction p as [|c p IH]; intros k; cbn [strip_prefix String.append].
  - split; [intros H; inversion H; reflexivity | intros ->; reflexivity].
  - destruct k as [|c' k].
    + split; discriminate.
    + destruct (Ascii.eqb c c') eqn:E.
      * apply Ascii.eqb_eq in E. subst c'. rewrite IH. split; [intros ->; reflexivity|].
        intros H. inversion H. reflexivity.
      * split; [discriminate|]. intros H. inversion H; subst.
        rewrite Ascii.eqb_refl in E. discriminate E.
Qed.

Lemma eqb_prefixed (p s k : string) :
  String.eqb k (p ++ s)
  = match strip_prefix p k with
    | Some s' => String.eqb s' s
    | None => false
    end.
Proof.
  destruct (strip_prefix p k) as [s'|] eqn:E.
  - apply strip_prefix_spec in E. subst k.
    destruct (String.eqb s' s) eqn:Es.
    + apply String.eqb_eq in Es. subst. apply String.eqb_refl.
    + apply String.eqb_neq. intros H. apply append_inj_l in H.
      apply String.eqb_neq in Es. contradiction.
  - apply String.eqb_neq. intros ->.
    assert (H : strip_prefix p (p ++ s) = Some s) by (apply strip_prefix_spec; reflexivity).
    congruence.
Qed.

Lemma normalize_inner_fold (prefix : string) (inner : list (string * pyval)) (k : string)
    (ks : list string) :
  (forall s, In s ks -> dict_lookup s inner <> None) ->
  forall acc,
  exists out,
    fold_result
      (fun inner_key current_row =>
         v <- py_getitem (PDict inner) inner_key ;;
         match inner_key with
         | PStr s => Ok (dict_set (prefix ++ s) v current_row)
         | _ => Raise TypeError
         end) (map PStr ks) acc = Ok out
    /\ dict_lookup k out
       = match strip_prefix prefix k with
         | Some ik => if str_in ik ks then dict_lookup ik inner else dict_lookup k acc
         | None => dict_lookup k acc
         end.
Proof.
  induction ks as [|s t IH]; intros Hks acc; cbn [map fold_result].
  - exists acc. split; [reflexivity|]. destruct (strip_prefix prefix k); reflexivity.
  - cbn [py_getitem]. unfold dict_item.
    destruct (dict_lookup s inner) as [v|] eqn:Es;
      [|exfalso; apply (Hks s); [left; reflexivity | exact Es]].
    cbn [bind].
    destruct (IH (fun x Hx => Hks x (or_intror Hx)) (dict_set (prefix ++ s) v acc))
      as [out [Hout Hlook]].
    exists out. split; [exact Hout|]. rewrite Hlook, dict_lookup_dict_set, eqb_prefixed.
    destruct (strip_prefix prefix k) as [ik|]; [|reflexivity].
    rewrite str_in_cons. destruct (String.eqb ik s) eqn:E; cbn [orb].
    + apply String.eqb_eq in E. subst. rewrite Es. destruct (str_in s t); reflexivity.
    + reflexivity.
Qed.

Lemma normalize_inner_dict (prefix : string) (outer inner : list (string * pyval)) :
  exists d,
    normalize_inner prefix outer (PDict inner) = Ok (PDict d)
    /\ forall k,
         dict_lookup k d
         = match strip_prefix prefix k with
           | Some ik =>
               match dict_lookup ik inner with
               | Some v => Some v
               | None => dict_lookup k outer
               end
           | None => dict_lookup k outer
           end.
Proof.
  unfold normalize_inner. cbn [py_iter bind].
  assert (Hmap : map (fun kv : string * pyval => PStr (fst kv)) inner
                 = map PStr (map fst inner)) by (rewrite map_map; reflexivity).
  rewrite Hmap.
  assert (Hks : forall s, In s (map fst inner) -> dict_lookup s inner <> None).
  { intros s Hs Hnone. apply str_in_keys in Hnone. apply str_in_In in Hs. congruence. }
  assert (Hall : forall k, exists out,
    fold_result
      (fun inner_key current_row =>
         v <- py_getitem (PDict inner) inner_key ;;
         match inner_key with
         | PStr s => Ok (dict_set (prefix ++ s) v current_row)
         | _ => Raise TypeError
         end) (map PStr (map fst inner)) (base_copy outer) = Ok out
    /\ dict_lookup k out
       = match strip_prefix prefix k with
         | Some ik =>
             match dict_lookup ik inner with
             | Some v => Some v
             | None => dict_lookup k outer
             end
         | None => dict_lookup k outer
         end).
  { intros k.
    destruct (normalize_inner_fold prefix inner k (map fst inner) Hks (base_copy outer))
      as [out [Hout Hlook]].
    exists out. split; [exact Hout|]. rewrite Hlook.
    unfold base_copy. rewrite dict_comprehension_lookup.
    destruct (strip_prefix prefix k) as [ik|]; [|reflexivity].
    destruct (str_in ik (map fst inner)) eqn:E.
    - destruct (dict_lookup ik inner) eqn:El; [reflexivity|].
      apply str_in_keys in El. congruence.
    - apply str_in_keys in E. rewrite E. reflexivity. }
  destruct (Hall EmptyString) as [out [Hout _]].
  exists out. rewrite Hout. split; [reflexivity|].
  intros k. destruct (Hall k) as [out' [Hout' Hlook]].
  rewrite Hout in Hout'. inversion Hout'; subst out'. exact Hlook.
Qed.

Lemma yield_each_Forall2 (f : pyval -> result pyval) (xs : list pyval) :
  Forall (fun x => exists y, f x = Ok y) xs ->
  exists ys, yield_each f xs = (ys, None) /\ Forall2 (fun x y => f x = Ok y) xs ys.
Proof.
  induction 1 as [|x t [y Hy] _ [ys [Hys HF]]]; cbn [yield_each].
  - exists []. split; [reflexivity | constructor].
  - rewrite Hy, Hys. exists (y :: ys). split; [reflexivity | constructor; assumption].
Qed.

(** X29.  [iterate_on] flattens the detail rows.  When every row of the
    input is a dict that holds a list of dicts under the detail key, the
    generator ends normally and yields one dict for every pair of an outer
    row and one of its detail rows, in order: the outer row in which every
    key [k] of the detail row is written under [prefix + k] (a key of the
    outer row of that name is overwritten, every other key of the outer
    row, the detail key included, is kept).  An outer row that is a dict
    without the detail key ends the generator with [KeyError]. *)
Theorem iterate_on_flattens :
  forall (n : DetailDataNormalizer) (rows : list pyval),
    (Forall (fun row =>
               exists outer inner_rows,
                 row = PDict outer
                 /\ dict_lookup (detail_key n) outer = Some (PList inner_rows)
                 /\ Forall (fun inner_row => exists inner, inner_row = PDict inner)
                      inner_rows) rows ->
     exists outs,
       iterate_on n rows = (outs, None)
       /\ Forall2
            (fun pair out =>
               exists inner d,
                 snd pair = PDict inner /\ out = PDict d
                 /\ forall k,
                      dict_lookup k d
                      = match strip_prefix (normalized_prefix n) k with
                        | Some ik =>
                            match dict_lookup ik inner with
                            | Some v => Some v
                            | None => dict_lookup k (fst pair)
                            end
                        | None => dict_lookup k (fst pair)
                        end)
            (detail_pairs (detail_key n) rows) outs)
    /\ (forall outer rest,
           dict_lookup (detail_key n) outer = None ->
           iterate_on n (PDict outer :: rest) = ([], Some KeyError)).
Proof.
  intros n rows. split.
  - induction 1 as [|row t [outer [inner_rows [-> [Hkey Hinner]]]] _ [outs [Houts HF]]].
    + exists []. split; [reflexivity | constructor].
    + cbn [iterate_on]. unfold iterate_on_row. cbn [py_item]. unfold dict_item.
      rewrite Hkey. cbn [bind py_iter].
      destruct (yield_each_Forall2 (normalize_inner (normalized_prefix n) outer) inner_rows)
        as [ys [Hys HFy]].
      { eapply Forall_impl; [|exact Hinner]. intros x [inner ->].
        destruct (normalize_inner_dict (normalized_prefix n) outer inner) as [d [Hd _]].
        exists (PDict d). exact Hd. }
      rewrite Hys, Houts. exists (ys ++ outs). split; [reflexivity|].
      unfold detail_pairs in *. cbn [flat_map]. rewrite Hkey.
      apply Forall2_app; [|exact HF].
      clear Hys Hkey. revert Hinner.
      induction HFy as [|x y xs ys' Hxy _ IH]; intros Hinner; cbn [map]; [constructor|].
      inversion Hinner as [|? ? [inner ->] Hrest]; subst.
      constructor; [|exact (IH Hrest)].
      destruct (normalize_inner_dict (normalized_prefix n) outer inner) as [d [Hd Hlook]].
      rewrite Hd in Hxy. inversion Hxy; subst y.
      exists inner, d. cbn [fst snd]. repeat split. exact Hlook.
  - intros outer rest Hkey. cbn [iterate_on]. unfold iterate_on_row. cbn [py_item].
    unfold dict_item. rewrite Hkey. reflexivity.
Qed.

(* ===================================================================== *)
(** * The round trip of a value source *)
(* ===================================================================== *)

Lemma built_value_steps (rt : PyRuntime) (bre : BusinessRuleEngine) (v : value_source) :
  built_value rt bre v -> built_steps_from rt bre v [] (get_filters v).
Proof.
  destruct v as [b r t fs|b t fs]; cbn [built_value get_filters]; intros [_ [_ H]];
    revert H;
    match goal with
    | |- ?G [] fs -> built_steps_from _ _ ?v _ _ =>
        assert (Hgen : forall fs' prefix, G prefix fs' -> built_steps_from rt bre v prefix fs')
    end.
  1,3: induction fs' as [|[k fd args] rest IH]; intros prefix H; [exact I|].
  1,2: destruct H as [Ha [Hall Hgo]]; cbn [built_steps_from];
       (split; [exact Ha|]); (split; [|apply IH; exact Hgo]);
       clear - Hall; induction args as [|x xs IHx]; [constructor|];
       destruct Hall as [Hx Hxs]; constructor; [exact Hx | exact (IHx Hxs)].
  1,2: apply Hgen.
Qed.

Lemma built_steps_args (rt : PyRuntime) (bre : BusinessRuleEngine) (v : value_source)
    (fs prefix : list filter_step) :
  built_steps_from rt bre v prefix fs ->
  Forall (fun f => Forall (built_value rt bre) (step_args f)) fs.
Proof.
  revert prefix. induction fs as [|[k fd args] rest IH]; intros prefix H; [constructor|].
  destruct H as [_ [Hargs Hrest]]. constructor; [exact Hargs | exact (IH _ Hrest)].
Qed.

Lemma rehydrate_value_with_filters (rt : PyRuntime) (v : value_source)
    (fs : list filter_step) :
  rehydrate_value rt (with_filters v fs)
  = with_filters (rehydrate_value rt v) (rehydrate_steps rt fs).
Proof. destruct v; reflexivity. Qed.

Lemma get_filters_rehydrate (rt : PyRuntime) (v : value_source) :
  get_filters (rehydrate_value rt v) = rehydrate_steps rt (get_filters v).
Proof. destruct v; reflexivity. Qed.

Lemma declared_type_rehydrate (rt : PyRuntime) (v : value_source) :
  declared_type (rehydrate_value rt v) = declared_type v.
Proof. destruct v; reflexivity. Qed.

Lemma value_key_rehydrate (rt : PyRuntime) (v : value_source) :
  value_key (rehydrate_value rt v) = value_key v.
Proof. destruct v; reflexivity. Qed.

Lemma with_filters_get_filters (v : value_source) : with_filters v (get_filters v) = v.
Proof. destruct v; reflexivity. Qed.

Lemma thread_type_rehydrate (rt : PyRuntime) (fs : list filter_step) (t : string) :
  thread_type t (rehydrate_steps rt fs) = thread_type t fs.
Proof.
  revert t. induction fs as [|[k fd args] rest IH]; intros t; [reflexivity|].
  cbn [rehydrate_steps map thread_type step_filter].
  destruct (first_admitting t (manipulation_types fd)) as [[inp outp]|]; [|reflexivity].
  apply IH.
Qed.

Lemma get_type_rehydrate (rt : PyRuntime) (v : value_source) :
  get_type (rehydrate_value rt v) = get_type v.
Proof.
  assert (H : forall w, get_type w = thread_type (declared_type w) (get_filters w)).
  { intros w. rewrite <- (with_filters_get_filters w) at 1. apply get_type_with_filters. }
  rewrite !H, get_filters_rehydrate, declared_type_rehydrate.
  apply thread_type_rehydrate.
Qed.

Lemma check_args_rehydrate (rt : PyRuntime) (args : list value_source) :
  forall (i : nat) (params : list param),
    check_args i params (map AValue (map (rehydrate_value rt) args))
    = check_args i params (map AValue args).
Proof.
  induction args as [|x xs IH]; intros i params; [reflexivity|].
  destruct params as [|p params]; cbn [map check_args]; [reflexivity|].
  rewrite value_key_rehydrate, get_type_rehydrate, !IH. reflexivity.
Qed.

Lemma values_of_AValue (vs : list value_source) : values_of (map AValue vs) = vs.
Proof. induction vs as [|x xs IH]; [reflexivity|]. cbn [map values_of]. rewrite IH. reflexivity. Qed.

(** [add_filter] goes through the rehydration. *)
Lemma add_filter_rehydrate (rt : PyRuntime) (bre : BusinessRuleEngine) (v : value_source)
    (k : string) (args : list value_source) :
  add_filter bre (rehydrate_value rt v) k (map AValue (map (rehydrate_value rt) args))
  = (r <- add_filter bre v k (map AValue args) ;; Ok (rehydrate_value rt r)).
Proof.
  unfold add_filter, fetch_addable_filters.
  rewrite get_type_rehydrate.
  destruct (get_type v) as [cur_type|e]; [|reflexivity]. cbn [bind].
  destruct (negb (str_in k _)); [reflexivity|].
  destruct (dict_item k (system_available_filters bre)) as [cur_filter|e]; [|reflexivity].
  cbn [bind]. rewrite !length_map.
  destruct (negb _); [reflexivity|].
  rewrite check_args_rehydrate.
  destruct (check_args 0 (filter_params cur_filter) (map AValue args)) as [det|e];
    [|reflexivity].
  cbn [bind]. destruct (0 <? List.length det)%nat; [reflexivity|].
  cbn [bind]. rewrite !values_of_AValue, rehydrate_value_with_filters, get_filters_rehydrate.
  unfold rehydrate_steps. rewrite map_app. reflexivity.
Qed.

Lemma map_result_facade (rt : PyRuntime) (facade : pyval -> result artifact)
    (args : list value_source) :
  Forall (fun x => facade (value_to_dict rt x) = Ok (AValue (rehydrate_value rt x))) args ->
  map_result facade (map (value_to_dict rt) args)
  = Ok (map AValue (map (rehydrate_value rt) args)).
Proof.
  induction 1 as [|x xs Hx _ IH]; [reflexivity|].
  cbn [map map_result]. rewrite Hx, IH. reflexivity.
Qed.

(** The loop of [from_dict] over [dict_obj["obj"]["filters"]]: each filter
    is added again, to the value source as it stands. *)
Lemma add_filters_from_steps (rt : PyRuntime) (bre : BusinessRuleEngine)
    (facade : pyval -> result artifact) (v : value_source) (fs : list filter_step) :
  Forall (fun f => Forall (fun x => facade (value_to_dict rt x)
                                    = Ok (AValue (rehydrate_value rt x))) (step_args f)) fs ->
  forall prefix,
    built_steps_from rt bre v prefix fs ->
    fold_result (fun filt result_obj => add_filter_from bre facade result_obj filt)
      (filters_to_dict rt fs) (rehydrate_value rt (with_filters v prefix))
    = Ok (rehydrate_value rt (with_filters v (prefix ++ fs))).
Proof.
  induction 1 as [|[k fd args] rest Hargs _ IH]; intros prefix Hb.
  - rewrite app_nil_r. reflexivity.
  - destruct Hb as [Hadd [_ Hrest]].
    change (filters_to_dict rt (FilterStep k fd args :: rest))
      with (PDict [("filter_key", PStr k); ("args", PList (map (value_to_dict rt) args))]
            :: filters_to_dict rt rest).
    cbn [fold_result]. unfold add_filter_from at 1.
    cbn [py_item dict_item dict_lookup String.eqb Ascii.eqb Bool.eqb bind py_iter].
    cbn [step_args] in Hargs. rewrite (map_result_facade rt facade args Hargs).
    cbn [bind]. rewrite add_filter_rehydrate, Hadd. cbn [bind].
    rewrite (IH _ Hrest), <- app_assoc. reflexivity.
Qed.

Lemma value_to_dict_eq (rt : PyRuntime) (v : value_source) :
  value_to_dict rt v
  = envelope (value_key v)
      (PDict [("value", value_to_json_compatible rt
                          (match v with Constant b _ _ _ => b | Attribute b _ _ => b end));
              ("type", PStr (declared_type v));
              ("filters", PList (filters_to_dict rt (get_filters v)))]).
Proof. destruct v; reflexivity. Qed.

Lemma Constant_from_to_dict (rt : PyRuntime) (bre : BusinessRuleEngine)
    (facade : pyval -> result artifact) (b r : pyval) (t : string) (fs : list filter_step) :
  built_value rt bre (Constant b r t fs) ->
  Forall (fun f => Forall (fun x => facade (value_to_dict rt x)
                                    = Ok (AValue (rehydrate_value rt x))) (step_args f)) fs ->
  Constant_from_dict rt bre facade (value_to_dict rt (Constant b r t fs))
  = Ok (rehydrate_value rt (Constant b r t fs)).
Proof.
  intros Hb Hargs. pose proof (built_value_steps rt bre _ Hb) as Hsteps.
  cbn [get_filters] in Hsteps.
  destruct Hb as [Ht [Hparse _]].
  rewrite value_to_dict_eq. cbn [value_key declared_type get_filters].
  unfold Constant_from_dict, envelope, assert_key.
  cbn [py_item dict_item dict_lookup String.eqb Ascii.eqb Bool.eqb bind py_assert
       hashed_name].
  unfold Constant_init. rewrite Ht. cbn [negb]. rewrite Hparse. cbn [bind].
  unfold add_filters_from.
  cbn [py_item dict_item dict_lookup String.eqb Ascii.eqb Bool.eqb bind py_iter].
  exact (add_filters_from_steps rt bre facade (Constant b r t fs) fs Hargs [] Hsteps).
Qed.

Lemma Attribute_from_to_dict (rt : PyRuntime) (bre : BusinessRuleEngine)
    (facade : pyval -> result artifact) (b : pyval) (t : string) (fs : list filter_step) :
  built_value rt bre (Attribute b t fs) ->
  Forall (fun f => Forall (fun x => facade (value_to_dict rt x)
                                    = Ok (AValue (rehydrate_value rt x))) (step_args f)) fs ->
  Attribute_from_dict bre facade (value_to_dict rt (Attribute b t fs))
  = Ok (rehydrate_value rt (Attribute b t fs)).
Proof.
  intros Hb Hargs. pose proof (built_value_steps rt bre _ Hb) as Hsteps.
  cbn [get_filters] in Hsteps.
  destruct Hb as [Ht [[path ->] _]].
  rewrite value_to_dict_eq. cbn [value_key declared_type get_filters].
  unfold Attribute_from_dict, envelope, assert_key.
  cbn [py_item dict_item dict_lookup String.eqb Ascii.eqb Bool.eqb bind py_assert
       hashed_name].
  unfold Attribute_init. rewrite Ht. cbn [negb bind].
  unfold add_filters_from.
  cbn [py_item dict_item dict_lookup String.eqb Ascii.eqb Bool.eqb bind py_iter].
  exact (add_filters_from_steps rt bre facade (Attribute (PStr path) t fs) fs Hargs [] Hsteps).
Qed.

Lemma value_depth_eq (v : value_source) :
  value_depth v = S (steps_depth (get_filters v)).
Proof.
  destruct v as [b r t fs|b t fs]; cbn [value_depth get_filters]; f_equal;
    induction fs as [|[k fd args] rest IH]; cbn [fold_right steps_depth step_args];
    try reflexivity; rewrite IH; reflexivity.
Qed.

Lemma values_depth_In (x : value_source) (xs : list value_source) :
  In x xs -> (value_depth x <= values_depth xs)%nat.
Proof.
  induction xs as [|y ys IH]; intros Hin; [contradiction|].
  cbn [values_depth fold_right]. fold (values_depth ys).
  destruct Hin as [->|Hin]; [lia|]. specialize (IH Hin). lia.
Qed.

Lemma steps_depth_In (f : filter_step) (fs : list filter_step) :
  In f fs -> (values_depth (step_args f) <= steps_depth fs)%nat.
Proof.
  induction fs as [|g gs IH]; intros Hin; [contradiction|].
  cbn [steps_depth fold_right]. fold (steps_depth gs).
  destruct Hin as [->|Hin]; [lia|]. specialize (IH Hin). lia.
Qed.

Lemma dispatch_Constant (rt : PyRuntime) (bre : BusinessRuleEngine)
    (facade : pyval -> result artifact) (obj : pyval) :
  dispatch_from_dict rt bre facade (envelope "Constant" obj)
  = (v <- Constant_from_dict rt bre facade (envelope "Constant" obj) ;; Ok (AValue v)).
Proof. reflexivity. Qed.

Lemma dispatch_Attribute (rt : PyRuntime) (bre : BusinessRuleEngine)
    (facade : pyval -> result artifact) (obj : pyval) :
  dispatch_from_dict rt bre facade (envelope "Attribute" obj)
  = (v <- Attribute_from_dict bre facade (envelope "Attribute" obj) ;; Ok (AValue v)).
Proof. reflexivity. Qed.

(** [from_dict_facade] on the serialization of a value source made with the
    builders, given room for the nesting of its arguments. *)
Lemma value_from_to_dict (rt : PyRuntime) (bre : BusinessRuleEngine) (v : value_source) :
  forall depth,
    built_value rt bre v ->
    (value_depth v <= depth)%nat ->
    from_dict_facade depth rt bre (value_to_dict rt v)
    = Ok (AValue (rehydrate_value rt v)).
Proof.
  induction v as [b r t fs IH | b t fs IH] using value_source_nested_ind;
    intros depth Hb Hd; rewrite value_depth_eq in Hd; cbn [get_filters] in Hd;
    (destruct depth as [|d]; [lia|]);
    assert (Hargs : Forall (fun f => Forall (fun x => from_dict_facade d rt bre
                                                        (value_to_dict rt x)
                                                      = Ok (AValue (rehydrate_value rt x)))
                                       (step_args f)) fs).
  1,3: pose proof (built_steps_args rt bre _ _ _ (built_value_steps rt bre _ Hb)) as Hba;
       cbn [get_filters] in Hba;
       rewrite Forall_forall in *; intros f Hf; specialize (IH f Hf);
       specialize (Hba f Hf); pose proof (steps_depth_In f fs Hf) as Hdf;
       rewrite Forall_forall in *; intros x Hx;
       pose proof (values_depth_In x _ Hx) as Hdx;
       apply (IH x Hx); [exact (Hba x Hx) | lia].
  - cbn [from_dict_facade].
    rewrite (value_to_dict_eq rt (Constant b r t fs)) at 1. cbn [value_key].
    rewrite dispatch_Constant.
    change (envelope "Constant" _) with (value_to_dict rt (Constant b r t fs)).
    rewrite (Constant_from_to_dict rt bre _ b r t fs Hb Hargs). reflexivity.
  - cbn [from_dict_facade].
    rewrite (value_to_dict_eq rt (Attribute b t fs)) at 1. cbn [value_key].
    rewrite dispatch_Attribute.
    change (envelope "Attribute" _) with (value_to_dict rt (Attribute b t fs)).
    rewrite (Attribute_from_to_dict rt bre _ b t fs Hb Hargs). reflexivity.
Qed.

Lemma fold_result_map_ext {A B S : Type} (f : B -> S -> result S) (g : A -> S -> result S)
    (h : A -> B) (l : list A) :
  (forall x, In x l -> forall s, f (h x) s = g x s) ->
  forall s, fold_result f (map h l) s = fold_result g l s.
Proof.
  induction l as [|x t IH]; intros Hfg s; [reflexivity|].
  cbn [map fold_result]. rewrite (Hfg x (or_introl eq_refl) s).
  destruct (g x s) as [s'|e]; [|reflexivity]. cbn [bind].
  apply IH. intros y Hy. apply Hfg. right. exact Hy.
Qed.

Lemma apply_filter_ext (rt : PyRuntime) (fd : filter_def)
    (av1 av2 : unit -> result (list pyval)) (cur : pyval * string) :
  av1 tt = av2 tt -> apply_filter rt fd av1 cur = apply_filter rt fd av2 cur.
Proof. intros H. unfold apply_filter. destruct cur as [cv ct]. rewrite H. reflexivity. Qed.

Lemma map_result_map_ext {A B C : Type} (f : B -> result C) (g : A -> result C)
    (h : A -> B) (l : list A) :
  Forall (fun x => f (h x) = g x) l ->
  map_result f (map h l) = map_result g l.
Proof.
  induction 1 as [|x t Hx _ IH]; [reflexivity|].
  cbn [map map_result]. rewrite Hx, IH. reflexivity.
Qed.

(** A value source and its rehydration give the same value and the same
    type of value on every row. *)
Lemma get_value_typed_rehydrate (rt : PyRuntime) (bre : BusinessRuleEngine)
    (row : pyval) (v : value_source) :
  built_value rt bre v ->
  get_value_typed rt row (rehydrate_value rt v) = get_value_typed rt row v.
Proof.
  induction v as [b r t fs IH | b t fs IH] using value_source_nested_ind; intros Hb;
    pose proof (built_steps_args rt bre _ _ _ (built_value_steps rt bre _ Hb)) as Hba;
    cbn [get_filters] in Hba;
    assert (Hrun : forall start,
               fold_result
                 (fun f cur =>
                    match f with
                    | FilterStep _ fd args =>
                        apply_filter rt fd
                          (fun _ => map_result
                                      (fun x => r <- get_value_typed rt row x ;; Ok (fst r))
                                      args) cur
                    end) (rehydrate_steps rt fs) start
               = fold_result
                   (fun f cur =>
                      match f with
                      | FilterStep _ fd args =>
                          apply_filter rt fd
                            (fun _ => map_result
                                        (fun x => r <- get_value_typed rt row x ;; Ok (fst r))
                                        args) cur
                      end) fs start).
  1,3: intros start; unfold rehydrate_steps; apply fold_result_map_ext;
       intros [k fd args] Hf cur; apply apply_filter_ext;
       apply map_result_map_ext;
       rewrite Forall_forall in IH, Hba; specialize (IH _ Hf); specialize (Hba _ Hf);
       cbn [step_args] in IH, Hba; rewrite Forall_forall in *; intros x Hx;
       rewrite (IH x Hx (Hba x Hx)); reflexivity.
  - cbn [rehydrate_value get_value_typed]. apply Hrun.
  - destruct Hb as [_ [[path ->] _]].
    cbn [rehydrate_value get_value_typed value_to_json_compatible
         value_to_json_compatible_single].
    destruct (parse_call rt t (get_dot_notation row (str_of rt (PStr path)))) as [cv|e];
      [|reflexivity].
    cbn [bind]. apply Hrun.
Qed.

Lemma value_to_json_compatible_idem (rt : PyRuntime) (b : pyval) :
  value_to_json_compatible rt (value_to_json_compatible rt b)
  = value_to_json_compatible rt b.
Proof.
  assert (Hs : forall x, value_to_json_compatible_single rt
                           (value_to_json_compatible_single rt x)
                         = value_to_json_compatible_single rt x)
    by (intros x; destruct x; reflexivity).
  destruct b as [| | | | | | l | d]; try reflexivity.
  cbn [value_to_json_compatible]. f_equal. rewrite map_map.
  apply map_ext. exact Hs.
Qed.

(** The serialization does not see the rehydration. *)
Lemma value_to_dict_rehydrate (rt : PyRuntime) (v : value_source) :
  value_to_dict rt (rehydrate_value rt v) = value_to_dict rt v.
Proof.
  induction v as [b r t fs IH | b t fs IH] using value_source_nested_ind;
    rewrite !value_to_dict_eq, value_key_rehydrate, declared_type_rehydrate,
      get_filters_rehydrate;
    cbn [rehydrate_value get_filters];
    assert (Hfs : filters_to_dict rt (rehydrate_steps rt fs) = filters_to_dict rt fs).
  1,3: unfold filters_to_dict, rehydrate_steps; rewrite map_map; apply map_ext_in;
       intros [k fd args] Hf; rewrite Forall_forall in IH; specialize (IH _ Hf);
       cbn [step_args] in IH; rewrite map_map; do 5 f_equal;
       apply map_ext_in; intros x Hx; rewrite Forall_forall in IH; exact (IH x Hx).
  - rewrite Hfs. reflexivity.
  - rewrite Hfs, value_to_json_compatible_idem. reflexivity.
Qed.

(** X30.  A value source survives its serialization.  Let [v] be a value
    source made with the builders over the registry [bre]: a [Constant] of a
    known type whose stored value its parser gives back from its JSON form,
    or an [Attribute] of a known type with a string as path, followed by
    calls of [add_filter] that succeeded, with arguments made the same way.
    Given room for the nesting of its arguments, [from_dict_facade] of
    [to_dict] of [v] succeeds, and returns a value source with the same
    stored value, the same type and the same filters over arguments that
    went through the same trip; only the raw input of a constant is replaced
    by the JSON form of its stored value.  What comes back returns on every
    row the value that [v] returns or raises what [v] raises, has the type
    of [v], and serializes to the same dict as [v]. *)
Theorem value_round_trip :
  forall (rt : PyRuntime) (bre : BusinessRuleEngine) (depth : nat) (v : value_source),
    built_value rt bre v ->
    (value_depth v <= depth)%nat ->
    from_dict_facade depth rt bre (to_dict rt (AValue v))
    = Ok (AValue (rehydrate_value rt v))
    /\ (forall row, get_value rt row (rehydrate_value rt v) = get_value rt row v)
    /\ get_type (rehydrate_value rt v) = get_type v
    /\ to_dict rt (AValue (rehydrate_value rt v)) = to_dict rt (AValue v).
Proof.
  intros rt bre depth v Hb Hd. split; [|split; [|split]].
  - exact (value_from_to_dict rt bre v depth Hb Hd).
  - intros row. unfold get_value.
    rewrite (get_value_typed_rehydrate rt bre row v Hb). reflexivity.
  - apply get_type_rehydrate.
  - apply value_to_dict_rehydrate.
Qed.

Lemma value_round_trip_witness :
  from_dict_facade 2 ExampleRuntime.runtime example_engine
    (to_dict ExampleRuntime.runtime (AValue S3_attribute))
  = Ok (AValue (rehydrate_value ExampleRuntime.runtime S3_attribute))
  /\ (forall row,
         get_value ExampleRuntime.runtime row
           (rehydrate_value ExampleRuntime.runtime S3_attribute)
         = get_value ExampleRuntime.runtime row S3_attribute)
  /\ get_type (rehydrate_value ExampleRuntime.runtime S3_attribute) = get_type S3_attribute
  /\ to_dict ExampleRuntime.runtime (AValue (rehydrate_value ExampleRuntime.runtime S3_attribute))
     = to_dict ExampleRuntime.runtime (AValue S3_attribute).
Proof.
  apply (value_round_trip ExampleRuntime.runtime example_engine 2 S3_attribute).
  - cbn [built_value S3_attribute string_constant]. repeat split; try reflexivity.
    exists "$transaction_variations". reflexivity.
  - cbn. lia.
Defined.
